(** * PowerDeck: the CPU resource manager ([py_modules/cpu_manager.py])

    A shallow embedding of [CPUManager] and of the plugin-level governor
    setter of [main.py], over a mock of the kernel's CPU sysfs tree, with
    the properties of core parking, governor / EPP / boost control and
    frequency limiting that the specification states.

    Python values are modelled as follows: [int] is [Z], [str] is [string],
    [Optional[T]] is [option T], a [dict] is a [gmap], [self] is a record
    threaded through a state-and-exception monad together with the sysfs
    tree.  Logging calls have no effect on the manager or on sysfs and are
    left out. *)

From Stdlib Require Import ZArith Lia Ascii.
From stdpp Require Import gmap strings list pretty sorting.

Local Open Scope Z_scope.

(** ** Python string primitives used by the manager *)

Module Py.

(** [str.isspace] on the ASCII range. *)
Definition isspace (c : ascii) : bool :=
  match c with
  | "009" | "010" | "011" | "012" | "013"
  | "028" | "029" | "030" | "031" | " " => true
  | _ => false
  end%char.

Fixpoint lstrip (s : string) : string :=
  match s with
  | String c s' => if isspace c then lstrip s' else s
  | EmptyString => EmptyString
  end.

Definition rstrip (s : string) : string := String.rev (lstrip (String.rev s)).

(** [s.strip()] *)
Definition strip (s : string) : string := rstrip (lstrip s).

(** [c in s] for a one-character [c]. *)
Fixpoint contains (c : ascii) (s : string) : bool :=
  match s with
  | String d s' => if decide (c = d) then true else contains c s'
  | EmptyString => false
  end.

Fixpoint split_go (sep : ascii) (cur : string) (s : string) : list string :=
  match s with
  | String c s' =>
      if decide (c = sep) then String.rev cur :: split_go sep EmptyString s'
      else split_go sep (String c cur) s'
  | EmptyString => [String.rev cur]
  end.

(** [s.split(sep)] for a one-character separator: empty fields are kept. *)
Definition split (sep : ascii) (s : string) : list string :=
  split_go sep EmptyString s.

Fixpoint words_go (cur : option string) (s : string) : list string :=
  match s with
  | String c s' =>
      if isspace c then option_list (String.rev <$> cur) ++ words_go None s'
      else words_go (Some (String c (default EmptyString cur))) s'
  | EmptyString => option_list (String.rev <$> cur)
  end.

(** [s.split()] with no separator: runs of white space delimit the words
    and no empty word is produced. *)
Definition words (s : string) : list string := words_go None s.

(** [s.startswith(p)] *)
Fixpoint startswith (p s : string) : bool :=
  match p, s with
  | EmptyString, _ => true
  | String a p', String b s' => if decide (a = b) then startswith p' s' else false
  | String _ _, EmptyString => false
  end.

(** The digits of an integer literal: decimal digits, with single
    underscores allowed between two digits. *)
Fixpoint digits_go (acc : N) (after_digit : bool) (s : string) : option N :=
  match s with
  | String c s' =>
      match Ascii.is_nat c with
      | Some d => digits_go (10 * acc + N.of_nat d)%N true s'
      | None =>
          if decide (c = "_"%char)
          then (if after_digit then digits_go acc false s' else None)
          else None
      end
  | EmptyString => if after_digit then Some acc else None
  end.

(** [int(s)]: [None] stands for the [ValueError] Python raises. *)
Definition int (s : string) : option Z :=
  match strip s with
  | String "-" r => (λ n, - Z.of_N n) <$> digits_go 0 false r
  | String "+" r => Z.of_N <$> digits_go 0 false r
  | r => Z.of_N <$> digits_go 0 false r
  end.

(** [str(n)] *)
Definition str (n : Z) : string := pretty n.

(** [list(range(a, b))] *)
Definition range (a b : Z) : list Z := seqZ a (b - a).

(** [sorted] on integers and on strings. *)
Definition sorted_int (l : list Z) : list Z := merge_sort Z.le l.
Definition sorted_str (l : list string) : list string := merge_sort String.le l.

(** [l[i]] with Python's negative indices; [None] stands for [IndexError]. *)
Definition index {A} (l : list A) (i : Z) : option A :=
  if decide (0 ≤ i) then l !! Z.to_nat i
  else if decide (0 ≤ Z.of_nat (length l) + i) then l !! Z.to_nat (Z.of_nat (length l) + i)
  else None.

(** [l.remove(x)]: drops the first occurrence. *)
Fixpoint remove_first (x : string) (l : list string) : list string :=
  match l with
  | [] => []
  | y :: l' => if decide (x = y) then l' else y :: remove_first x l'
  end.

End Py.

(** ** The sysfs tree

    Every file the manager touches lives under [/sys/devices/system/cpu].
    A path is kept in structured form; [path_str] renders the file name
    the source builds with its f-strings. *)

Inductive cpu_attr :=
| online
| core_id
| physical_package_id
| thread_siblings_list
| scaling_governor
| scaling_available_governors
| energy_performance_preference
| energy_performance_available_preferences
| scaling_min_freq
| scaling_max_freq
| cpuinfo_min_freq
| cpuinfo_max_freq.

Inductive idle_attr := idle_name | idle_desc | idle_disable.

Inductive path :=
| possible_path                       (* cpu/possible *)
| online_list_path                    (* cpu/online *)
| smt_active_path                     (* cpu/smt/active *)
| intel_no_turbo_path                 (* cpu/intel_pstate/no_turbo *)
| cpufreq_boost_path                  (* cpu/cpufreq/boost *)
| cpu_path (cpu : Z) (a : cpu_attr)   (* cpu/cpu{cpu}/... *)
| policy_boost_path (cpu : Z)         (* cpu/cpufreq/policy{cpu}/boost *)
| cpuidle_path (cpu : Z) (state_dir : string) (a : idle_attr).
                                      (* cpu/cpu{cpu}/cpuidle/{state_dir}/... *)

Definition cpu_attr_str (a : cpu_attr) : string :=
  match a with
  | online => "online"
  | core_id => "topology/core_id"
  | physical_package_id => "topology/physical_package_id"
  | thread_siblings_list => "topology/thread_siblings_list"
  | scaling_governor => "cpufreq/scaling_governor"
  | scaling_available_governors => "cpufreq/scaling_available_governors"
  | energy_performance_preference => "cpufreq/energy_performance_preference"
  | energy_performance_available_preferences =>
      "cpufreq/energy_performance_available_preferences"
  | scaling_min_freq => "cpufreq/scaling_min_freq"
  | scaling_max_freq => "cpufreq/scaling_max_freq"
  | cpuinfo_min_freq => "cpufreq/cpuinfo_min_freq"
  | cpuinfo_max_freq => "cpufreq/cpuinfo_max_freq"
  end.

Definition idle_attr_str (a : idle_attr) : string :=
  match a with
  | idle_name => "name"
  | idle_desc => "desc"
  | idle_disable => "disable"
  end.

Definition path_str (p : path) : string :=
  "/sys/devices/system/cpu/" +:+
  match p with
  | possible_path => "possible"
  | online_list_path => "online"
  | smt_active_path => "smt/active"
  | intel_no_turbo_path => "intel_pstate/no_turbo"
  | cpufreq_boost_path => "cpufreq/boost"
  | cpu_path cpu a => "cpu" +:+ Py.str cpu +:+ "/" +:+ cpu_attr_str a
  | policy_boost_path cpu => "cpufreq/policy" +:+ Py.str cpu +:+ "/boost"
  | cpuidle_path cpu d a =>
      "cpu" +:+ Py.str cpu +:+ "/cpuidle/" +:+ d +:+ "/" +:+ idle_attr_str a
  end.

Global Instance cpu_attr_eq_dec : EqDecision cpu_attr.
Proof. solve_decision. Defined.

Global Instance idle_attr_eq_dec : EqDecision idle_attr.
Proof. solve_decision. Defined.

Global Instance path_eq_dec : EqDecision path.
Proof. solve_decision. Defined.

Definition cpu_attr_code (a : cpu_attr) : nat :=
  match a with
  | online => 0 | core_id => 1 | physical_package_id => 2
  | thread_siblings_list => 3 | scaling_governor => 4
  | scaling_available_governors => 5 | energy_performance_preference => 6
  | energy_performance_available_preferences => 7 | scaling_min_freq => 8
  | scaling_max_freq => 9 | cpuinfo_min_freq => 10 | cpuinfo_max_freq => 11
  end%nat.

Definition cpu_attr_of_code (n : nat) : option cpu_attr :=
  match n with
  | 0 => Some online | 1 => Some core_id | 2 => Some physical_package_id
  | 3 => Some thread_siblings_list | 4 => Some scaling_governor
  | 5 => Some scaling_available_governors
  | 6 => Some energy_performance_preference
  | 7 => Some energy_performance_available_preferences
  | 8 => Some scaling_min_freq | 9 => Some scaling_max_freq
  | 10 => Some cpuinfo_min_freq | 11 => Some cpuinfo_max_freq
  | _ => None
  end%nat.

Definition idle_attr_code (a : idle_attr) : nat :=
  match a with idle_name => 0 | idle_desc => 1 | idle_disable => 2 end%nat.

Definition idle_attr_of_code (n : nat) : option idle_attr :=
  match n with
  | 0 => Some idle_name | 1 => Some idle_desc | 2 => Some idle_disable
  | _ => None
  end%nat.

Definition path_code (p : path) : nat + (Z * nat + (Z + Z * string * nat)) :=
  match p with
  | possible_path => inl 0%nat
  | online_list_path => inl 1%nat
  | smt_active_path => inl 2%nat
  | intel_no_turbo_path => inl 3%nat
  | cpufreq_boost_path => inl 4%nat
  | cpu_path cpu a => inr (inl (cpu, cpu_attr_code a))
  | policy_boost_path cpu => inr (inr (inl cpu))
  | cpuidle_path cpu d a => inr (inr (inr (cpu, d, idle_attr_code a)))
  end.

Definition path_of_code (c : nat + (Z * nat + (Z + Z * string * nat))) : option path :=
  match c with
  | inl 0%nat => Some possible_path
  | inl 1%nat => Some online_list_path
  | inl 2%nat => Some smt_active_path
  | inl 3%nat => Some intel_no_turbo_path
  | inl 4%nat => Some cpufreq_boost_path
  | inl _ => None
  | inr (inl (cpu, n)) => cpu_path cpu <$> cpu_attr_of_code n
  | inr (inr (inl cpu)) => Some (policy_boost_path cpu)
  | inr (inr (inr (cpu, d, n))) => cpuidle_path cpu d <$> idle_attr_of_code n
  end.

Global Program Instance path_countable : Countable path :=
  inj_countable path_code path_of_code _.
Next Obligation. intros [| | | | |cpu []| |cpu d []]; reflexivity. Qed.

(** What the mock records of a run: every [open] for reading and every
    attempted write, in program order, with whether the write went through. *)
Inductive event :=
| EvRead (p : path)
| EvWrite (p : path) (v : string) (ok : bool).

Global Instance event_eq_dec : EqDecision event.
Proof. solve_decision. Defined.

(** The mock sysfs: file contents, the listing of each [cpu{n}/cpuidle]
    directory that exists, the names matched by the glob [cpu[0-9]*] (what
    follows [cpu] in each), and which reads and writes the kernel refuses
    (with the errno of the [OSError]). *)
Record sysfs := Sysfs {
  files : gmap path string;
  cpuidle_dirs : gmap Z (list string);
  cpu_dirs : list string;
  write_errno : path → string → option Z;
  read_errno : path → option Z;
  trace : list event
}.

Definition ENOENT : Z := 2.
Definition EBUSY : Z := 16.

Inductive exn :=
| OSError (errno : Z)
| ValueError
| IndexError
| AttributeError.

Inductive result (A : Type) :=
| Ok (a : A)
| Raise (e : exn).
Global Arguments Ok {A} a.
Global Arguments Raise {A} e.

(** ** The monad of methods: an object [O] ([self]) and the sysfs tree are
    threaded through; a computation returns or raises. *)

Definition M (O A : Type) : Type := O → sysfs → result A * O * sysfs.

Definition ret {O A} (a : A) : M O A := λ o s, (Ok a, o, s).

Definition bind {O A B} (c : M O A) (k : A → M O B) : M O B :=
  λ o s,
    match c o s with
    | (Ok a, o', s') => k a o' s'
    | (Raise e, o', s') => (Raise e, o', s')
    end.

Definition raise {O A} (e : exn) : M O A := λ o s, (Raise e, o, s).

(** [try: c  except Exception as e: h e] *)
Definition try_except {O A} (c : M O A) (h : exn → M O A) : M O A :=
  λ o s,
    match c o s with
    | (Ok a, o', s') => (Ok a, o', s')
    | (Raise e, o', s') => h e o' s'
    end.

Global Instance M_ret O : MRet (M O) := @ret O.
Global Instance M_bind O : MBind (M O) := λ A B k c, bind c k.
Global Instance M_fmap O : FMap (M O) := λ A B f c, bind c (λ a, ret (f a)).

Definition get_self {O} : M O O := λ o s, (Ok o, o, s).
Definition set_self {O} (f : O → O) : M O unit := λ o s, (Ok tt, f o, s).

(** A value that raises when absent ([int] of a malformed string, an index
    out of range). *)
Definition or_raise {O A} (e : exn) (x : option A) : M O A :=
  match x with Some a => ret a | None => raise e end.

(** [for x in l: s = body s x] *)
Fixpoint for_fold {O A S} (body : S → A → M O S) (l : list A) (s : S) : M O S :=
  match l with
  | [] => ret s
  | x :: l' => s' ← body s x; for_fold body l' s'
  end.

Definition for_each {O A} (l : list A) (body : A → M O unit) : M O unit :=
  for_fold (λ _ x, body x) l tt.

(** ** File operations *)

Definition log (e : event) (s : sysfs) : sysfs :=
  Sysfs (files s) (cpuidle_dirs s) (cpu_dirs s) (write_errno s) (read_errno s)
        (trace s ++ [e]).

Definition store (p : path) (v : string) (s : sysfs) : sysfs :=
  Sysfs (<[p := v]> (files s)) (cpuidle_dirs s) (cpu_dirs s) (write_errno s)
        (read_errno s) (trace s).

(** [os.path.exists(p)] *)
Definition exists_ {O} (p : path) : M O bool :=
  λ o s, (Ok (bool_decide (is_Some (files s !! p))), o, s).

(** [os.path.exists] of the directory [cpu{cpu}/cpuidle] *)
Definition exists_cpuidle {O} (cpu : Z) : M O bool :=
  λ o s, (Ok (bool_decide (is_Some (cpuidle_dirs s !! cpu))), o, s).

(** [os.listdir] of [cpu{cpu}/cpuidle] *)
Definition listdir_cpuidle {O} (cpu : Z) : M O (list string) :=
  λ o s,
    match cpuidle_dirs s !! cpu with
    | Some l => (Ok l, o, s)
    | None => (Raise (OSError ENOENT), o, s)
    end.

(** [glob.glob('/sys/devices/system/cpu/cpu[0-9]*')] *)
Definition glob_cpu_dirs {O} : M O (list string) :=
  λ o s, (Ok (cpu_dirs s), o, s).

(** [with open(p, 'r') as f: f.read()] *)
Definition read {O} (p : path) : M O string :=
  λ o s,
    match files s !! p with
    | None => (Raise (OSError ENOENT), o, log (EvRead p) s)
    | Some v =>
        match read_errno s p with
        | Some e => (Raise (OSError e), o, log (EvRead p) s)
        | None => (Ok v, o, log (EvRead p) s)
        end
    end.

(** [with open(p, 'w') as f: f.write(v)].  Sysfs files cannot be created:
    writing a file that does not exist fails. *)
Definition write {O} (p : path) (v : string) : M O unit :=
  λ o s,
    match files s !! p with
    | None => (Raise (OSError ENOENT), o, log (EvWrite p v false) s)
    | Some _ =>
        match write_errno s p v with
        | Some e => (Raise (OSError e), o, log (EvWrite p v false) s)
        | None => (Ok tt, o, log (EvWrite p v true) (store p v s))
        end
    end.

(** [int(f.read().strip())] *)
Definition read_int {O} (p : path) : M O Z :=
  v ← read p; or_raise ValueError (Py.int (Py.strip v)).

(** ** [power_core.ScalingDriver] *)

Inductive ScalingDriver :=
| INTEL_PSTATE
| INTEL_CPUFREQ
| AMD_PSTATE_EPP
| AMD_PSTATE
| ACPI_CPUFREQ.

Global Instance ScalingDriver_eq_dec : EqDecision ScalingDriver.
Proof. solve_decision. Defined.

(** ** [class CPUManager]

    The attributes of [self].  [_scaling_driver] is [None] while the
    attribute has never been assigned: reading it then raises
    [AttributeError]. *)

Record CPUManager := Mgr {
  _possible_cpus : list Z;
  _primary_cpus_cache : option (list Z);
  _cpu_siblings_map : gmap Z (list Z);
  _topology_initialized : bool;
  _online_cpus : list Z;
  _scaling_driver : option (option ScalingDriver)
}.

Definition set_possible_cpus (l : list Z) (m : CPUManager) : CPUManager :=
  Mgr l (_primary_cpus_cache m) (_cpu_siblings_map m) (_topology_initialized m)
      (_online_cpus m) (_scaling_driver m).
Definition set_primary_cpus_cache (c : option (list Z)) (m : CPUManager) : CPUManager :=
  Mgr (_possible_cpus m) c (_cpu_siblings_map m) (_topology_initialized m)
      (_online_cpus m) (_scaling_driver m).
Definition set_cpu_siblings_map (sm : gmap Z (list Z)) (m : CPUManager) : CPUManager :=
  Mgr (_possible_cpus m) (_primary_cpus_cache m) sm (_topology_initialized m)
      (_online_cpus m) (_scaling_driver m).
Definition set_topology_initialized (b : bool) (m : CPUManager) : CPUManager :=
  Mgr (_possible_cpus m) (_primary_cpus_cache m) (_cpu_siblings_map m) b
      (_online_cpus m) (_scaling_driver m).
Definition set_online_cpus (l : list Z) (m : CPUManager) : CPUManager :=
  Mgr (_possible_cpus m) (_primary_cpus_cache m) (_cpu_siblings_map m)
      (_topology_initialized m) l (_scaling_driver m).

Abbreviation Method A := (M CPUManager A).

(** [self._scaling_driver] *)
Definition self_scaling_driver : Method (option ScalingDriver) :=
  m ← get_self; or_raise AttributeError (_scaling_driver m).

(** [start, end = map(int, s.split('-'))]: any failure is a [ValueError]. *)
Definition parse_dash_pair (s : string) : option (Z * Z) :=
  match Py.split "-" s with
  | [a; b] => a' ← Py.int a; b' ← Py.int b; Some (a', b')
  | _ => None
  end.

(** The range parser of [_get_online_cpus]: comma-separated parts, each a
    number or a range [a-b]. *)
Fixpoint parse_cpu_parts (parts : list string) : option (list Z) :=
  match parts with
  | [] => Some []
  | part :: rest =>
      cpus ← (if Py.contains "-" part
              then '(a, b) ← parse_dash_pair part; Some (Py.range a (b + 1))
              else n ← Py.int part; Some [n]);
      more ← parse_cpu_parts rest;
      Some (cpus ++ more)
  end.

(** The simpler parser of [initialize_cpu_topology]: one range, or a comma
    list of numbers, or one number. *)
Definition parse_cpu_simple (s : string) : option (list Z) :=
  if Py.contains "-" s
  then '(a, b) ← parse_dash_pair s; Some (Py.range a (b + 1))
  else if Py.contains "," s
  then mapM Py.int (Py.split "," s)
  else n ← Py.int s; Some [n].

Definition _detect_possible_cpus : Method unit :=
  try_except
    (possible_range ← Py.strip <$> read possible_path;
     l ← or_raise ValueError
           (if Py.contains "-" possible_range
            then '(a, b) ← parse_dash_pair possible_range; Some (Py.range a (b + 1))
            else n ← Py.int possible_range; Some [n]);
     set_self (set_possible_cpus l))
    (λ _,
     dirs ← glob_cpu_dirs;
     ids ← or_raise ValueError (mapM Py.int dirs);
     set_self (set_possible_cpus (Py.sorted_int ids))).

Definition _get_online_cpus : Method (list Z) :=
  try_except
    (online_str ← Py.strip <$> read online_list_path;
     or_raise ValueError (parse_cpu_parts (Py.split "," online_str)))
    (λ _, ret [0]).

Definition update_online_cpus : Method unit :=
  l ← _get_online_cpus; set_self (set_online_cpus l).

(** [__init__]: the attributes it assigns, then detection.  It does not
    assign [_scaling_driver]. *)
Definition blank_manager : CPUManager := Mgr [] None ∅ false [] None.

Definition __init__ : Method unit :=
  _detect_possible_cpus;;
  l ← _get_online_cpus;
  set_self (set_online_cpus l).

(** [CPUManager()] *)
Definition new_CPUManager (s : sysfs) : result CPUManager * sysfs :=
  match __init__ blank_manager s with
  | (Ok _, m, s') => (Ok m, s')
  | (Raise e, _, s') => (Raise e, s')
  end.

(** The per-CPU body of the topology loop.  The source has one [try] around
    it; [physical_cores] is updated before the sibling list is read, and the
    update stays when that read raises. *)
Definition topology_step (physical_cores : gmap (Z * Z) Z) (cpu_id : Z)
  : Method (gmap (Z * Z) Z) :=
  try_except
    (c ← exists_ (cpu_path cpu_id core_id);
     p ← exists_ (cpu_path cpu_id physical_package_id);
     if c && p then
       core ← read_int (cpu_path cpu_id core_id);
       pkg ← read_int (cpu_path cpu_id physical_package_id);
       let phys_core_key := (pkg, core) in
       let physical_cores' :=
         match physical_cores !! phys_core_key with
         | None => <[phys_core_key := cpu_id]> physical_cores
         | Some _ => physical_cores
         end in
       try_except
         (sp ← exists_ (cpu_path cpu_id thread_siblings_list);
          if sp : bool then
            siblings_str ← Py.strip <$> read (cpu_path cpu_id thread_siblings_list);
            siblings ← or_raise ValueError (parse_cpu_simple siblings_str);
            set_self (λ m, set_cpu_siblings_map
                             (<[cpu_id := siblings]> (_cpu_siblings_map m)) m);;
            ret physical_cores'
          else ret physical_cores')
         (λ _, ret physical_cores')
     else ret physical_cores)
    (λ _, ret physical_cores).

Definition initialize_cpu_topology : Method unit :=
  m ← get_self;
  if _topology_initialized m then ret tt else
  try_except
    (original_online_cpus ←
       try_except
         (online_range ← Py.strip <$> read online_list_path;
          or_raise ValueError (parse_cpu_simple online_range))
         (λ _, ret [0]);
     cpus_brought_online ←
       for_fold
         (λ brought cpu_id,
            if decide (cpu_id = 0) then ret brought
            else if decide (cpu_id ∈ original_online_cpus) then ret brought
            else try_except
                   (write (cpu_path cpu_id online) "1";; ret (brought ++ [cpu_id]))
                   (λ _, ret brought))
         (_possible_cpus m) [];
     set_self (set_cpu_siblings_map ∅);;
     physical_cores ← for_fold topology_step (_possible_cpus m) ∅;
     for_each cpus_brought_online
       (λ cpu_id,
          if decide (cpu_id ∈ original_online_cpus) then ret tt
          else try_except (write (cpu_path cpu_id online) "0") (λ _, ret tt));;
     set_self (set_primary_cpus_cache
                 (Some (Py.sorted_int (snd <$> map_to_list physical_cores))));;
     set_self (set_topology_initialized true))
    (λ _,
     set_self (set_primary_cpus_cache
                 (Some (if decide (8 < Z.of_nat (length (_possible_cpus m)))
                        then [0; 2; 4; 6] else [0; 1])));;
     set_self (set_cpu_siblings_map ∅);;
     set_self (set_topology_initialized true)).

(** [self._online_cpus[0]] *)
Definition first_online_cpu : Method Z :=
  m ← get_self; or_raise IndexError (Py.index (_online_cpus m) 0).

Definition get_available_governors : Method (list string) :=
  try_except
    (cpu ← first_online_cpu;
     e ← exists_ (cpu_path cpu scaling_available_governors);
     if e : bool then
       governors ← Py.words <$> (Py.strip <$> read (cpu_path cpu scaling_available_governors));
       ret (reverse governors)
     else ret [])
    (λ _, ret []).

Definition get_current_governor : Method (option string) :=
  try_except
    (cpu ← first_online_cpu;
     e ← exists_ (cpu_path cpu scaling_governor);
     if e : bool then
       v ← read (cpu_path cpu scaling_governor); ret (Some (Py.strip v))
     else ret None)
    (λ _, ret None).

Definition set_governor (governor : string) : Method bool :=
  available ← get_available_governors;
  if decide (governor ∈ available) then
    try_except
      (m ← get_self;
       success_count ←
         for_fold
           (λ (success_count : Z) cpu,
              e ← exists_ (cpu_path cpu scaling_governor);
              if e : bool then
                try_except
                  (write (cpu_path cpu scaling_governor) governor;;
                   ret (success_count + 1))
                  (λ _, ret success_count)
              else ret success_count)
           (_online_cpus m) 0;
       ret (bool_decide (0 < success_count)))
      (λ _, ret false)
  else ret false.

Definition get_available_epp_options : Method (list string) :=
  try_except
    (cpu ← first_online_cpu;
     e ← exists_ (cpu_path cpu energy_performance_available_preferences);
     if e : bool then
       options ← Py.words <$>
         (Py.strip <$> read (cpu_path cpu energy_performance_available_preferences));
       let options' :=
         if decide ("default" ∈ options) then Py.remove_first "default" options
         else options in
       ret (reverse options')
     else ret [])
    (λ _, ret []).

Definition set_epp (epp : string) : Method bool :=
  available_options ← get_available_epp_options;
  if decide (epp ∈ available_options) then
    current_governor ← get_current_governor;
    locked ←
      (if decide (current_governor = Some "performance") then
         d ← self_scaling_driver;
         ret (bool_decide (d ∈ [Some AMD_PSTATE_EPP; Some INTEL_PSTATE]))
       else ret false);
    if locked : bool then ret false else
    try_except
      (m ← get_self;
       success_count ←
         for_fold
           (λ (success_count : Z) cpu,
              e ← exists_ (cpu_path cpu energy_performance_preference);
              if e : bool then
                try_except
                  (write (cpu_path cpu energy_performance_preference) epp;;
                   ret (success_count + 1))
                  (λ _, ret success_count)
              else ret success_count)
           (_online_cpus m) 0;
       ret (bool_decide (0 < success_count)))
      (λ _, ret false)
  else ret false.

(** *** Frequency range and limits *)

(** The dictionary [get_cpu_frequency_range] returns. *)
Record freq_range := FreqRange {
  min_freq_khz : Z;
  max_freq_khz : Z;
  min_freq_mhz : Z;
  max_freq_mhz : Z
}.

Definition get_cpu_frequency_range : Method (option freq_range) :=
  try_except
    (a ← exists_ (cpu_path 0 cpuinfo_min_freq);
     b ← exists_ (cpu_path 0 cpuinfo_max_freq);
     if a && b then
       min_freq ← read_int (cpu_path 0 cpuinfo_min_freq);
       max_freq ← read_int (cpu_path 0 cpuinfo_max_freq);
       ret (Some (FreqRange min_freq max_freq
                            (Z.div min_freq 1000) (Z.div max_freq 1000)))
     else ret None)
    (λ _, ret None).

(** The body of the per-CPU loop of [set_cpu_frequency_limits], on the
    counters [(success_count, total_attempts)]. *)
Definition limits_step (min_khz max_khz : option Z) (counts : Z * Z) (cpu : Z)
  : Method (Z * Z) :=
  let '(success_count, total_attempts) := counts in
  let min_path := cpu_path cpu scaling_min_freq in
  let max_path := cpu_path cpu scaling_max_freq in
  a ← exists_ min_path;
  b ← exists_ max_path;
  if negb (a && b) then ret (success_count, total_attempts) else
  let total_attempts := total_attempts + 1 in
  try_except
    (current_min ← read_int min_path;
     current_max ← read_int max_path;
     cpu_success ←
       match max_khz with
       | Some mx =>
           (if decide (mx < current_max ∧ current_min > mx)
            then try_except (write min_path (Py.str mx)) (λ _, ret tt)
            else ret tt);;
           try_except (write max_path (Py.str mx);; ret true) (λ _, ret false)
       | None => ret true
       end;
     cpu_success ←
       match min_khz with
       | Some mn =>
           if cpu_success : bool
           then try_except (write min_path (Py.str mn);; ret true) (λ _, ret false)
           else ret cpu_success
       | None => ret cpu_success
       end;
     ret (if cpu_success : bool then success_count + 1 else success_count,
          total_attempts))
    (λ _, ret (success_count, total_attempts)).

(** [v is not None and (v < lo or v > hi)] *)
Definition out_of_range (range : freq_range) (v : option Z) : bool :=
  match v with
  | Some x => bool_decide (x < min_freq_khz range ∨ x > max_freq_khz range)
  | None => false
  end.

Definition set_cpu_frequency_limits (min_khz max_khz : option Z) : Method bool :=
  if bool_decide (min_khz = None ∧ max_khz = None) then ret false else
  range ← get_cpu_frequency_range;
  match range with
  | None => ret false
  | Some range =>
      if out_of_range range min_khz then ret false
      else if out_of_range range max_khz then ret false
      else if match min_khz, max_khz with
              | Some mn, Some mx => bool_decide (mn > mx)
              | _, _ => false
              end
      then ret false
      else
        m ← get_self;
        '(success_count, total_attempts) ←
          for_fold (limits_step min_khz max_khz) (_online_cpus m) (0, 0);
        ret (bool_decide (success_count = total_attempts ∧ total_attempts > 0))
  end.

Definition reset_cpu_frequency_limits : Method bool :=
  range ← get_cpu_frequency_range;
  match range with
  | None => ret false
  | Some range =>
      set_cpu_frequency_limits (Some (min_freq_khz range)) (Some (max_freq_khz range))
  end.

(** *** Boost *)

(** The per-policy fallback loop of [set_cpu_boost], on the counters
    [(success_count, total_attempts)]. *)
Definition boost_step (enabled : bool) (counts : Z * Z) (cpu : Z) : Method (Z * Z) :=
  let '(success_count, total_attempts) := counts in
  e ← exists_ (policy_boost_path cpu);
  if e : bool then
    try_except
      (write (policy_boost_path cpu) (if enabled then "1" else "0");;
       ret (success_count + 1, total_attempts + 1))
      (λ _, ret (success_count, total_attempts + 1))
  else ret (success_count, total_attempts).

(** The block of [set_cpu_boost] that follows a successful boost change:
    "Enforce frequency limits based on boost state". *)
Definition enforce_frequency_limits (enabled : bool) : Method unit :=
  range ← get_cpu_frequency_range;
  match range with
  | Some range =>
      if enabled then
        (* Boost enabled: Allow full frequency range *)
        set_cpu_frequency_limits (Some (min_freq_khz range))
                                 (Some (max_freq_khz range));;
        ret tt
      else
        (* Boost disabled: Limit to base frequency (cpuinfo_max_freq) *)
        let base_freq := max_freq_khz range in
        set_cpu_frequency_limits (Some (min_freq_khz range))
                                 (Some base_freq);;
        ret tt
  | None => ret tt
  end.

Definition set_cpu_boost (enabled : bool) : Method bool :=
  try_except
    (intel ← exists_ intel_no_turbo_path;
     boost_success ←
       (if intel : bool
        then write intel_no_turbo_path (if enabled then "0" else "1");; ret true
        else ret false);
     amd ← exists_ cpufreq_boost_path;
     boost_success ←
       (if amd : bool
        then try_except
               (write cpufreq_boost_path (if enabled then "1" else "0");; ret true)
               (λ _, ret boost_success)
        else ret boost_success);
     m ← get_self;
     (* [Some b]: carry on with [boost_success = b]; [None]: [return False] *)
     per_cpu ←
       (if boost_success : bool then ret (Some true) else
        '(success_count, total_attempts) ←
          for_fold (boost_step enabled) (_online_cpus m) (0, 0);
        if bool_decide (total_attempts > 0 ∧ success_count = total_attempts)
        then ret (Some true)
        else if bool_decide (total_attempts > 0) then ret None
        else ret (Some false));
     match per_cpu with
     | None => ret false
     | Some boost_success =>
         (if boost_success : bool then enforce_frequency_limits enabled
          else ret tt);;
         ret boost_success
     end)
    (λ _, ret false).

(** *** C-states *)

Record cstate := CState {
  cs_state : string;            (* 'state' *)
  cs_name : string;             (* 'name' *)
  cs_description : string;      (* 'description' *)
  cs_path : Z * string          (* 'path': cpu{cpu}/cpuidle/{state_dir} *)
}.

Definition get_available_cstates (cpu : Z) : Method (list cstate) :=
  try_except
    (e ← exists_cpuidle cpu;
     if e : bool then
       dirs ← listdir_cpuidle cpu;
       for_fold
         (λ cstates state_dir,
            if Py.startswith "state" state_dir then
              try_except
                (name ← Py.strip <$> read (cpuidle_path cpu state_dir idle_name);
                 desc ← Py.strip <$> read (cpuidle_path cpu state_dir idle_desc);
                 ret (cstates ++ [CState state_dir name desc (cpu, state_dir)]))
                (λ _, ret cstates)
            else ret cstates)
         (Py.sorted_str dirs) []
     else ret [])
    (λ _, ret []).

Definition preferred_states : list string :=
  ["C10"; "C9"; "C8"; "C7"; "C6"; "C3"; "C2"; "C1"].

Definition get_deepest_available_cstate (cpu : Z) : Method (option string) :=
  try_except
    (available_states ← get_available_cstates cpu;
     match available_states with
     | [] => ret None
     | _ =>
         match find (λ preferred, bool_decide (preferred ∈ cs_name <$> available_states))
                    preferred_states with
         | Some preferred => ret (Some preferred)
         | None => ret (cs_name <$> last available_states)
         end
     end)
    (λ _, ret None).

(** The first loop of [force_cpu_to_cstate]: remember and set the [disable]
    flag of every state deeper than C3. *)
Definition disable_deeper_states (available_states : list cstate)
  : Method (list (path * string)) :=
  for_fold
    (λ deeper_states st,
       if bool_decide (cs_name st ∈ ["C6"; "C7"; "C8"; "C9"; "C10"]) then
         let disable_path :=
           cpuidle_path (fst (cs_path st)) (snd (cs_path st)) idle_disable in
         d ← exists_ disable_path;
         if d : bool then
           try_except
             (current_disabled ← Py.strip <$> read disable_path;
              let deeper_states' :=
                deeper_states ++ [(disable_path, current_disabled)] in
              try_except
                (write disable_path "1";; ret deeper_states')
                (λ _, ret deeper_states'))
             (λ _, ret deeper_states)
         else ret deeper_states
       else ret deeper_states)
    available_states [].

(** Its last loop: put the [disable] flags back. *)
Definition restore_deeper_states (deeper_states : list (path * string)) : Method unit :=
  for_each deeper_states
    (λ '(disable_path, original_state),
       try_except (write disable_path original_state) (λ _, ret tt)).

Definition force_cpu_to_cstate (cpu : Z) (target_state : option string) : Method bool :=
  try_except
    (target ←
       match target_state with
       | Some t => ret (Some t)
       | None => get_deepest_available_cstate cpu
       end;
     match target with
     | None => ret false
     | Some target_state =>
         e ← exists_cpuidle cpu;
         if negb e then ret false else
         available_states ← get_available_cstates cpu;
         match find (λ st, bool_decide (cs_name st = target_state)) available_states with
         | None => ret false
         | Some _ =>
             deeper_states ← disable_deeper_states available_states;
             try_except
               (let freq_min_path := cpu_path cpu scaling_min_freq in
                let freq_max_path := cpu_path cpu scaling_max_freq in
                a ← exists_ freq_min_path;
                b ← exists_ freq_max_path;
                if a && b then
                  original_min_freq ← Py.strip <$> read freq_min_path;
                  original_max_freq ← Py.strip <$> read freq_max_path;
                  write freq_max_path original_min_freq;;
                  write freq_max_path original_max_freq
                else ret tt)
               (λ _, ret tt);;
             restore_deeper_states deeper_states;;
             ret true
         end
     end)
    (λ _, ret false).

(** *** Onlining and offlining *)

Definition offline_cpu_with_cstate_prep (cpu : Z) (target_cstate : option string)
  : Method bool :=
  if decide (cpu = 0) then ret false else
  try_except
    (let online_path := cpu_path cpu online in
     e ← exists_ online_path;
     if negb e then ret false else
     current_state ← Py.strip <$> read online_path;
     if decide (current_state = "0") then ret true else
     target_cstate ←
       match target_cstate with
       | None => get_deepest_available_cstate cpu
       | Some t => ret (Some t)
       end;
     match target_cstate with
     | Some t => if decide (t = "") then ret tt
                 else force_cpu_to_cstate cpu (Some t);; ret tt
     | None => ret tt
     end;;
     write online_path "0";;
     ret true)
    (λ _, ret false).

Definition online_cpu (cpu : Z) : Method bool :=
  if decide (cpu = 0) then ret true else
  try_except
    (let online_path := cpu_path cpu online in
     e ← exists_ online_path;
     if negb e then ret false else
     current_state ← Py.strip <$> read online_path;
     if decide (current_state = "1") then ret true else
     write online_path "1";;
     ret true)
    (λ _, ret false).

Definition get_primary_cpus_by_physical_core : Method (list Z) :=
  m ← get_self;
  (if _topology_initialized m then ret tt else initialize_cpu_topology);;
  m ← get_self;
  ret match _primary_cpus_cache m with
      | Some (c :: l) => c :: l
      | _ => [0]
      end.

Definition get_cpu_siblings (cpu_id : Z) : Method (list Z) :=
  m ← get_self;
  (if _topology_initialized m then ret tt else initialize_cpu_topology);;
  m ← get_self;
  ret (default [cpu_id] (_cpu_siblings_map m !! cpu_id)).

(** [any(len(siblings) > 1 for siblings in map.values() if siblings)] *)
Definition any_siblings (sm : gmap Z (list Z)) : bool :=
  bool_decide (Exists (λ kv, (1 < length (snd kv))%nat) (map_to_list sm)).

Definition is_smt_enabled : Method bool :=
  try_except
    (v ← read smt_active_path; ret (bool_decide (Py.strip v = "1")))
    (λ _,
     m ← get_self;
     (if _topology_initialized m then ret tt else initialize_cpu_topology);;
     m ← get_self;
     ret (any_siblings (_cpu_siblings_map m))).

Definition online_physical_core (primary_cpu : Z) : Method bool :=
  try_except
    (siblings ← get_cpu_siblings primary_cpu;
     for_fold
       (λ (success : bool) cpu,
          if decide (cpu = 0) then ret success
          else ok ← online_cpu cpu; ret (if ok : bool then success else false))
       siblings true)
    (λ _, ret false).

Definition offline_physical_core (primary_cpu : Z) : Method bool :=
  try_except
    (siblings ← get_cpu_siblings primary_cpu;
     for_fold
       (λ (success : bool) cpu,
          if decide (cpu = 0) then ret success
          else ok ← offline_cpu_with_cstate_prep cpu None;
               ret (if ok : bool then success else false))
       siblings true)
    (λ _, ret false).

(** [target_cores] after the two clamping tests. *)
Definition clamp_target (target_cores max_physical_cores : Z) : Z :=
  let t := if decide (target_cores < 1) then 1 else target_cores in
  if decide (t > max_physical_cores) then max_physical_cores else t.

(** The body of the first loop of [set_cpu_cores_with_cstate_optimization]:
    bring physical core [i] online. *)
Definition online_step (primary_cpus : list Z) (smt_enabled : bool)
    (success : bool) (i : Z) : Method bool :=
  primary_cpu ← or_raise IndexError (Py.index primary_cpus i);
  if smt_enabled then
    ok ← online_physical_core primary_cpu;
    ret (if ok : bool then success else false)
  else if decide (primary_cpu = 0) then ret success
  else ok ← online_cpu primary_cpu;
       ret (if ok : bool then success else false).

(** The body of its second loop: take physical core [i] offline. *)
Definition offline_step (primary_cpus : list Z) (smt_enabled : bool)
    (success : bool) (i : Z) : Method bool :=
  primary_cpu ← or_raise IndexError (Py.index primary_cpus i);
  if decide (primary_cpu = 0) then ret success
  else if smt_enabled then
    ok ← offline_physical_core primary_cpu;
    ret (if ok : bool then success else false)
  else ok ← offline_cpu_with_cstate_prep primary_cpu None;
       ret (if ok : bool then success else false).

Definition set_cpu_cores_with_cstate_optimization (target_cores : Z) : Method bool :=
  try_except
    (primary_cpus ← get_primary_cpus_by_physical_core;
     let max_physical_cores := Z.of_nat (length primary_cpus) in
     smt_enabled ← is_smt_enabled;
     let target_cores := clamp_target target_cores max_physical_cores in
     success ←
       for_fold (online_step primary_cpus smt_enabled)
                (Py.range 0 target_cores) true;
     success ←
       for_fold (offline_step primary_cpus smt_enabled)
                (Py.range target_cores max_physical_cores) success;
     update_online_cpus;;
     ret success)
    (λ _, ret false).

(** ** [main.py]: the plugin-level governor setter

    [Plugin.set_governor], and the module-level [set_governor] the front end
    calls, both go to [Plugin.set_power_governor]. *)

Module Main.

Inductive pyval := PyStr (s : string) | PyInt (n : Z) | PyBool (b : bool).

Record Plugin := MkPlugin { current_profile : gmap string pyval }.

(** The later of the two definitions of [get_online_cpus] in the class is
    the one in force. *)
Definition get_online_cpus : M Plugin (list Z) :=
  try_except
    (e ← exists_ online_list_path;
     if e : bool then
       online_range ← Py.strip <$> read online_list_path;
       or_raise ValueError (parse_cpu_parts (Py.split "," online_range))
     else ret (Py.range 0 16))
    (λ _, ret (Py.range 0 16)).

Definition governor_mapping : gmap string string :=
  list_to_map [("balanced", "powersave"); ("ondemand", "powersave");
               ("conservative", "powersave"); ("schedutil", "powersave")].

Definition set_power_governor (governor : string) : M Plugin bool :=
  try_except
    (let available_governors_path := cpu_path 0 scaling_available_governors in
     e ← exists_ available_governors_path;
     available_governors ←
       (if e : bool
        then Py.words <$> (Py.strip <$> read available_governors_path)
        else ret ["performance"; "powersave"]);
     let target_governor :=
       if decide (governor ∈ available_governors) then governor
       else match governor_mapping !! governor with
            | Some g => g
            | None => "powersave"
            end in
     online_cpus ← get_online_cpus;
     success ←
       for_fold
         (λ (success : bool) cpu,
            let gov_path := cpu_path cpu scaling_governor in
            e ← exists_ gov_path;
            if e : bool then
              try_except (write gov_path target_governor;; ret success)
                         (λ _, ret false)
            else ret success)
         online_cpus true;
     if success : bool then
       set_self (λ p, MkPlugin (<["governor" := PyStr target_governor]>
                                  (current_profile p)));;
       ret true
     else ret false)
    (λ _, ret false).

Definition set_governor (governor : string) : M Plugin bool :=
  try_except (set_power_governor governor) (λ _, ret false).

End Main.

(** ** Observations on a run *)

(** The outcome, the object and the sysfs tree after running [c]. *)
Definition outcome {O A} (r : result A * O * sysfs) : result A := fst (fst r).
Definition self_after {O A} (r : result A * O * sysfs) : O := snd (fst r).
Definition sys_after {O A} (r : result A * O * sysfs) : sysfs := snd r.

Definition is_write (e : event) : bool :=
  match e with EvWrite _ _ _ => true | EvRead _ => false end.

Definition is_write_to (p : path) (e : event) : bool :=
  match e with EvWrite q _ _ => bool_decide (q = p) | EvRead _ => false end.

(** A write to any [cpu{n}/online] file. *)
Definition is_online_write (e : event) : bool :=
  match e with EvWrite (cpu_path _ online) _ _ => true | _ => false end.

(** The write attempts of a trace, in order. *)
Definition writes (t : list event) : list event := filter is_write t.

(** The events [s'] has recorded beyond those of [s]. *)
Definition events_since (s s' : sysfs) : list event :=
  drop (length (trace s)) (trace s').

(** How [online_cpu] and [offline_cpu_with_cstate_prep] see a CPU. *)
Definition cpu_is_online (s : sysfs) (cpu : Z) : Prop :=
  cpu = 0 ∨ Py.strip <$> files s !! cpu_path cpu online = Some "1".

Definition cpu_is_offline (s : sysfs) (cpu : Z) : Prop :=
  cpu ≠ 0 ∧ Py.strip <$> files s !! cpu_path cpu online = Some "0".

(** ** Frames: what a computation may record and change

    [frame P s s'] holds when [s'] extends the trace of [s] by events that
    all satisfy [P], differs from [s] on no file that [P] forbids writing,
    and has the same files present and the same kernel behaviour.
    [respects RO P c] says that every run of [c] stays within that frame
    and moves [self] along [RO]. *)

Record frame (P : event → bool) (s s' : sysfs) : Prop := Frame {
  frame_trace : ∃ new, trace s' = trace s ++ new ∧ Forall (λ e, P e = true) new;
  frame_files : ∀ p, (∀ v, P (EvWrite p v true) = false) →
                     files s' !! p = files s !! p;
  frame_dom : ∀ p, is_Some (files s' !! p) ↔ is_Some (files s !! p);
  frame_cpuidle : cpuidle_dirs s' = cpuidle_dirs s;
  frame_cpu_dirs : cpu_dirs s' = cpu_dirs s;
  frame_write_errno : write_errno s' = write_errno s;
  frame_read_errno : read_errno s' = read_errno s
}.

Definition respects {O A} (RO : relation O) (P : event → bool) (c : M O A) : Prop :=
  ∀ o s, RO o (self_after (c o s)) ∧ frame P s (sys_after (c o s)).

(** [returns Q c]: whenever [c] returns, its value satisfies [Q]. *)
Definition returns {O A} (Q : A → Prop) (c : M O A) : Prop :=
  ∀ o s a, outcome (c o s) = Ok a → Q a.

(** What the core-parking path may record: any read; writes to
    [cpu{c}/online] for [c] with [X c] true; and, from the C-state
    preparation, writes to [disable] files of idle states and to
    [scaling_max_freq] files. *)
Definition parking_only (X : Z → bool) (e : event) : bool :=
  match e with
  | EvRead _ => true
  | EvWrite (cpu_path c online) _ _ => X c
  | EvWrite (cpu_path _ scaling_max_freq) _ _ => true
  | EvWrite (cpuidle_path _ _ idle_disable) _ _ => true
  | EvWrite _ _ _ => false
  end.

(** No write to [cpu0/online]. *)
Definition not_cpu0 : event → bool := parking_only (λ c, bool_decide (c ≠ 0)).

(** Reads only. *)
Definition no_write (e : event) : bool := negb (is_write e).

(** No constraint on how [self] changes. *)
Definition any_self {O} : relation O := λ _ _, True.

Global Instance any_self_preorder {O} : PreOrder (@any_self O).
Proof. split; by intros. Defined.

(** The flags saved by [disable_deeper_states] are all [disable] files of
    idle states. *)
Definition disable_entries (ds : list (path * string)) : Prop :=
  Forall (λ d, ∃ c dir, fst d = cpuidle_path c dir idle_disable) ds.

(** ** Mock trees and managers for the scenarios *)

Definition no_fault : path → string → option Z := λ _ _, None.

(** A tree holding the files [fl] and the cpuidle listings [idle], whose
    writes fail as [werr] says and whose reads all succeed. *)
Definition mock (fl : list (path * string)) (idle : list (Z * list string))
    (werr : path → string → option Z) : sysfs :=
  Sysfs (list_to_map fl) (list_to_map idle) [] werr (λ _, None) [].

(** The cpufreq files of one CPU. *)
Definition cpufreq_files (cpu : Z) (governor epp lo hi : string) : list (path * string) :=
  [ (cpu_path cpu scaling_governor, governor);
    (cpu_path cpu scaling_available_governors, "performance powersave");
    (cpu_path cpu energy_performance_preference, epp);
    (cpu_path cpu energy_performance_available_preferences,
       "default performance balance_performance balance_power power");
    (cpu_path cpu scaling_min_freq, lo);
    (cpu_path cpu scaling_max_freq, hi);
    (cpu_path cpu cpuinfo_min_freq, "400000");
    (cpu_path cpu cpuinfo_max_freq, "3500000") ].

(** A manager whose topology is [primary] with sibling map [sib] and whose
    online list is [online_cpus]; [_scaling_driver] was never assigned. *)
Definition manager (possible primary : list Z) (sib : list (Z * list Z))
    (online_cpus : list Z) : CPUManager :=
  Mgr possible (Some primary) (list_to_map sib) true online_cpus None.

(** One CPU with frequency control, limits 400000-3500000 kHz. *)
Definition one_cpu_tree : sysfs :=
  mock (cpufreq_files 0 "powersave" "balance_performance" "400000" "3500000")
       [] no_fault.

Definition one_cpu_manager : CPUManager := manager [0] [0] [] [0].

(** A one-CPU machine on amd-pstate-epp whose governor is "performance";
    the EPP list offers "power". *)
Definition performance_tree : sysfs :=
  mock ([(possible_path, "0"); (online_list_path, "0")] ++
        cpufreq_files 0 "performance" "performance" "400000" "3500000")
       [] no_fault.

(** [self] keeps the attribute [_scaling_driver] as it was. *)
Definition same_scaling_driver : relation CPUManager :=
  λ m m', _scaling_driver m' = _scaling_driver m.

Global Instance same_scaling_driver_preorder : PreOrder same_scaling_driver.
Proof. split; [by intros ? | intros ? ? ? H1 H2; unfold same_scaling_driver in *; congruence]. Defined.

(** ** Guarded writes

    What [if os.path.exists(p): try: write(p, v) except: ...] does to the
    tree, and whether the write goes through. *)

Definition present (p : path) (s : sysfs) : bool :=
  bool_decide (is_Some (files s !! p)).

Definition accepted (p : path) (v : string) (s : sysfs) : bool :=
  present p s && bool_decide (write_errno s p v = None).

Definition attempt (p : path) (v : string) (s : sysfs) : sysfs :=
  if present p s then
    if accepted p v s then log (EvWrite p v true) (store p v s)
    else log (EvWrite p v false) s
  else s.

(** The same over a list of files, in order. *)
Definition attempts (ps : list path) (v : string) (s : sysfs) : sysfs :=
  foldl (λ s p, attempt p v s) s ps.

(** Only writes to [scaling_min_freq] and [scaling_max_freq] files. *)
Definition scaling_only (e : event) : bool :=
  match e with
  | EvWrite (cpu_path _ scaling_min_freq) _ _ => true
  | EvWrite (cpu_path _ scaling_max_freq) _ _ => true
  | EvWrite _ _ _ => false
  | EvRead _ => true
  end.

(** A write to a per-policy boost file. *)
Definition is_policy_boost_write (e : event) : bool :=
  match e with EvWrite (policy_boost_path _) _ _ => true | _ => false end.

(** What [set_cpu_boost] writes to a boost file. *)
Definition boost_value (enabled : bool) : string := if enabled then "1" else "0".

(** How many of [cpus] satisfy [f]. *)
Definition count (f : Z → bool) (cpus : list Z) : Z :=
  Z.of_nat (length (filter (λ c, f c = true) cpus)).

(** [total c]: [c] always returns; no exception leaves it. *)
Definition total {O A} (c : M O A) : Prop :=
  ∀ o s, ∃ a, outcome (c o s) = Ok a.

(** Scenario C: four CPUs with per-policy boost files only; the kernel
    refuses (EACCES) every write to CPU 2's file. *)
Definition scenario_C_tree : sysfs :=
  mock [ (policy_boost_path 0, "1"); (policy_boost_path 1, "1");
         (policy_boost_path 2, "1"); (policy_boost_path 3, "1") ]
       []
       (λ p _, if decide (p = policy_boost_path 2) then Some 13 else None).

Definition scenario_C_manager : CPUManager :=
  manager [0; 1; 2; 3] [0; 1; 2; 3] [] [0; 1; 2; 3].

(** Only writes to boost switches: Intel [no_turbo], the global
    [cpufreq/boost], the per-policy [boost] files; nothing is read. *)
Definition boost_only (e : event) : bool :=
  match e with
  | EvWrite intel_no_turbo_path _ _ => true
  | EvWrite cpufreq_boost_path _ _ => true
  | EvWrite (policy_boost_path _) _ _ => true
  | _ => false
  end.

(** One CPU with a global boost switch, capped by the user at 2000000 kHz
    while the hardware range is 400000-3500000 kHz. *)
Definition capped_tree : sysfs :=
  mock ((cpufreq_boost_path, "1") ::
        cpufreq_files 0 "powersave" "balance_performance" "400000" "2000000")
       [] no_fault.

(** The same machine as its kernel shows it once boost is off, on a driver
    that lowers [cpuinfo_max_freq] to the base frequency, 2800000 kHz; the
    limit in force is still 3500000 kHz. *)
Definition lowered_range_tree : sysfs :=
  mock [ (cpufreq_boost_path, "0");
         (cpu_path 0 scaling_min_freq, "400000");
         (cpu_path 0 scaling_max_freq, "3500000");
         (cpu_path 0 cpuinfo_min_freq, "400000");
         (cpu_path 0 cpuinfo_max_freq, "2800000") ]
       [] no_fault.

(** What [Main.set_power_governor] takes as the available governors, and
    what [Main.get_online_cpus] returns, as functions of the tree. *)
Definition plugin_available_governors (s : sysfs) : list string :=
  match files s !! cpu_path 0 scaling_available_governors with
  | Some v => Py.words (Py.strip v)
  | None => ["performance"; "powersave"]
  end.

Definition plugin_online_cpus (s : sysfs) : list Z :=
  match files s !! online_list_path with
  | None => Py.range 0 16
  | Some v =>
      match read_errno s online_list_path with
      | Some _ => Py.range 0 16
      | None => default (Py.range 0 16)
                        (parse_cpu_parts (Py.split "," (Py.strip v)))
      end
  end.

(** Scenario D: two CPUs on a driver that exposes only "performance" and
    "powersave". *)
Definition scenario_D_tree : sysfs :=
  mock ([(possible_path, "0-1"); (online_list_path, "0-1")] ++
        cpufreq_files 0 "performance" "balance_performance" "400000" "3500000" ++
        cpufreq_files 1 "performance" "balance_performance" "400000" "3500000")
       [] no_fault.

Definition scenario_D_manager : CPUManager := manager [0; 1] [0; 1] [] [0; 1].

Definition scenario_D_plugin : Main.Plugin := Main.MkPlugin ∅.

(** The same machine when the kernel refuses (EBUSY) the governor write on
    CPU 1. *)
Definition scenario_D_busy_tree : sysfs :=
  mock ([(possible_path, "0-1"); (online_list_path, "0-1")] ++
        cpufreq_files 0 "performance" "balance_performance" "400000" "3500000" ++
        cpufreq_files 1 "performance" "balance_performance" "400000" "3500000")
       []
       (λ p _, if decide (p = cpu_path 1 scaling_governor) then Some EBUSY else None).

(** A write to one of the two limit files of CPU [c]. *)
Definition is_limit_write_of (c : Z) (e : event) : bool :=
  match e with
  | EvWrite (cpu_path c' scaling_min_freq) _ _ => bool_decide (c' = c)
  | EvWrite (cpu_path c' scaling_max_freq) _ _ => bool_decide (c' = c)
  | _ => false
  end.

(** Everything but a write to a limit file of CPU [c]. *)
Definition not_limit_write_of (c : Z) (e : event) : bool :=
  negb (is_limit_write_of c e).

Definition write_target (e : event) : option (path * string) :=
  match e with
  | EvWrite p v _ => Some (p, v)
  | EvRead _ => None
  end.

(** The limit files of CPU [c] written in a trace, with the values written,
    in order. *)
Definition limit_writes_of (c : Z) (t : list event) : list (path * string) :=
  omap write_target (filter (λ e, is_limit_write_of c e = true) t).

(** What the loop body of [set_cpu_frequency_limits] does to the tree for a
    CPU whose two limit files are present and read as [current_min] and
    [current_max]. *)
Definition limits_step_tree (min_khz max_khz : option Z) (cpu : Z)
    (current_min current_max : Z) (s : sysfs) : sysfs :=
  let min_path := cpu_path cpu scaling_min_freq in
  let max_path := cpu_path cpu scaling_max_freq in
  let s_r := log (EvRead max_path) (log (EvRead min_path) s) in
  let s_x :=
    match max_khz with
    | Some mx =>
        attempt max_path (Py.str mx)
          (if decide (mx < current_max ∧ current_min > mx)
           then attempt min_path (Py.str mx) s_r else s_r)
    | None => s_r
    end in
  let max_ok :=
    match max_khz with
    | Some mx => accepted max_path (Py.str mx) s
    | None => true
    end in
  match min_khz with
  | Some mn => if max_ok then attempt min_path (Py.str mn) s_x else s_x
  | None => s_x
  end.

(** A machine whose limits are now 2000000-3500000 kHz. *)
Definition high_floor_tree : sysfs :=
  mock (cpufreq_files 0 "powersave" "balance_performance" "2000000" "3500000")
       [] no_fault.

(** A machine whose limits are now 400000-1000000 kHz. *)
Definition low_ceiling_tree : sysfs :=
  mock (cpufreq_files 0 "powersave" "balance_performance" "400000" "1000000")
       [] no_fault.

(** The limit files [set_cpu_frequency_limits] writes for a CPU whose
    limits read [current_min] and [current_max], with the values, in order:
    the early lowering of the min when the new max is below both current
    limits, the max, and, if the max write was accepted (or no max was
    requested), the min. *)
Definition limit_write_plan (min_khz max_khz : option Z) (cpu : Z)
    (current_min current_max : Z) (s : sysfs) : list (path * string) :=
  let min_path := cpu_path cpu scaling_min_freq in
  let max_path := cpu_path cpu scaling_max_freq in
  match max_khz with
  | Some mx =>
      (if decide (mx < current_max ∧ current_min > mx)
       then [(min_path, Py.str mx)] else []) ++ [(max_path, Py.str mx)]
  | None => []
  end ++
  match min_khz with
  | Some mn =>
      if match max_khz with
         | Some mx => accepted max_path (Py.str mx) s
         | None => true
         end
      then [(min_path, Py.str mn)] else []
  | None => []
  end.

(** ** The topology the core-parking code works with *)

(** What [get_primary_cpus_by_physical_core] and [get_cpu_siblings] return
    once the topology is initialised. *)
Definition primary_cpus_of (m : CPUManager) : list Z :=
  match _primary_cpus_cache m with
  | Some (c :: l) => c :: l
  | _ => [0]
  end.

Definition siblings_of (m : CPUManager) (cpu_id : Z) : list Z :=
  default [cpu_id] (_cpu_siblings_map m !! cpu_id).

(** What [is_smt_enabled] returns once the topology is initialised. *)
Definition smt_enabled_of (m : CPUManager) (s : sysfs) : bool :=
  match files s !! smt_active_path, read_errno s smt_active_path with
  | Some v, None => bool_decide (Py.strip v = "1")
  | _, _ => any_siblings (_cpu_siblings_map m)
  end.

(** The logical CPUs [set_cpu_cores_with_cstate_optimization] manages for the
    physical core of primary CPU [p]: all its siblings with SMT, the primary
    alone without. *)
Definition core_cpus (m : CPUManager) (smt_enabled : bool) (p : Z) : list Z :=
  if smt_enabled then siblings_of m p else [p].

(** A well-formed topology: the primary CPUs are listed in ascending order
    and are not negative; each primary is the lowest-numbered CPU of its own
    sibling list; the sibling lists of two different primaries share no CPU. *)
Definition topology_wf (m : CPUManager) : Prop :=
  let prim := primary_cpus_of m in
  StronglySorted Z.lt prim ∧
  Forall (λ p, 0 ≤ p ∧ p ∈ siblings_of m p ∧
               Forall (λ c, p ≤ c) (siblings_of m p)) prim ∧
  Forall (λ p, Forall (λ q, p = q ∨
                            Forall (λ c, c ∉ siblings_of m q) (siblings_of m p))
                      prim) prim.

Global Instance topology_wf_dec m : Decision (topology_wf m).
Proof. unfold topology_wf. apply _. Defined.

(** Two managers with the same topology. *)
Definition same_topology (m m' : CPUManager) : Prop :=
  _possible_cpus m' = _possible_cpus m ∧
  _primary_cpus_cache m' = _primary_cpus_cache m ∧
  _cpu_siblings_map m' = _cpu_siblings_map m ∧
  _topology_initialized m' = _topology_initialized m.

(** CPU [c] is online (offline) and [online_cpu]
    ([offline_cpu_with_cstate_prep]) can see it: its [online] file reads
    "1" ("0") without error.  CPU 0 is online by convention. *)
Definition settled_online (s : sysfs) (c : Z) : Prop :=
  c = 0 ∨ ∃ v, files s !! cpu_path c online = Some v ∧ Py.strip v = "1" ∧
               read_errno s (cpu_path c online) = None.

Definition settled_offline (s : sysfs) (c : Z) : Prop :=
  c ≠ 0 ∧ ∃ v, files s !! cpu_path c online = Some v ∧ Py.strip v = "0" ∧
               read_errno s (cpu_path c online) = None.

(** Scenario A: 8 CPUs, SMT on, siblings (0,4) (1,5) (2,6) (3,7), all
    online.  CPU 0 has no [online] file.  CPU 2 has idle states and
    frequency files, so that the C-state preparation has something to do. *)
Definition scenario_A_tree : sysfs :=
  mock ([ (possible_path, "0-7"); (online_list_path, "0-7"); (smt_active_path, "1");
          (cpu_path 1 online, "1"); (cpu_path 2 online, "1");
          (cpu_path 3 online, "1"); (cpu_path 4 online, "1");
          (cpu_path 5 online, "1"); (cpu_path 6 online, "1");
          (cpu_path 7 online, "1");
          (cpuidle_path 2 "state0" idle_name, "POLL");
          (cpuidle_path 2 "state0" idle_desc, "CPUIDLE CORE POLL IDLE");
          (cpuidle_path 2 "state0" idle_disable, "0");
          (cpuidle_path 2 "state1" idle_name, "C1");
          (cpuidle_path 2 "state1" idle_desc, "ACPI FFH MWAIT 0x0");
          (cpuidle_path 2 "state1" idle_disable, "0");
          (cpuidle_path 2 "state2" idle_name, "C6");
          (cpuidle_path 2 "state2" idle_desc, "ACPI IOPORT 0x414");
          (cpuidle_path 2 "state2" idle_disable, "0") ] ++
        cpufreq_files 2 "powersave" "balance_performance" "400000" "3500000")
       [(2, ["state2"; "state0"; "state1"])] no_fault.

(** Scenario A on a kernel that refuses (EBUSY) to take CPU 3 offline. *)
Definition scenario_A_busy_tree : sysfs :=
  Sysfs (files scenario_A_tree) (cpuidle_dirs scenario_A_tree)
        (cpu_dirs scenario_A_tree)
        (λ p _, if decide (p = cpu_path 3 online) then Some EBUSY else None)
        (read_errno scenario_A_tree) (trace scenario_A_tree).

Definition scenario_A_manager : CPUManager :=
  manager [0; 1; 2; 3; 4; 5; 6; 7] [0; 1; 2; 3]
          [ (0, [0; 4]); (1, [1; 5]); (2, [2; 6]); (3, [3; 7]);
            (4, [0; 4]); (5, [1; 5]); (6, [2; 6]); (7, [3; 7]) ]
          [0; 1; 2; 3; 4; 5; 6; 7].

(** Scenario B: the same machine with SMT off: CPUs 4-7 are offline and
    every CPU is its own only sibling. *)
Definition scenario_B_tree : sysfs :=
  mock [ (possible_path, "0-7"); (online_list_path, "0-3"); (smt_active_path, "0");
         (cpu_path 1 online, "1"); (cpu_path 2 online, "1");
         (cpu_path 3 online, "1"); (cpu_path 4 online, "0");
         (cpu_path 5 online, "0"); (cpu_path 6 online, "0");
         (cpu_path 7 online, "0") ]
       [] no_fault.

Definition scenario_B_manager : CPUManager :=
  manager [0; 1; 2; 3; 4; 5; 6; 7] [0; 1; 2; 3]
          [ (0, [0]); (1, [1]); (2, [2]); (3, [3]) ]
          [0; 1; 2; 3].

(** The CPUs whose [online] file reads "1", CPU 0 included, among [cpus]. *)
Definition online_among (s : sysfs) (cpus : list Z) : list Z :=
  filter (λ c, c = 0 ∨ Py.strip <$> files s !! cpu_path c online = Some "1") cpus.

(** Steps of the two phases of core parking.  While cores are brought
    online, no CPU that [online_cpu] sees online stops being so; while cores
    are taken offline, only the [online] files of the CPUs in [X] are
    written, and no CPU seen offline stops being so. *)
Definition onlining (s s' : sysfs) : Prop :=
  frame (parking_only (λ _, true)) s s' ∧
  ∀ c, settled_online s c → settled_online s' c.

Definition offlining (X : Z → bool) (s s' : sysfs) : Prop :=
  frame (parking_only X) s s' ∧
  ∀ c, settled_offline s c → settled_offline s' c.

(** The physical cores a call with (clamped) target [k] keeps active, by
    their primary CPUs: the [k] first of the list; the cores it parks: the
    others; and the logical CPUs of the parked cores. *)
Definition active_cores (m : CPUManager) (k : Z) : list Z :=
  take (Z.to_nat k) (primary_cpus_of m).

Definition parked_cores (m : CPUManager) (k : Z) : list Z :=
  drop (Z.to_nat k) (primary_cpus_of m).

Definition parked_cpus (m : CPUManager) (smt_enabled : bool) (k : Z) : list Z :=
  mjoin (core_cpus m smt_enabled <$> parked_cores m k).

(** [ensures Φ c]: whenever [c] returns, [self] satisfies [Φ]. *)
Definition ensures {O A} (Φ : O → Prop) (c : M O A) : Prop :=
  ∀ o s a o' s', c o s = (Ok a, o', s') → Φ o'.

(** The topology files of one CPU. *)
Definition topology_files (cpu core : Z) (siblings : string) : list (path * string) :=
  [ (cpu_path cpu core_id, Py.str core);
    (cpu_path cpu physical_package_id, "0");
    (cpu_path cpu thread_siblings_list, siblings) ].

(** Scenario A as the kernel shows it to a manager that has not discovered
    the topology yet: the same machine, all CPUs online, with the topology
    files of the eight CPUs. *)
Definition scenario_A_sysfs : sysfs :=
  mock ([ (possible_path, "0-7"); (online_list_path, "0-7"); (smt_active_path, "1");
          (cpu_path 1 online, "1"); (cpu_path 2 online, "1");
          (cpu_path 3 online, "1"); (cpu_path 4 online, "1");
          (cpu_path 5 online, "1"); (cpu_path 6 online, "1");
          (cpu_path 7 online, "1") ] ++
        topology_files 0 0 "0,4" ++ topology_files 4 0 "0,4" ++
        topology_files 1 1 "1,5" ++ topology_files 5 1 "1,5" ++
        topology_files 2 2 "2,6" ++ topology_files 6 2 "2,6" ++
        topology_files 3 3 "3,7" ++ topology_files 7 3 "3,7")
       [] no_fault.

(** ** Further methods of [CPUManager] *)

(** The dictionary [get_cpu_frequency_limits] holds for one CPU. *)
Record cpu_limits := CpuLimits {
  limit_min_khz : Z;            (* 'min_freq_khz' *)
  limit_max_khz : Z             (* 'max_freq_khz' *)
}.

Definition get_cpu_frequency_limits : Method (gmap Z cpu_limits) :=
  m ← get_self;
  for_fold
    (λ limits cpu,
       try_except
         (let min_path := cpu_path cpu scaling_min_freq in
          let max_path := cpu_path cpu scaling_max_freq in
          a ← exists_ min_path;
          b ← exists_ max_path;
          if a && b then
            min_freq ← read_int min_path;
            max_freq ← read_int max_path;
            ret (<[cpu := CpuLimits min_freq max_freq]> limits)
          else ret limits)
         (λ _, ret limits))
    (_online_cpus m) ∅.

(** ** Further observations *)

(** CPU [c] has both limit files. *)
Definition has_limit_files (s : sysfs) (c : Z) : bool :=
  present (cpu_path c scaling_min_freq) s && present (cpu_path c scaling_max_freq) s.

(** The limit files of CPU [c] hold the requested values. *)
Definition limits_in_force (min_khz max_khz : option Z) (s : sysfs) (c : Z) : Prop :=
  (∀ mx, max_khz = Some mx →
         files s !! cpu_path c scaling_max_freq = Some (Py.str mx)) ∧
  (∀ mn, min_khz = Some mn →
         files s !! cpu_path c scaling_min_freq = Some (Py.str mn)).

(** The limit files of CPU [c] can be read. *)
Definition limits_readable (s : sysfs) (c : Z) : Prop :=
  read_errno s (cpu_path c scaling_min_freq) = None ∧
  read_errno s (cpu_path c scaling_max_freq) = None.

(** What the two limit files of CPU [c] read as, when both exist, can be
    read and hold integers. *)
Definition cpu_limits_of (s : sysfs) (c : Z) : option cpu_limits :=
  let min_path := cpu_path c scaling_min_freq in
  let max_path := cpu_path c scaling_max_freq in
  match files s !! min_path, files s !! max_path with
  | Some vmin, Some vmax =>
      match read_errno s min_path, read_errno s max_path with
      | None, None =>
          a ← Py.int (Py.strip vmin); b ← Py.int (Py.strip vmax);
          Some (CpuLimits a b)
      | _, _ => None
      end
  | _, _ => None
  end.

(** ** Observations on topology discovery *)

(** What [write] does to the tree, whether it raises or not. *)
Definition forced_write (p : path) (v : string) (s : sysfs) : sysfs :=
  if accepted p v s then log (EvWrite p v true) (store p v s)
  else log (EvWrite p v false) s.

Definition forced_writes (ps : list path) (v : string) (s : sysfs) : sysfs :=
  foldl (λ s p, forced_write p v s) s ps.

(** The online list [initialize_cpu_topology] starts from: what
    [cpu/online] parses to, or [0]. *)
Definition original_online_cpus_of (s : sysfs) : list Z :=
  match files s !! online_list_path, read_errno s online_list_path with
  | Some v, None => default [0] (parse_cpu_simple (Py.strip v))
  | _, _ => [0]
  end.

(** The CPUs discovery writes "1" to, and those of them that take it. *)
Definition discovery_targets (m : CPUManager) (s : sysfs) : list Z :=
  filter (λ c, c ≠ 0 ∧ c ∉ original_online_cpus_of s) (_possible_cpus m).

Definition discovery_brought (m : CPUManager) (s : sysfs) : list Z :=
  filter (λ c, accepted (cpu_path c online) "1" s = true) (discovery_targets m s).

(** The (package, core) pair the topology files of CPU [c] give, when both
    exist, can be read and hold integers. *)
Definition core_key_of (s : sysfs) (c : Z) : option (Z * Z) :=
  match files s !! cpu_path c core_id,
        files s !! cpu_path c physical_package_id with
  | Some vc, Some vp =>
      match read_errno s (cpu_path c core_id),
            read_errno s (cpu_path c physical_package_id) with
      | None, None =>
          core ← Py.int (Py.strip vc); pkg ← Py.int (Py.strip vp); Some (pkg, core)
      | _, _ => None
      end
  | _, _ => None
  end.

(** The sibling list the [thread_siblings_list] file of CPU [c] gives. *)
Definition sibling_list_of (s : sysfs) (c : Z) : option (list Z) :=
  match files s !! cpu_path c thread_siblings_list,
        read_errno s (cpu_path c thread_siblings_list) with
  | Some v, None => parse_cpu_simple (Py.strip v)
  | _, _ => None
  end.

(** [self] changes in [_cpu_siblings_map] only. *)
Definition same_but_siblings (m m' : CPUManager) : Prop :=
  _possible_cpus m' = _possible_cpus m ∧
  _primary_cpus_cache m' = _primary_cpus_cache m ∧
  _topology_initialized m' = _topology_initialized m ∧
  _online_cpus m' = _online_cpus m ∧
  _scaling_driver m' = _scaling_driver m.

(** The machine of scenario A after cores 2 and 3 were parked: [cpu/online]
    reads "0-1,4-5". *)
Definition parked_sysfs : sysfs :=
  mock ([ (possible_path, "0-7"); (online_list_path, "0-1,4-5");
          (smt_active_path, "1");
          (cpu_path 1 online, "1"); (cpu_path 2 online, "0");
          (cpu_path 3 online, "0"); (cpu_path 4 online, "1");
          (cpu_path 5 online, "1"); (cpu_path 6 online, "0");
          (cpu_path 7 online, "0") ] ++
        topology_files 0 0 "0,4" ++ topology_files 4 0 "0,4" ++
        topology_files 1 1 "1,5" ++ topology_files 5 1 "1,5" ++
        topology_files 2 2 "2,6" ++ topology_files 6 2 "2,6" ++
        topology_files 3 3 "3,7" ++ topology_files 7 3 "3,7")
       [] no_fault.

(** ** Observations on idle states *)

(** The record [get_available_cstates] builds for directory [d] of
    [cpu{cpu}/cpuidle]: the directory must be named [state...], and its
    [name] and [desc] files must both be readable. *)
Definition cstate_of (s : sysfs) (cpu : Z) (d : string) : option cstate :=
  if Py.startswith "state" d then
    match files s !! cpuidle_path cpu d idle_name,
          files s !! cpuidle_path cpu d idle_desc with
    | Some name, Some desc =>
        match read_errno s (cpuidle_path cpu d idle_name),
              read_errno s (cpuidle_path cpu d idle_desc) with
        | None, None => Some (CState d (Py.strip name) (Py.strip desc) (cpu, d))
        | _, _ => None
        end
    | _, _ => None
    end
  else None.

(** What the C-state preparation of CPU [cpu] may record: any read, and
    writes to the [disable] files of the idle states of [cpu] and to the
    [scaling_max_freq] file of [cpu]. *)
Definition cstate_prep_only (cpu : Z) (e : event) : bool :=
  match e with
  | EvRead _ => true
  | EvWrite (cpuidle_path c _ idle_disable) _ _ => bool_decide (c = cpu)
  | EvWrite (cpu_path c scaling_max_freq) _ _ => bool_decide (c = cpu)
  | EvWrite _ _ _ => false
  end.

(** ** Further methods of [CPUManager]: re-applying settings, reading boost *)

Definition reapply_cpu_settings (current_boost : option bool)
    (current_governor current_epp : option string) : Method unit :=
  try_except
    (update_online_cpus;;
     match current_boost with
     | Some b => set_cpu_boost b;; ret tt
     | None => ret tt
     end;;
     match current_governor with
     | Some g => set_governor g;; ret tt
     | None => ret tt
     end;;
     match current_epp with
     | Some e => set_epp e;; ret tt
     | None => ret tt
     end)
    (λ _, ret tt).

Definition get_cpu_boost_enabled : Method (option bool) :=
  try_except
    (intel ← exists_ intel_no_turbo_path;
     if intel : bool then
       v ← read intel_no_turbo_path;
       ret (Some (bool_decide (Py.strip v = "0")))
     else
       cpu ← first_online_cpu;
       per ← exists_ (policy_boost_path cpu);
       if per : bool then
         v ← read (policy_boost_path cpu);
         ret (Some (bool_decide (Py.strip v = "1")))
       else
         amd ← exists_ cpufreq_boost_path;
         if amd : bool then
           v ← read cpufreq_boost_path;
           ret (Some (bool_decide (Py.strip v = "1")))
         else ret None)
    (λ _, ret None).

(** Reads, and writes to the files that hold CPU settings: the boost
    switches, [scaling_governor], [energy_performance_preference] and the
    two frequency limits. *)
Definition settings_only (e : event) : bool :=
  match e with
  | EvRead _ => true
  | EvWrite intel_no_turbo_path _ _ => true
  | EvWrite cpufreq_boost_path _ _ => true
  | EvWrite (policy_boost_path _) _ _ => true
  | EvWrite (cpu_path _ scaling_governor) _ _ => true
  | EvWrite (cpu_path _ energy_performance_preference) _ _ => true
  | EvWrite (cpu_path _ scaling_min_freq) _ _ => true
  | EvWrite (cpu_path _ scaling_max_freq) _ _ => true
  | EvWrite _ _ _ => false
  end.

(** ** The kernel's CPU list format

    What [cpu/online] and [cpu/possible] hold: ranges [a-b] and single
    numbers, separated by commas, with a newline at the end. *)

Definition newline : string := String "010" "".

Definition cpulist_part (r : Z * Z) : string :=
  if decide (r.1 = r.2) then Py.str r.1 else Py.str r.1 +:+ "-" +:+ Py.str r.2.

Fixpoint cpulist (rs : list (Z * Z)) : string :=
  match rs with
  | [] => ""
  | r :: rs' =>
      match rs' with
      | [] => cpulist_part r
      | _ => cpulist_part r +:+ "," +:+ cpulist rs'
      end
  end.

(** The CPUs such a list stands for. *)
Definition cpulist_cpus (rs : list (Z * Z)) : list Z :=
  concat ((λ r, Py.range r.1 (r.2 + 1)) <$> rs).

(** * Properties *)

(** ** Frames compose *)

Section frame.
Context {O : Type} (RO : relation O) `{!PreOrder RO} (P : event → bool).

Lemma frame_refl s : frame P s s.
Proof.
  split; try done. exists []. by rewrite app_nil_r.
Qed.

Lemma frame_trans s1 s2 s3 : frame P s1 s2 → frame P s2 s3 → frame P s1 s3.
Proof.
  intros [[n1 [E1 F1]] Hf1 Hd1 ? ? ? ?] [[n2 [E2 F2]] Hf2 Hd2 ? ? ? ?].
  split; try congruence.
  - exists (n1 ++ n2). rewrite E2, E1, app_assoc. split; [done|].
    by apply Forall_app.
  - intros p Hp. rewrite Hf2, Hf1; done.
  - intros p. rewrite Hd2, Hd1. done.
Qed.

Lemma frame_log e s : P e = true → frame P s (log e s).
Proof.
  intros He. split; try done. exists [e]. split; [done|]. by constructor.
Qed.

Lemma frame_store p v s :
  is_Some (files s !! p) → P (EvWrite p v true) = true → frame P s (store p v s).
Proof.
  intros Hp He. split; try done.
  - exists []. by rewrite app_nil_r.
  - intros q Hq. simpl. destruct (decide (p = q)) as [->|Hne].
    + rewrite Hq in He. discriminate.
    + by rewrite lookup_insert_ne.
  - intros q. simpl. destruct (decide (p = q)) as [->|Hne].
    + rewrite lookup_insert_eq. split; [done|]. intros _; by eexists.
    + by rewrite lookup_insert_ne.
Qed.

Lemma respects_ret {A} (a : A) : respects RO P (ret a).
Proof. intros o s. split; [reflexivity | apply frame_refl]. Qed.

Lemma respects_raise {A} e : respects RO P (raise (A := A) e).
Proof. intros o s. split; [reflexivity | apply frame_refl]. Qed.

Lemma respects_or_raise {A} e (x : option A) : respects RO P (or_raise e x).
Proof. destruct x; [apply respects_ret | apply respects_raise]. Qed.

Lemma respects_get_self : respects RO P get_self.
Proof. intros o s. split; [reflexivity | apply frame_refl]. Qed.

Lemma respects_set_self f : (∀ o, RO o (f o)) → respects RO P (set_self f).
Proof. intros Hf o s. split; [apply Hf | apply frame_refl]. Qed.

Lemma respects_exists p : respects RO P (exists_ p).
Proof. intros o s. split; [reflexivity | apply frame_refl]. Qed.

Lemma respects_exists_cpuidle cpu : respects RO P (exists_cpuidle cpu).
Proof. intros o s. split; [reflexivity | apply frame_refl]. Qed.

Lemma respects_listdir_cpuidle cpu : respects RO P (listdir_cpuidle cpu).
Proof.
  intros o s. unfold listdir_cpuidle.
  destruct (cpuidle_dirs s !! cpu); (split; [reflexivity | apply frame_refl]).
Qed.

Lemma respects_glob : respects RO P glob_cpu_dirs.
Proof. intros o s. split; [reflexivity | apply frame_refl]. Qed.

Lemma respects_read p : P (EvRead p) = true → respects RO P (read p).
Proof.
  intros Hp o s. unfold read.
  destruct (files s !! p); [destruct (read_errno s p)|];
    (split; [reflexivity | by apply frame_log]).
Qed.

Lemma respects_write p v :
  (∀ ok, P (EvWrite p v ok) = true) → respects RO P (write p v).
Proof.
  intros Hp o s. unfold write.
  destruct (files s !! p) eqn:E; [destruct (write_errno s p v)|];
    (split; [reflexivity|]); try by apply frame_log.
  eapply frame_trans; [apply (frame_store p v)|apply frame_log]; eauto.
Qed.

Lemma respects_bind {A B} (c : M O A) (k : A → M O B) :
  respects RO P c → (∀ a, respects RO P (k a)) → respects RO P (c ≫= k).
Proof.
  intros Hc Hk o s. unfold mbind, M_bind, bind.
  specialize (Hc o s). destruct (c o s) as [[[a|e] o'] s']; [|done].
  destruct Hc as [Ho Hs]. specialize (Hk a o' s'). destruct Hk as [Ho' Hs'].
  split; [by etrans | by eapply frame_trans].
Qed.

Lemma respects_fmap {A B} (f : A → B) (c : M O A) :
  respects RO P c → respects RO P (f <$> c).
Proof.
  intros Hc. unfold fmap, M_fmap.
  apply (respects_bind c (λ a, ret (f a))); [done|]. intros; apply respects_ret.
Qed.

Lemma respects_try_except {A} (c : M O A) h :
  respects RO P c → (∀ e, respects RO P (h e)) → respects RO P (try_except c h).
Proof.
  intros Hc Hh o s. unfold try_except.
  specialize (Hc o s). destruct (c o s) as [[[a|e] o'] s']; [done|].
  destruct Hc as [Ho Hs]. specialize (Hh e o' s'). destruct Hh as [Ho' Hs'].
  split; [by etrans | by eapply frame_trans].
Qed.

Lemma respects_for_fold {A S} (body : S → A → M O S) l acc :
  (∀ acc x, x ∈ l → respects RO P (body acc x)) → respects RO P (for_fold body l acc).
Proof.
  revert acc. induction l as [|x l IH]; intros acc Hb; simpl.
  - apply respects_ret.
  - apply respects_bind; [apply Hb; left|].
    intros acc'. apply IH. intros ? ? ?. apply Hb. by right.
Qed.

Lemma respects_read_int p : P (EvRead p) = true → respects RO P (read_int p).
Proof.
  intros Hp. unfold read_int.
  apply respects_bind; [by apply respects_read | intros; apply respects_or_raise].
Qed.

Lemma respects_for_each {A} (l : list A) body :
  (∀ x, x ∈ l → respects RO P (body x)) → respects RO P (for_each l body).
Proof. intros Hb. apply respects_for_fold. intros _ x. apply Hb. Qed.

End frame.

Section returns.
Context {O : Type}.

Lemma returns_ret {A} (Q : A → Prop) a : Q a → returns (O := O) Q (ret a).
Proof. intros Ha o s a' [= <-]. done. Qed.

Lemma returns_bind {A B} (Q : B → Prop) (c : M O A) (k : A → M O B) :
  (∀ a, returns Q (k a)) → returns Q (c ≫= k).
Proof.
  intros Hk o s b. unfold mbind, M_bind, bind.
  destruct (c o s) as [[[a|e] o'] s']; [apply Hk | done].
Qed.

Lemma returns_try_except {A} (Q : A → Prop) (c : M O A) h :
  returns Q c → (∀ e, returns Q (h e)) → returns Q (try_except c h).
Proof.
  intros Hc Hh o s a. unfold try_except. specialize (Hc o s).
  destruct (c o s) as [[[a'|e] o'] s']; [apply Hc | apply Hh].
Qed.

Lemma returns_for_fold {A S} (Q : S → Prop) (body : S → A → M O S) l acc :
  Q acc → (∀ acc x, Q acc → returns Q (body acc x)) →
  returns Q (for_fold body l acc).
Proof.
  revert acc. induction l as [|x l IH]; intros acc Hacc Hb; simpl.
  - by apply returns_ret.
  - intros o s a. unfold mbind, M_bind, bind.
    pose proof (Hb acc x Hacc o s) as Hstep.
    destruct (body acc x o s) as [[[acc'|e] o'] s']; [|done].
    apply IH; [by apply Hstep | done].
Qed.

Lemma respects_bind_returns (RO : relation O) `{!PreOrder RO} P
      {A B} (Q : A → Prop) (c : M O A) (k : A → M O B) :
  respects RO P c → returns Q c → (∀ a, Q a → respects RO P (k a)) →
  respects RO P (c ≫= k).
Proof.
  intros Hc HQ Hk o s. unfold mbind, M_bind, bind.
  specialize (Hc o s). specialize (HQ o s).
  destruct (c o s) as [[[a|e] o'] s']; [|done].
  destruct Hc as [Ho Hs]. specialize (Hk a (HQ a eq_refl) o' s').
  destruct Hk as [Ho' Hs'].
  split; [by etrans | by eapply frame_trans].
Qed.
End returns.

(** Decompose [respects] goals along the structure of the program. *)
Ltac frame_apply L :=
  apply L; try (lazymatch goal with |- PreOrder _ => apply _ end).

Ltac frame_step :=
  lazymatch goal with
  | |- respects _ _ (mbind _ _) => frame_apply respects_bind; [|intros ?]
  | |- respects _ _ (fmap _ _) => frame_apply respects_fmap
  | |- respects _ _ (ret _) => frame_apply respects_ret
  | |- respects _ _ (raise _) => frame_apply respects_raise
  | |- respects _ _ (or_raise _ _) => frame_apply respects_or_raise
  | |- respects _ _ get_self => frame_apply respects_get_self
  | |- respects _ _ (exists_ _) => frame_apply respects_exists
  | |- respects _ _ (exists_cpuidle _) => frame_apply respects_exists_cpuidle
  | |- respects _ _ (listdir_cpuidle _) => frame_apply respects_listdir_cpuidle
  | |- respects _ _ glob_cpu_dirs => frame_apply respects_glob
  | |- respects _ _ (try_except _ _) => frame_apply respects_try_except; [|intros ?]
  | |- respects _ _ (for_fold _ _ _) => frame_apply respects_for_fold; intros ? ? ?
  | |- respects _ _ (for_each _ _) => frame_apply respects_for_each; intros ? ?
  | |- respects _ _ (read _) => frame_apply respects_read
  | |- respects _ _ (read_int _) => frame_apply respects_read_int
  | |- respects _ _ (write _ _) => frame_apply respects_write; intros ?
  | |- respects _ _ (set_self _) => frame_apply respects_set_self; intros ?
  | |- respects _ _ (if ?b then _ else _) => destruct b
  | |- respects _ _ (match ?x with _ => _ end) => destruct x
  end.

Ltac returns_step :=
  lazymatch goal with
  | |- returns _ (mbind _ _) => apply returns_bind; intros ?
  | |- returns _ (ret _) => apply returns_ret
  | |- returns _ (try_except _ _) => apply returns_try_except; [|intros ?]
  | |- returns _ (if ?b then _ else _) => destruct b
  | |- returns _ (match ?x with _ => _ end) => destruct x
  end.

Ltac returns_auto := repeat (cbv beta zeta; returns_step).

Create HintDb frames.
Global Hint Extern 1 (PreOrder _) => apply _ : frames.

Ltac frame_auto :=
  repeat (cbv beta zeta;
          lazymatch goal with
          | |- respects _ _ _ => first [frame_step | solve [auto with frames]]
          | |- _ => solve [simpl; auto]
          end).

(** ** Which [online] files the core-parking path writes *)

Global Hint Extern 0 (any_self _ _) => exact I : core.

Section parking_frames.
Context (RO : relation CPUManager) `{!PreOrder RO} (X : Z → bool).

Lemma get_available_cstates_respects cpu :
  respects RO (parking_only X) (get_available_cstates cpu).
Proof. unfold get_available_cstates. frame_auto. Qed.
Hint Resolve get_available_cstates_respects : frames.

Lemma get_deepest_available_cstate_respects cpu :
  respects RO (parking_only X) (get_deepest_available_cstate cpu).
Proof. unfold get_deepest_available_cstate. frame_auto. Qed.
Hint Resolve get_deepest_available_cstate_respects : frames.

Lemma disable_deeper_states_returns l :
  returns (O := CPUManager) disable_entries (disable_deeper_states l).
Proof.
  unfold disable_deeper_states.
  apply returns_for_fold; [by constructor|].
  intros acc st Hacc. cbv zeta.
  destruct (bool_decide _); [|by apply returns_ret].
  apply returns_bind. intros [|]; [|by apply returns_ret].
  apply returns_try_except; [|intros; by apply returns_ret].
  apply returns_bind. intros v.
  assert (disable_entries
            (acc ++ [(cpuidle_path (cs_path st).1 (cs_path st).2 idle_disable, v)])).
  { apply Forall_app. split; [done|]. constructor; [|constructor]. by eexists _, _. }
  apply returns_try_except; [|intros; by apply returns_ret].
  apply returns_bind. intros _. by apply returns_ret.
Qed.

Lemma disable_deeper_states_respects l :
  respects RO (parking_only X) (disable_deeper_states l).
Proof. unfold disable_deeper_states. frame_auto. Qed.

Lemma restore_deeper_states_respects ds :
  disable_entries ds → respects RO (parking_only X) (restore_deeper_states ds).
Proof.
  intros Hds. unfold restore_deeper_states.
  frame_step. destruct x as [p v].
  eapply Forall_forall in Hds as (c & dir & Hp); [|done]. simpl in Hp. subst p.
  frame_auto.
Qed.

Lemma force_cpu_to_cstate_respects cpu t :
  respects RO (parking_only X) (force_cpu_to_cstate cpu t).
Proof.
  unfold force_cpu_to_cstate.
  frame_step; [|frame_auto].
  frame_step; [frame_auto|]. destruct a; [|frame_auto].
  frame_step; [frame_auto|]. destruct (negb a); [frame_auto|].
  frame_step; [frame_auto|]. destruct (find _ _); [|frame_auto].
  eapply respects_bind_returns;
    [apply _ | apply disable_deeper_states_respects
     | apply disable_deeper_states_returns |].
  intros ds Hds.
  frame_step; [frame_auto|].
  frame_step; [by apply restore_deeper_states_respects | frame_auto].
Qed.
Hint Resolve force_cpu_to_cstate_respects : frames.

Lemma offline_cpu_with_cstate_prep_respects cpu t :
  (cpu ≠ 0 → X cpu = true) →
  respects RO (parking_only X) (offline_cpu_with_cstate_prep cpu t).
Proof. intros HX. unfold offline_cpu_with_cstate_prep. frame_auto. Qed.

Lemma online_cpu_respects cpu :
  (cpu ≠ 0 → X cpu = true) → respects RO (parking_only X) (online_cpu cpu).
Proof. intros HX. unfold online_cpu. frame_auto. Qed.

End parking_frames.

Global Hint Resolve get_available_cstates_respects
  get_deepest_available_cstate_respects force_cpu_to_cstate_respects : frames.

Section parking_never_cpu0.

Local Abbreviation ok c := (respects (O := CPUManager) any_self not_cpu0 c).

Let not_cpu0_allows c : c ≠ 0 → bool_decide (c ≠ 0) = true.
Proof. intros. by apply bool_decide_eq_true. Qed.
Hint Resolve not_cpu0_allows : core.

Lemma topology_step_ok pc cpu : ok (topology_step pc cpu).
Proof. unfold topology_step. frame_auto. Qed.
Hint Resolve topology_step_ok : frames.

Lemma initialize_cpu_topology_ok : ok initialize_cpu_topology.
Proof.
  unfold initialize_cpu_topology.
  frame_step; [frame_auto|].
  destruct (_topology_initialized a); [frame_auto|].
  frame_step; [|frame_auto].
  frame_step; [frame_auto|].
  (* the CPUs brought online, and so those restored, exclude CPU 0 *)
  eapply (respects_bind_returns _ _ (Forall (λ c, c ≠ 0))); [frame_auto| |].
  { apply returns_for_fold; [by constructor|]. intros acc x Hacc.
    returns_auto; try done.
    apply Forall_app. split; [done|]. by repeat constructor. }
  intros brought Hb. frame_auto.
  eapply Forall_forall in Hb; [|done]. simpl. auto.
Qed.
Hint Resolve initialize_cpu_topology_ok : frames.

Lemma get_primary_cpus_by_physical_core_ok : ok get_primary_cpus_by_physical_core.
Proof. unfold get_primary_cpus_by_physical_core. frame_auto. Qed.

Lemma get_cpu_siblings_ok c : ok (get_cpu_siblings c).
Proof. unfold get_cpu_siblings. frame_auto. Qed.

Lemma is_smt_enabled_ok : ok is_smt_enabled.
Proof. unfold is_smt_enabled. frame_auto. Qed.

Lemma online_cpu_ok c : ok (online_cpu c).
Proof. apply online_cpu_respects; auto with frames. Qed.

Lemma offline_cpu_with_cstate_prep_ok c t : ok (offline_cpu_with_cstate_prep c t).
Proof. apply offline_cpu_with_cstate_prep_respects; auto with frames. Qed.

Hint Resolve get_primary_cpus_by_physical_core_ok get_cpu_siblings_ok
  is_smt_enabled_ok online_cpu_ok offline_cpu_with_cstate_prep_ok : frames.

Lemma online_physical_core_ok p : ok (online_physical_core p).
Proof. unfold online_physical_core. frame_auto. Qed.

Lemma offline_physical_core_ok p : ok (offline_physical_core p).
Proof. unfold offline_physical_core. frame_auto. Qed.

Lemma update_online_cpus_ok : ok update_online_cpus.
Proof. unfold update_online_cpus, _get_online_cpus. frame_auto. Qed.

Hint Resolve online_physical_core_ok offline_physical_core_ok
  update_online_cpus_ok : frames.

Lemma set_cpu_cores_with_cstate_optimization_ok t :
  ok (set_cpu_cores_with_cstate_optimization t).
Proof.
  unfold set_cpu_cores_with_cstate_optimization, online_step, offline_step.
  frame_auto.
Qed.

End parking_never_cpu0.

Lemma frame_events_since P s s' :
  frame P s s' → Forall (λ e, P e = true) (events_since s s').
Proof.
  intros [[new [E F]] _ _ _ _ _ _]. unfold events_since.
  by rewrite E, drop_app_length.
Qed.

Lemma not_cpu0_spec e :
  not_cpu0 e = true → is_write_to (cpu_path 0 online) e = false.
Proof.
  destruct e as [|p v ok]; [done|]. simpl.
  destruct p; try by (intros; apply bool_decide_eq_false; discriminate).
  destruct a; try by (intros; apply bool_decide_eq_false; discriminate).
  intros H%bool_decide_eq_true. apply bool_decide_eq_false. congruence.
Qed.

Lemma never_cpu0_events {A} (c : Method A) m s :
  respects any_self not_cpu0 c →
  Forall (λ e, is_write_to (cpu_path 0 online) e = false)
         (events_since s (sys_after (c m s))) ∧
  files (sys_after (c m s)) !! cpu_path 0 online = files s !! cpu_path 0 online.
Proof.
  intros Hc. destruct (Hc m s) as [_ Hf]. split.
  - eapply Forall_impl; [by apply frame_events_since|]. apply not_cpu0_spec.
  - apply (frame_files _ _ _ Hf). intros v. reflexivity.
Qed.

(** C1.  CPU 0 is never taken offline on the core-parking path:
    [offline_cpu_with_cstate_prep 0] returns false and leaves the manager and
    the sysfs tree (trace included) as they were; [offline_physical_core]
    records no write to [cpu0/online], whatever the sibling list; the offline
    loop of [set_cpu_cores_with_cstate_optimization] does nothing at all for
    a physical core whose primary CPU is 0; and a whole call of
    [set_cpu_cores_with_cstate_optimization], for every target count, every
    manager state (topology discovered or not, SMT on or off) and every sysfs
    tree, records no write to [cpu0/online] and leaves that file unchanged. *)
Theorem cpu0_never_offlined :
  (∀ target_cstate m s,
     offline_cpu_with_cstate_prep 0 target_cstate m s = (Ok false, m, s)) ∧
  (∀ primary_cpu m s,
     Forall (λ e, is_write_to (cpu_path 0 online) e = false)
            (events_since s (sys_after (offline_physical_core primary_cpu m s)))) ∧
  (∀ before after smt_enabled success m s,
     offline_step (before ++ 0 :: after) smt_enabled success
                  (Z.of_nat (length before)) m s = (Ok success, m, s)) ∧
  (∀ target_cores m s,
     let s' := sys_after (set_cpu_cores_with_cstate_optimization target_cores m s) in
     Forall (λ e, is_write_to (cpu_path 0 online) e = false) (events_since s s') ∧
     files s' !! cpu_path 0 online = files s !! cpu_path 0 online).
Proof.
  split; [|split; [|split]].
  - reflexivity.
  - intros p m s. apply never_cpu0_events, offline_physical_core_ok.
  - intros before after smt success m s. unfold offline_step, Py.index.
    rewrite decide_True by lia. rewrite Nat2Z.id.
    rewrite list_lookup_middle by done. reflexivity.
  - intros t m s. apply never_cpu0_events, set_cpu_cores_with_cstate_optimization_ok.
Qed.

(** ** Frequency limits: validation before any write *)

Lemma get_cpu_frequency_range_reads_only :
  respects (O := CPUManager) eq no_write get_cpu_frequency_range.
Proof. unfold get_cpu_frequency_range. frame_auto. Qed.

Lemma no_write_frame_files s s' : frame no_write s s' → files s' = files s.
Proof.
  intros Hf. apply map_eq. intros p. by apply (frame_files _ _ _ Hf).
Qed.

Lemma no_write_frame_events s s' :
  frame no_write s s' → writes (events_since s s') = [].
Proof.
  intros Hf%frame_events_since. unfold writes.
  induction Hf as [|e l He _ IH]; [done|].
  rewrite filter_cons. unfold no_write in He.
  destruct (is_write e); [done|]. simpl. apply IH.
Qed.

(** C10.  With both limits omitted [set_cpu_frequency_limits] returns false
    at once: the manager and the whole sysfs tree, its trace of reads and
    writes included, are exactly as before. *)
Theorem set_cpu_frequency_limits_nothing_requested m s :
  set_cpu_frequency_limits None None m s = (Ok false, m, s).
Proof. reflexivity. Qed.

(** C6.  When the hardware range is reported and a requested limit lies
    outside it, or both limits are given with [min > max],
    [set_cpu_frequency_limits] returns false, attempts no write, and leaves
    the manager and every file as they were. *)
Theorem set_cpu_frequency_limits_rejects min_khz max_khz range m s :
  outcome (get_cpu_frequency_range m s) = Ok (Some range) →
  (∃ x, min_khz = Some x ∧ (x < min_freq_khz range ∨ x > max_freq_khz range)) ∨
  (∃ x, max_khz = Some x ∧ (x < min_freq_khz range ∨ x > max_freq_khz range)) ∨
  (∃ a b, min_khz = Some a ∧ max_khz = Some b ∧ a > b) →
  let r := set_cpu_frequency_limits min_khz max_khz m s in
  outcome r = Ok false ∧
  self_after r = m ∧
  files (sys_after r) = files s ∧
  writes (events_since s (sys_after r)) = [].
Proof.
  intros Hrange Hbad.
  destruct (get_cpu_frequency_range_reads_only m s) as [Hm Hs].
  unfold set_cpu_frequency_limits.
  destruct (bool_decide _).
  { unfold events_since. simpl. by rewrite drop_all. }
  unfold mbind, M_bind, bind.
  destruct (get_cpu_frequency_range m s) as [[r m'] s'] eqn:E.
  unfold outcome, self_after, sys_after in *. simpl in Hrange, Hm, Hs |- *.
  subst r m'.
  assert (outcome (Ok false : result bool, m, s') = Ok false ∧
          self_after (Ok false : result bool, m, s') = m ∧
          files (sys_after (Ok false : result bool, m, s')) = files s ∧
          writes (events_since s (sys_after (Ok false : result bool, m, s'))) = [])
    as Hdone.
  { simpl. split_and!; try done.
    - by apply no_write_frame_files.
    - by apply no_write_frame_events. }
  destruct (out_of_range range min_khz) eqn:Emin; [exact Hdone|].
  destruct (out_of_range range max_khz) eqn:Emax; [exact Hdone|].
  destruct Hbad as [(x & -> & Hx)|[(x & -> & Hx)|(a & b & -> & -> & Hab)]].
  - simpl in Emin. apply bool_decide_eq_false in Emin. tauto.
  - simpl in Emax. apply bool_decide_eq_false in Emax. tauto.
  - rewrite bool_decide_eq_true_2 by done. exact Hdone.
Qed.

Lemma set_cpu_frequency_limits_rejects_witness :
  outcome (get_cpu_frequency_range one_cpu_manager one_cpu_tree)
    = Ok (Some (FreqRange 400000 3500000 400 3500)) ∧
  (let r := set_cpu_frequency_limits (Some 5000000) None one_cpu_manager one_cpu_tree in
   outcome r = Ok false ∧
   self_after r = one_cpu_manager ∧
   files (sys_after r) = files one_cpu_tree ∧
   writes (events_since one_cpu_tree (sys_after r)) = []).
Proof.
  split; [vm_compute; reflexivity|].
  apply (set_cpu_frequency_limits_rejects (Some 5000000) None
           (FreqRange 400000 3500000 400 3500) one_cpu_manager one_cpu_tree).
  - vm_compute; reflexivity.
  - left. exists 5000000. split; [reflexivity|]. right. simpl. lia.
Defined.

(** ** EPP *)

(** [__init__] never assigns [_scaling_driver]: on every tree the manager it
    builds has the attribute unset. *)
Lemma __init___respects_scaling_driver :
  respects same_scaling_driver (λ _, true) __init__.
Proof.
  unfold __init__, _detect_possible_cpus, _get_online_cpus.
  frame_auto; reflexivity.
Qed.

Lemma new_CPUManager_scaling_driver_unset s m s' :
  new_CPUManager s = (Ok m, s') → _scaling_driver m = None.
Proof.
  unfold new_CPUManager. intros H.
  destruct (__init___respects_scaling_driver blank_manager s) as [Hm _].
  destruct (__init__ blank_manager s) as [[[[]|e] m1] s1]; simplify_eq.
  exact Hm.
Qed.

(** An EPP value that is not in the live list is rejected with false, no
    write attempted, the files and the manager unchanged. *)
Lemma get_available_epp_options_reads_only :
  respects (O := CPUManager) eq no_write get_available_epp_options.
Proof. unfold get_available_epp_options, first_online_cpu. frame_auto. Qed.

Lemma set_epp_rejects_unavailable epp m s available :
  outcome (get_available_epp_options m s) = Ok available →
  epp ∉ available →
  let r := set_epp epp m s in
  outcome r = Ok false ∧ self_after r = m ∧ files (sys_after r) = files s ∧
  writes (events_since s (sys_after r)) = [].
Proof.
  intros Hav Hnot.
  destruct (get_available_epp_options_reads_only m s) as [Hm Hs].
  unfold set_epp, mbind, M_bind, bind.
  destruct (get_available_epp_options m s) as [[r m'] s'].
  unfold outcome, self_after, sys_after in *. simpl in Hav, Hm, Hs |- *.
  subst r m'. rewrite decide_False by done. simpl.
  split_and!; try done.
  - by apply no_write_frame_files.
  - by apply no_write_frame_events.
Qed.

(** C3.  On a manager as [__init__] builds it, where [_scaling_driver] is
    never assigned, [set_epp] with an available EPP value while the current
    governor is "performance" does not return false: reading
    [self._scaling_driver] raises [AttributeError], outside every [try], and
    the exception leaves [set_epp]. *)
Theorem set_epp_raises_under_performance_governor :
  match new_CPUManager performance_tree with
  | (Ok m, s) =>
      _scaling_driver m = None ∧
      outcome (get_available_epp_options m s)
        = Ok ["power"; "balance_power"; "balance_performance"; "performance"] ∧
      outcome (get_current_governor m s) = Ok (Some "performance") ∧
      outcome (set_epp "power" m s) = Raise AttributeError
  | (Raise _, _) => False
  end.
Proof. vm_compute. split_and!; reflexivity. Qed.

(** ** Runs of the primitive operations *)

Lemma run_bind {O A B} (c : M O A) (k : A → M O B) o s :
  (c ≫= k) o s =
  match c o s with
  | (Ok a, o', s') => k a o' s'
  | (Raise e, o', s') => (Raise e, o', s')
  end.
Proof. reflexivity. Qed.

Lemma run_fmap {O A B} (f : A → B) (c : M O A) o s :
  (f <$> c) o s =
  match c o s with
  | (Ok a, o', s') => (Ok (f a), o', s')
  | (Raise e, o', s') => (Raise e, o', s')
  end.
Proof.
  unfold fmap, M_fmap, bind. by destruct (c o s) as [[[a|e] o'] s'].
Qed.

Lemma run_try_except {O A} (c : M O A) h o s :
  try_except c h o s =
  match c o s with
  | (Ok a, o', s') => (Ok a, o', s')
  | (Raise e, o', s') => h e o' s'
  end.
Proof. reflexivity. Qed.

Lemma for_fold_cons {O A S} (body : S → A → M O S) x l acc :
  for_fold body (x :: l) acc = body acc x ≫= for_fold body l.
Proof. reflexivity. Qed.

Lemma for_fold_nil {O A S} (body : S → A → M O S) acc :
  for_fold body [] acc = ret acc.
Proof. reflexivity. Qed.

(** A guarded write, as a run: the value returned tells whether the file
    was missing, the write refused, or the write accepted. *)
Lemma run_guarded_write {O A} (p : path) v (yes failed absent : A) (o : O) s :
  (exists_ p ≫= λ e : bool,
     if e then try_except (write p v ≫= λ _, ret yes) (λ _, ret failed)
     else ret absent) o s
  = (Ok (if present p s then if accepted p v s then yes else failed else absent),
     o, attempt p v s).
Proof.
  rewrite run_bind. unfold exists_, attempt, accepted, present.
  destruct (bool_decide (is_Some (files s !! p))) eqn:E; [|done].
  apply bool_decide_eq_true in E as [x Hx].
  rewrite run_try_except, run_bind. unfold write. rewrite Hx. simpl.
  by destruct (write_errno s p v) eqn:Ew.
Qed.

Section attempts.
Context (v : string).

Lemma attempt_static p s :
  write_errno (attempt p v s) = write_errno s ∧
  read_errno (attempt p v s) = read_errno s ∧
  cpuidle_dirs (attempt p v s) = cpuidle_dirs s ∧
  cpu_dirs (attempt p v s) = cpu_dirs s.
Proof.
  unfold attempt. destruct (present p s); [|done]. by destruct (accepted p v s).
Qed.

Lemma attempt_lookup p q s :
  files (attempt p v s) !! q =
  if decide (p = q) then (if accepted p v s then Some v else files s !! q)
  else files s !! q.
Proof.
  unfold attempt, accepted. destruct (present p s) eqn:Ep; simpl.
  - destruct (bool_decide (write_errno s p v = None)); simpl.
    + destruct (decide (p = q)) as [->|Hne];
        [by rewrite lookup_insert_eq | by rewrite lookup_insert_ne].
    + by destruct (decide (p = q)).
  - by destruct (decide (p = q)).
Qed.

Lemma attempt_present p q s : present q (attempt p v s) = present q s.
Proof.
  unfold present at 1. rewrite attempt_lookup.
  destruct (decide (p = q)) as [->|]; [|done].
  unfold accepted. destruct (present q s) eqn:E; simpl; [|done].
  destruct (bool_decide (write_errno s q v = None)); [|done].
  by apply bool_decide_eq_true_2.
Qed.

Lemma attempt_accepted p q s : accepted q v (attempt p v s) = accepted q v s.
Proof.
  unfold accepted. rewrite attempt_present.
  by destruct (attempt_static p s) as [-> _].
Qed.

Lemma attempt_trace p s :
  trace (attempt p v s) =
  trace s ++ (if present p s then [EvWrite p v (accepted p v s)] else []).
Proof.
  unfold attempt. destruct (present p s); [|by rewrite app_nil_r].
  by destruct (accepted p v s).
Qed.

Lemma attempts_cons p ps s : attempts (p :: ps) v s = attempts ps v (attempt p v s).
Proof. reflexivity. Qed.

Lemma attempts_accepted ps q s : accepted q v (attempts ps v s) = accepted q v s.
Proof.
  revert s. induction ps as [|p ps IH]; intros s; [done|].
  by rewrite attempts_cons, IH, attempt_accepted.
Qed.

Lemma attempts_present ps q s : present q (attempts ps v s) = present q s.
Proof.
  revert s. induction ps as [|p ps IH]; intros s; [done|].
  by rewrite attempts_cons, IH, attempt_present.
Qed.

Lemma attempts_static ps s :
  write_errno (attempts ps v s) = write_errno s ∧
  read_errno (attempts ps v s) = read_errno s ∧
  cpuidle_dirs (attempts ps v s) = cpuidle_dirs s ∧
  cpu_dirs (attempts ps v s) = cpu_dirs s.
Proof.
  revert s. induction ps as [|p ps IH]; intros s; [done|].
  rewrite attempts_cons.
  destruct (IH (attempt p v s)) as (-> & -> & -> & ->). apply attempt_static.
Qed.

(** After the loop, a file of the list whose write is accepted holds [v];
    every other file is as before. *)
Lemma attempts_lookup ps q s :
  files (attempts ps v s) !! q =
  if bool_decide (q ∈ ps) && accepted q v s then Some v else files s !! q.
Proof.
  revert s. induction ps as [|p ps IH]; intros s; [done|].
  rewrite attempts_cons, IH, attempt_accepted, attempt_lookup.
  destruct (decide (p = q)) as [->|Hne].
  - rewrite (bool_decide_eq_true_2 (q ∈ q :: ps)) by left. simpl.
    by destruct (accepted q v s), (bool_decide (q ∈ ps)).
  - assert (bool_decide (q ∈ p :: ps) = bool_decide (q ∈ ps)) as ->; [|done].
    apply bool_decide_ext. rewrite elem_of_cons.
    split; [intros [?|?]; [congruence|done] | by right].
Qed.

(** The loop records exactly one write per file present, in order. *)
Lemma attempts_trace ps s :
  trace (attempts ps v s) =
  trace s ++ ((λ p, EvWrite p v (accepted p v s)) <$> filter (λ p, present p s = true) ps).
Proof.
  revert s. induction ps as [|p ps IH]; intros s.
  { simpl. by rewrite app_nil_r. }
  rewrite attempts_cons, IH, attempt_trace, <- app_assoc. f_equal.
  rewrite filter_cons.
  assert (filter (λ p0, present p0 (attempt p v s) = true) ps
          = filter (λ p0, present p0 s = true) ps) as ->.
  { apply list_filter_iff. intros q. by rewrite attempt_present. }
  erewrite (list_fmap_ext _ (λ p0, EvWrite p0 v (accepted p0 v s))); last first.
  { intros i q _. by rewrite attempt_accepted. }
  by destruct (present p s).
Qed.

End attempts.

(** ** Computations that always return *)

Section total.
Context {O : Type}.

Lemma total_ret {A} (a : A) : total (O := O) (ret a).
Proof. intros o s. by exists a. Qed.

Lemma total_get_self : total (O := O) get_self.
Proof. intros o s. by exists o. Qed.

Lemma total_set_self f : total (O := O) (set_self f).
Proof. intros o s. by exists tt. Qed.

Lemma total_exists p : total (O := O) (exists_ p).
Proof. intros o s. by eexists. Qed.

Lemma total_exists_cpuidle cpu : total (O := O) (exists_cpuidle cpu).
Proof. intros o s. by eexists. Qed.

Lemma total_bind {A B} (c : M O A) (k : A → M O B) :
  total c → (∀ a, total (k a)) → total (c ≫= k).
Proof.
  intros Hc Hk o s. rewrite run_bind. destruct (Hc o s) as [a Ha].
  destruct (c o s) as [[r o'] s']. unfold outcome in Ha. simpl in Ha. subst r.
  apply Hk.
Qed.

Lemma total_fmap {A B} (f : A → B) (c : M O A) : total c → total (f <$> c).
Proof.
  intros Hc. apply (total_bind c (λ a, ret (f a))); [done|]. intros; apply total_ret.
Qed.

Lemma total_try_except {A} (c : M O A) h :
  (∀ e, total (h e)) → total (try_except c h).
Proof.
  intros Hh o s. rewrite run_try_except.
  destruct (c o s) as [[[a|e] o'] s']; [by exists a | apply Hh].
Qed.

Lemma total_for_fold {A S} (body : S → A → M O S) l acc :
  (∀ acc x, total (body acc x)) → total (for_fold body l acc).
Proof.
  intros Hb. revert acc. induction l as [|x l IH]; intros acc.
  - apply total_ret.
  - rewrite for_fold_cons. apply total_bind; [apply Hb | apply IH].
Qed.

Lemma total_for_each {A} (l : list A) (body : A → M O unit) :
  (∀ x, total (body x)) → total (for_each l body).
Proof. intros Hb. apply total_for_fold. intros _ x. apply Hb. Qed.

End total.

Create HintDb totals.

Ltac total_step :=
  lazymatch goal with
  | |- total (mbind _ _) => apply total_bind; [|intros ?]
  | |- total (fmap _ _) => apply total_fmap
  | |- total (ret _) => apply total_ret
  | |- total get_self => apply total_get_self
  | |- total (set_self _) => apply total_set_self
  | |- total (exists_ _) => apply total_exists
  | |- total (exists_cpuidle _) => apply total_exists_cpuidle
  | |- total (try_except _ _) => apply total_try_except; intros ?
  | |- total (for_fold _ _ _) => apply total_for_fold; intros ? ?
  | |- total (for_each _ _) => apply total_for_each; intros ?
  | |- total (if ?b then _ else _) => destruct b
  | |- total (match ?x with _ => _ end) => destruct x
  end.

Ltac total_auto :=
  repeat (cbv beta zeta; first [total_step | solve [auto with totals]]).

Lemma get_cpu_frequency_range_total : total get_cpu_frequency_range.
Proof. unfold get_cpu_frequency_range. total_auto. Qed.

Lemma limits_step_total a b counts cpu : total (limits_step a b counts cpu).
Proof. unfold limits_step. destruct counts. total_auto. Qed.

Global Hint Resolve get_cpu_frequency_range_total limits_step_total : totals.

Lemma set_cpu_frequency_limits_total a b : total (set_cpu_frequency_limits a b).
Proof. unfold set_cpu_frequency_limits. total_auto. Qed.

Global Hint Resolve set_cpu_frequency_limits_total : totals.

(** ** What [set_cpu_frequency_limits] may write *)

Lemma limits_step_respects a b counts cpu :
  respects (O := CPUManager) eq scaling_only (limits_step a b counts cpu).
Proof. unfold limits_step. destruct counts. frame_auto. Qed.

Global Hint Resolve limits_step_respects : frames.

Lemma set_cpu_frequency_limits_respects a b :
  respects (O := CPUManager) eq scaling_only (set_cpu_frequency_limits a b).
Proof.
  unfold set_cpu_frequency_limits, get_cpu_frequency_range. frame_auto.
Qed.

Lemma get_cpu_frequency_range_respects :
  respects (O := CPUManager) eq scaling_only get_cpu_frequency_range.
Proof. unfold get_cpu_frequency_range. frame_auto. Qed.

(** ** Boost: the per-policy fallback *)

Lemma count_cons f c cpus :
  count f (c :: cpus) = (if f c then 1 else 0) + count f cpus.
Proof.
  unfold count. rewrite filter_cons. destruct (f c) eqn:E.
  - rewrite decide_True by done. simpl length. lia.
  - rewrite decide_False by (by intros ?). lia.
Qed.

Lemma count_ext f g cpus : (∀ c, f c = g c) → count f cpus = count g cpus.
Proof.
  intros H. unfold count. f_equal. f_equal. apply list_filter_iff.
  intros c. by rewrite H.
Qed.

Lemma accepted_present p v s : accepted p v s = true → present p s = true.
Proof. unfold accepted. by intros [? _]%andb_true_iff. Qed.

Lemma boost_step_run enabled sc ta c (m : CPUManager) s :
  boost_step enabled (sc, ta) c m s =
  (Ok (if present (policy_boost_path c) s
       then if accepted (policy_boost_path c) (boost_value enabled) s
            then (sc + 1, ta + 1) else (sc, ta + 1)
       else (sc, ta)),
   m, attempt (policy_boost_path c) (boost_value enabled) s).
Proof. apply run_guarded_write. Qed.

(** The per-policy loop: one guarded write per online CPU. *)
Lemma boost_loop enabled cpus sc ta m s :
  for_fold (boost_step enabled) cpus (sc, ta) m s =
  (Ok (sc + count (λ c, accepted (policy_boost_path c) (boost_value enabled) s) cpus,
       ta + count (λ c, present (policy_boost_path c) s) cpus),
   m, attempts (policy_boost_path <$> cpus) (boost_value enabled) s).
Proof.
  revert sc ta s. induction cpus as [|c cpus IH]; intros sc ta s.
  { unfold count. simpl. by rewrite !Z.add_0_r. }
  rewrite for_fold_cons, run_bind, boost_step_run, !count_cons.
  rewrite fmap_cons, attempts_cons.
  set (s1 := attempt _ _ s).
  assert (count (λ c0, accepted (policy_boost_path c0) (boost_value enabled) s1) cpus
          = count (λ c0, accepted (policy_boost_path c0) (boost_value enabled) s) cpus) as Ea.
  { apply count_ext. intros. apply attempt_accepted. }
  assert (count (λ c0, present (policy_boost_path c0) s1) cpus
          = count (λ c0, present (policy_boost_path c0) s) cpus) as Ep.
  { apply count_ext. intros. apply attempt_present. }
  destruct (present (policy_boost_path c) s) eqn:E1;
    [destruct (accepted (policy_boost_path c) (boost_value enabled) s) eqn:E2|].
  - rewrite IH, Ea, Ep. repeat (f_equal; try lia).
  - rewrite IH, Ea, Ep. repeat (f_equal; try lia).
  - rewrite IH, Ea, Ep.
    assert (accepted (policy_boost_path c) (boost_value enabled) s = false) as ->.
    { unfold accepted. by rewrite E1. }
    repeat (f_equal; try lia).
Qed.

Lemma count_nonneg f cpus : 0 ≤ count f cpus.
Proof. unfold count. lia. Qed.

Lemma count_le f g cpus :
  (∀ c, f c = true → g c = true) → count f cpus ≤ count g cpus.
Proof.
  intros H. induction cpus as [|c cpus IH]; [done|].
  rewrite !count_cons. specialize (H c).
  destruct (f c), (g c); try lia; by specialize (H eq_refl).
Qed.

Lemma count_eq_iff f g cpus :
  (∀ c, f c = true → g c = true) →
  count f cpus = count g cpus ↔ ∀ c, c ∈ cpus → g c = true → f c = true.
Proof.
  intros H. induction cpus as [|c cpus IH].
  { split; [intros _ c Hc; by apply elem_of_nil in Hc | done]. }
  rewrite !count_cons. pose proof (count_le f g cpus H) as Hle.
  pose proof (H c) as Hc.
  split.
  - intros E c' Hin Hg. apply elem_of_cons in Hin as [->|Hin].
    + destruct (f c); [done|]. rewrite Hg in E. lia.
    + apply IH; [|done..]. destruct (f c), (g c); try lia; by specialize (Hc eq_refl).
  - intros Hall. rewrite (proj2 IH).
    + pose proof (Hall c (list_elem_of_here _ _)) as Hh.
      destruct (f c) eqn:Ef, (g c) eqn:Eg; try done.
      * by specialize (Hc eq_refl).
      * by specialize (Hh eq_refl).
    + intros c' Hin. apply Hall. by right.
Qed.

Lemma count_pos_iff f cpus :
  count f cpus > 0 ↔ filter (λ c, f c = true) cpus ≠ [].
Proof.
  unfold count. destruct (filter _ cpus); simpl; split; try done; lia.
Qed.

Lemma events_since_app s s' new :
  trace s' = trace s ++ new → events_since s s' = new.
Proof. intros E. unfold events_since. by rewrite E, drop_app_length. Qed.

Lemma filter_fmap_path {A} (P : path → Prop) `{!∀ p, Decision (P p)} (f : A → path) (l : list A) :
  filter P (f <$> l) = f <$> filter (λ x, P (f x)) l.
Proof.
  induction l as [|x l IH]; [done|].
  rewrite fmap_cons, !filter_cons, IH. by destruct (decide (P (f x))).
Qed.

Lemma filter_policy_writes {A} (g : A → event) (l : list A) :
  (∀ x, is_policy_boost_write (g x) = true) →
  filter (λ e, is_policy_boost_write e = true) (g <$> l) = g <$> l.
Proof.
  intros Hg. induction l as [|x l IH]; [done|].
  rewrite fmap_cons, filter_cons_True by apply Hg. by rewrite IH.
Qed.

(** The global AMD switch: tried when present; [b] is kept when it is
    absent or refuses the write. *)
Lemma run_amd_global {A} (enabled : bool) (b : bool) (k : bool → Method A) m s :
  (exists_ cpufreq_boost_path ≫= λ amd : bool,
     (if amd
      then try_except (write cpufreq_boost_path (if enabled then "1" else "0");;
                       ret true)
                      (λ _, ret b)
      else ret b) ≫= k) m s
  = k (if accepted cpufreq_boost_path (boost_value enabled) s then true else b) m
      (attempt cpufreq_boost_path (boost_value enabled) s).
Proof.
  rewrite run_bind. unfold exists_, attempt, accepted, present.
  change (if enabled then "1" else "0")%string with (boost_value enabled).
  destruct (bool_decide (is_Some (files s !! cpufreq_boost_path))) eqn:E; [|done].
  apply bool_decide_eq_true in E as [x Hx].
  rewrite run_bind, run_try_except, run_bind. unfold write. rewrite Hx. simpl.
  by destruct (write_errno s cpufreq_boost_path (boost_value enabled)).
Qed.

Lemma scaling_not_policy e :
  scaling_only e = true → is_policy_boost_write e = false.
Proof. destruct e as [|[] ? ?]; simpl; done. Qed.

Lemma filter_policy_scaling l :
  Forall (λ e, scaling_only e = true) l →
  filter (λ e, is_policy_boost_write e = true) l = [].
Proof.
  induction 1 as [|e l He _ IH]; [done|].
  rewrite filter_cons, decide_False; [done|].
  rewrite (scaling_not_policy e He). done.
Qed.

Lemma enforce_frequency_limits_total enabled : total (enforce_frequency_limits enabled).
Proof. unfold enforce_frequency_limits. total_auto. Qed.

Lemma enforce_frequency_limits_respects enabled :
  respects eq scaling_only (enforce_frequency_limits enabled).
Proof.
  unfold enforce_frequency_limits.
  pose proof set_cpu_frequency_limits_respects.
  pose proof get_cpu_frequency_range_respects. frame_auto.
Qed.

(** A run of a computation that always returns and keeps [self]. *)
Lemma run_total_eq {A} (c : Method A) P m s :
  total c → respects eq P c →
  ∃ a s', c m s = (Ok a, m, s') ∧ frame P s s'.
Proof.
  intros Ht Hr. destruct (Ht m s) as [a Ha]. destruct (Hr m s) as [Hm Hs].
  destruct (c m s) as [[r m'] s']. unfold outcome, self_after, sys_after in *.
  simpl in *. subst. by eexists _, _.
Qed.

(** The run of [set_cpu_boost] when neither global switch takes the write. *)
Lemma set_cpu_boost_per_policy_run enabled m s :
  files s !! intel_no_turbo_path = None →
  accepted cpufreq_boost_path (boost_value enabled) s = false →
  let v := boost_value enabled in
  let s2 := attempts (policy_boost_path <$> _online_cpus m) v
                     (attempt cpufreq_boost_path v s) in
  let acc := λ c, accepted (policy_boost_path c) v s in
  let pres := λ c, present (policy_boost_path c) s in
  if bool_decide (count pres (_online_cpus m) > 0
                  ∧ count acc (_online_cpus m) = count pres (_online_cpus m))
  then ∃ s3, set_cpu_boost enabled m s = (Ok true, m, s3) ∧ frame scaling_only s2 s3
  else set_cpu_boost enabled m s = (Ok false, m, s2).
Proof.
  intros Hintel Hamd v s2 acc pres. fold v in Hamd.
  set (s1 := attempt cpufreq_boost_path v s) in *.
  assert (∀ c, accepted (policy_boost_path c) v s1 = acc c) as Hacc1.
  { intros c. apply attempt_accepted. }
  assert (∀ c, present (policy_boost_path c) s1 = pres c) as Hpres1.
  { intros c. apply attempt_present. }
  assert (set_cpu_boost enabled m s =
          try_except
            ((if bool_decide (count pres (_online_cpus m) > 0
                  ∧ count acc (_online_cpus m) = count pres (_online_cpus m))
              then ret (Some true)
              else if bool_decide (count pres (_online_cpus m) > 0) then ret None
              else ret (Some false)) ≫= λ per_cpu : option bool,
               match per_cpu with
               | None => ret false
               | Some boost_success =>
                   (if boost_success : bool then enforce_frequency_limits enabled
                    else ret tt);;
                   ret boost_success
               end)
            (λ _ : exn, ret false) m s2) as ->.
  { unfold set_cpu_boost.
    rewrite !run_try_except. f_equal.
    rewrite run_bind. unfold exists_ at 1.
    rewrite Hintel. rewrite bool_decide_eq_false_2 by (by intros [? ?]).
    cbv beta iota. rewrite run_bind. unfold ret at 1. cbv beta iota.
    rewrite run_amd_global. fold v. rewrite Hamd. fold s1.
    rewrite run_bind. unfold get_self at 1. cbv beta iota.
    rewrite (run_bind (_ ≫= _)), run_bind, boost_loop. fold v s2.
    rewrite !Z.add_0_l.
    rewrite (count_ext (λ c, accepted _ _ s1) acc) by apply Hacc1.
    rewrite (count_ext (λ c, present _ s1) pres) by apply Hpres1.
    reflexivity. }
  rewrite run_try_except, run_bind.
  destruct (bool_decide (count pres (_online_cpus m) > 0 ∧ _)) eqn:Eall.
  - unfold ret at 1. cbv beta iota. rewrite run_bind.
    destruct (run_total_eq (enforce_frequency_limits enabled) scaling_only m s2
                (enforce_frequency_limits_total _)
                (enforce_frequency_limits_respects _)) as (a & s3 & -> & Hf).
    exists s3. done.
  - destruct (bool_decide (count pres (_online_cpus m) > 0)); [done|].
    unfold ret at 1. cbv beta iota. by rewrite run_bind.
Qed.

(** C5.  With no Intel [no_turbo] file and the global AMD switch absent or
    refusing the write, [set_cpu_boost] attempts, in order, one write of the
    boost value to the per-policy file of every online CPU that has one; it
    returns true exactly when there is at least one such file and every one
    of these writes is accepted, and false otherwise; and whatever it
    returns, each per-policy file whose write was accepted holds the new
    value afterwards: nothing is rolled back. *)
Theorem set_cpu_boost_per_policy enabled m s :
  files s !! intel_no_turbo_path = None →
  accepted cpufreq_boost_path (boost_value enabled) s = false →
  let v := boost_value enabled in
  let r := set_cpu_boost enabled m s in
  let targets :=
    filter (λ c, present (policy_boost_path c) s = true) (_online_cpus m) in
  filter (λ e, is_policy_boost_write e = true) (events_since s (sys_after r))
    = (λ c, EvWrite (policy_boost_path c) v (accepted (policy_boost_path c) v s))
        <$> targets ∧
  (outcome r = Ok true ∨ outcome r = Ok false) ∧
  (outcome r = Ok true ↔
     targets ≠ [] ∧ ∀ c, c ∈ targets → accepted (policy_boost_path c) v s = true) ∧
  (∀ c, c ∈ targets → accepted (policy_boost_path c) v s = true →
        files (sys_after r) !! policy_boost_path c = Some v).
Proof.
  intros Hintel Hamd v r targets.
  pose proof (set_cpu_boost_per_policy_run enabled m s Hintel Hamd) as Hrun.
  cbv zeta in Hrun. fold v in Hrun, Hamd.
  set (s1 := attempt cpufreq_boost_path v s) in *.
  set (ps := policy_boost_path <$> _online_cpus m) in *.
  set (s2 := attempts ps v s1) in *.
  set (acc := λ c, accepted (policy_boost_path c) v s) in *.
  set (pres := λ c, present (policy_boost_path c) s) in *.
  assert (∀ c, accepted (policy_boost_path c) v s1 = acc c) as Hacc1.
  { intros c. apply attempt_accepted. }
  assert (∀ c, present (policy_boost_path c) s1 = pres c) as Hpres1.
  { intros c. apply attempt_present. }
  assert (trace s2 = trace s ++
            ((if present cpufreq_boost_path s
              then [EvWrite cpufreq_boost_path v (accepted cpufreq_boost_path v s)]
              else []) ++
             ((λ c, EvWrite (policy_boost_path c) v (acc c)) <$> targets))) as Htr2.
  { unfold s2. rewrite attempts_trace. unfold s1 at 1.
    rewrite attempt_trace, <- app_assoc. do 2 f_equal.
    unfold ps. rewrite filter_fmap_path, <- list_fmap_compose.
    rewrite (list_filter_iff _ (λ c, pres c = true)) by (intros c; by rewrite Hpres1).
    apply list_fmap_ext. intros i c _. simpl. by rewrite Hacc1. }
  assert (∀ new, Forall (λ e, scaling_only e = true) new →
            filter (λ e, is_policy_boost_write e = true)
              (((if present cpufreq_boost_path s
                 then [EvWrite cpufreq_boost_path v (accepted cpufreq_boost_path v s)]
                 else []) ++
                ((λ c, EvWrite (policy_boost_path c) v (acc c)) <$> targets)) ++ new)
            = (λ c, EvWrite (policy_boost_path c) v (acc c)) <$> targets) as Hev.
  { intros new Hnew. rewrite !filter_app, (filter_policy_scaling new Hnew), app_nil_r.
    rewrite filter_policy_writes by done.
    by destruct (present cpufreq_boost_path s). }
  assert (∀ c, c ∈ targets → acc c = true →
               files s2 !! policy_boost_path c = Some v) as Hfiles2.
  { intros c Hc Ha. unfold s2. rewrite attempts_lookup, Hacc1, Ha.
    rewrite bool_decide_eq_true_2; [done|].
    unfold ps. apply list_elem_of_fmap_2. unfold targets in Hc.
    by apply list_elem_of_filter in Hc as [_ ?]. }
  assert ((count pres (_online_cpus m) > 0 ∧
           count acc (_online_cpus m) = count pres (_online_cpus m))
          ↔ targets ≠ [] ∧ ∀ c, c ∈ targets → acc c = true) as Hcount.
  { rewrite (count_eq_iff acc pres) by (intros c; apply accepted_present).
    rewrite (count_pos_iff pres). unfold targets. split.
    - intros [Hpos Hall]. split; [done|].
      intros c [Hp Hin]%list_elem_of_filter. by apply Hall.
    - intros [Hne Hall]. split; [done|].
      intros c Hin Hp. apply Hall. by apply list_elem_of_filter. }
  destruct (bool_decide _) eqn:Eall in Hrun.
  - apply bool_decide_eq_true in Eall.
    destruct Hrun as (s3 & Hr & Hf). unfold r. rewrite Hr.
    unfold outcome, sys_after. simpl.
    destruct (frame_trace _ _ _ Hf) as (new & Hnew & Hall).
    split_and!.
    + rewrite (events_since_app s s3 _ ltac:(by rewrite Hnew, Htr2, <- app_assoc)).
      by apply Hev.
    + by left.
    + split; [intros _; by apply Hcount | done].
    + intros c Hc Ha. rewrite (frame_files _ _ _ Hf); [by apply Hfiles2|done].
  - apply bool_decide_eq_false in Eall.
    unfold r. rewrite Hrun. unfold outcome, sys_after. simpl.
    split_and!.
    + rewrite (events_since_app s s2 _ Htr2).
      rewrite <- (app_nil_r (_ ++ _)). by apply Hev.
    + by right.
    + split; [done|]. intros H. by apply Hcount in H.
    + done.
Qed.

Lemma set_cpu_boost_per_policy_witness :
  files scenario_C_tree !! intel_no_turbo_path = None ∧
  accepted cpufreq_boost_path (boost_value false) scenario_C_tree = false ∧
  (let v := boost_value false in
   let r := set_cpu_boost false scenario_C_manager scenario_C_tree in
   let targets :=
     filter (λ c, present (policy_boost_path c) scenario_C_tree = true)
            (_online_cpus scenario_C_manager) in
   filter (λ e, is_policy_boost_write e = true)
          (events_since scenario_C_tree (sys_after r))
     = (λ c, EvWrite (policy_boost_path c) v
                     (accepted (policy_boost_path c) v scenario_C_tree))
         <$> targets ∧
   (outcome r = Ok true ∨ outcome r = Ok false) ∧
   (outcome r = Ok true ↔
      targets ≠ [] ∧
      ∀ c, c ∈ targets → accepted (policy_boost_path c) v scenario_C_tree = true) ∧
   (∀ c, c ∈ targets → accepted (policy_boost_path c) v scenario_C_tree = true →
         files (sys_after r) !! policy_boost_path c = Some v)).
Proof.
  split; [reflexivity|]. split; [reflexivity|].
  apply (set_cpu_boost_per_policy false scenario_C_manager scenario_C_tree);
    reflexivity.
Defined.

(** Scenario C, run: false is returned, CPUs 0, 1 and 3 are switched to "0"
    and CPU 2 still reads "1". *)
Example scenario_C :
  let r := set_cpu_boost false scenario_C_manager scenario_C_tree in
  outcome r = Ok false ∧
  (λ c, files (sys_after r) !! policy_boost_path c) <$> [0; 1; 2; 3]
    = [Some "0"; Some "0"; Some "1"; Some "0"].
Proof. vm_compute. split; reflexivity. Qed.

(** ** Boost and the frequency ceiling *)

Lemma frame_attempt P p v s :
  (∀ ok, P (EvWrite p v ok) = true) → frame P s (attempt p v s).
Proof.
  intros HP. unfold attempt, accepted.
  destruct (present p s) eqn:Ep; [|apply frame_refl]. simpl.
  apply bool_decide_eq_true in Ep.
  destruct (bool_decide (write_errno s p v = None)).
  - eapply frame_trans; [by apply (frame_store P p v)|by apply frame_log].
  - by apply frame_log.
Qed.

Lemma frame_attempts P ps v s :
  (∀ p ok, p ∈ ps → P (EvWrite p v ok) = true) → frame P s (attempts ps v s).
Proof.
  revert s. induction ps as [|p ps IH]; intros s HP; [apply frame_refl|].
  rewrite attempts_cons. eapply frame_trans.
  - apply frame_attempt. intros ok. apply HP. left.
  - apply IH. intros q ok Hq. apply HP. by right.
Qed.

(** The Intel switch is written outside every inner [try]: a refused write
    raises. *)
Lemma run_write p v (m : CPUManager) s :
  present p s = true →
  write p v m s =
  (if accepted p v s then Ok tt else Raise (OSError (default 0 (write_errno s p v))),
   m, attempt p v s).
Proof.
  intros Hp. unfold write, attempt, accepted. rewrite Hp. simpl.
  apply bool_decide_eq_true in Hp as [x Hx]. rewrite Hx.
  by destruct (write_errno s p v).
Qed.

(** Every run of [set_cpu_boost]: first the boost switches, then, when the
    boost change succeeded, the limit enforcement on the resulting tree. *)
Lemma set_cpu_boost_run enabled m s :
  ∃ s_b, frame boost_only s s_b ∧
    (set_cpu_boost enabled m s = (Ok false, m, s_b) ∨
     ∃ s', set_cpu_boost enabled m s = (Ok true, m, s') ∧
           enforce_frequency_limits enabled m s_b = (Ok tt, m, s')).
Proof.
  set (vI := if enabled then "0" else "1").
  set (v := boost_value enabled).
  assert (∀ s0, ∃ s', enforce_frequency_limits enabled m s0 = (Ok tt, m, s')) as Henf.
  { intros s0.
    destruct (run_total_eq (enforce_frequency_limits enabled) scaling_only m s0
                (enforce_frequency_limits_total _)
                (enforce_frequency_limits_respects _)) as ([] & s' & E & _).
    by exists s'. }
  remember (set_cpu_boost enabled m s) as r eqn:Hr.
  unfold set_cpu_boost in Hr. rewrite run_try_except, run_bind in Hr.
  unfold exists_ at 1 in Hr. cbv beta iota in Hr.
  fold (present intel_no_turbo_path s) in Hr.
  destruct (present intel_no_turbo_path s) eqn:EI.
  - (* Intel switch present *)
    rewrite run_bind, run_bind, (run_write _ _ m s EI) in Hr. fold vI in Hr.
    destruct (accepted intel_no_turbo_path vI s) eqn:EaI.
    + unfold ret at 1 in Hr. cbv beta iota in Hr.
      rewrite run_amd_global in Hr. fold v in Hr.
      set (sI := attempt intel_no_turbo_path vI s) in *.
      set (sA := attempt cpufreq_boost_path v sI) in *.
      assert ((if accepted cpufreq_boost_path v sI then true else true) = true) as E.
      { by destruct (accepted cpufreq_boost_path v sI). }
      rewrite E in Hr. clear E.
      exists sA. split.
      { apply (frame_trans _ _ sI); by apply frame_attempt. }
      right. destruct (Henf sA) as [s' Hs']. exists s'. split; [|done].
      rewrite run_bind in Hr. unfold get_self at 1 in Hr. cbv beta iota in Hr.
      rewrite run_bind in Hr. unfold ret at 1 in Hr. cbv beta iota in Hr.
      rewrite run_bind, Hs' in Hr. done.
    + exists (attempt intel_no_turbo_path vI s). split; [by apply frame_attempt|].
      by left.
  - (* no Intel switch *)
    rewrite run_bind in Hr. unfold ret at 1 in Hr. cbv beta iota in Hr.
    rewrite run_amd_global in Hr. fold v in Hr.
    set (sA := attempt cpufreq_boost_path v s) in *.
    rewrite run_bind in Hr. unfold get_self at 1 in Hr. cbv beta iota in Hr.
    destruct (accepted cpufreq_boost_path v s) eqn:EA.
    + exists sA. split; [by apply frame_attempt|].
      right. destruct (Henf sA) as [s' Hs']. exists s'. split; [|done].
      rewrite run_bind in Hr. unfold ret at 1 in Hr. cbv beta iota in Hr.
      rewrite run_bind, Hs' in Hr. done.
    + rewrite (run_bind (_ ≫= _)), run_bind, boost_loop in Hr. fold v in Hr.
      set (s2 := attempts _ v sA) in *. cbv beta iota in Hr.
      exists s2. split.
      { apply (frame_trans _ _ sA); [by apply frame_attempt|].
        apply frame_attempts. intros p ok [c [-> _]]%list_elem_of_fmap. done. }
      destruct (bool_decide (_ ∧ _)).
      * right. destruct (Henf s2) as [s' Hs']. exists s'. split; [|done].
        unfold ret at 1 in Hr. cbv beta iota in Hr. rewrite run_bind, Hs' in Hr. done.
      * left. destruct (bool_decide _); [done|].
        unfold ret at 1 in Hr. cbv beta iota in Hr. by rewrite run_bind in Hr.
Qed.

(** What follows a boost change.  Whenever [set_cpu_boost] returns true, for
    boost enabled and for boost disabled alike, it has first written only
    boost switches and has then, on the resulting tree, read the hardware
    range with [get_cpu_frequency_range] and, when a range was reported,
    called [set_cpu_frequency_limits] with min = the reported minimum and
    max = the reported maximum ([cpuinfo_max_freq] as read at that moment).
    No other ceiling is computed for the boost-disabled case; when no range
    is reported no limit is applied. *)
Theorem set_cpu_boost_enforces_reported_range enabled m s :
  outcome (set_cpu_boost enabled m s) = Ok true →
  ∃ s_b,
    frame boost_only s s_b ∧
    self_after (set_cpu_boost enabled m s) = m ∧
    sys_after (set_cpu_boost enabled m s) =
      match get_cpu_frequency_range m s_b with
      | (Ok (Some range), _, s_r) =>
          sys_after (set_cpu_frequency_limits (Some (min_freq_khz range))
                                              (Some (max_freq_khz range)) m s_r)
      | (_, _, s_r) => s_r
      end.
Proof.
  intros Htrue.
  destruct (set_cpu_boost_run enabled m s) as (s_b & Hf & [Hr|(s' & Hr & He)]).
  { rewrite Hr in Htrue. discriminate. }
  exists s_b. split; [done|]. rewrite Hr. split; [done|].
  unfold sys_after at 1. simpl.
  unfold enforce_frequency_limits in He. rewrite run_bind in He.
  destruct (get_cpu_frequency_range_respects m s_b) as [Hm _].
  destruct (get_cpu_frequency_range m s_b) as [[[[range|]|e] m1] s_r];
    unfold self_after in Hm; simpl in Hm; subst m1.
  - assert ((set_cpu_frequency_limits (Some (min_freq_khz range))
               (Some (max_freq_khz range)) ≫= λ _, ret tt) m s_r = (Ok tt, m, s'))
      as He'.
    { by destruct enabled. }
    rewrite run_bind in He'.
    destruct (set_cpu_frequency_limits _ _ m s_r) as [[[b|e] m2] s2];
      [|discriminate].
    unfold ret in He'. by simplify_eq.
  - unfold ret in He. by simplify_eq.
  - discriminate.
Qed.

Lemma set_cpu_boost_enforces_reported_range_witness :
  outcome (set_cpu_boost false one_cpu_manager capped_tree) = Ok true ∧
  ∃ s_b,
    frame boost_only capped_tree s_b ∧
    self_after (set_cpu_boost false one_cpu_manager capped_tree) = one_cpu_manager ∧
    sys_after (set_cpu_boost false one_cpu_manager capped_tree) =
      match get_cpu_frequency_range one_cpu_manager s_b with
      | (Ok (Some range), _, s_r) =>
          sys_after (set_cpu_frequency_limits (Some (min_freq_khz range))
                       (Some (max_freq_khz range)) one_cpu_manager s_r)
      | (_, _, s_r) => s_r
      end.
Proof.
  split; [vm_compute; reflexivity|].
  apply (set_cpu_boost_enforces_reported_range false one_cpu_manager capped_tree).
  vm_compute; reflexivity.
Defined.

(** C8.  The ceiling applied with boost off is not a value of its own: on
    a machine whose [cpuinfo_max_freq] reads 3500000 kHz before and after
    the boost switch is written, and whose limit was 2000000 kHz, disabling
    boost returns true and leaves [scaling_max_freq] at 3500000, the maximum
    of the hardware range, which [get_cpu_frequency_range] still reports,
    and the very value that enabling boost writes.  The source comment calls
    the value it passes the base frequency; it is one only where the kernel
    lowers [cpuinfo_max_freq] when boost goes off. *)
Lemma boost_off_writes_the_hardware_max :
  let off := set_cpu_boost false one_cpu_manager capped_tree in
  let on := set_cpu_boost true one_cpu_manager capped_tree in
  outcome off = Ok true ∧
  files (sys_after off) !! cpu_path 0 scaling_max_freq = Some "3500000" ∧
  outcome (get_cpu_frequency_range (self_after off) (sys_after off))
    = Ok (Some (FreqRange 400000 3500000 400 3500)) ∧
  files (sys_after on) !! cpu_path 0 scaling_max_freq = Some "3500000".
Proof. vm_compute. split_and!; reflexivity. Qed.

(** Where the kernel has lowered [cpuinfo_max_freq] to the base frequency,
    the same block clamps the limit to it. *)
Example boost_off_on_a_lowered_range :
  let r := enforce_frequency_limits false one_cpu_manager lowered_range_tree in
  outcome r = Ok tt ∧
  files (sys_after r) !! cpu_path 0 scaling_max_freq = Some "2800000" ∧
  files (sys_after r) !! cpu_path 0 scaling_min_freq = Some "400000".
Proof. vm_compute. split_and!; reflexivity. Qed.

(** ** Governors *)

Lemma get_available_governors_reads_only :
  respects (O := CPUManager) eq no_write get_available_governors.
Proof. unfold get_available_governors, first_online_cpu. frame_auto. Qed.

(** [CPUManager.set_governor] does not remap. *)
Lemma set_governor_rejects_unavailable governor m s available :
  outcome (get_available_governors m s) = Ok available →
  governor ∉ available →
  let r := set_governor governor m s in
  outcome r = Ok false ∧ self_after r = m ∧ files (sys_after r) = files s ∧
  writes (events_since s (sys_after r)) = [].
Proof.
  intros Hav Hnot.
  destruct (get_available_governors_reads_only m s) as [Hm Hs].
  unfold set_governor. cbv zeta. rewrite run_bind.
  destruct (get_available_governors m s) as [[r m'] s'].
  unfold outcome, self_after, sys_after in *. simpl in Hav, Hm, Hs |- *.
  subst r m'. rewrite decide_False by done. simpl.
  split_and!; try done.
  - by apply no_write_frame_files.
  - by apply no_write_frame_events.
Qed.

Lemma governor_fallback governor :
  match Main.governor_mapping !! governor with
  | Some g => g
  | None => "powersave"
  end = "powersave".
Proof.
  destruct (Main.governor_mapping !! governor) as [g|] eqn:E; [|done].
  unfold Main.governor_mapping in E. simpl in E.
  repeat (apply lookup_insert_Some in E as [[_ <-]|[_ E]]; [done|]).
  by rewrite lookup_empty in E.
Qed.

Lemma run_read {O} p (o : O) s v :
  files s !! p = Some v → read_errno s p = None →
  read p o s = (Ok v, o, log (EvRead p) s).
Proof. intros Hv He. unfold read. by rewrite Hv, He. Qed.

Lemma plugin_get_online_cpus_run p s :
  ∃ s', Main.get_online_cpus p s = (Ok (plugin_online_cpus s), p, s') ∧
        frame no_write s s'.
Proof.
  unfold Main.get_online_cpus, plugin_online_cpus.
  rewrite run_try_except, run_bind. unfold exists_ at 1. cbv beta iota.
  destruct (files s !! online_list_path) as [v|] eqn:Ev.
  - rewrite bool_decide_eq_true_2 by done.
    rewrite run_bind, run_fmap. unfold read. rewrite Ev.
    destruct (read_errno s online_list_path) eqn:Er.
    + eexists. split; [reflexivity|]. by apply frame_log.
    + destruct (parse_cpu_parts _) as [l|];
        (eexists; split; [reflexivity|]; by apply frame_log).
  - rewrite bool_decide_eq_false_2 by (by intros [? ?]).
    eexists. split; [reflexivity|]. apply frame_refl.
Qed.

Lemma forallb_same {A} (f g : A → bool) l :
  (∀ x, f x = g x) → forallb f l = forallb g l.
Proof. intros H. induction l as [|x l IH]; simpl; [done|]. by rewrite H, IH. Qed.

(** The write loop of [Main.set_power_governor]. *)
Lemma plugin_governor_loop target cpus (success : bool) (p : Main.Plugin) s :
  for_fold
    (λ (success : bool) cpu,
       let gov_path := cpu_path cpu scaling_governor in
       e ← exists_ gov_path;
       if e : bool then
         try_except (write gov_path target;; ret success) (λ _, ret false)
       else ret success)
    cpus success p s
  = (Ok (success &&
         forallb (λ c, negb (present (cpu_path c scaling_governor) s)
                       || accepted (cpu_path c scaling_governor) target s) cpus),
     p, attempts ((λ c, cpu_path c scaling_governor) <$> cpus) target s).
Proof.
  revert success s. induction cpus as [|c cpus IH]; intros success s.
  { simpl. by rewrite andb_true_r. }
  rewrite for_fold_cons, run_bind. cbv beta zeta.
  rewrite run_guarded_write, IH, fmap_cons, attempts_cons. simpl forallb.
  rewrite (forallb_same _ (λ c0, negb (present (cpu_path c0 scaling_governor) s)
                                || accepted (cpu_path c0 scaling_governor) target s)).
  2:{ intros c0. by rewrite attempt_present, attempt_accepted. }
  f_equal. f_equal. f_equal.
  destruct (present (cpu_path c scaling_governor) s) eqn:Ep; simpl.
  - by destruct (accepted _ _ _), success.
  - by destruct success.
Qed.

Lemma accepted_log p v e s : accepted p v (log e s) = accepted p v s.
Proof. reflexivity. Qed.

Lemma present_log p e s : present p (log e s) = present p s.
Proof. reflexivity. Qed.

(** Two trees with the same files and write behaviour end a write loop with
    the same files. *)
Lemma attempts_files_same ps v s s' :
  files s' = files s → write_errno s' = write_errno s →
  files (attempts ps v s') = files (attempts ps v s).
Proof.
  intros Hf Hw. apply map_eq. intros q. rewrite !attempts_lookup.
  unfold accepted, present. by rewrite Hf, Hw.
Qed.

Lemma writes_app l1 l2 : writes (l1 ++ l2) = writes l1 ++ writes l2.
Proof. apply filter_app. Qed.

Lemma writes_no_write l : Forall (λ e, no_write e = true) l → writes l = [].
Proof.
  induction 1 as [|e l He _ IH]; [done|].
  unfold writes in *. rewrite filter_cons. unfold no_write in He.
  destruct (is_write e); [done|]. simpl. apply IH.
Qed.

Lemma writes_all_writes {A} (g : A → event) (l : list A) :
  (∀ x, is_write (g x) = true) → writes (g <$> l) = g <$> l.
Proof.
  intros Hg. induction l as [|x l IH]; [done|].
  unfold writes in *. rewrite fmap_cons, filter_cons, Hg. simpl. by rewrite IH.
Qed.

(** The plugin-level setter remaps an unknown governor to "powersave",
    writes it to every online CPU that has a governor file, and returns
    whether every one of these writes was accepted. *)
Lemma plugin_set_governor_remaps governor p s :
  read_errno s (cpu_path 0 scaling_available_governors) = None →
  governor ∉ plugin_available_governors s →
  let gov := λ c, cpu_path c scaling_governor in
  let cpus := plugin_online_cpus s in
  let r := Main.set_governor governor p s in
  outcome r = Ok (forallb (λ c, negb (present (gov c) s)
                                || accepted (gov c) "powersave" s) cpus) ∧
  files (sys_after r) = files (attempts (gov <$> cpus) "powersave" s) ∧
  writes (events_since s (sys_after r))
    = (λ c, EvWrite (gov c) "powersave" (accepted (gov c) "powersave" s))
        <$> filter (λ c, present (gov c) s = true) cpus ∧
  (outcome r = Ok true →
   Main.current_profile (self_after r) !! "governor" = Some (Main.PyStr "powersave")).
Proof.
  intros Hread Hnot gov cpus r. subst gov. cbv beta.
  (* reading the list of governors *)
  assert (∃ s1, frame no_write s s1 ∧
            ((exists_ (cpu_path 0 scaling_available_governors) ≫= λ e : bool,
                if e then Py.words <$> (Py.strip <$>
                            read (cpu_path 0 scaling_available_governors))
                else ret ["performance"; "powersave"]) p s
             = (Ok (plugin_available_governors s), p, s1))) as (s1 & Hf1 & Hav).
  { rewrite run_bind. unfold exists_, plugin_available_governors.
    destruct (files s !! cpu_path 0 scaling_available_governors) as [v|] eqn:Ev.
    - rewrite bool_decide_eq_true_2 by done. cbv beta iota.
      rewrite !run_fmap, (run_read _ _ _ v Ev Hread).
      eexists. split; [|reflexivity]. by apply frame_log.
    - rewrite bool_decide_eq_false_2 by (by intros [? ?]).
      eexists. split; [|reflexivity]. apply frame_refl. }
  destruct (plugin_get_online_cpus_run p s1) as (s2 & Hon & Hf2).
  assert (plugin_online_cpus s1 = cpus) as Hcpus.
  { unfold cpus, plugin_online_cpus.
    by rewrite (no_write_frame_files _ _ Hf1), (frame_read_errno _ _ _ Hf1). }
  rewrite Hcpus in Hon.
  pose proof (frame_trans _ _ _ _ Hf1 Hf2) as Hf.
  set (s3 := attempts ((λ c, cpu_path c scaling_governor) <$> cpus) "powersave" s2).
  set (ok := forallb (λ c, negb (present (cpu_path c scaling_governor) s) || accepted (cpu_path c scaling_governor) "powersave" s) cpus).
  assert (∀ c, accepted (cpu_path c scaling_governor) "powersave" s2 = accepted (cpu_path c scaling_governor) "powersave" s) as Hacc.
  { intros c. unfold accepted, present.
    by rewrite (no_write_frame_files _ _ Hf), (frame_write_errno _ _ _ Hf). }
  assert (∀ c, present (cpu_path c scaling_governor) s2 = present (cpu_path c scaling_governor) s) as Hpres.
  { intros c. unfold present. by rewrite (no_write_frame_files _ _ Hf). }
  assert (r = (Ok ok, (if ok then Main.MkPlugin (<["governor" := Main.PyStr "powersave"]>
                                                   (Main.current_profile p))
                       else p), s3)) as Hr.
  { unfold r, Main.set_governor, Main.set_power_governor.
    rewrite !run_try_except. cbv zeta. rewrite run_bind.
    rewrite run_bind in Hav.
    destruct (exists_ (cpu_path 0 scaling_available_governors) p s)
      as [[[e|?] p0] s0] eqn:Ee; [|discriminate].
    rewrite run_bind, Hav. cbv beta iota.
    rewrite decide_False by done. rewrite governor_fallback.
    rewrite run_bind, Hon. cbv beta iota.
    rewrite run_bind, plugin_governor_loop. simpl andb.
    rewrite (forallb_same _ (λ c, negb (present (cpu_path c scaling_governor) s)
                                  || accepted (cpu_path c scaling_governor) "powersave" s)).
    2:{ intros c. by rewrite Hacc, Hpres. }
    fold ok. fold s3. by destruct ok. }
  rewrite Hr. unfold outcome, self_after, sys_after. simpl.
  split_and!.
  - done.
  - apply attempts_files_same;
      [by apply no_write_frame_files | by apply (frame_write_errno _ _ _ Hf)].
  - destruct (frame_trace _ _ _ Hf) as (new & Hnew & Hall).
    rewrite (events_since_app s s3
               (new ++ ((λ p0, EvWrite p0 "powersave" (accepted p0 "powersave" s2))
                          <$> filter (λ p0, present p0 s2 = true) ((λ c, cpu_path c scaling_governor) <$> cpus)))).
    2:{ unfold s3. by rewrite attempts_trace, Hnew, <- app_assoc. }
    rewrite writes_app, (writes_no_write new Hall), app_nil_l.
    rewrite writes_all_writes by done.
    rewrite filter_fmap_path, <- list_fmap_compose.
    rewrite (list_filter_iff _ (λ c, present (cpu_path c scaling_governor) s = true))
      by (intros c; by rewrite Hpres).
    apply list_fmap_ext. intros i c _. simpl. by rewrite Hacc.
  - intros [= ->]. simpl. by rewrite lookup_insert_eq.
Qed.

(** C4 (as the code has it).  [CPUManager.set_governor] does not remap: a
    governor that is not in the live list makes it return false with no
    write attempted and nothing changed.  The remapping is done by the
    plugin-level [set_governor] of [main.py] ([set_power_governor]): a
    governor that is not in the list read from cpu0 (or, when that file is
    missing, not in ["performance", "powersave"]) is replaced by
    "powersave", which is written to the governor file of every online CPU
    that has one; the call returns true exactly when every one of these
    writes is accepted, and then records "powersave" as the profile's
    governor. *)
Theorem governor_remap_is_done_by_the_plugin :
  (∀ governor m s available,
     outcome (get_available_governors m s) = Ok available →
     governor ∉ available →
     let r := set_governor governor m s in
     outcome r = Ok false ∧ self_after r = m ∧ files (sys_after r) = files s ∧
     writes (events_since s (sys_after r)) = []) ∧
  (∀ governor p s,
     read_errno s (cpu_path 0 scaling_available_governors) = None →
     governor ∉ plugin_available_governors s →
     let gov := λ c, cpu_path c scaling_governor in
     let cpus := plugin_online_cpus s in
     let r := Main.set_governor governor p s in
     outcome r = Ok (forallb (λ c, negb (present (gov c) s)
                                   || accepted (gov c) "powersave" s) cpus) ∧
     files (sys_after r) = files (attempts (gov <$> cpus) "powersave" s) ∧
     writes (events_since s (sys_after r))
       = (λ c, EvWrite (gov c) "powersave" (accepted (gov c) "powersave" s))
           <$> filter (λ c, present (gov c) s = true) cpus ∧
     (outcome r = Ok true →
      Main.current_profile (self_after r) !! "governor"
        = Some (Main.PyStr "powersave"))).
Proof.
  split.
  - apply set_governor_rejects_unavailable.
  - apply plugin_set_governor_remaps.
Qed.

Lemma governor_remap_is_done_by_the_plugin_witness :
  (outcome (get_available_governors scenario_D_manager scenario_D_tree)
     = Ok ["powersave"; "performance"] ∧
   ("ondemand" ∉ ["powersave"; "performance"]) ∧
   (let r := set_governor "ondemand" scenario_D_manager scenario_D_tree in
    outcome r = Ok false ∧ self_after r = scenario_D_manager ∧
    files (sys_after r) = files scenario_D_tree ∧
    writes (events_since scenario_D_tree (sys_after r)) = [])) ∧
  (read_errno scenario_D_tree (cpu_path 0 scaling_available_governors) = None ∧
   ("ondemand" ∉ plugin_available_governors scenario_D_tree) ∧
   (let gov := λ c, cpu_path c scaling_governor in
    let cpus := plugin_online_cpus scenario_D_tree in
    let r := Main.set_governor "ondemand" scenario_D_plugin scenario_D_tree in
    outcome r = Ok (forallb (λ c, negb (present (gov c) scenario_D_tree)
                                  || accepted (gov c) "powersave" scenario_D_tree)
                            cpus) ∧
    files (sys_after r)
      = files (attempts (gov <$> cpus) "powersave" scenario_D_tree) ∧
    writes (events_since scenario_D_tree (sys_after r))
      = (λ c, EvWrite (gov c) "powersave"
                      (accepted (gov c) "powersave" scenario_D_tree))
          <$> filter (λ c, present (gov c) scenario_D_tree = true) cpus ∧
    (outcome r = Ok true →
     Main.current_profile (self_after r) !! "governor"
       = Some (Main.PyStr "powersave")))).
Proof.
  assert ("ondemand" ∉ ["powersave"; "performance"]) as H1.
  { intros H. by repeat (apply elem_of_cons in H as [H|H]; [discriminate|]);
      apply elem_of_nil in H. }
  assert ("ondemand" ∉ plugin_available_governors scenario_D_tree) as H2.
  { vm_compute plugin_available_governors. intros H.
    by repeat (apply elem_of_cons in H as [H|H]; [discriminate|]);
      apply elem_of_nil in H. }
  destruct governor_remap_is_done_by_the_plugin as [Hmgr Hplugin].
  split.
  - split; [vm_compute; reflexivity|]. split; [exact H1|].
    apply (Hmgr "ondemand" scenario_D_manager scenario_D_tree
                ["powersave"; "performance"]); [vm_compute; reflexivity | exact H1].
  - split; [reflexivity|]. split; [exact H2|].
    apply (Hplugin "ondemand" scenario_D_plugin scenario_D_tree);
      [reflexivity | exact H2].
Defined.

(** On a driver that exposes only "performance" and "powersave",
    [CPUManager.set_governor "ondemand"] returns false and writes nothing,
    the governor stays "performance"; and the plugin-level setter returns
    false, not true, when the kernel refuses one of its writes. *)
Lemma set_governor_does_not_remap :
  let r := set_governor "ondemand" scenario_D_manager scenario_D_tree in
  outcome (get_available_governors scenario_D_manager scenario_D_tree)
    = Ok ["powersave"; "performance"] ∧
  outcome r = Ok false ∧
  writes (events_since scenario_D_tree (sys_after r)) = [] ∧
  files (sys_after r) !! cpu_path 0 scaling_governor = Some "performance" ∧
  outcome (Main.set_governor "ondemand" scenario_D_plugin scenario_D_busy_tree)
    = Ok false.
Proof. vm_compute. split_and!; reflexivity. Qed.

(** Scenario D through the plugin: "powersave" is applied to both CPUs and
    true is returned. *)
Example scenario_D :
  let r := Main.set_governor "ondemand" scenario_D_plugin scenario_D_tree in
  outcome r = Ok true ∧
  (λ c, files (sys_after r) !! cpu_path c scaling_governor) <$> [0; 1]
    = [Some "powersave"; Some "powersave"] ∧
  Main.current_profile (self_after r) !! "governor" = Some (Main.PyStr "powersave").
Proof. vm_compute. split_and!; reflexivity. Qed.

(** ** Frequency limits: the order of the writes *)

Lemma run_read_int {O} p (o : O) s v n :
  files s !! p = Some v → read_errno s p = None → Py.int (Py.strip v) = Some n →
  read_int p o s = (Ok n, o, log (EvRead p) s).
Proof.
  intros Hv He Hn. unfold read_int. rewrite run_bind, (run_read p o s v Hv He).
  by rewrite Hn.
Qed.

(** A write inside its own [try], on a file that is present. *)
Lemma run_try_write {O A} p v (yes no : A) (o : O) s :
  present p s = true →
  try_except (write p v;; ret yes) (λ _, ret no) o s
  = (Ok (if accepted p v s then yes else no), o, attempt p v s).
Proof.
  intros Hp. rewrite run_try_except, run_bind.
  unfold write, attempt, accepted. rewrite Hp. simpl.
  apply bool_decide_eq_true in Hp as [x Hx]. rewrite Hx.
  by destruct (write_errno s p v).
Qed.

Lemma run_try_write_unit {O} p v (o : O) s :
  present p s = true →
  try_except (write p v) (λ _, ret tt) o s = (Ok tt, o, attempt p v s).
Proof.
  intros Hp. rewrite run_try_except.
  unfold write, attempt, accepted. rewrite Hp. simpl.
  apply bool_decide_eq_true in Hp as [x Hx]. rewrite Hx.
  by destruct (write_errno s p v).
Qed.

Lemma limits_step_run mn mx sc ta c m s vmin vmax cur_min cur_max :
  files s !! cpu_path c scaling_min_freq = Some vmin →
  files s !! cpu_path c scaling_max_freq = Some vmax →
  read_errno s (cpu_path c scaling_min_freq) = None →
  read_errno s (cpu_path c scaling_max_freq) = None →
  Py.int (Py.strip vmin) = Some cur_min →
  Py.int (Py.strip vmax) = Some cur_max →
  ∃ counts,
    limits_step mn mx (sc, ta) c m s
    = (Ok counts, m, limits_step_tree mn mx c cur_min cur_max s).
Proof.
  intros Hmin Hmax Hrmin Hrmax Himin Himax.
  set (min_path := cpu_path c scaling_min_freq) in *.
  set (max_path := cpu_path c scaling_max_freq) in *.
  unfold limits_step. cbv zeta. fold min_path max_path.
  rewrite run_bind. unfold exists_ at 1. cbv beta iota.
  rewrite run_bind. unfold exists_ at 1. cbv beta iota.
  rewrite !bool_decide_eq_true_2 by (by eexists).
  change (negb (true && true)) with false. cbv iota.
  rewrite run_try_except, run_bind.
  rewrite (run_read_int min_path m s vmin cur_min Hmin Hrmin Himin).
  set (s1 := log (EvRead min_path) s).
  rewrite run_bind.
  rewrite (run_read_int max_path m s1 vmax cur_max Hmax Hrmax Himax).
  set (s_r := log (EvRead max_path) s1).
  assert (∀ p s0, files s0 = files s → present p s0 = present p s) as Hpres.
  { intros p s0 E. unfold present. by rewrite E. }
  assert (present min_path s = true) as Hpmin by (apply bool_decide_eq_true; by eexists).
  assert (present max_path s = true) as Hpmax by (apply bool_decide_eq_true; by eexists).
  unfold limits_step_tree. cbv zeta. fold min_path max_path s1 s_r.
  destruct mx as [x|].
  - rewrite run_bind, run_bind.
    set (s_p := if decide (x < cur_max ∧ cur_min > x)
                then attempt min_path (Py.str x) s_r else s_r).
    assert ((if decide (x < cur_max ∧ cur_min > x)
             then try_except (write min_path (Py.str x)) (λ _, ret tt)
             else ret tt) m s_r = (Ok tt, m, s_p)) as ->.
    { unfold s_p. destruct (decide _); [|done].
      by rewrite run_try_write_unit. }
    assert (present max_path s_p = true) as Hpmax'.
    { unfold s_p. destruct (decide _); [by rewrite attempt_present|done]. }
    rewrite (run_try_write max_path (Py.str x) true false m s_p Hpmax').
    assert (accepted max_path (Py.str x) s_p = accepted max_path (Py.str x) s) as ->.
    { unfold s_p. destruct (decide _); [by rewrite attempt_accepted|done]. }
    set (s_x := attempt max_path (Py.str x) s_p).
    destruct mn as [n|].
    + rewrite run_bind.
      destruct (accepted max_path (Py.str x) s) eqn:Eok.
      * assert (present min_path s_x = true) as Hpmin'.
        { unfold s_x, s_p. rewrite attempt_present.
          destruct (decide _); [by rewrite attempt_present|done]. }
        rewrite run_try_write by done. eexists. reflexivity.
      * eexists. reflexivity.
    + rewrite run_bind. eexists. reflexivity.
  - rewrite run_bind. unfold ret at 1. cbv beta iota.
    destruct mn as [n|].
    + rewrite run_bind, run_try_write by done. eexists. reflexivity.
    + rewrite run_bind. eexists. reflexivity.
Qed.

Lemma limit_writes_of_app c l1 l2 :
  limit_writes_of c (l1 ++ l2) = limit_writes_of c l1 ++ limit_writes_of c l2.
Proof. unfold limit_writes_of. by rewrite filter_app, omap_app. Qed.

Lemma limit_writes_of_none c l :
  Forall (λ e, not_limit_write_of c e = true) l → limit_writes_of c l = [].
Proof.
  induction 1 as [|e l He _ IH]; [done|].
  unfold limit_writes_of in *. rewrite filter_cons.
  unfold not_limit_write_of in He. destruct (is_limit_write_of c e); [done|].
  rewrite decide_False by done. apply IH.
Qed.

Lemma attempt_trace_present p v s :
  present p s = true →
  trace (attempt p v s) = trace s ++ [EvWrite p v (accepted p v s)].
Proof. intros Hp. by rewrite attempt_trace, Hp. Qed.

(** The step on CPU [c] records exactly the planned limit writes. *)
Lemma limits_step_tree_trace mn mx c cur_min cur_max s :
  present (cpu_path c scaling_min_freq) s = true →
  present (cpu_path c scaling_max_freq) s = true →
  ∃ new,
    trace (limits_step_tree mn mx c cur_min cur_max s) = trace s ++ new ∧
    limit_writes_of c new = limit_write_plan mn mx c cur_min cur_max s.
Proof.
  intros Hpmin Hpmax.
  unfold limits_step_tree, limit_write_plan. cbv zeta.
  set (min_path := cpu_path c scaling_min_freq) in *.
  set (max_path := cpu_path c scaling_max_freq) in *.
  set (s_r := log (EvRead max_path) (log (EvRead min_path) s)).
  assert (trace s_r = trace s ++ [EvRead min_path; EvRead max_path]) as Hr.
  { unfold s_r. simpl. by rewrite <- app_assoc. }
  assert (∀ v, limit_writes_of c [EvWrite min_path v true] = [(min_path, v)] ∧
               limit_writes_of c [EvWrite min_path v false] = [(min_path, v)] ∧
               limit_writes_of c [EvWrite max_path v true] = [(max_path, v)] ∧
               limit_writes_of c [EvWrite max_path v false] = [(max_path, v)]) as Hw.
  { intros v. unfold limit_writes_of, min_path, max_path.
    rewrite !filter_cons. simpl. rewrite !bool_decide_eq_true_2 by done.
    by rewrite !decide_True by done. }
  assert (∀ v ok, limit_writes_of c [EvWrite min_path v ok] = [(min_path, v)]) as Hwmin.
  { intros v [|]; apply Hw. }
  assert (∀ v ok, limit_writes_of c [EvWrite max_path v ok] = [(max_path, v)]) as Hwmax.
  { intros v [|]; apply Hw. }
  clear Hw.
  destruct mx as [x|].
  - set (s_p := if decide (x < cur_max ∧ cur_min > x)
                then attempt min_path (Py.str x) s_r else s_r).
    assert (present min_path s_p = true ∧ present max_path s_p = true ∧
            ∃ pre, trace s_p = trace s ++ [EvRead min_path; EvRead max_path] ++ pre ∧
                   limit_writes_of c pre =
                   (if decide (x < cur_max ∧ cur_min > x)
                    then [(min_path, Py.str x)] else [])) as (Hp1 & Hp2 & pre & Hpre & Hplan).
    { unfold s_p. destruct (decide _).
      - rewrite !attempt_present. split; [done|]. split; [done|].
        eexists. rewrite attempt_trace_present, Hr, <- app_assoc by done.
        split; [reflexivity|]. apply Hwmin.
      - split; [done|]. split; [done|]. exists []. by rewrite app_nil_r. }
    set (s_x := attempt max_path (Py.str x) s_p).
    assert (trace s_x = trace s ++ [EvRead min_path; EvRead max_path] ++ pre ++
                        [EvWrite max_path (Py.str x) (accepted max_path (Py.str x) s_p)])
      as Hx.
    { unfold s_x. rewrite attempt_trace_present, Hpre by done.
      by rewrite <- !app_assoc. }
    assert (limit_writes_of c [EvRead min_path; EvRead max_path] = []) as Hreads by done.
    destruct mn as [n|]; [destruct (accepted max_path (Py.str x) s)|].
    + eexists. rewrite attempt_trace_present, Hx.
      2:{ unfold s_x. by rewrite attempt_present. }
      rewrite <- !app_assoc. split; [reflexivity|].
      by rewrite !limit_writes_of_app, Hreads, Hplan, Hwmax, Hwmin.
    + eexists. rewrite Hx. split; [reflexivity|].
      by rewrite !limit_writes_of_app, Hreads, Hplan, Hwmax, app_nil_r.
    + eexists. rewrite Hx. split; [reflexivity|].
      by rewrite !limit_writes_of_app, Hreads, Hplan, Hwmax, app_nil_r.
  - destruct mn as [n|].
    + eexists. rewrite attempt_trace_present, Hr by done.
      rewrite <- app_assoc. split; [reflexivity|].
      by rewrite limit_writes_of_app, Hwmin.
    + eexists. by rewrite Hr.
Qed.

(** The step on CPU [c] keeps the kernel's behaviour and the files present. *)
Lemma limits_step_tree_frame mn mx c cur_min cur_max s :
  frame (λ _, true) s (limits_step_tree mn mx c cur_min cur_max s).
Proof.
  unfold limits_step_tree. cbv zeta.
  assert (∀ p v s0, frame (λ _, true) s s0 → frame (λ _, true) s (attempt p v s0)) as Ha.
  { intros p v s0 H. eapply frame_trans; [done|]. by apply frame_attempt. }
  assert (frame (λ _, true) s
            (log (EvRead (cpu_path c scaling_max_freq))
                 (log (EvRead (cpu_path c scaling_min_freq)) s))) as Hr.
  { eapply frame_trans; by apply frame_log. }
  destruct mx as [x|], mn as [n|]; repeat (first [destruct (decide _) | destruct (accepted _ _ s)]);
    repeat apply Ha; exact Hr.
Qed.

Lemma for_fold_app {O A S} (body : S → A → M O S) l1 l2 acc o s :
  for_fold body (l1 ++ l2) acc o s
  = (for_fold body l1 acc ≫= for_fold body l2) o s.
Proof.
  revert acc o s. induction l1 as [|x l1 IH]; intros acc o s.
  - reflexivity.
  - simpl app. rewrite !for_fold_cons, !run_bind.
    destruct (body acc x o s) as [[[a|e] o'] s']; [|done].
    by rewrite IH, run_bind.
Qed.

Lemma limits_step_other mn mx counts c c' :
  c' ≠ c → respects (O := CPUManager) eq (not_limit_write_of c)
                    (limits_step mn mx counts c').
Proof.
  intros Hne. unfold limits_step. destruct counts.
  frame_auto; unfold not_limit_write_of; simpl; by rewrite bool_decide_eq_false_2.
Qed.

Lemma limits_loop_other mn mx counts c cpus :
  c ∉ cpus →
  respects (O := CPUManager) eq (not_limit_write_of c)
           (for_fold (limits_step mn mx) cpus counts).
Proof.
  intros Hc. apply respects_for_fold; [apply _|].
  intros acc x Hx. apply limits_step_other. intros ->. done.
Qed.

Lemma limits_loop_total mn mx counts cpus :
  total (for_fold (limits_step mn mx) cpus counts).
Proof. apply total_for_fold. intros. apply limits_step_total. Qed.

(** What a frame that forbids the limit writes of [c] keeps. *)
Lemma not_limit_frame_keeps c s s' :
  frame (not_limit_write_of c) s s' →
  files s' !! cpu_path c scaling_min_freq = files s !! cpu_path c scaling_min_freq ∧
  files s' !! cpu_path c scaling_max_freq = files s !! cpu_path c scaling_max_freq ∧
  read_errno s' = read_errno s ∧ write_errno s' = write_errno s.
Proof.
  intros Hf. split_and!.
  - apply (frame_files _ _ _ Hf). intros v. unfold not_limit_write_of. simpl.
    by rewrite bool_decide_eq_true_2.
  - apply (frame_files _ _ _ Hf). intros v. unfold not_limit_write_of. simpl.
    by rewrite bool_decide_eq_true_2.
  - apply (frame_read_errno _ _ _ Hf).
  - apply (frame_write_errno _ _ _ Hf).
Qed.

Lemma limit_write_plan_same mn mx c cur_min cur_max s s' :
  files s' !! cpu_path c scaling_max_freq = files s !! cpu_path c scaling_max_freq →
  write_errno s' = write_errno s →
  limit_write_plan mn mx c cur_min cur_max s'
  = limit_write_plan mn mx c cur_min cur_max s.
Proof.
  intros Hf Hw. unfold limit_write_plan, accepted, present. by rewrite Hf, Hw.
Qed.

(** The loop of [set_cpu_frequency_limits], seen from one CPU of the list. *)
Lemma limits_loop_writes mn mx c cpus counts m s vmin vmax cur_min cur_max :
  NoDup cpus → c ∈ cpus →
  files s !! cpu_path c scaling_min_freq = Some vmin →
  files s !! cpu_path c scaling_max_freq = Some vmax →
  read_errno s (cpu_path c scaling_min_freq) = None →
  read_errno s (cpu_path c scaling_max_freq) = None →
  Py.int (Py.strip vmin) = Some cur_min →
  Py.int (Py.strip vmax) = Some cur_max →
  ∃ counts' s' new,
    for_fold (limits_step mn mx) cpus counts m s = (Ok counts', m, s') ∧
    trace s' = trace s ++ new ∧
    limit_writes_of c new = limit_write_plan mn mx c cur_min cur_max s.
Proof.
  intros Hnd Hin Hmin Hmax Hrmin Hrmax Himin Himax.
  apply list_elem_of_split in Hin as (l1 & l2 & ->).
  apply NoDup_app in Hnd as (_ & Hl1 & Hnd2).
  apply NoDup_cons in Hnd2 as [Hl2 _].
  assert (c ∉ l1) as Hc1.
  { intros H. apply (Hl1 c H). left. }
  rewrite for_fold_app, run_bind.
  destruct (run_total_eq _ _ m s (limits_loop_total mn mx counts l1)
              (limits_loop_other mn mx counts c l1 Hc1))
    as ([sc ta] & s1 & -> & Hf1).
  destruct (not_limit_frame_keeps c s s1 Hf1) as (Ef1 & Ef2 & Er1 & Ew1).
  rewrite for_fold_cons, run_bind.
  destruct (limits_step_run mn mx sc ta c m s1 vmin vmax cur_min cur_max)
    as [counts2 ->]; try (by rewrite ?Ef1, ?Ef2, ?Er1).
  set (s2 := limits_step_tree mn mx c cur_min cur_max s1).
  destruct (run_total_eq _ _ m s2 (limits_loop_total mn mx counts2 l2)
              (limits_loop_other mn mx counts2 c l2 Hl2))
    as (counts3 & s3 & -> & Hf3).
  destruct (limits_step_tree_trace mn mx c cur_min cur_max s1) as (new2 & Ht2 & Hp2).
  { apply bool_decide_eq_true. rewrite Ef1, Hmin. by eexists. }
  { apply bool_decide_eq_true. rewrite Ef2, Hmax. by eexists. }
  destruct (frame_trace _ _ _ Hf1) as (new1 & Ht1 & Hall1).
  destruct (frame_trace _ _ _ Hf3) as (new3 & Ht3 & Hall3).
  exists counts3, s3, (new1 ++ new2 ++ new3). split; [done|]. split.
  - rewrite Ht3. fold s2 in Ht2. rewrite Ht2, Ht1. by rewrite <- !app_assoc.
  - rewrite !limit_writes_of_app, (limit_writes_of_none c new1 Hall1),
      (limit_writes_of_none c new3 Hall3), app_nil_r, app_nil_l, Hp2.
    by apply limit_write_plan_same.
Qed.

(** Past validation, the limit files of an online CPU are written as
    planned. *)
Lemma set_cpu_frequency_limits_writes mn mx range m s c vmin vmax cur_min cur_max :
  outcome (get_cpu_frequency_range m s) = Ok (Some range) →
  ¬ (mn = None ∧ mx = None) →
  out_of_range range mn = false →
  out_of_range range mx = false →
  (∀ a b, mn = Some a → mx = Some b → a ≤ b) →
  NoDup (_online_cpus m) → c ∈ _online_cpus m →
  files s !! cpu_path c scaling_min_freq = Some vmin →
  files s !! cpu_path c scaling_max_freq = Some vmax →
  read_errno s (cpu_path c scaling_min_freq) = None →
  read_errno s (cpu_path c scaling_max_freq) = None →
  Py.int (Py.strip vmin) = Some cur_min →
  Py.int (Py.strip vmax) = Some cur_max →
  limit_writes_of c
    (events_since s (sys_after (set_cpu_frequency_limits mn mx m s)))
  = limit_write_plan mn mx c cur_min cur_max s.
Proof.
  intros Hrange Hsome Hmn Hmx Hle Hnd Hin Hmin Hmax Hrmin Hrmax Himin Himax.
  destruct (get_cpu_frequency_range_reads_only m s) as [Hm0 Hf0].
  unfold set_cpu_frequency_limits.
  rewrite bool_decide_eq_false_2 by done.
  rewrite run_bind.
  destruct (get_cpu_frequency_range m s) as [[r m0] s0].
  unfold outcome, self_after, sys_after in Hrange, Hm0, Hf0. simpl in Hrange, Hm0, Hf0.
  subst r m0. rewrite Hmn, Hmx.
  assert (match mn, mx with
          | Some a, Some b => bool_decide (a > b)
          | _, _ => false
          end = false) as ->.
  { destruct mn as [a|], mx as [b|]; try done.
    apply bool_decide_eq_false. specialize (Hle a b eq_refl eq_refl). lia. }
  rewrite run_bind. unfold get_self at 1. cbv beta iota. rewrite run_bind.
  pose proof (no_write_frame_files _ _ Hf0) as Efiles.
  destruct (limits_loop_writes mn mx c (_online_cpus m) (0, 0) m s0
              vmin vmax cur_min cur_max)
    as (counts & s' & new & -> & Ht & Hplan);
    try (by rewrite ?Efiles, ?(frame_read_errno _ _ _ Hf0)).
  destruct counts as [sc ta]. unfold sys_after. simpl.
  destruct (frame_trace _ _ _ Hf0) as (new0 & Ht0 & Hall0).
  rewrite (events_since_app s s' (new0 ++ new)) by (by rewrite Ht, Ht0, <- app_assoc).
  rewrite limit_writes_of_app, Hplan.
  rewrite limit_writes_of_none.
  2:{ eapply Forall_impl; [exact Hall0|]. intros e He. unfold not_limit_write_of.
      unfold no_write in He. by destruct e. }
  simpl. apply limit_write_plan_same;
    [by rewrite Efiles | apply (frame_write_errno _ _ _ Hf0)].
Qed.

(** C7 (as the code has it).  Take a call that passes the validity checks
    and an online CPU whose two limit files are present and readable (each
    online CPU being listed once).  When a max is requested and it is below
    the CPU's current min (the current limits being consistent, min ≤ max),
    the min is first lowered to the new max and then the max is written;
    the requested min, if one was given, is written last, and only if the
    max write was accepted.  When both limits are requested and the min is
    above the CPU's current max, the max is written before the min, which
    again is written only if the max write was accepted.  When only a min
    is requested, the min is written alone: no max write precedes it,
    whatever the current max is. *)
Theorem limit_writes_are_ordered mn mx range m s c vmin vmax cur_min cur_max :
  outcome (get_cpu_frequency_range m s) = Ok (Some range) →
  ¬ (mn = None ∧ mx = None) →
  out_of_range range mn = false →
  out_of_range range mx = false →
  (∀ a b, mn = Some a → mx = Some b → a ≤ b) →
  NoDup (_online_cpus m) → c ∈ _online_cpus m →
  files s !! cpu_path c scaling_min_freq = Some vmin →
  files s !! cpu_path c scaling_max_freq = Some vmax →
  read_errno s (cpu_path c scaling_min_freq) = None →
  read_errno s (cpu_path c scaling_max_freq) = None →
  Py.int (Py.strip vmin) = Some cur_min →
  Py.int (Py.strip vmax) = Some cur_max →
  let min_path := cpu_path c scaling_min_freq in
  let max_path := cpu_path c scaling_max_freq in
  let written :=
    limit_writes_of c
      (events_since s (sys_after (set_cpu_frequency_limits mn mx m s))) in
  let final := λ b,
    match mn with
    | Some a => if accepted max_path (Py.str b) s then [(min_path, Py.str a)] else []
    | None => []
    end in
  (∀ b, mx = Some b → b < cur_min → cur_min ≤ cur_max →
        written = [(min_path, Py.str b); (max_path, Py.str b)] ++ final b) ∧
  (∀ a b, mn = Some a → mx = Some b → a > cur_max →
        written = [(max_path, Py.str b)] ++ final b) ∧
  (∀ a, mn = Some a → mx = None → written = [(min_path, Py.str a)]).
Proof.
  intros Hrange Hsome Hmn Hmx Hle Hnd Hin Hmin Hmax Hrmin Hrmax Himin Himax
         min_path max_path written final.
  assert (written = limit_write_plan mn mx c cur_min cur_max s) as ->.
  { by apply (set_cpu_frequency_limits_writes _ _ range _ _ _ vmin vmax). }
  unfold limit_write_plan. cbv zeta. fold min_path max_path.
  split; [|split].
  - intros b -> Hlow Hcons. rewrite decide_True by lia.
    unfold final. by destruct mn.
  - intros a b -> -> Hhigh. specialize (Hle a b eq_refl eq_refl).
    by rewrite decide_False by lia.
  - by intros a -> ->.
Qed.

Lemma limit_writes_are_ordered_witness :
  let mn := Some 400000 in
  let mx := Some 1000000 in
  let range := FreqRange 400000 3500000 400 3500 in
  let m := one_cpu_manager in
  let s := high_floor_tree in
  let min_path := cpu_path 0 scaling_min_freq in
  let max_path := cpu_path 0 scaling_max_freq in
  let written :=
    limit_writes_of 0
      (events_since s (sys_after (set_cpu_frequency_limits mn mx m s))) in
  let final := λ b,
    match mn with
    | Some a => if accepted max_path (Py.str b) s then [(min_path, Py.str a)] else []
    | None => []
    end in
  outcome (get_cpu_frequency_range m s) = Ok (Some range) ∧
  ¬ (mn = None ∧ mx = None) ∧
  out_of_range range mn = false ∧
  out_of_range range mx = false ∧
  (∀ a b, mn = Some a → mx = Some b → a ≤ b) ∧
  NoDup (_online_cpus m) ∧ 0 ∈ _online_cpus m ∧
  files s !! min_path = Some "2000000" ∧
  files s !! max_path = Some "3500000" ∧
  read_errno s min_path = None ∧
  read_errno s max_path = None ∧
  Py.int (Py.strip "2000000") = Some 2000000 ∧
  Py.int (Py.strip "3500000") = Some 3500000 ∧
  (∀ b, mx = Some b → b < 2000000 → 2000000 ≤ 3500000 →
        written = [(min_path, Py.str b); (max_path, Py.str b)] ++ final b) ∧
  (∀ a b, mn = Some a → mx = Some b → a > 3500000 →
        written = [(max_path, Py.str b)] ++ final b) ∧
  (∀ a, mn = Some a → mx = None → written = [(min_path, Py.str a)]).
Proof.
  intros mn mx range m s min_path max_path written final.
  assert (¬ (mn = None ∧ mx = None)) as Hsome by (by intros [? _]).
  assert (∀ a b, mn = Some a → mx = Some b → a ≤ b) as Hle.
  { intros a b [= <-] [= <-]. lia. }
  assert (NoDup (_online_cpus m)) as Hnd by apply NoDup_singleton.
  assert (0 ∈ _online_cpus m) as Hin by apply list_elem_of_here.
  split; [reflexivity|]. split; [exact Hsome|].
  split; [reflexivity|]. split; [reflexivity|]. split; [exact Hle|].
  split; [exact Hnd|]. split; [exact Hin|].
  do 6 (split; [reflexivity|]).
  exact (limit_writes_are_ordered mn mx range m s 0 "2000000" "3500000"
           2000000 3500000 eq_refl Hsome eq_refl eq_refl Hle Hnd Hin
           eq_refl eq_refl eq_refl eq_refl eq_refl eq_refl).
Defined.

(** A call that gives only a min, above the CPU's current max of 1000000
    kHz, is accepted, returns true and writes the min alone: no max write
    comes before it. *)
Lemma min_only_call_writes_min_alone :
  let r := set_cpu_frequency_limits (Some 2000000) None
             one_cpu_manager low_ceiling_tree in
  files low_ceiling_tree !! cpu_path 0 scaling_max_freq = Some "1000000" ∧
  outcome r = Ok true ∧
  limit_writes_of 0 (events_since low_ceiling_tree (sys_after r))
    = [(cpu_path 0 scaling_min_freq, "2000000")] ∧
  files (sys_after r) !! cpu_path 0 scaling_max_freq = Some "1000000".
Proof. vm_compute. split_and!; reflexivity. Qed.

(** A call that gives only a max, below the CPU's current min: the min is
    lowered to the new max, the max is written, and there is no third
    write. *)
Example max_only_call_lowers_min_first :
  let r := set_cpu_frequency_limits None (Some 1000000)
             one_cpu_manager high_floor_tree in
  outcome r = Ok true ∧
  limit_writes_of 0 (events_since high_floor_tree (sys_after r))
    = [ (cpu_path 0 scaling_min_freq, "1000000");
        (cpu_path 0 scaling_max_freq, "1000000") ].
Proof. vm_compute. split; reflexivity. Qed.

(** Lowering the max below the current min: min first, then max, then the
    requested min. *)
Example lowering_max_below_current_min :
  limit_writes_of 0
    (events_since high_floor_tree
       (sys_after (set_cpu_frequency_limits (Some 400000) (Some 1000000)
                     one_cpu_manager high_floor_tree)))
  = [ (cpu_path 0 scaling_min_freq, "1000000");
      (cpu_path 0 scaling_max_freq, "1000000");
      (cpu_path 0 scaling_min_freq, "400000") ].
Proof. vm_compute. reflexivity. Qed.

(** Raising the min above the current max: max first, then min. *)
Example raising_min_above_current_max :
  limit_writes_of 0
    (events_since low_ceiling_tree
       (sys_after (set_cpu_frequency_limits (Some 2000000) (Some 3500000)
                     one_cpu_manager low_ceiling_tree)))
  = [ (cpu_path 0 scaling_max_freq, "3500000");
      (cpu_path 0 scaling_min_freq, "2000000") ].
Proof. vm_compute. reflexivity. Qed.

(** ** Core parking: one CPU *)

(** ** Core parking: one CPU *)

Lemma frame_weaken (P Q : event → bool) s s' :
  (∀ e, P e = true → Q e = true) → frame P s s' → frame Q s s'.
Proof.
  intros HPQ [[new [E F]] Hf Hd ? ? ? ?]. split; try done.
  - exists new. split; [done|]. eapply Forall_impl; [exact F|]. apply HPQ.
  - intros p Hp. apply Hf. intros v. specialize (Hp v).
    destruct (P (EvWrite p v true)) eqn:E'; [|done].
    apply HPQ in E'. congruence.
Qed.

Lemma no_write_parking X e : no_write e = true → parking_only X e = true.
Proof. by destruct e. Qed.

Global Instance onlining_preorder : PreOrder onlining.
Proof.
  split.
  - intros s. split; [apply frame_refl | done].
  - intros s1 s2 s3 [F1 H1] [F2 H2]. split; [by eapply frame_trans | auto].
Qed.

Global Instance offlining_preorder X : PreOrder (offlining X).
Proof.
  split.
  - intros s. split; [apply frame_refl | done].
  - intros s1 s2 s3 [F1 H1] [F2 H2]. split; [by eapply frame_trans | auto].
Qed.

(** Being settled depends on the [online] file and on its readability only. *)
Lemma settled_online_same s s' c :
  files s' !! cpu_path c online = files s !! cpu_path c online →
  read_errno s' = read_errno s →
  settled_online s c → settled_online s' c.
Proof.
  intros Hf Hr [->|(v & Hv & Hs & He)]; [by left|].
  right. exists v. by rewrite Hf, Hr.
Qed.

Lemma settled_offline_same s s' c :
  files s' !! cpu_path c online = files s !! cpu_path c online →
  read_errno s' = read_errno s →
  settled_offline s c → settled_offline s' c.
Proof.
  intros Hf Hr [Hc (v & Hv & Hs & He)]. split; [done|].
  exists v. by rewrite Hf, Hr.
Qed.

Lemma frame_settled_online X s s' c :
  frame (parking_only X) s s' → X c = false →
  settled_online s c → settled_online s' c.
Proof.
  intros Hf HX. apply settled_online_same; [|apply (frame_read_errno _ _ _ Hf)].
  apply (frame_files _ _ _ Hf). intros v. exact HX.
Qed.

Lemma frame_settled_offline X s s' c :
  frame (parking_only X) s s' → X c = false →
  settled_offline s c → settled_offline s' c.
Proof.
  intros Hf HX. apply settled_offline_same; [|apply (frame_read_errno _ _ _ Hf)].
  apply (frame_files _ _ _ Hf). intros v. exact HX.
Qed.

Lemma no_write_settled_online s s' c :
  frame no_write s s' → settled_online s c → settled_online s' c.
Proof.
  intros Hf. apply settled_online_same;
    [by rewrite (no_write_frame_files _ _ Hf) | apply (frame_read_errno _ _ _ Hf)].
Qed.

Lemma no_write_settled_offline s s' c :
  frame no_write s s' → settled_offline s c → settled_offline s' c.
Proof.
  intros Hf. apply settled_offline_same;
    [by rewrite (no_write_frame_files _ _ Hf) | apply (frame_read_errno _ _ _ Hf)].
Qed.

(** Writing [v] to the [online] file of [c]. *)
Lemma attempt_online_files c v c' s :
  files (attempt (cpu_path c online) v s) !! cpu_path c' online =
  if decide (c = c') then
    (if accepted (cpu_path c online) v s then Some v
     else files s !! cpu_path c' online)
  else files s !! cpu_path c' online.
Proof.
  rewrite attempt_lookup. destruct (decide (c = c')) as [->|Hne].
  - by rewrite decide_True.
  - rewrite decide_False; [done|]. by intros [= ?].
Qed.

Lemma frame_attempt_online X c v s :
  X c = true → frame (parking_only X) s (attempt (cpu_path c online) v s).
Proof. intros HX. apply frame_attempt. intros ok. exact HX. Qed.

Lemma attempt_read_errno p v s : read_errno (attempt p v s) = read_errno s.
Proof. by destruct (attempt_static v p s) as (_ & -> & _). Qed.

(** [online_cpu] on a CPU other than 0. *)
Lemma online_cpu_run c m s :
  c ≠ 0 →
  ∃ b s', online_cpu c m s = (Ok b, m, s') ∧ onlining s s' ∧
          (b = true → settled_online s' c).
Proof.
  intros Hc. unfold online_cpu. rewrite decide_False by done. cbv zeta.
  rewrite run_try_except, run_bind. unfold exists_ at 1. cbv beta iota.
  destruct (files s !! cpu_path c online) as [v|] eqn:Ev.
  2:{ rewrite bool_decide_eq_false_2 by (by intros [? ?]).
      change (negb false) with true. cbv iota.
      exists false, s. split; [done|]. split; [reflexivity|done]. }
  rewrite bool_decide_eq_true_2 by done. change (negb true) with false. cbv iota.
  rewrite run_bind, run_fmap. unfold read. rewrite Ev.
  set (s1 := log (EvRead (cpu_path c online)) s).
  assert (onlining s s1) as H1.
  { split; [by apply frame_log|]. intros c'. by apply settled_online_same. }
  destruct (read_errno s (cpu_path c online)) as [e|] eqn:Er.
  { exists false, s1. split; [done|]. split; [done|done]. }
  destruct (decide (Py.strip v = "1")) as [Hs|Hs].
  { exists true, s1. split; [done|]. split; [done|]. intros _. right. by exists v. }
  assert (present (cpu_path c online) s1 = true) as Hp.
  { apply bool_decide_eq_true. simpl. rewrite Ev. by eexists. }
  rewrite run_bind, (run_write _ _ m s1 Hp).
  set (s2 := attempt (cpu_path c online) "1" s1).
  assert (onlining s s2) as H2.
  { etrans; [exact H1|]. split; [by apply frame_attempt_online|].
    intros c' H'. destruct H' as [->|(v' & Hv' & Hs' & He')]; [by left|]. right.
    unfold s2. rewrite attempt_online_files, attempt_read_errno.
    destruct (decide (c = c')) as [<-|Hne]; [|by exists v'].
    destruct (accepted _ _ s1); [by exists "1" | by exists v']. }
  destruct (accepted (cpu_path c online) "1" s1) eqn:Ea.
  - exists true, s2. split; [done|]. split; [done|]. intros _. right.
    exists "1". unfold s2. rewrite attempt_online_files, decide_True, Ea by done.
    by rewrite attempt_read_errno.
  - exists false, s2. split; [done|]. split; [done|done].
Qed.

(** [online_cpu] on a CPU that is already online: no write. *)
Lemma online_cpu_already c m s :
  c ≠ 0 → settled_online s c →
  online_cpu c m s = (Ok true, m, log (EvRead (cpu_path c online)) s).
Proof.
  intros Hc [->|(v & Hv & Hs & He)]; [done|]. unfold online_cpu.
  rewrite decide_False by done. cbv zeta.
  rewrite run_try_except, run_bind. unfold exists_ at 1. cbv beta iota.
  rewrite bool_decide_eq_true_2 by (by rewrite Hv).
  change (negb true) with false. cbv iota.
  rewrite run_bind, run_fmap, (run_read _ _ _ v Hv He).
  by rewrite decide_True by done.
Qed.

Lemma online_cpu_idle c m s :
  settled_online s c →
  ∃ s', online_cpu c m s = (Ok true, m, s') ∧ frame no_write s s'.
Proof.
  intros H. destruct (decide (c = 0)) as [->|Hc].
  { exists s. split; [done|apply frame_refl]. }
  rewrite (online_cpu_already c m s Hc H).
  eexists. split; [reflexivity|]. by apply frame_log.
Qed.

Lemma get_deepest_available_cstate_total c : total (get_deepest_available_cstate c).
Proof. unfold get_deepest_available_cstate. total_auto. Qed.

Lemma force_cpu_to_cstate_total c t : total (force_cpu_to_cstate c t).
Proof. unfold force_cpu_to_cstate. total_auto. Qed.

(** The C-state preparation of [offline_cpu_with_cstate_prep] always comes
    back, and writes no [online] file. *)
Lemma cstate_prep_run c m s :
  ∃ s',
    (get_deepest_available_cstate c ≫= λ target_cstate,
       match target_cstate with
       | Some t => if decide (t = "") then ret tt
                   else force_cpu_to_cstate c (Some t);; ret tt
       | None => ret tt
       end) m s = (Ok tt, m, s') ∧
    frame (parking_only (λ _, false)) s s'.
Proof.
  destruct (run_total_eq _ (parking_only (λ _, false)) m s
              (get_deepest_available_cstate_total c)
              (get_deepest_available_cstate_respects eq _ c))
    as (t & s1 & E1 & F1).
  rewrite run_bind, E1.
  destruct t as [t|]; [destruct (decide (t = ""))|].
  - by exists s1.
  - destruct (run_total_eq _ (parking_only (λ _, false)) m s1
                (force_cpu_to_cstate_total c (Some t))
                (force_cpu_to_cstate_respects eq _ c (Some t)))
      as (b & s2 & E2 & F2).
    rewrite run_bind, E2. exists s2. split; [done|]. by eapply frame_trans.
  - by exists s1.
Qed.

(** [offline_cpu_with_cstate_prep] on a CPU other than 0. *)
Lemma offline_cpu_run X c m s :
  c ≠ 0 → X c = true →
  ∃ b s', offline_cpu_with_cstate_prep c None m s = (Ok b, m, s') ∧
          offlining X s s' ∧ (b = true → settled_offline s' c).
Proof.
  intros Hc HX. unfold offline_cpu_with_cstate_prep.
  rewrite decide_False by done. cbv zeta.
  rewrite run_try_except, run_bind. unfold exists_ at 1. cbv beta iota.
  destruct (files s !! cpu_path c online) as [v|] eqn:Ev.
  2:{ rewrite bool_decide_eq_false_2 by (by intros [? ?]).
      change (negb false) with true. cbv iota.
      exists false, s. split; [done|]. split; [reflexivity|done]. }
  rewrite bool_decide_eq_true_2 by done. change (negb true) with false. cbv iota.
  rewrite run_bind, run_fmap. unfold read. rewrite Ev.
  set (s1 := log (EvRead (cpu_path c online)) s).
  assert (offlining X s s1) as H1.
  { split; [by apply frame_log|]. intros c'. by apply settled_offline_same. }
  destruct (read_errno s (cpu_path c online)) as [e|] eqn:Er.
  { exists false, s1. split; [done|]. split; [done|done]. }
  destruct (decide (Py.strip v = "0")) as [Hs|Hs].
  { exists true, s1. split; [done|]. split; [done|]. intros _. split; [done|].
    by exists v. }
  destruct (cstate_prep_run c m s1) as (s2 & E2 & F2).
  rewrite run_bind in E2.
  rewrite run_bind.
  destruct (get_deepest_available_cstate c m s1) as [[[t|e] m1] s1'] eqn:Et;
    [|discriminate].
  rewrite run_bind.
  (* the continuation of the goal is that of [E2], up to conversion *)
  match type of E2 with ?c m1 s1' = _ =>
    match goal with |- context [?c' m1 s1'] =>
      change (c' m1 s1') with (c m1 s1') end end.
  rewrite E2.
  assert (offlining X s s2) as H2.
  { etrans; [exact H1|]. split.
    - eapply frame_weaken; [|exact F2]. intros [|[] ? ?]; try done.
      by destruct a.
    - intros c'. by apply (frame_settled_offline _ _ _ _ F2). }
  assert (present (cpu_path c online) s2 = true) as Hp.
  { apply bool_decide_eq_true. apply (frame_dom _ _ _ F2). simpl. rewrite Ev.
    by eexists. }
  rewrite run_bind, (run_write _ _ m s2 Hp).
  set (s3 := attempt (cpu_path c online) "0" s2).
  assert (read_errno s2 = read_errno s) as Hr2.
  { by rewrite (frame_read_errno _ _ _ F2). }
  assert (offlining X s s3) as H3.
  { etrans; [exact H2|]. split; [by apply frame_attempt_online|].
    intros c' [Hc' (v' & Hv' & Hs' & He')]. split; [done|].
    unfold s3. rewrite attempt_online_files, attempt_read_errno.
    destruct (decide (c = c')) as [<-|Hne]; [|by exists v'].
    destruct (accepted _ _ s2); [by exists "0" | by exists v']. }
  destruct (accepted (cpu_path c online) "0" s2) eqn:Ea.
  - exists true, s3. split; [done|]. split; [done|]. intros _. split; [done|].
    exists "0". unfold s3. rewrite attempt_online_files, decide_True, Ea by done.
    by rewrite attempt_read_errno, Hr2.
  - exists false, s3. split; [done|]. split; [done|done].
Qed.

(** [offline_cpu_with_cstate_prep] on a CPU that is already offline: no
    write and no C-state preparation. *)
Lemma offline_cpu_idle c target_cstate m s :
  settled_offline s c →
  offline_cpu_with_cstate_prep c target_cstate m s
  = (Ok true, m, log (EvRead (cpu_path c online)) s).
Proof.
  intros [Hc (v & Hv & Hs & He)]. unfold offline_cpu_with_cstate_prep.
  rewrite decide_False by done. cbv zeta.
  rewrite run_try_except, run_bind. unfold exists_ at 1. cbv beta iota.
  rewrite bool_decide_eq_true_2 by (by rewrite Hv).
  change (negb true) with false. cbv iota.
  rewrite run_bind, run_fmap, (run_read _ _ _ v Hv He).
  by rewrite decide_True by done.
Qed.

(** ** Loops that accumulate a success flag *)

Section success_loops.
Context {A : Type} (step : bool → A → Method bool) (m : CPUManager).
Context (R : relation sysfs) `{!PreOrder R} (G : sysfs → A → Prop).
Hypothesis G_stable : ∀ s s' x, R s s' → G s x → G s' x.

(** If each step stays within [R], keeps [self], and establishes [G] for its
    element when it reports success, then so does the loop for every
    element; and the loop reports success only if every step did. *)
Lemma success_loop l success s :
  (∀ success x s, x ∈ l →
     ∃ b s', step success x m s = (Ok b, m, s') ∧ R s s' ∧
             (b = true → success = true ∧ G s' x)) →
  ∃ b s', for_fold step l success m s = (Ok b, m, s') ∧ R s s' ∧
          (b = true → success = true ∧ ∀ x, x ∈ l → G s' x).
Proof.
  revert success s. induction l as [|x l IH]; intros success s Hstep.
  { exists success, s. split; [done|]. split; [reflexivity|].
    intros ->. split; [done|]. intros x Hx. by apply elem_of_nil in Hx. }
  destruct (Hstep success x s) as (b1 & s1 & E1 & R1 & H1); [left|].
  destruct (IH b1 s1) as (b2 & s2 & E2 & R2 & H2).
  { intros success' y s' Hy. apply Hstep. by right. }
  exists b2, s2. rewrite for_fold_cons, run_bind, E1, E2.
  split; [done|]. split; [by etrans|].
  intros Hb2. destruct (H2 Hb2) as [-> Hall]. destruct (H1 eq_refl) as [-> Hx].
  split; [done|]. intros y [->|Hy]%elem_of_cons; [|by apply Hall].
  by apply (G_stable s1 s2).
Qed.

(** If every element already satisfies [G], and a step on such an element
    changes nothing that matters and passes the flag on, so does the loop. *)
Lemma idle_loop l success s :
  (∀ success x s, x ∈ l → G s x →
     ∃ s', step success x m s = (Ok success, m, s') ∧ R s s') →
  (∀ x, x ∈ l → G s x) →
  ∃ s', for_fold step l success m s = (Ok success, m, s') ∧ R s s'.
Proof.
  revert s. induction l as [|x l IH]; intros s Hstep HG.
  { exists s. split; [done|reflexivity]. }
  destruct (Hstep success x s) as (s1 & E1 & R1); [left|apply HG; left|].
  destruct (IH s1) as (s2 & E2 & R2).
  { intros success' y s' Hy. apply Hstep. by right. }
  { intros y Hy. apply (G_stable s s1); [done|]. apply HG. by right. }
  exists s2. rewrite for_fold_cons, run_bind, E1, E2. split; [done|by etrans].
Qed.

End success_loops.

Global Instance frame_preorder P : PreOrder (frame P).
Proof.
  split; [intros s; apply frame_refl|intros s1 s2 s3; apply frame_trans].
Qed.

(** ** Core parking: with the topology initialised *)

Section initialised.
Context (m : CPUManager) (Hinit : _topology_initialized m = true).

Lemma get_primary_cpus_run s :
  get_primary_cpus_by_physical_core m s = (Ok (primary_cpus_of m), m, s).
Proof.
  unfold get_primary_cpus_by_physical_core, primary_cpus_of.
  rewrite run_bind. unfold get_self at 1. cbv beta iota. rewrite Hinit.
  rewrite run_bind. unfold ret at 1. cbv beta iota.
  rewrite run_bind. unfold get_self at 1. cbv beta iota.
  by destruct (_primary_cpus_cache m) as [[|? ?]|].
Qed.

Lemma get_cpu_siblings_run c s :
  get_cpu_siblings c m s = (Ok (siblings_of m c), m, s).
Proof.
  unfold get_cpu_siblings, siblings_of.
  rewrite run_bind. unfold get_self at 1. cbv beta iota. rewrite Hinit.
  rewrite run_bind. unfold ret at 1. cbv beta iota.
  rewrite run_bind. unfold get_self at 1. cbv beta iota. done.
Qed.

Lemma is_smt_enabled_run s :
  is_smt_enabled m s = (Ok (smt_enabled_of m s), m, log (EvRead smt_active_path) s).
Proof.
  unfold is_smt_enabled, smt_enabled_of.
  rewrite run_try_except, run_bind. unfold read.
  assert (∀ s', (get_self ≫= λ m0 : CPUManager,
                   (if _topology_initialized m0 then ret tt
                    else initialize_cpu_topology) ≫= λ _ : (),
                     get_self ≫= λ m1 : CPUManager,
                       ret (any_siblings (_cpu_siblings_map m1))) m s'
                = (Ok (any_siblings (_cpu_siblings_map m)), m, s')) as Hfall.
  { intros s'. rewrite run_bind. unfold get_self at 1. cbv beta iota.
    rewrite Hinit. rewrite run_bind. unfold ret at 1. cbv beta iota.
    rewrite run_bind. unfold get_self at 1. cbv beta iota. done. }
  destruct (files s !! smt_active_path) as [v|]; [|apply Hfall].
  destruct (read_errno s smt_active_path); [apply Hfall|done].
Qed.

(** The sibling loops of [online_physical_core] and
    [offline_physical_core]. *)
Lemma online_physical_core_run p s :
  ∃ b s', online_physical_core p m s = (Ok b, m, s') ∧ onlining s s' ∧
          (b = true → ∀ c, c ∈ siblings_of m p → settled_online s' c).
Proof.
  unfold online_physical_core.
  rewrite run_try_except, run_bind, get_cpu_siblings_run.
  destruct (success_loop
              (λ (success : bool) cpu,
                 if decide (cpu = 0) then ret success
                 else ok ← online_cpu cpu; ret (if ok : bool then success else false))
              m onlining settled_online
              (λ s s' x H, proj2 H x) (siblings_of m p) true s)
    as (b & s' & E & HR & Hb).
  { intros success c s0 _. destruct (decide (c = 0)) as [->|Hc].
    - exists success, s0. split; [done|]. split; [reflexivity|].
      intros ->. split; [done|by left].
    - destruct (online_cpu_run c m s0 Hc) as (b & s' & E & HR & Hb).
      exists (if b then success else false), s'.
      rewrite run_bind, E. split; [done|]. split; [done|].
      destruct b; [|done]. intros ->. split; [done|by apply Hb]. }
  exists b, s'. rewrite E. split; [done|]. split; [done|].
  intros Hb'. by apply Hb.
Qed.

Lemma offline_physical_core_run X p s :
  (∀ c, c ∈ siblings_of m p → c ≠ 0 → X c = true) →
  ∃ b s', offline_physical_core p m s = (Ok b, m, s') ∧ offlining X s s' ∧
          (b = true → ∀ c, c ∈ siblings_of m p → c ≠ 0 → settled_offline s' c).
Proof.
  intros HX. unfold offline_physical_core.
  rewrite run_try_except, run_bind, get_cpu_siblings_run.
  destruct (success_loop
              (λ (success : bool) cpu,
                 if decide (cpu = 0) then ret success
                 else ok ← offline_cpu_with_cstate_prep cpu None;
                      ret (if ok : bool then success else false))
              m (offlining X) (λ s c, c ≠ 0 → settled_offline s c)
              (λ s s' x H Hx Hne, proj2 H x (Hx Hne)) (siblings_of m p) true s)
    as (b & s' & E & HR & Hb).
  { intros success c s0 Hin. destruct (decide (c = 0)) as [->|Hc].
    - exists success, s0. split; [done|]. split; [reflexivity|].
      intros ->. split; [done|done].
    - destruct (offline_cpu_run X c m s0 Hc (HX c Hin Hc)) as (b & s' & E & HR & Hb).
      exists (if b then success else false), s'.
      rewrite run_bind, E. split; [done|]. split; [done|].
      destruct b; [|done]. intros ->. split; [done|]. intros _. by apply Hb. }
  exists b, s'. rewrite E. split; [done|]. split; [done|].
  intros Hb'. by apply Hb.
Qed.

(** The same on cores that are already in the requested state: only reads. *)
Lemma online_physical_core_idle p s :
  (∀ c, c ∈ siblings_of m p → settled_online s c) →
  ∃ s', online_physical_core p m s = (Ok true, m, s') ∧ frame no_write s s'.
Proof.
  intros Hall. unfold online_physical_core.
  rewrite run_try_except, run_bind, get_cpu_siblings_run.
  destruct (idle_loop
              (λ (success : bool) cpu,
                 if decide (cpu = 0) then ret success
                 else ok ← online_cpu cpu; ret (if ok : bool then success else false))
              m (frame no_write) settled_online
              (λ s s' x H, no_write_settled_online s s' x H)
              (siblings_of m p) true s)
    as (s' & E & HR).
  { intros success c s0 _ Hc. destruct (decide (c = 0)) as [->|Hne].
    - exists s0. split; [done|apply frame_refl].
    - destruct (online_cpu_idle c m s0 Hc) as (s' & E & HR).
      exists s'. by rewrite run_bind, E. }
  { done. }
  exists s'. by rewrite E.
Qed.

Lemma offline_physical_core_idle p s :
  (∀ c, c ∈ siblings_of m p → c ≠ 0 → settled_offline s c) →
  ∃ s', offline_physical_core p m s = (Ok true, m, s') ∧ frame no_write s s'.
Proof.
  intros Hall. unfold offline_physical_core.
  rewrite run_try_except, run_bind, get_cpu_siblings_run.
  destruct (idle_loop
              (λ (success : bool) cpu,
                 if decide (cpu = 0) then ret success
                 else ok ← offline_cpu_with_cstate_prep cpu None;
                      ret (if ok : bool then success else false))
              m (frame no_write) (λ s c, c ≠ 0 → settled_offline s c)
              (λ s s' x H Hx Hne, no_write_settled_offline s s' x H (Hx Hne))
              (siblings_of m p) true s)
    as (s' & E & HR).
  { intros success c s0 _ Hc. destruct (decide (c = 0)) as [->|Hne].
    - exists s0. split; [done|apply frame_refl].
    - exists (log (EvRead (cpu_path c online)) s0).
      rewrite run_bind, (offline_cpu_idle c None m s0 (Hc Hne)).
      split; [done|]. by apply frame_log. }
  { done. }
  exists s'. by rewrite E.
Qed.

End initialised.

(** ** Core parking: the two loops over physical cores *)

Lemma index_lookup {A} (l : list A) i :
  0 ≤ i → Py.index l i = l !! Z.to_nat i.
Proof. intros. unfold Py.index. by rewrite decide_True. Qed.

Lemma elem_of_range a b x : x ∈ Py.range a b ↔ a ≤ x < b.
Proof. unfold Py.range. rewrite elem_of_seqZ. lia. Qed.

Lemma _get_online_cpus_run m s :
  ∃ l s', _get_online_cpus m s = (Ok l, m, s') ∧ frame no_write s s'.
Proof.
  apply run_total_eq.
  - unfold _get_online_cpus. total_auto.
  - unfold _get_online_cpus. frame_auto.
Qed.

Lemma update_online_cpus_run m s :
  ∃ l s', update_online_cpus m s = (Ok tt, set_online_cpus l m, s') ∧
          frame no_write s s'.
Proof.
  destruct (_get_online_cpus_run m s) as (l & s' & E & Hf).
  exists l, s'. unfold update_online_cpus. by rewrite run_bind, E.
Qed.

Section core_loops.
Context (m : CPUManager) (Hinit : _topology_initialized m = true).
Context (smt_enabled : bool).

Local Abbreviation prim := (primary_cpus_of m).
Local Abbreviation cpus_at i :=
  (default [] (core_cpus m smt_enabled <$> prim !! Z.to_nat i)).

Lemma online_step_run success i s :
  0 ≤ i < Z.of_nat (length prim) →
  ∃ b s', online_step prim smt_enabled success i m s = (Ok b, m, s') ∧
          onlining s s' ∧
          (b = true → success = true ∧ ∀ c, c ∈ cpus_at i → settled_online s' c).
Proof.
  intros Hi. unfold online_step. rewrite index_lookup by lia.
  destruct (lookup_lt_is_Some_2 prim (Z.to_nat i)) as [p Hp]; [lia|].
  rewrite Hp. simpl. rewrite run_bind. simpl or_raise. unfold ret at 1. cbv beta iota.
  unfold core_cpus. destruct smt_enabled.
  - destruct (online_physical_core_run m Hinit p s) as (b & s' & E & HR & Hb).
    exists (if b then success else false), s'. rewrite run_bind, E.
    split; [done|]. split; [done|].
    destruct b; [|done]. intros ->. split; [done|by apply Hb].
  - destruct (decide (p = 0)) as [->|Hne].
    + exists success, s. split; [done|]. split; [reflexivity|].
      intros ->. split; [done|]. intros c ->%list_elem_of_singleton. by left.
    + destruct (online_cpu_run p m s Hne) as (b & s' & E & HR & Hb).
      exists (if b then success else false), s'. rewrite run_bind, E.
      split; [done|]. split; [done|].
      destruct b; [|done]. intros ->. split; [done|].
      intros c ->%list_elem_of_singleton. by apply Hb.
Qed.

Lemma offline_step_run X success i s :
  0 ≤ i < Z.of_nat (length prim) →
  (∀ c, c ∈ cpus_at i → c ≠ 0 → X c = true) →
  ∃ b s', offline_step prim smt_enabled success i m s = (Ok b, m, s') ∧
          offlining X s s' ∧
          (b = true → success = true ∧
             (prim !! Z.to_nat i ≠ Some 0 →
              ∀ c, c ∈ cpus_at i → c ≠ 0 → settled_offline s' c)).
Proof.
  intros Hi. unfold offline_step. rewrite index_lookup by lia.
  destruct (lookup_lt_is_Some_2 prim (Z.to_nat i)) as [p Hp]; [lia|].
  rewrite Hp. simpl. intros HX.
  rewrite run_bind. simpl or_raise. unfold ret at 1. cbv beta iota.
  destruct (decide (p = 0)) as [->|Hne].
  { exists success, s. split; [done|]. split; [reflexivity|].
    intros ->. split; [done|]. by intros []. }
  unfold core_cpus in *. destruct smt_enabled.
  - destruct (offline_physical_core_run m Hinit X p s HX) as (b & s' & E & HR & Hb).
    exists (if b then success else false), s'. rewrite run_bind, E.
    split; [done|]. split; [done|].
    destruct b; [|done]. intros ->. split; [done|]. intros _. by apply Hb.
  - destruct (offline_cpu_run X p m s Hne) as (b & s' & E & HR & Hb).
    { apply HX; [by apply list_elem_of_singleton|done]. }
    exists (if b then success else false), s'. rewrite run_bind, E.
    split; [done|]. split; [done|].
    destruct b; [|done]. intros ->. split; [done|].
    intros _ c ->%list_elem_of_singleton _. by apply Hb.
Qed.

(** The steps on a core that is already in the requested state only read. *)
Lemma online_step_idle success i s :
  0 ≤ i < Z.of_nat (length prim) →
  (∀ c, c ∈ cpus_at i → settled_online s c) →
  ∃ s', online_step prim smt_enabled success i m s = (Ok success, m, s') ∧
        frame no_write s s'.
Proof.
  intros Hi. unfold online_step. rewrite index_lookup by lia.
  destruct (lookup_lt_is_Some_2 prim (Z.to_nat i)) as [p Hp]; [lia|].
  rewrite Hp. simpl. intros Hall.
  rewrite run_bind. simpl or_raise. unfold ret at 1. cbv beta iota.
  unfold core_cpus in *. destruct smt_enabled.
  - destruct (online_physical_core_idle m Hinit p s Hall) as (s' & E & HR).
    exists s'. by rewrite run_bind, E.
  - destruct (decide (p = 0)) as [->|Hne].
    + exists s. split; [done|reflexivity].
    + destruct (online_cpu_idle p m s) as (s' & E & HR).
      { apply Hall. by apply list_elem_of_singleton. }
      exists s'. by rewrite run_bind, E.
Qed.

Lemma offline_step_idle success i s :
  0 ≤ i < Z.of_nat (length prim) →
  (prim !! Z.to_nat i ≠ Some 0 →
   ∀ c, c ∈ cpus_at i → c ≠ 0 → settled_offline s c) →
  ∃ s', offline_step prim smt_enabled success i m s = (Ok success, m, s') ∧
        frame no_write s s'.
Proof.
  intros Hi. unfold offline_step. rewrite index_lookup by lia.
  destruct (lookup_lt_is_Some_2 prim (Z.to_nat i)) as [p Hp]; [lia|].
  rewrite Hp. simpl. intros Hall.
  rewrite run_bind. simpl or_raise. unfold ret at 1. cbv beta iota.
  destruct (decide (p = 0)) as [->|Hne].
  { exists s. split; [done|reflexivity]. }
  assert (Some p ≠ Some 0) as Hp0 by congruence. specialize (Hall Hp0).
  unfold core_cpus in *. destruct smt_enabled.
  - destruct (offline_physical_core_idle m Hinit p s Hall) as (s' & E & HR).
    exists s'. by rewrite run_bind, E.
  - exists (log (EvRead (cpu_path p online)) s).
    rewrite run_bind, (offline_cpu_idle p None m s).
    + split; [done|]. by apply frame_log.
    + apply Hall; [by apply list_elem_of_singleton|done].
Qed.

End core_loops.

(** ** Core parking: the whole call *)

Lemma primary_cpus_nonempty m : (0 < length (primary_cpus_of m))%nat.
Proof.
  unfold primary_cpus_of. destruct (_primary_cpus_cache m) as [[|? ?]|]; simpl; lia.
Qed.

Lemma clamp_target_range t n : 1 ≤ n → 1 ≤ clamp_target t n ≤ n.
Proof.
  intros. unfold clamp_target. repeat destruct (decide _); lia.
Qed.



Lemma active_cores_lookup m k p :
  p ∈ active_cores m k →
  ∃ i, 0 ≤ i < k ∧ primary_cpus_of m !! Z.to_nat i = Some p.
Proof.
  unfold active_cores. intros [i Hi]%list_elem_of_lookup_1.
  apply lookup_take_Some in Hi as [Hp Hlt].
  exists (Z.of_nat i). rewrite Nat2Z.id. split; [lia|done].
Qed.

Lemma parked_cores_lookup m k p :
  0 ≤ k →
  p ∈ parked_cores m k →
  ∃ i, k ≤ i < Z.of_nat (length (primary_cpus_of m)) ∧
       primary_cpus_of m !! Z.to_nat i = Some p.
Proof.
  unfold parked_cores. intros Hk [i Hi]%list_elem_of_lookup_1.
  rewrite lookup_drop in Hi.
  exists (Z.of_nat (Z.to_nat k + i)). rewrite Nat2Z.id. split; [|done].
  apply lookup_lt_Some in Hi. lia.
Qed.

Lemma lookup_parked_cores m k i p :
  k ≤ i → 0 ≤ k →
  primary_cpus_of m !! Z.to_nat i = Some p → p ∈ parked_cores m k.
Proof.
  intros Hki Hk Hp. unfold parked_cores.
  apply list_elem_of_lookup. exists (Z.to_nat i - Z.to_nat k)%nat.
  rewrite lookup_drop. by replace (Z.to_nat k + (Z.to_nat i - Z.to_nat k))%nat
    with (Z.to_nat i) by lia.
Qed.

Lemma lookup_active_cores m k i p :
  0 ≤ i < k →
  primary_cpus_of m !! Z.to_nat i = Some p → p ∈ active_cores m k.
Proof.
  intros Hi Hp. unfold active_cores.
  apply list_elem_of_lookup. exists (Z.to_nat i).
  apply lookup_take_Some. split; [done|lia].
Qed.

Lemma elem_of_parked_cpus m smt k c :
  c ∈ parked_cpus m smt k ↔ ∃ p, p ∈ parked_cores m k ∧ c ∈ core_cpus m smt p.
Proof.
  unfold parked_cpus. rewrite list_elem_of_join. split.
  - intros (l & Hc & (p & -> & Hp)%list_elem_of_fmap). by exists p.
  - intros (p & Hp & Hc). exists (core_cpus m smt p). split; [done|].
    by apply list_elem_of_fmap_2.
Qed.

Section whole_call.
Context (m : CPUManager) (Hinit : _topology_initialized m = true).

Local Abbreviation prim := (primary_cpus_of m).

(** The run of a call: the two loops, then the refresh of the online list.
    While cores are parked only the [online] files of the parked cores' CPUs
    are written. *)
Lemma parking_run t s :
  let smt := smt_enabled_of m s in
  let k := clamp_target t (Z.of_nat (length prim)) in
  ∃ b l s1 s2 s',
    set_cpu_cores_with_cstate_optimization t m s = (Ok b, set_online_cpus l m, s') ∧
    onlining (log (EvRead smt_active_path) s) s1 ∧
    offlining (λ c, bool_decide (c ∈ parked_cpus m smt k)) s1 s2 ∧
    frame no_write s2 s' ∧
    (b = true →
     (∀ p c, p ∈ active_cores m k → c ∈ core_cpus m smt p → settled_online s1 c) ∧
     (∀ p c, p ∈ parked_cores m k → p ≠ 0 → c ∈ core_cpus m smt p → c ≠ 0 →
             settled_offline s2 c)).
Proof.
  intros smt k. pose proof (primary_cpus_nonempty m) as Hn.
  pose proof (clamp_target_range t (Z.of_nat (length prim)) ltac:(lia)) as Hk.
  fold k in Hk.
  unfold set_cpu_cores_with_cstate_optimization.
  rewrite run_try_except, run_bind, (get_primary_cpus_run m Hinit).
  rewrite run_bind, (is_smt_enabled_run m Hinit). fold smt. cbv zeta. fold k.
  set (s0 := log (EvRead smt_active_path) s).
  destruct (success_loop (online_step prim smt) m onlining
              (λ s i, ∀ c, c ∈ default [] (core_cpus m smt <$> prim !! Z.to_nat i) →
                           settled_online s c)
              (λ s s' x H Hx c Hc, proj2 H c (Hx c Hc))
              (Py.range 0 k) true s0)
    as (b1 & s1 & E1 & HR1 & Hb1).
  { intros success i s' Hi%elem_of_range.
    apply (online_step_run m Hinit smt success i s'). lia. }
  set (X := λ c, bool_decide (c ∈ parked_cpus m smt k)).
  destruct (success_loop (offline_step prim smt) m (offlining X)
              (λ s i, prim !! Z.to_nat i ≠ Some 0 →
                      ∀ c, c ∈ default [] (core_cpus m smt <$> prim !! Z.to_nat i) →
                           c ≠ 0 → settled_offline s c)
              (λ s s' x H Hx Hp c Hc Hne, proj2 H c (Hx Hp c Hc Hne))
              (Py.range k (Z.of_nat (length prim))) b1 s1)
    as (b2 & s2 & E2 & HR2 & Hb2).
  { intros success i s' Hi%elem_of_range.
    apply (offline_step_run m Hinit smt X success i s'); [lia|].
    intros c Hc _. apply bool_decide_eq_true, elem_of_parked_cpus.
    destruct (prim !! Z.to_nat i) as [p|] eqn:Hp; [|by apply elem_of_nil in Hc].
    exists p. split; [|done]. apply (lookup_parked_cores m k i); [lia|lia|done]. }
  destruct (update_online_cpus_run m s2) as (l & s' & E3 & HR3).
  exists b2, l, s1, s2, s'.
  rewrite run_bind, E1, run_bind, E2, run_bind, E3.
  split; [done|]. split; [done|]. split; [done|]. split; [done|].
  intros Hb. destruct (Hb2 Hb) as [-> Hoff]. destruct (Hb1 eq_refl) as [_ Hon].
  split.
  - intros p c (i & Hi & Hp)%active_cores_lookup Hc.
    apply (Hon i); [apply elem_of_range; lia|]. by rewrite Hp.
  - intros p c (i & Hi & Hp)%parked_cores_lookup Hp0 Hc Hc0; [|lia].
    apply (Hoff i); [apply elem_of_range; lia|congruence| |done]. by rewrite Hp.
Qed.

(** A call that finds every core in the requested state only reads. *)
Lemma parking_idle t s :
  let smt := smt_enabled_of m s in
  let k := clamp_target t (Z.of_nat (length prim)) in
  (∀ p c, p ∈ active_cores m k → c ∈ core_cpus m smt p → settled_online s c) →
  (∀ p c, p ∈ parked_cores m k → p ≠ 0 → c ∈ core_cpus m smt p → c ≠ 0 →
          settled_offline s c) →
  ∃ l s', set_cpu_cores_with_cstate_optimization t m s
          = (Ok true, set_online_cpus l m, s') ∧
          frame no_write s s'.
Proof.
  intros smt k Hon Hoff. pose proof (primary_cpus_nonempty m) as Hn.
  pose proof (clamp_target_range t (Z.of_nat (length prim)) ltac:(lia)) as Hk.
  fold k in Hk.
  unfold set_cpu_cores_with_cstate_optimization.
  rewrite run_try_except, run_bind, (get_primary_cpus_run m Hinit).
  rewrite run_bind, (is_smt_enabled_run m Hinit). fold smt. cbv zeta. fold k.
  set (s0 := log (EvRead smt_active_path) s).
  assert (frame no_write s s0) as H0 by by apply frame_log.
  destruct (idle_loop (online_step prim smt) m (frame no_write)
              (λ s i, ∀ c, c ∈ default [] (core_cpus m smt <$> prim !! Z.to_nat i) →
                           settled_online s c)
              (λ s s' x H Hx c Hc, no_write_settled_online s s' c H (Hx c Hc))
              (Py.range 0 k) true s0)
    as (s1 & E1 & HR1).
  { intros success i s' Hi%elem_of_range.
    apply (online_step_idle m Hinit smt success i s'). lia. }
  { intros i Hi%elem_of_range c Hc.
    destruct (prim !! Z.to_nat i) as [p|] eqn:Hp; [|by apply elem_of_nil in Hc].
    apply (no_write_settled_online s); [done|].
    apply (Hon p); [|done]. by apply (lookup_active_cores m k i). }
  assert (frame no_write s s1) as H1 by by etrans.
  destruct (idle_loop (offline_step prim smt) m (frame no_write)
              (λ s i, prim !! Z.to_nat i ≠ Some 0 →
                      ∀ c, c ∈ default [] (core_cpus m smt <$> prim !! Z.to_nat i) →
                           c ≠ 0 → settled_offline s c)
              (λ s s' x H Hx Hp c Hc Hne,
                 no_write_settled_offline s s' c H (Hx Hp c Hc Hne))
              (Py.range k (Z.of_nat (length prim))) true s1)
    as (s2 & E2 & HR2).
  { intros success i s' Hi%elem_of_range.
    apply (offline_step_idle m Hinit smt success i s'). lia. }
  { intros i Hi%elem_of_range Hp0 c Hc Hc0.
    destruct (prim !! Z.to_nat i) as [p|] eqn:Hp; [|by apply elem_of_nil in Hc].
    apply (no_write_settled_offline s); [done|].
    apply (Hoff p); [|congruence|done|done].
    apply (lookup_parked_cores m k i); [lia|lia|done]. }
  destruct (update_online_cpus_run m s2) as (l & s' & E3 & HR3).
  exists l, s'.
  rewrite run_bind, E1, run_bind, E2, run_bind, E3.
  split; [done|]. by repeat (etrans; [|done]).
Qed.

End whole_call.

(** ** Core parking: the first call discovers the topology *)

Lemma ensures_bind {O A B} (Φ : O → Prop) (c : M O A) (k : A → M O B) :
  (∀ a, ensures Φ (k a)) → ensures Φ (c ≫= k).
Proof.
  intros Hk o s b o' s'. rewrite run_bind.
  destruct (c o s) as [[[a|e] o1] s1]; [apply Hk|done].
Qed.

Lemma ensures_set_self {O} (Φ : O → Prop) (f : O → O) :
  (∀ o, Φ (f o)) → ensures Φ (set_self f).
Proof. intros Hf o s a o' s' [= _ <- _]. apply Hf. Qed.

Lemma initialize_cpu_topology_run m s :
  ∃ m' s', initialize_cpu_topology m s = (Ok tt, m', s') ∧
           _topology_initialized m' = true.
Proof.
  unfold initialize_cpu_topology. rewrite run_bind. unfold get_self at 1.
  cbv beta iota. destruct (_topology_initialized m) eqn:Hinit.
  { by exists m, s. }
  rewrite run_try_except.
  match goal with |- context [match ?c m s with _ => _ end] =>
    pose proof (λ H : ensures (λ m', _topology_initialized m' = true) c, H m s) as Hbody;
    destruct (c m s) as [[[[]|e] m1] s1]
  end.
  - exists m1, s1. split; [done|]. eapply Hbody; [|done].
    repeat (apply ensures_bind; intros ?). by apply ensures_set_self.
  - by eexists _, _.
Qed.

(** A call on a manager whose topology is not yet discovered discovers it,
    then goes on as a call on the manager so obtained. *)
Lemma parking_discovers_topology m s :
  ∃ m0 s0, _topology_initialized m0 = true ∧
    ∀ t, set_cpu_cores_with_cstate_optimization t m s
         = set_cpu_cores_with_cstate_optimization t m0 s0.
Proof.
  destruct (_topology_initialized m) eqn:Hinit.
  { by exists m, s. }
  destruct (initialize_cpu_topology_run m s) as (m0 & s0 & E & H0).
  exists m0, s0. split; [done|]. intros t.
  unfold set_cpu_cores_with_cstate_optimization.
  rewrite !run_try_except, !run_bind.
  rewrite (get_primary_cpus_run m0 H0).
  unfold get_primary_cpus_by_physical_core.
  rewrite run_bind. unfold get_self at 1. cbv beta iota. rewrite Hinit.
  rewrite run_bind, E. rewrite run_bind. unfold get_self at 1. cbv beta iota.
  reflexivity.
Qed.

(** ** Core parking: what a well-formed topology gives *)

Lemma core_cpus_ge m smt p c :
  topology_wf m → p ∈ primary_cpus_of m → c ∈ core_cpus m smt p → 0 ≤ p ≤ c.
Proof.
  intros (_ & Hprim & _) Hp Hc.
  rewrite Forall_forall in Hprim. destruct (Hprim p Hp) as (H0 & _ & Hge).
  unfold core_cpus in Hc. destruct smt.
  - rewrite Forall_forall in Hge. specialize (Hge c Hc). lia.
  - apply list_elem_of_singleton in Hc. lia.
Qed.

Lemma primary_cpus_split m k :
  primary_cpus_of m = active_cores m k ++ parked_cores m k.
Proof. unfold active_cores, parked_cores. by rewrite take_drop. Qed.

Lemma active_below_parked m k p q :
  topology_wf m → p ∈ active_cores m k → q ∈ parked_cores m k → p < q.
Proof.
  intros (Hs & _) Hp Hq. rewrite (primary_cpus_split m k) in Hs.
  by apply (StronglySorted_app_1_elem_of _ _ _ _ _ Hs).
Qed.

Lemma parked_cpus_positive m smt k p c :
  topology_wf m → 1 ≤ k →
  p ∈ parked_cores m k → c ∈ core_cpus m smt p → 0 < p ∧ 0 < c.
Proof.
  intros Hwf Hk Hp Hc.
  assert (p ∈ primary_cpus_of m) as Hp'.
  { rewrite (primary_cpus_split m k). apply elem_of_app. by right. }
  pose proof (core_cpus_ge m smt p c Hwf Hp' Hc).
  pose proof (primary_cpus_nonempty m) as Hn.
  destruct (primary_cpus_of m) as [|p0 l] eqn:E; [simpl in Hn; lia|].
  assert (p0 ∈ active_cores m k) as H0.
  { unfold active_cores. rewrite E. destruct (Z.to_nat k) eqn:Ek; [lia|].
    simpl. by left. }
  pose proof (active_below_parked m k p0 p Hwf H0 Hp).
  assert (p0 ∈ primary_cpus_of m) as H0' by (rewrite E; by left).
  destruct Hwf as (_ & Hprim & _). rewrite Forall_forall in Hprim.
  destruct (Hprim p0 H0') as (? & _). lia.
Qed.

Lemma active_not_parked m smt k p c :
  topology_wf m →
  p ∈ active_cores m k → c ∈ core_cpus m smt p → c ∉ parked_cpus m smt k.
Proof.
  intros Hwf Hp Hc (q & Hq & Hcq)%elem_of_parked_cpus.
  pose proof (active_below_parked m k p q Hwf Hp Hq) as Hlt.
  unfold core_cpus in *. destruct smt.
  - destruct Hwf as (_ & _ & Hd). rewrite Forall_forall in Hd.
    assert (p ∈ primary_cpus_of m) as Hp'.
    { rewrite (primary_cpus_split m k). apply elem_of_app. by left. }
    assert (q ∈ primary_cpus_of m) as Hq'.
    { rewrite (primary_cpus_split m k). apply elem_of_app. by right. }
    specialize (Hd p Hp'). rewrite Forall_forall in Hd.
    destruct (Hd q Hq') as [->|Hdis]; [lia|].
    rewrite Forall_forall in Hdis. by apply (Hdis c).
  - apply list_elem_of_singleton in Hc, Hcq. lia.
Qed.

Lemma parking_only_any X e :
  parking_only X e = true → parking_only (λ _, true) e = true.
Proof. destruct e as [|p v ok]; [done|]. destruct p; try done. by destruct a. Qed.

Lemma smt_enabled_frame X m s s' :
  frame (parking_only X) s s' → smt_enabled_of m s' = smt_enabled_of m s.
Proof.
  intros Hf. unfold smt_enabled_of.
  rewrite (frame_files _ _ _ Hf smt_active_path) by done.
  by rewrite (frame_read_errno _ _ _ Hf).
Qed.

(** A successful call on a discovered, well-formed topology. *)
Lemma parking_settles t m s :
  _topology_initialized m = true → topology_wf m →
  let smt := smt_enabled_of m s in
  let k := clamp_target t (Z.of_nat (length (primary_cpus_of m))) in
  ∃ b l s',
    set_cpu_cores_with_cstate_optimization t m s = (Ok b, set_online_cpus l m, s') ∧
    smt_enabled_of m s' = smt ∧
    (b = true →
     (∀ p c, p ∈ active_cores m k → c ∈ core_cpus m smt p → settled_online s' c) ∧
     (∀ p c, p ∈ parked_cores m k → c ∈ core_cpus m smt p → settled_offline s' c)).
Proof.
  intros Hinit Hwf smt k.
  destruct (parking_run m Hinit t s) as (b & l & s1 & s2 & s' & E & H1 & H2 & H3 & Hb).
  fold smt k in H2, Hb.
  pose proof (primary_cpus_nonempty m) as Hn.
  pose proof (clamp_target_range t (Z.of_nat (length (primary_cpus_of m)))
                ltac:(lia)) as Hk. fold k in Hk.
  exists b, l, s'. split; [done|]. split.
  - assert (frame (parking_only (λ _, true)) s s') as Hf.
    { etrans; [by apply (frame_log _ (EvRead smt_active_path))|].
      etrans; [apply H1|].
      etrans; [apply (frame_weaken _ _ _ _ (parking_only_any _) (proj1 H2))|].
      etrans; [|apply (frame_weaken _ _ _ _ (no_write_parking _) H3)].
      reflexivity. }
    apply (smt_enabled_frame _ _ _ _ Hf).
  - intros Hbt. destruct (Hb Hbt) as [Hon Hoff]. split.
    + intros p c Hp Hc. apply (no_write_settled_online s2); [done|].
      apply (frame_settled_online _ s1 s2 c (proj1 H2)); [|by apply (Hon p)].
      apply bool_decide_eq_false. by apply (active_not_parked m smt k p).
    + intros p c Hp Hc. apply (no_write_settled_offline s2); [done|].
      destruct (parked_cpus_positive m smt k p c Hwf) as [? ?]; [lia|done|done|].
      apply (Hoff p); [done|lia|done|lia].
Qed.

(** ** Core parking: the target is clamped and reached *)




(** Scenario A, run: with target 2 the call returns true, CPUs 0, 4, 1, 5
    are online and CPUs 2, 6, 3, 7 offline. *)
Example scenario_A :
  let r := set_cpu_cores_with_cstate_optimization 2 scenario_A_manager scenario_A_tree in
  outcome r = Ok true ∧
  online_among (sys_after r) [0; 1; 2; 3; 4; 5; 6; 7] = [0; 1; 4; 5] ∧
  (λ c, files (sys_after r) !! cpu_path c online) <$> [2; 6; 3; 7]
    = [Some "0"; Some "0"; Some "0"; Some "0"].
Proof. vm_compute. split_and!; reflexivity. Qed.

(** Scenario B, run: SMT off, target 3: CPUs 0, 1, 2 are online; CPU 3 is
    taken offline; CPUs 4-7 are not written. *)
Example scenario_B :
  let r := set_cpu_cores_with_cstate_optimization 3 scenario_B_manager scenario_B_tree in
  outcome r = Ok true ∧
  online_among (sys_after r) [0; 1; 2; 3; 4; 5; 6; 7] = [0; 1; 2] ∧
  writes (events_since scenario_B_tree (sys_after r))
    = [EvWrite (cpu_path 3 online) "0" true].
Proof. vm_compute. split_and!; reflexivity. Qed.

(** Scenario A on a fresh manager: [CPUManager()] has not discovered the
    topology; the first call discovers it from the topology files (primary
    CPUs 0-3, siblings (0,4) (1,5) (2,6) (3,7), well formed) and parks cores
    2 and 3. *)
Example scenario_A_fresh_manager :
  match new_CPUManager scenario_A_sysfs with
  | (Ok m, s) =>
      let r := set_cpu_cores_with_cstate_optimization 2 m s in
      _topology_initialized m = false ∧
      outcome r = Ok true ∧
      primary_cpus_of (self_after r) = [0; 1; 2; 3] ∧
      bool_decide (topology_wf (self_after r)) = true ∧
      online_among (sys_after r) [0; 1; 2; 3; 4; 5; 6; 7] = [0; 1; 4; 5] ∧
      writes (events_since s (sys_after r))
        = [EvWrite (cpu_path 2 online) "0" true; EvWrite (cpu_path 6 online) "0" true;
           EvWrite (cpu_path 3 online) "0" true; EvWrite (cpu_path 7 online) "0" true]
  | (Raise _, _) => False
  end.
Proof. vm_compute. split_and!; reflexivity. Qed.

(** ** Core parking: a second call finds nothing to do *)

(** C9 (as the code has it).  [online_cpu] and
    [offline_cpu_with_cstate_prep] read the CPU's [online] file first, and
    for a CPU already in the requested state they
    return true having recorded that one read and nothing else: no write, no
    C-state preparation.  Hence a second call of
    [set_cpu_cores_with_cstate_optimization] with the same count, made on
    the manager and the tree the first call left, records no write at all,
    returns true and leaves every file and the topology as they were, when
    the first call returned true on a well-formed topology.  After a first
    call that returned false, a refused write is issued again by the second
    call. *)
Theorem second_parking_call_writes_nothing :
  (∀ c m s, c ≠ 0 → settled_online s c →
     online_cpu c m s = (Ok true, m, log (EvRead (cpu_path c online)) s)) ∧
  (∀ c target_cstate m s, settled_offline s c →
     offline_cpu_with_cstate_prep c target_cstate m s
     = (Ok true, m, log (EvRead (cpu_path c online)) s)) ∧
  (∀ n m s,
     let r1 := set_cpu_cores_with_cstate_optimization n m s in
     let r2 := set_cpu_cores_with_cstate_optimization n (self_after r1) (sys_after r1) in
     topology_wf (self_after r1) → outcome r1 = Ok true →
     outcome r2 = Ok true ∧
     writes (events_since (sys_after r1) (sys_after r2)) = [] ∧
     files (sys_after r2) = files (sys_after r1) ∧
     same_topology (self_after r1) (self_after r2)).
Proof.
  split; [exact online_cpu_already|]. split; [exact offline_cpu_idle|].
  intros n m s.
  destruct (parking_discovers_topology m s) as (m0 & s0 & Hinit & Hrun).
  rewrite (Hrun n). cbv zeta. intros Hwf Hok.
  destruct (parking_settles n m0 s0 Hinit) as (b & l & s1 & E & Hsmt & Hb).
  { revert Hwf. destruct (parking_run m0 Hinit n s0)
      as (? & ? & ? & ? & ? & E' & _). by rewrite E'. }
  revert Hok. rewrite E. unfold outcome, self_after, sys_after.
  simpl fst. simpl snd. intros [= ->]. destruct (Hb eq_refl) as [Hon Hoff].
  set (m1 := set_online_cpus l m0).
  destruct (parking_idle m1 Hinit n s1) as (l2 & s2 & E2 & Hf).
  { change (smt_enabled_of m1 s1) with (smt_enabled_of m0 s1). rewrite Hsmt.
    exact Hon. }
  { change (smt_enabled_of m1 s1) with (smt_enabled_of m0 s1). rewrite Hsmt.
    intros p c Hp _ Hc _. by apply (Hoff p). }
  rewrite E2. simpl fst. simpl snd.
  split; [done|]. split; [by apply no_write_frame_events|].
  split; [by apply no_write_frame_files|]. by repeat split.
Qed.

Lemma second_parking_call_writes_nothing_witness :
  let r1 := set_cpu_cores_with_cstate_optimization 2 scenario_A_manager scenario_A_tree in
  let r2 := set_cpu_cores_with_cstate_optimization 2 (self_after r1) (sys_after r1) in
  topology_wf (self_after r1) ∧ outcome r1 = Ok true ∧
  outcome r2 = Ok true ∧
  writes (events_since (sys_after r1) (sys_after r2)) = [] ∧
  files (sys_after r2) = files (sys_after r1) ∧
  same_topology (self_after r1) (self_after r2).
Proof.
  intros r1 r2.
  assert (topology_wf (self_after r1)) as Hwf.
  { apply (bool_decide_eq_true_1 _). vm_compute. reflexivity. }
  assert (outcome r1 = Ok true) as Hok.
  { vm_compute. reflexivity. }
  split; [exact Hwf|]. split; [exact Hok|].
  exact (proj2 (proj2 second_parking_call_writes_nothing)
               2 scenario_A_manager scenario_A_tree Hwf Hok).
Defined.

(** Scenario A twice: the first call parks cores 2 and 3 with four
    [online] writes (after the C-state preparation of CPU 2); the second
    call only reads. *)
Example scenario_A_twice :
  let r1 := set_cpu_cores_with_cstate_optimization 2 scenario_A_manager scenario_A_tree in
  let r2 := set_cpu_cores_with_cstate_optimization 2 (self_after r1) (sys_after r1) in
  filter (λ e, is_online_write e = true)
         (events_since scenario_A_tree (sys_after r1))
    = [EvWrite (cpu_path 2 online) "0" true; EvWrite (cpu_path 6 online) "0" true;
       EvWrite (cpu_path 3 online) "0" true; EvWrite (cpu_path 7 online) "0" true] ∧
  outcome r2 = Ok true ∧
  writes (events_since (sys_after r1) (sys_after r2)) = [] ∧
  length (events_since (sys_after r1) (sys_after r2)) = 9%nat.
Proof. vm_compute. split_and!; reflexivity. Qed.

(** Not for every count and tree: on a kernel that refuses to take CPU 3
    offline, the first call with count 3 returns false, having had its
    write of "0" to CPU 3 refused, and the second call, made on what the
    first one left, issues that write again. *)
Lemma refused_offline_is_written_again :
  let r1 := set_cpu_cores_with_cstate_optimization 3 scenario_A_manager
              scenario_A_busy_tree in
  let r2 := set_cpu_cores_with_cstate_optimization 3 (self_after r1) (sys_after r1) in
  outcome r1 = Ok false ∧
  filter (λ e, is_online_write e = true)
         (events_since scenario_A_busy_tree (sys_after r1))
    = [EvWrite (cpu_path 3 online) "0" false; EvWrite (cpu_path 7 online) "0" true] ∧
  outcome r2 = Ok false ∧
  writes (events_since (sys_after r1) (sys_after r2))
    = [EvWrite (cpu_path 3 online) "0" false].
Proof. vm_compute. split_and!; reflexivity. Qed.

(** * Further properties of the manager *)

(** ** Bringing one CPU online, taking one CPU offline *)

Lemma events_since_log s e : events_since s (log e s) = [e].
Proof. unfold events_since. simpl. by rewrite drop_app_length. Qed.

Lemma events_since_refl s : events_since s s = [].
Proof. unfold events_since. by rewrite drop_all. Qed.

Lemma events_since_trans P s1 s2 s3 :
  frame P s1 s2 → frame P s2 s3 →
  events_since s1 s3 = events_since s1 s2 ++ events_since s2 s3.
Proof.
  intros [[n1 [E1 _]] _ _ _ _ _ _] [[n2 [E2 _]] _ _ _ _ _ _].
  rewrite (events_since_app s1 s2 n1), (events_since_app s2 s3 n2) by done.
  apply events_since_app. by rewrite E2, E1, app_assoc.
Qed.

(** X1.  [online_cpu] on a CPU other than 0 returns true exactly when the
    CPU's [online] file exists, can be read, and either already reads "1" or
    takes the write of "1".  A CPU that has no [online] file gives false.
    The only write ever attempted is that of "1" to the CPU's own [online]
    file, and it is attempted only after the file was read and found not to
    read "1".  After a true result the file reads "1".  The manager is left
    as it was. *)
Theorem online_cpu_verdict c m s :
  c ≠ 0 →
  let p := cpu_path c online in
  let r := online_cpu c m s in
  self_after r = m ∧
  (∃ b, outcome r = Ok b ∧
        (b = true ↔ ∃ v, files s !! p = Some v ∧ read_errno s p = None ∧
                         (Py.strip v = "1" ∨ write_errno s p "1" = None))) ∧
  (outcome r = Ok true → Py.strip <$> files (sys_after r) !! p = Some "1") ∧
  writes (events_since s (sys_after r)) =
    match files s !! p, read_errno s p with
    | Some v, None =>
        if decide (Py.strip v = "1") then []
        else [EvWrite p "1" (bool_decide (write_errno s p "1" = None))]
    | _, _ => []
    end.
Proof.
  intros Hc p r. assert (r = online_cpu c m s) as Hr by done. clearbody r.
  unfold online_cpu in Hr. rewrite decide_False in Hr by done. cbv zeta in Hr.
  fold p in Hr. rewrite run_try_except, run_bind in Hr.
  unfold exists_ at 1 in Hr. cbv beta iota in Hr.
  destruct (files s !! p) as [v|] eqn:Ev.
  2:{ rewrite bool_decide_eq_false_2 in Hr by (by intros [? ?]).
      change (negb false) with true in Hr. cbv iota in Hr. subst r.
      unfold outcome, self_after, sys_after. simpl.
      split; [done|]. split.
      { exists false. split; [done|]. split; [done|]. intros (v & ? & _); congruence. }
      split; [done|]. by rewrite events_since_refl. }
  rewrite bool_decide_eq_true_2 in Hr by done.
  change (negb true) with false in Hr. cbv iota in Hr.
  rewrite run_bind, run_fmap in Hr. unfold read in Hr. rewrite Ev in Hr.
  set (s1 := log (EvRead p) s) in *.
  destruct (read_errno s p) as [e|] eqn:Er.
  { subst r. unfold outcome, self_after, sys_after. simpl.
    split; [done|]. split.
    { exists false. split; [done|]. split; [done|]. intros (v' & ? & ? & _); congruence. }
    split; [done|]. unfold s1. by rewrite events_since_log. }
  destruct (decide (Py.strip v = "1")) as [Hs|Hs].
  { subst r. unfold outcome, self_after, sys_after. simpl.
    split; [done|]. split.
    { exists true. split; [done|]. split; [|done]. intros _. exists v. auto. }
    split; [by rewrite Ev; simpl; rewrite Hs|].
    unfold s1. by rewrite events_since_log. }
  assert (present p s1 = true) as Hp.
  { apply bool_decide_eq_true. simpl. rewrite Ev. by eexists. }
  rewrite run_bind, (run_write _ _ m s1 Hp) in Hr.
  assert (accepted p "1" s1 = bool_decide (write_errno s p "1" = None)) as Ha.
  { unfold accepted. by rewrite Hp. }
  assert (events_since s (attempt p "1" s1)
          = [EvRead p; EvWrite p "1" (accepted p "1" s1)]) as Hev.
  { apply events_since_app. rewrite attempt_trace_present by done. simpl.
    by rewrite <- app_assoc. }
  destruct (accepted p "1" s1) eqn:Hacc.
  - subst r. unfold outcome, self_after, sys_after. simpl.
    symmetry in Ha. apply bool_decide_eq_true in Ha.
    split; [done|]. split.
    { exists true. split; [done|]. split; [|done]. intros _. exists v. auto. }
    split.
    { intros _. rewrite attempt_lookup, decide_True by done. by rewrite Hacc. }
    rewrite Hev. by rewrite bool_decide_eq_true_2 by done.
  - subst r. unfold outcome, self_after, sys_after. simpl.
    symmetry in Ha. apply bool_decide_eq_false in Ha.
    split; [done|]. split.
    { exists false. split; [done|]. split; [done|].
      intros (v' & Hv' & _ & [?|?]); [congruence|done]. }
    split; [done|].
    rewrite Hev. by rewrite bool_decide_eq_false_2 by done.
Qed.

Lemma online_cpu_verdict_witness :
  let s := scenario_B_tree in
  let p := cpu_path 4 online in
  let r := online_cpu 4 scenario_B_manager s in
  4 ≠ 0 ∧
  self_after r = scenario_B_manager ∧
  (∃ b, outcome r = Ok b ∧
        (b = true ↔ ∃ v, files s !! p = Some v ∧ read_errno s p = None ∧
                         (Py.strip v = "1" ∨ write_errno s p "1" = None))) ∧
  (outcome r = Ok true → Py.strip <$> files (sys_after r) !! p = Some "1") ∧
  writes (events_since s (sys_after r)) =
    match files s !! p, read_errno s p with
    | Some v, None =>
        if decide (Py.strip v = "1") then []
        else [EvWrite p "1" (bool_decide (write_errno s p "1" = None))]
    | _, _ => []
    end.
Proof.
  intros s p r. split; [lia|].
  apply (online_cpu_verdict 4 scenario_B_manager scenario_B_tree). lia.
Defined.

(** The C-state preparation, for any requested target state: it always
    comes back, keeps the manager, writes no [online] file, and the rest of
    [offline_cpu_with_cstate_prep] goes on whatever it did. *)
Lemma cstate_prep_then {B} c target_cstate (k : unit → Method B) m s :
  ∃ s', frame (parking_only (λ _, false)) s s' ∧
    ((match target_cstate with
      | None => get_deepest_available_cstate c
      | Some t => ret (Some t)
      end) ≫= λ target_cstate : option string,
       (match target_cstate with
        | Some t => if decide (t = "") then ret tt
                    else force_cpu_to_cstate c (Some t);; ret tt
        | None => ret tt
        end) ≫= k) m s = k tt m s'.
Proof.
  assert (∃ t s1, (match target_cstate with
                   | None => get_deepest_available_cstate c
                   | Some t => ret (Some t)
                   end) m s = (Ok t, m, s1) ∧
                  frame (parking_only (λ _, false)) s s1) as (t & s1 & E1 & F1).
  { destruct target_cstate as [t|].
    - exists (Some t), s. split; [done|reflexivity].
    - apply run_total_eq.
      + apply get_deepest_available_cstate_total.
      + apply get_deepest_available_cstate_respects. apply _. }
  rewrite run_bind, E1.
  destruct t as [t|]; [destruct (decide (t = ""))|].
  - by exists s1.
  - destruct (run_total_eq _ (parking_only (λ _, false)) m s1
                (force_cpu_to_cstate_total c (Some t))
                (force_cpu_to_cstate_respects eq _ c (Some t)))
      as (b & s2 & E2 & F2).
    exists s2. split; [by etrans|]. by rewrite run_bind, run_bind, E2.
  - by exists s1.
Qed.

(** X2.  [offline_cpu_with_cstate_prep] on a CPU other than 0, for any
    requested C-state, returns true exactly when the CPU's [online] file
    exists, can be read, and either already reads "0" or takes the write of
    "0": what the C-state preparation does, and whether it works, has no
    part in the result.  The preparation never writes an [online] file, and
    the one [online] write attempted is that of "0" to the CPU's own file.
    After a true result the file reads "0".  The manager is left as it
    was. *)
Theorem offline_cpu_verdict c target_cstate m s :
  c ≠ 0 →
  let p := cpu_path c online in
  let r := offline_cpu_with_cstate_prep c target_cstate m s in
  self_after r = m ∧
  (∃ b, outcome r = Ok b ∧
        (b = true ↔ ∃ v, files s !! p = Some v ∧ read_errno s p = None ∧
                         (Py.strip v = "0" ∨ write_errno s p "0" = None))) ∧
  (outcome r = Ok true → Py.strip <$> files (sys_after r) !! p = Some "0") ∧
  filter (λ e, is_online_write e = true) (events_since s (sys_after r)) =
    match files s !! p, read_errno s p with
    | Some v, None =>
        if decide (Py.strip v = "0") then []
        else [EvWrite p "0" (bool_decide (write_errno s p "0" = None))]
    | _, _ => []
    end.
Proof.
  intros Hc p r.
  assert (r = offline_cpu_with_cstate_prep c target_cstate m s) as Hr by done.
  clearbody r.
  unfold offline_cpu_with_cstate_prep in Hr.
  rewrite decide_False in Hr by done. cbv zeta in Hr.
  fold p in Hr. rewrite run_try_except, run_bind in Hr.
  unfold exists_ at 1 in Hr. cbv beta iota in Hr.
  destruct (files s !! p) as [v|] eqn:Ev.
  2:{ rewrite bool_decide_eq_false_2 in Hr by (by intros [? ?]).
      change (negb false) with true in Hr. cbv iota in Hr. subst r.
      unfold outcome, self_after, sys_after. simpl.
      split; [done|]. split.
      { exists false. split; [done|]. split; [done|]. intros (v & ? & _); congruence. }
      split; [done|]. by rewrite events_since_refl. }
  rewrite bool_decide_eq_true_2 in Hr by done.
  change (negb true) with false in Hr. cbv iota in Hr.
  rewrite run_bind, run_fmap in Hr. unfold read in Hr. rewrite Ev in Hr.
  set (s1 := log (EvRead p) s) in *.
  destruct (read_errno s p) as [e|] eqn:Er.
  { subst r. unfold outcome, self_after, sys_after. simpl.
    split; [done|]. split.
    { exists false. split; [done|]. split; [done|]. intros (v' & ? & ? & _); congruence. }
    split; [done|]. unfold s1. by rewrite events_since_log. }
  destruct (decide (Py.strip v = "0")) as [Hs|Hs].
  { subst r. unfold outcome, self_after, sys_after. simpl.
    split; [done|]. split.
    { exists true. split; [done|]. split; [|done]. intros _. exists v. auto. }
    split; [by rewrite Ev; simpl; rewrite Hs|].
    unfold s1. by rewrite events_since_log. }
  destruct (cstate_prep_then c target_cstate
              (λ _, write p "0" ≫= λ _, ret true) m s1) as (s2 & F2 & E2).
  rewrite E2 in Hr. clear E2.
  assert (frame (parking_only (λ _, false)) s s2) as F02.
  { etrans; [|exact F2]. by apply frame_log. }
  assert (present p s2 = true) as Hp.
  { apply bool_decide_eq_true. apply (frame_dom _ _ _ F02). rewrite Ev. by eexists. }
  rewrite run_bind, (run_write _ _ m s2 Hp) in Hr.
  assert (accepted p "0" s2 = bool_decide (write_errno s p "0" = None)) as Ha.
  { unfold accepted. by rewrite Hp, (frame_write_errno _ _ _ F02). }
  assert (filter (λ e, is_online_write e = true) (events_since s (attempt p "0" s2))
          = [EvWrite p "0" (accepted p "0" s2)]) as Hev.
  { rewrite (events_since_trans (parking_only (λ c', bool_decide (c' = c))) s s2).
    - rewrite filter_app.
      replace (filter _ (events_since s s2)) with (@nil event).
      + rewrite (events_since_app s2 _ [EvWrite p "0" (accepted p "0" s2)])
          by by apply attempt_trace_present.
        done.
      + symmetry. apply frame_events_since in F02.
        induction F02 as [|ev l Hev _ IH]; [done|].
        rewrite filter_cons_False; [done|].
        destruct ev as [|[] ? ?]; try done. by destruct a.
    - eapply frame_weaken; [|exact F02]. intros [|[] ? ?]; try done. by destruct a.
    - apply frame_attempt_online. by apply bool_decide_eq_true. }
  destruct (accepted p "0" s2) eqn:Hacc.
  - subst r. unfold outcome, self_after, sys_after. simpl.
    symmetry in Ha. apply bool_decide_eq_true in Ha.
    split; [done|]. split.
    { exists true. split; [done|]. split; [|done]. intros _. exists v. auto. }
    split.
    { intros _. rewrite attempt_lookup, decide_True by done. by rewrite Hacc. }
    rewrite Hev. by rewrite bool_decide_eq_true_2 by done.
  - subst r. unfold outcome, self_after, sys_after. simpl.
    symmetry in Ha. apply bool_decide_eq_false in Ha.
    split; [done|]. split.
    { exists false. split; [done|]. split; [done|].
      intros (v' & Hv' & _ & [?|?]); [congruence|done]. }
    split; [done|].
    rewrite Hev. by rewrite bool_decide_eq_false_2 by done.
Qed.

Lemma offline_cpu_verdict_witness :
  let s := scenario_A_tree in
  let p := cpu_path 2 online in
  let r := offline_cpu_with_cstate_prep 2 None scenario_A_manager s in
  2 ≠ 0 ∧
  self_after r = scenario_A_manager ∧
  (∃ b, outcome r = Ok b ∧
        (b = true ↔ ∃ v, files s !! p = Some v ∧ read_errno s p = None ∧
                         (Py.strip v = "0" ∨ write_errno s p "0" = None))) ∧
  (outcome r = Ok true → Py.strip <$> files (sys_after r) !! p = Some "0") ∧
  filter (λ e, is_online_write e = true) (events_since s (sys_after r)) =
    match files s !! p, read_errno s p with
    | Some v, None =>
        if decide (Py.strip v = "0") then []
        else [EvWrite p "0" (bool_decide (write_errno s p "0" = None))]
    | _, _ => []
    end.
Proof.
  intros s p r. split; [lia|].
  apply (offline_cpu_verdict 2 None scenario_A_manager scenario_A_tree). lia.
Defined.

(** ** Governor and EPP: the per-CPU write loop *)

(** The loop shared by [set_governor] and [set_epp]: one guarded write per
    CPU, counting the writes that went through. *)
Lemma counting_loop (f : Z → path) v cpus (sc : Z) (m : CPUManager) s :
  for_fold
    (λ (success_count : Z) cpu,
       e ← exists_ (f cpu);
       if e : bool then
         try_except (write (f cpu) v;; ret (success_count + 1))
                    (λ _, ret success_count)
       else ret success_count)
    cpus sc m s
  = (Ok (sc + count (λ c, accepted (f c) v s) cpus), m, attempts (f <$> cpus) v s).
Proof.
  revert sc s. induction cpus as [|c cpus IH]; intros sc s.
  { simpl. unfold count. simpl. by rewrite Z.add_0_r. }
  rewrite for_fold_cons, run_bind, run_guarded_write.
  rewrite fmap_cons, attempts_cons, IH, count_cons.
  rewrite (count_ext (λ c0, accepted (f c0) v (attempt (f c) v s))
                     (λ c0, accepted (f c0) v s))
    by (intros; apply attempt_accepted).
  f_equal. f_equal. f_equal.
  destruct (present (f c) s) eqn:Hp.
  - destruct (accepted (f c) v s); lia.
  - unfold accepted. rewrite Hp. simpl. lia.
Qed.

Lemma no_write_present s s' p : frame no_write s s' → present p s' = present p s.
Proof. intros Hf. unfold present. by rewrite (no_write_frame_files _ _ Hf). Qed.

Lemma no_write_accepted s s' p v :
  frame no_write s s' → accepted p v s' = accepted p v s.
Proof.
  intros Hf. unfold accepted.
  by rewrite (no_write_present _ _ _ Hf), (frame_write_errno _ _ _ Hf).
Qed.

Lemma count_exists f cpus : 0 < count f cpus ↔ ∃ c, c ∈ cpus ∧ f c = true.
Proof.
  pose proof (count_pos_iff f cpus) as H.
  split.
  - intros Hpos. assert (count f cpus > 0) as Hgt by lia. apply H in Hgt.
    destruct (filter (λ c, f c = true) cpus) as [|c l] eqn:E; [done|].
    assert (c ∈ filter (λ c, f c = true) cpus) as Hin by (rewrite E; left).
    apply list_elem_of_filter in Hin as [? ?]. by exists c.
  - intros (c & Hc & Hf). cut (count f cpus > 0); [lia|]. apply H.
    intros E. assert (c ∈ filter (λ c, f c = true) cpus) as Hin
      by by apply list_elem_of_filter.
    rewrite E in Hin. by apply elem_of_nil in Hin.
Qed.

(** What the write loop leaves, seen from the tree before the reads that
    precede it. *)
Lemma counting_loop_after (f : Z → path) v cpus s s1 :
  frame no_write s s1 →
  let s' := attempts (f <$> cpus) v s1 in
  (∀ c, c ∈ cpus →
        files s' !! f c = if accepted (f c) v s then Some v else files s !! f c) ∧
  writes (events_since s s')
    = (λ c, EvWrite (f c) v (accepted (f c) v s))
        <$> filter (λ c, present (f c) s = true) cpus.
Proof.
  intros Hf s'. split.
  - intros c Hc. unfold s'. rewrite attempts_lookup.
    rewrite bool_decide_eq_true_2 by by apply list_elem_of_fmap_2.
    rewrite (no_write_accepted _ _ _ _ Hf), (no_write_frame_files _ _ Hf). done.
  - destruct Hf as [[new [E Hnew]] Hrest]. unfold s'.
    rewrite (events_since_app s _ (new ++
      ((λ p, EvWrite p v (accepted p v s1)) <$>
         filter (λ p, present p s1 = true) (f <$> cpus)))).
    2:{ by rewrite attempts_trace, E, app_assoc. }
    rewrite writes_app, (writes_no_write new) by done. simpl.
    rewrite writes_all_writes by done.
    rewrite (filter_fmap_path (λ p, present p s1 = true)), <- list_fmap_compose.
    assert (frame no_write s s1) as Hf by (split; [by exists new|done..]).
    erewrite (list_filter_iff _ (λ c, present (f c) s = true)).
    2:{ intros c. by rewrite (no_write_present _ _ _ Hf). }
    apply list_fmap_ext. intros _ c _. simpl.
    by rewrite (no_write_accepted _ _ _ _ Hf).
Qed.

Lemma get_available_governors_total : total get_available_governors.
Proof. unfold get_available_governors. total_auto. Qed.

Lemma get_available_epp_options_total : total get_available_epp_options.
Proof. unfold get_available_epp_options. total_auto. Qed.

Lemma get_current_governor_total : total get_current_governor.
Proof. unfold get_current_governor. total_auto. Qed.

Lemma get_current_governor_reads_only :
  respects (O := CPUManager) eq no_write get_current_governor.
Proof. unfold get_current_governor, first_online_cpu. frame_auto. Qed.

(** X3.  [set_governor] with a governor of the live list is best effort:
    it attempts the write on every online CPU that has a [scaling_governor]
    file, in the order of the online list, goes on after a refused write,
    and returns true as soon as one write was accepted, even when others
    were refused.  Each CPU whose write was accepted holds the governor
    afterwards; the others keep what they had. *)
Theorem set_governor_best_effort governor m s available :
  outcome (get_available_governors m s) = Ok available →
  governor ∈ available →
  let gov := λ c, cpu_path c scaling_governor in
  let r := set_governor governor m s in
  self_after r = m ∧
  (∃ b, outcome r = Ok b ∧
        (b = true ↔ ∃ c, c ∈ _online_cpus m ∧ accepted (gov c) governor s = true)) ∧
  (∀ c, c ∈ _online_cpus m →
        files (sys_after r) !! gov c =
          if accepted (gov c) governor s then Some governor else files s !! gov c) ∧
  writes (events_since s (sys_after r))
    = (λ c, EvWrite (gov c) governor (accepted (gov c) governor s))
        <$> filter (λ c, present (gov c) s = true) (_online_cpus m).
Proof.
  intros Hav Hin gov r.
  assert (r = set_governor governor m s) as Hr by done. clearbody r.
  destruct (run_total_eq _ no_write m s get_available_governors_total
              get_available_governors_reads_only) as (av & s1 & E1 & F1).
  rewrite E1 in Hav. injection Hav as ->.
  unfold set_governor in Hr. rewrite run_bind, E1 in Hr.
  rewrite decide_True in Hr by done.
  rewrite run_try_except, run_bind in Hr. unfold get_self at 1 in Hr.
  cbv beta iota in Hr.
  rewrite run_bind, (counting_loop gov governor) in Hr.
  destruct (counting_loop_after gov governor (_online_cpus m) s s1 F1) as [Hfiles Hw].
  subst r. unfold outcome, self_after, sys_after. simpl.
  split; [done|]. split; [|by split].
  eexists. split; [done|].
  rewrite bool_decide_eq_true, Z.add_0_l, count_exists.
  split; intros (c & Hc & Ha); exists c; split; try done.
  - by rewrite <- (no_write_accepted _ _ _ _ F1).
  - by rewrite (no_write_accepted _ _ _ _ F1).
Qed.

Lemma set_governor_best_effort_witness :
  let m := scenario_D_manager in
  let s := scenario_D_busy_tree in
  let gov := λ c, cpu_path c scaling_governor in
  let r := set_governor "powersave" m s in
  outcome (get_available_governors m s) = Ok ["powersave"; "performance"] ∧
  "powersave" ∈ ["powersave"; "performance"] ∧
  self_after r = m ∧
  (∃ b, outcome r = Ok b ∧
        (b = true ↔ ∃ c, c ∈ _online_cpus m ∧ accepted (gov c) "powersave" s = true)) ∧
  (∀ c, c ∈ _online_cpus m →
        files (sys_after r) !! gov c =
          if accepted (gov c) "powersave" s then Some "powersave"
          else files s !! gov c) ∧
  writes (events_since s (sys_after r))
    = (λ c, EvWrite (gov c) "powersave" (accepted (gov c) "powersave" s))
        <$> filter (λ c, present (gov c) s = true) (_online_cpus m).
Proof.
  intros m s gov r.
  assert ("powersave" ∈ ["powersave"; "performance"]) as Hin by left.
  split; [reflexivity|]. split; [exact Hin|].
  exact (set_governor_best_effort "powersave" scenario_D_manager scenario_D_busy_tree
           ["powersave"; "performance"] eq_refl Hin).
Defined.

(** On the two-CPU machine whose CPU 1 refuses the governor write,
    [set_governor "powersave"] returns true with CPU 1 left on
    "performance". *)
Example set_governor_partial :
  let r := set_governor "powersave" scenario_D_manager scenario_D_busy_tree in
  outcome r = Ok true ∧
  (λ c, files (sys_after r) !! cpu_path c scaling_governor) <$> [0; 1]
    = [Some "powersave"; Some "performance"].
Proof. vm_compute. split; reflexivity. Qed.

Lemma get_current_governor_same m s s' :
  files s' = files s → read_errno s' = read_errno s →
  outcome (get_current_governor m s') = outcome (get_current_governor m s).
Proof.
  intros Hf He.
  unfold get_current_governor, first_online_cpu, try_except, mbind, M_bind, bind,
    get_self, exists_, read, outcome.
  destruct (Py.index (_online_cpus m) 0) as [c|]; [|done]. simpl.
  rewrite ?Hf, ?He.
  destruct (files s !! cpu_path c scaling_governor) eqn:E; simpl;
    rewrite ?Hf, ?E, ?He; [|done].
  by destruct (read_errno s (cpu_path c scaling_governor)).
Qed.

(** X4.  [set_epp] with an EPP value of the live list, when the current
    governor is not "performance", never looks at [_scaling_driver]: it
    returns, also on a manager whose [_scaling_driver] was never assigned.
    It is best effort like [set_governor]: the write is attempted on every
    online CPU that has an [energy_performance_preference] file, a refused
    write (busy or other) is passed over, and the result is true exactly
    when at least one write was accepted. *)
Theorem set_epp_best_effort epp m s available :
  outcome (get_available_epp_options m s) = Ok available →
  epp ∈ available →
  outcome (get_current_governor m s) ≠ Ok (Some "performance") →
  let pref := λ c, cpu_path c energy_performance_preference in
  let r := set_epp epp m s in
  self_after r = m ∧
  (∃ b, outcome r = Ok b ∧
        (b = true ↔ ∃ c, c ∈ _online_cpus m ∧ accepted (pref c) epp s = true)) ∧
  (∀ c, c ∈ _online_cpus m →
        files (sys_after r) !! pref c =
          if accepted (pref c) epp s then Some epp else files s !! pref c) ∧
  writes (events_since s (sys_after r))
    = (λ c, EvWrite (pref c) epp (accepted (pref c) epp s))
        <$> filter (λ c, present (pref c) s = true) (_online_cpus m).
Proof.
  intros Hav Hin Hgov pref r.
  assert (r = set_epp epp m s) as Hr by done. clearbody r.
  destruct (run_total_eq _ no_write m s get_available_epp_options_total
              get_available_epp_options_reads_only) as (av & s1 & E1 & F1).
  rewrite E1 in Hav. injection Hav as ->.
  destruct (run_total_eq _ no_write m s1 get_current_governor_total
              get_current_governor_reads_only) as (g & s2 & E2 & F2).
  assert (g ≠ Some "performance") as Hg.
  { intros ->. apply Hgov.
    rewrite <- (get_current_governor_same m s s1).
    - by rewrite E2.
    - by apply no_write_frame_files.
    - by apply (frame_read_errno _ _ _ F1). }
  assert (frame no_write s s2) as F by by etrans.
  unfold set_epp in Hr. rewrite run_bind, E1 in Hr.
  rewrite decide_True in Hr by done.
  rewrite run_bind, E2 in Hr. rewrite decide_False in Hr by done.
  rewrite run_bind in Hr. unfold ret at 1 in Hr. cbv beta iota in Hr.
  rewrite run_try_except, run_bind in Hr. unfold get_self at 1 in Hr.
  cbv beta iota in Hr.
  rewrite run_bind, (counting_loop pref epp) in Hr.
  destruct (counting_loop_after pref epp (_online_cpus m) s s2 F) as [Hfiles Hw].
  subst r. unfold outcome, self_after, sys_after. simpl.
  split; [done|]. split; [|by split].
  eexists. split; [done|].
  rewrite bool_decide_eq_true, Z.add_0_l, count_exists.
  split; intros (c & Hc & Ha); exists c; split; try done.
  - by rewrite <- (no_write_accepted _ _ _ _ F).
  - by rewrite (no_write_accepted _ _ _ _ F).
Qed.

Lemma set_epp_best_effort_witness :
  let m := scenario_D_manager in
  let s := one_cpu_tree in
  let pref := λ c, cpu_path c energy_performance_preference in
  let r := set_epp "power" m s in
  outcome (get_available_epp_options m s)
    = Ok ["power"; "balance_power"; "balance_performance"; "performance"] ∧
  "power" ∈ ["power"; "balance_power"; "balance_performance"; "performance"] ∧
  outcome (get_current_governor m s) ≠ Ok (Some "performance") ∧
  self_after r = m ∧
  (∃ b, outcome r = Ok b ∧
        (b = true ↔ ∃ c, c ∈ _online_cpus m ∧ accepted (pref c) "power" s = true)) ∧
  (∀ c, c ∈ _online_cpus m →
        files (sys_after r) !! pref c =
          if accepted (pref c) "power" s then Some "power" else files s !! pref c) ∧
  writes (events_since s (sys_after r))
    = (λ c, EvWrite (pref c) "power" (accepted (pref c) "power" s))
        <$> filter (λ c, present (pref c) s = true) (_online_cpus m).
Proof.
  intros m s pref r.
  assert ("power" ∈ ["power"; "balance_power"; "balance_performance"; "performance"])
    as Hin by left.
  assert (outcome (get_current_governor m s) ≠ Ok (Some "performance")) as Hg
    by (vm_compute; discriminate).
  split; [reflexivity|]. split; [exact Hin|]. split; [exact Hg|].
  exact (set_epp_best_effort "power" scenario_D_manager one_cpu_tree _ eq_refl Hin Hg).
Defined.

(** ** Integers written and read back *)

Lemma rev_app_rev_app s1 s2 s3 :
  String.rev_app (String.rev_app s1 s2) s3 = String.rev_app s2 (s1 +:+ s3).
Proof.
  revert s2 s3. induction s1 as [|a s1 IH]; intros s2 s3; [done|].
  simpl. by rewrite IH.
Qed.

Lemma string_app_empty_r s : s +:+ "" = s.
Proof.
  induction s as [|a s IH]; [done|].
  change (String a (s +:+ "") = String a s). by f_equal.
Qed.

Lemma string_rev_involutive s : String.rev (String.rev s) = s.
Proof.
  unfold String.rev. rewrite rev_app_rev_app. simpl. apply string_app_empty_r.
Qed.

Lemma rev_app_no_space s1 s2 :
  Forall (λ c, Py.isspace c = false) (String.list_ascii_of_string s1) →
  Forall (λ c, Py.isspace c = false) (String.list_ascii_of_string s2) →
  Forall (λ c, Py.isspace c = false) (String.list_ascii_of_string (String.rev_app s1 s2)).
Proof.
  revert s2. induction s1 as [|a s1 IH]; intros s2 H1 H2; [done|].
  simpl in *. inversion_clear H1. apply IH; [done|]. by constructor.
Qed.

Lemma lstrip_no_space s :
  Forall (λ c, Py.isspace c = false) (String.list_ascii_of_string s) → Py.lstrip s = s.
Proof.
  destruct s as [|a s]; [done|]. simpl. inversion_clear 1.
  by destruct (Py.isspace a).
Qed.

(** [strip] leaves a string without white space as it is. *)
Lemma strip_no_space s :
  Forall (λ c, Py.isspace c = false) (String.list_ascii_of_string s) → Py.strip s = s.
Proof.
  intros H. unfold Py.strip, Py.rstrip. rewrite (lstrip_no_space s H).
  rewrite lstrip_no_space; [apply string_rev_involutive|].
  apply rev_app_no_space; [done|constructor].
Qed.

Lemma pretty_N_char_digit d :
  (d < 10)%N →
  Ascii.is_nat (pretty_N_char d) = Some (N.to_nat d) ∧
  Py.isspace (pretty_N_char d) = false ∧
  pretty_N_char d ≠ "-"%char ∧ pretty_N_char d ≠ "+"%char ∧
  pretty_N_char d ≠ "_"%char.
Proof.
  intros H.
  assert (d = 0 ∨ d = 1 ∨ d = 2 ∨ d = 3 ∨ d = 4 ∨ d = 5 ∨ d = 6 ∨ d = 7
          ∨ d = 8 ∨ d = 9)%N as Hd by lia.
  destruct Hd as [->|[->|[->|[->|[->|[->|[->|[->|[->| ->]]]]]]]]]; by compute.
Qed.

Lemma pretty_N_go_no_space x s :
  Forall (λ c, Py.isspace c = false) (String.list_ascii_of_string s) →
  Forall (λ c, Py.isspace c = false) (String.list_ascii_of_string (pretty_N_go x s)).
Proof.
  revert s. induction (N.lt_wf_0 x) as [x _ IH]; intros s Hs.
  assert (x = 0 ∨ 0 < x)%N as [->|Hx] by lia; [by rewrite pretty_N_go_0|].
  rewrite pretty_N_go_step by done. apply IH; [by apply N.div_lt|].
  simpl. constructor; [|done].
  apply pretty_N_char_digit. by apply N.mod_lt.
Qed.

(** The digits [pretty] writes for a positive number are read back as that
    number. *)
Lemma digits_go_pretty x s b :
  (0 < x)%N →
  Py.digits_go 0 b (pretty_N_go x s) = Py.digits_go x true s.
Proof.
  revert s b. induction (N.lt_wf_0 x) as [x _ IH]; intros s b Hx.
  rewrite pretty_N_go_step by done.
  destruct (pretty_N_char_digit (x `mod` 10)) as (Hd & _); [by apply N.mod_lt|].
  destruct (N.eq_0_gt_0_cases (x `div` 10)) as [E|Hq].
  - rewrite E, pretty_N_go_0. simpl. rewrite Hd. f_equal.
    rewrite N2Nat.id. pose proof (N.div_mod x 10 ltac:(lia)). lia.
  - rewrite IH; [|by apply N.div_lt|done]. simpl. rewrite Hd. f_equal.
    rewrite N2Nat.id. pose proof (N.div_mod x 10 ltac:(lia)). lia.
Qed.

Lemma pretty_N_go_head x s :
  (0 < x)%N → ∃ d r, (d < 10)%N ∧ pretty_N_go x s = String (pretty_N_char d) r.
Proof.
  revert s. induction (N.lt_wf_0 x) as [x _ IH]; intros s Hx.
  rewrite pretty_N_go_step by done.
  destruct (N.eq_0_gt_0_cases (x `div` 10)) as [E|Hq].
  - rewrite E, pretty_N_go_0. eexists _, _. split; [|done]. by apply N.mod_lt.
  - apply IH; [by apply N.div_lt|done].
Qed.

Lemma int_pretty_pos p : Py.int (pretty (N.pos p)) = Some (Z.pos p).
Proof.
  unfold Py.int, pretty, pretty_N. rewrite decide_False by done.
  rewrite strip_no_space by (apply pretty_N_go_no_space; constructor).
  pose proof (digits_go_pretty (N.pos p) "" false eq_refl) as Hd.
  destruct (pretty_N_go_head (N.pos p) "" eq_refl) as (d & r & Hlt & E).
  rewrite E in Hd |- *.
  destruct (pretty_N_char_digit d Hlt) as (_ & _ & Hm & Hp & _).
  assert (∀ c r', c ≠ "-"%char → c ≠ "+"%char →
     match String c r' with
     | String "-" r0 => (λ n : N, - Z.of_N n) <$> Py.digits_go 0 false r0
     | String "+" r0 => Z.of_N <$> Py.digits_go 0 false r0
     | r0 => Z.of_N <$> Py.digits_go 0 false r0
     end = Z.of_N <$> Py.digits_go 0 false (String c r')) as Hmatch.
  { intros c r' H1 H2.
    destruct c as [[] [] [] [] [] [] [] []]; try done. }
  rewrite Hmatch by done. by rewrite Hd.
Qed.

(** [int(str(n)) == n], with or without white space around. *)
Lemma int_str n : Py.int (Py.str n) = Some n.
Proof.
  unfold Py.str. destruct n as [|p|p].
  - done.
  - apply int_pretty_pos.
  - change (pretty (Z.neg p)) with (String "-" (pretty (N.pos p))).
    unfold Py.int.
    assert (Forall (λ c, Py.isspace c = false)
                   (String.list_ascii_of_string (String "-" (pretty (N.pos p))))) as Hns.
    { simpl. constructor; [done|]. unfold pretty, pretty_N.
      rewrite decide_False by done. apply pretty_N_go_no_space. constructor. }
    rewrite strip_no_space by done.
    unfold pretty, pretty_N. rewrite decide_False by done.
    by rewrite (digits_go_pretty (N.pos p) "" false eq_refl).
Qed.

Lemma strip_str n : Py.strip (Py.str n) = Py.str n.
Proof.
  apply strip_no_space. unfold Py.str. destruct n as [|p|p].
  - by repeat constructor.
  - unfold pretty, pretty_Z, pretty, pretty_positive, pretty, pretty_N.
    rewrite decide_False by done. apply pretty_N_go_no_space. constructor.
  - change (pretty (Z.neg p)) with (String "-" (pretty (N.pos p))).
    simpl. constructor; [done|]. unfold pretty, pretty_N.
    rewrite decide_False by done. apply pretty_N_go_no_space. constructor.
Qed.

Lemma read_back_str n : Py.int (Py.strip (Py.str n)) = Some n.
Proof. rewrite strip_str. apply int_str. Qed.

(** ** Frequency limits: a successful call leaves them in force *)

Lemma attempt_accepted_any p v q w s : accepted q w (attempt p v s) = accepted q w s.
Proof.
  unfold accepted. rewrite attempt_present.
  by destruct (attempt_static v p s) as (-> & _).
Qed.

Lemma attempt_lookup_ne p v q s : p ≠ q → files (attempt p v s) !! q = files s !! q.
Proof. intros. by rewrite attempt_lookup, decide_False. Qed.

Lemma attempt_lookup_accepted p v s :
  accepted p v s = true → files (attempt p v s) !! p = Some v.
Proof. intros H. by rewrite attempt_lookup, decide_True, H. Qed.

(** One round of the loop of [set_cpu_frequency_limits]: a CPU without both
    files is passed over; otherwise it counts as an attempt, and as a success
    only if its limits could be read and are now in force. *)
Lemma limits_step_post mn mx sc ta c (m : CPUManager) s :
  ∃ sc' ta' s',
    limits_step mn mx (sc, ta) c m s = (Ok (sc', ta'), m, s') ∧
    ((sc' = sc ∧ ta' = ta ∧ has_limit_files s c = false) ∨
     (ta' = ta + 1 ∧ has_limit_files s c = true ∧
      (sc' = sc ∨ (sc' = sc + 1 ∧ limits_in_force mn mx s' c ∧ limits_readable s c)))).
Proof.
  set (min_path := cpu_path c scaling_min_freq).
  set (max_path := cpu_path c scaling_max_freq).
  unfold limits_step, has_limit_files. cbv zeta. fold min_path max_path.
  rewrite run_bind. unfold exists_ at 1. cbv beta iota.
  rewrite run_bind. unfold exists_ at 1. cbv beta iota.
  fold (present min_path s) (present max_path s).
  destruct (present min_path s && present max_path s) eqn:Hboth.
  2:{ change (negb false) with true. cbv iota. eexists _, _, _. split; [done|].
      left. done. }
  change (negb true) with false. cbv iota.
  apply andb_true_iff in Hboth as [Hpmin Hpmax].
  pose proof Hpmin as Hvmin. apply bool_decide_eq_true in Hvmin as [vmin Hvmin].
  pose proof Hpmax as Hvmax. apply bool_decide_eq_true in Hvmax as [vmax Hvmax].
  rewrite run_try_except, run_bind. unfold read_int at 1.
  rewrite run_bind. unfold read at 1. rewrite Hvmin.
  destruct (read_errno s min_path) as [e|] eqn:Ermin.
  { eexists _, _, _. split; [done|]. right. auto. }
  destruct (Py.int (Py.strip vmin)) as [cur_min|] eqn:Eimin.
  2:{ eexists _, _, _. split; [done|]. right. auto. }
  simpl or_raise. unfold ret at 1. cbv beta iota.
  set (s1 := log (EvRead min_path) s).
  rewrite run_bind. unfold read_int at 1.
  rewrite run_bind. unfold read at 1.
  change (files s1) with (files s). change (read_errno s1) with (read_errno s).
  rewrite Hvmax.
  destruct (read_errno s max_path) as [e|] eqn:Ermax.
  { eexists _, _, _. split; [done|]. right. auto. }
  destruct (Py.int (Py.strip vmax)) as [cur_max|] eqn:Eimax.
  2:{ eexists _, _, _. split; [done|]. right. auto. }
  simpl or_raise. unfold ret at 1. cbv beta iota.
  set (s_r := log (EvRead max_path) s1).
  assert (limits_readable s c) as Hread by done.
  assert (present min_path s_r = true) as Hpmin_r by done.
  assert (present max_path s_r = true) as Hpmax_r by done.
  assert (min_path ≠ max_path) as Hne by done.
  destruct mx as [x|].
  - rewrite run_bind, run_bind.
    set (s_p := if decide (x < cur_max ∧ cur_min > x)
                then attempt min_path (Py.str x) s_r else s_r).
    assert ((if decide (x < cur_max ∧ cur_min > x)
             then try_except (write min_path (Py.str x)) (λ _, ret tt)
             else ret tt) m s_r = (Ok tt, m, s_p)) as ->.
    { unfold s_p. destruct (decide _); [|done].
      by rewrite run_try_write_unit. }
    assert (present max_path s_p = true) as Hpmax_p.
    { unfold s_p. destruct (decide _); [by rewrite attempt_present|done]. }
    assert (present min_path s_p = true) as Hpmin_p.
    { unfold s_p. destruct (decide _); [by rewrite attempt_present|done]. }
    rewrite (run_try_write max_path (Py.str x) true false m s_p Hpmax_p).
    set (s_x := attempt max_path (Py.str x) s_p).
    destruct (accepted max_path (Py.str x) s_p) eqn:Eok.
    2:{ destruct mn as [n|]; rewrite run_bind; eexists _, _, _;
          (split; [done|]); right; auto. }
    assert (files s_x !! max_path = Some (Py.str x)) as Hmax_x
      by by apply attempt_lookup_accepted.
    destruct mn as [n|].
    + rewrite run_bind.
      assert (present min_path s_x = true) as Hpmin_x
        by by (unfold s_x; rewrite attempt_present).
      rewrite run_try_write by done.
      destruct (accepted min_path (Py.str n) s_x) eqn:Eok2.
      * eexists _, _, _. split; [done|]. right. split; [done|]. split; [done|].
        right. split; [done|]. split; [|done]. split.
        -- intros ? [= <-]. by rewrite attempt_lookup_ne.
        -- intros ? [= <-]. by apply attempt_lookup_accepted.
      * eexists _, _, _. split; [done|]. right. auto.
    + rewrite run_bind. eexists _, _, _. split; [done|]. right.
      split; [done|]. split; [done|]. right. split; [done|]. split; [|done].
      split; [|done]. by intros ? [= <-].
  - rewrite run_bind. unfold ret at 1. cbv beta iota.
    destruct mn as [n|].
    + rewrite run_bind, run_try_write by done.
      destruct (accepted min_path (Py.str n) s_r) eqn:Eok2.
      * eexists _, _, _. split; [done|]. right. split; [done|]. split; [done|].
        right. split; [done|]. split; [|done]. split; [done|].
        intros ? [= <-]. by apply attempt_lookup_accepted.
      * eexists _, _, _. split; [done|]. right. auto.
    + rewrite run_bind. eexists _, _, _. split; [done|]. right.
      split; [done|]. split; [done|]. right. done.
Qed.

Lemma scaling_frame_has_limit_files s s' c :
  frame scaling_only s s' → has_limit_files s' c = has_limit_files s c.
Proof.
  intros Hf. unfold has_limit_files, present.
  assert (∀ p, bool_decide (is_Some (files s' !! p))
               = bool_decide (is_Some (files s !! p))) as H.
  { intros p. apply bool_decide_ext, (frame_dom _ _ _ Hf). }
  by rewrite !H.
Qed.

Lemma not_limit_frame_in_force mn mx c s s' :
  frame (not_limit_write_of c) s s' →
  limits_in_force mn mx s c → limits_in_force mn mx s' c.
Proof.
  intros Hf [Hmax Hmin]. destruct (not_limit_frame_keeps c s s' Hf) as (Emin & Emax & _).
  split; intros x Hx; [rewrite Emax; auto|rewrite Emin; auto].
Qed.

(** The whole loop: when every attempt was a success, the limits are in
    force on every CPU of the list that has both files. *)
Lemma limits_loop_post mn mx cpus sc ta (m : CPUManager) s :
  sc ≤ ta →
  ∃ sc' ta' s',
    for_fold (limits_step mn mx) cpus (sc, ta) m s = (Ok (sc', ta'), m, s') ∧
    sc' ≤ ta' ∧ ta ≤ ta' ∧
    (ta < ta' ↔ ∃ c, c ∈ cpus ∧ has_limit_files s c = true) ∧
    (sc' = ta' →
     sc = ta ∧
     ∀ c, c ∈ cpus → has_limit_files s c = true →
          limits_in_force mn mx s' c ∧ limits_readable s c).
Proof.
  revert sc ta s. induction cpus as [|c cpus IH]; intros sc ta s Hle.
  { exists sc, ta, s. split; [done|]. split; [done|]. split; [done|].
    split.
    - split; [lia|]. intros (c & Hc & _). by apply elem_of_nil in Hc.
    - intros ->. split; [done|]. intros c Hc. by apply elem_of_nil in Hc. }
  rewrite for_fold_cons, run_bind.
  destruct (limits_step_post mn mx sc ta c m s) as (sc1 & ta1 & s1 & E1 & Hstep).
  rewrite E1.
  assert (frame scaling_only s s1) as F1.
  { pose proof (limits_step_respects mn mx (sc, ta) c m s) as [_ Hf].
    by rewrite E1 in Hf. }
  assert (sc1 ≤ ta1 ∧ ta ≤ ta1) as [Hle1 Hta1].
  { destruct Hstep as [(-> & -> & _)|(-> & _ & [->|(-> & _)])]; lia. }
  destruct (IH sc1 ta1 s1 Hle1) as (sc' & ta' & s' & E & Hle' & Hta' & Hpos & Hall).
  exists sc', ta', s'. split; [done|]. split; [done|]. split; [lia|]. split.
  - split.
    + intros Hlt. destruct Hstep as [(_ & -> & Hno)|(_ & Hyes & _)].
      * apply Hpos in Hlt as (c' & Hc' & Hf').
        exists c'. split; [by right|].
        by rewrite <- (scaling_frame_has_limit_files s s1 c' F1).
      * exists c. split; [left|done].
    + intros (c' & Hc' & Hf'). apply elem_of_cons in Hc' as [->|Hc'].
      * destruct Hstep as [(_ & _ & Hno)|(-> & _)]; [congruence|lia].
      * cut (ta1 < ta'); [lia|]. apply Hpos. exists c'. split; [done|].
        by rewrite (scaling_frame_has_limit_files s s1 c' F1).
  - intros Heq. destruct (Hall Heq) as [Heq1 Hrest].
    assert (sc = ta ∧ (has_limit_files s c = true →
                       limits_in_force mn mx s1 c ∧ limits_readable s c))
      as [Hsc Hhead].
    { destruct Hstep as [(-> & -> & Hno)|(-> & Hyes & [->|(-> & Hin & Hr)])].
      - split; [done|]. congruence.
      - lia.
      - split; [lia|done]. }
    split; [done|]. intros c' Hc' Hf'.
    destruct (decide (c' ∈ cpus)) as [Hin|Hnin].
    { destruct (Hrest c' Hin) as [Hforce Hr].
      { by rewrite (scaling_frame_has_limit_files s s1 c' F1). }
      split; [done|]. destruct Hr as [Hr1 Hr2].
      split; by rewrite <- (frame_read_errno _ _ _ F1). }
    apply elem_of_cons in Hc' as [->|Hc']; [|done].
    destruct (Hhead Hf') as [Hforce Hr]. split; [|done].
    apply (not_limit_frame_in_force mn mx c s1 s'); [|done].
    pose proof (limits_loop_other mn mx (sc1, ta1) c cpus Hnin m s1) as [_ Hf].
    by rewrite E in Hf.
Qed.

Lemma set_cpu_frequency_limits_post mn mx m s :
  let r := set_cpu_frequency_limits mn mx m s in
  outcome r = Ok true →
  self_after r = m ∧
  (∃ c, c ∈ _online_cpus m ∧ has_limit_files s c = true) ∧
  (∀ c, c ∈ _online_cpus m → has_limit_files s c = true →
        limits_in_force mn mx (sys_after r) c ∧ limits_readable s c).
Proof.
  intros r. assert (r = set_cpu_frequency_limits mn mx m s) as Hr by done.
  clearbody r. unfold set_cpu_frequency_limits in Hr.
  destruct (bool_decide (mn = None ∧ mx = None)); [by subst r|].
  destruct (run_total_eq _ no_write m s get_cpu_frequency_range_total
              get_cpu_frequency_range_reads_only) as (range & s1 & E1 & F1).
  rewrite run_bind, E1 in Hr.
  destruct range as [range|]; [|by subst r].
  destruct (out_of_range range mn); [by subst r|].
  destruct (out_of_range range mx); [by subst r|].
  destruct (match mn, mx with
            | Some mn0, Some mx0 => bool_decide (mn0 > mx0)
            | _, _ => false
            end); [by subst r|].
  rewrite run_bind in Hr. unfold get_self at 1 in Hr. cbv beta iota in Hr.
  destruct (limits_loop_post mn mx (_online_cpus m) 0 0 m s1 ltac:(lia))
    as (sc & ta & s' & E & _ & _ & Hpos & Hall).
  rewrite run_bind, E in Hr. subst r.
  unfold outcome, self_after, sys_after. simpl.
  intros [= [Heq Hgt]%bool_decide_eq_true].
  assert (∀ c, has_limit_files s1 c = has_limit_files s c) as Hsame.
  { intros c. unfold has_limit_files. by rewrite !(no_write_present _ _ _ F1). }
  split; [done|]. split.
  - destruct (proj1 Hpos ltac:(lia)) as (c & Hc & Hf). exists c. by rewrite <- Hsame.
  - intros c Hc Hf. destruct (Hall Heq) as [_ H]. rewrite <- Hsame in Hf.
    destruct (H c Hc Hf) as [Hforce [Hr1 Hr2]]. split; [done|].
    split; by rewrite <- (frame_read_errno _ _ _ F1).
Qed.

(** X5.  When [set_cpu_frequency_limits] returns true, at least one online
    CPU has both limit files, and on every online CPU that has them the
    files hold the requested values afterwards: [scaling_max_freq] the
    requested maximum and [scaling_min_freq] the requested minimum, each when
    it was requested.  (A limit that could not be read or written on any such
    CPU makes the call return false.)  The manager is left as it was. *)
Theorem set_cpu_frequency_limits_in_force mn mx m s :
  let r := set_cpu_frequency_limits mn mx m s in
  outcome r = Ok true →
  self_after r = m ∧
  (∃ c, c ∈ _online_cpus m ∧ has_limit_files s c = true) ∧
  (∀ c, c ∈ _online_cpus m → has_limit_files s c = true →
        limits_in_force mn mx (sys_after r) c ∧ limits_readable s c).
Proof. apply set_cpu_frequency_limits_post. Qed.

Lemma set_cpu_frequency_limits_in_force_witness :
  let mn := Some 400000 in
  let mx := Some 1000000 in
  let r := set_cpu_frequency_limits mn mx one_cpu_manager high_floor_tree in
  outcome r = Ok true ∧
  self_after r = one_cpu_manager ∧
  (∃ c, c ∈ _online_cpus one_cpu_manager ∧ has_limit_files high_floor_tree c = true) ∧
  (∀ c, c ∈ _online_cpus one_cpu_manager → has_limit_files high_floor_tree c = true →
        limits_in_force mn mx (sys_after r) c ∧ limits_readable high_floor_tree c).
Proof.
  intros mn mx r.
  assert (outcome r = Ok true) as Hok by (vm_compute; reflexivity).
  split; [exact Hok|].
  exact (set_cpu_frequency_limits_in_force mn mx one_cpu_manager high_floor_tree Hok).
Defined.

(** ** Reading the limits back *)

Lemma cpu_limits_of_same s s' c :
  files s' = files s → read_errno s' = read_errno s →
  cpu_limits_of s' c = cpu_limits_of s c.
Proof. intros Hf He. unfold cpu_limits_of. by rewrite Hf, He. Qed.

Lemma get_limits_step (limits : gmap Z cpu_limits) c (m : CPUManager) s :
  ∃ s',
    try_except
      (let min_path := cpu_path c scaling_min_freq in
       let max_path := cpu_path c scaling_max_freq in
       a ← exists_ min_path;
       b ← exists_ max_path;
       if a && b then
         min_freq ← read_int min_path;
         max_freq ← read_int max_path;
         ret (<[c := CpuLimits min_freq max_freq]> limits)
       else ret limits)
      (λ _, ret limits) m s
    = (Ok (match cpu_limits_of s c with
           | Some l => <[c := l]> limits
           | None => limits
           end), m, s') ∧
    frame no_write s s'.
Proof.
  set (min_path := cpu_path c scaling_min_freq).
  set (max_path := cpu_path c scaling_max_freq).
  unfold cpu_limits_of. cbv zeta. fold min_path max_path.
  rewrite run_try_except, run_bind. unfold exists_ at 1. cbv beta iota.
  rewrite run_bind. unfold exists_ at 1. cbv beta iota.
  destruct (files s !! min_path) as [vmin|] eqn:Hvmin.
  2:{ rewrite (bool_decide_eq_false_2 (is_Some None)) by (by intros [? ?]).
      exists s. split; [done|reflexivity]. }
  rewrite (bool_decide_eq_true_2 (is_Some (Some vmin))) by done.
  destruct (files s !! max_path) as [vmax|] eqn:Hvmax.
  2:{ rewrite (bool_decide_eq_false_2 (is_Some None)) by (by intros [? ?]).
      exists s. split; [done|reflexivity]. }
  rewrite (bool_decide_eq_true_2 (is_Some (Some vmax))) by done.
  change (true && true) with true. cbv iota.
  rewrite run_bind. unfold read_int at 1. rewrite run_bind. unfold read at 1.
  rewrite Hvmin.
  set (s1 := log (EvRead min_path) s).
  assert (frame no_write s s1) as F1 by by apply frame_log.
  destruct (read_errno s min_path) as [e|] eqn:Ermin.
  { exists s1. done. }
  destruct (Py.int (Py.strip vmin)) as [a|] eqn:Ea.
  2:{ exists s1. split; [|done]. simpl. by destruct (read_errno s max_path). }
  simpl or_raise. unfold ret at 1. cbv beta iota.
  rewrite run_bind. unfold read_int at 1. rewrite run_bind. unfold read at 1.
  change (files s1) with (files s). change (read_errno s1) with (read_errno s).
  rewrite Hvmax.
  set (s2 := log (EvRead max_path) s1).
  assert (frame no_write s s2) as F2.
  { etrans; [exact F1|]. by apply frame_log. }
  destruct (read_errno s max_path) as [e|] eqn:Ermax.
  { exists s2. done. }
  destruct (Py.int (Py.strip vmax)) as [b|] eqn:Eb.
  2:{ exists s2. done. }
  exists s2. done.
Qed.

Lemma get_limits_loop cpus (limits : gmap Z cpu_limits) (m : CPUManager) s :
  ∃ limits' s',
    for_fold
      (λ (limits : gmap Z cpu_limits) cpu,
         try_except
           (let min_path := cpu_path cpu scaling_min_freq in
            let max_path := cpu_path cpu scaling_max_freq in
            a ← exists_ min_path;
            b ← exists_ max_path;
            if a && b then
              min_freq ← read_int min_path;
              max_freq ← read_int max_path;
              ret (<[cpu := CpuLimits min_freq max_freq]> limits)
            else ret limits)
           (λ _, ret limits))
      cpus limits m s = (Ok limits', m, s') ∧
    frame no_write s s' ∧
    ∀ c, limits' !! c =
         match (if decide (c ∈ cpus) then cpu_limits_of s c else None) with
         | Some l => Some l
         | None => limits !! c
         end.
Proof.
  revert limits s. induction cpus as [|c0 cpus IH]; intros limits s.
  { exists limits, s. split; [done|]. split; [reflexivity|]. intros c.
    rewrite decide_False; [done|]. apply not_elem_of_nil. }
  rewrite for_fold_cons, run_bind.
  destruct (get_limits_step limits c0 m s) as (s1 & E1 & F1). rewrite E1.
  destruct (IH (match cpu_limits_of s c0 with
                | Some l => <[c0 := l]> limits
                | None => limits
                end) s1) as (limits' & s' & E & F & Hlook).
  exists limits', s'. split; [done|]. split; [by etrans|]. intros c.
  rewrite Hlook.
  rewrite (cpu_limits_of_same s s1 c (no_write_frame_files _ _ F1)
             (frame_read_errno _ _ _ F1)).
  destruct (decide (c ∈ cpus)) as [Hin|Hnin].
  { rewrite decide_True by by right.
    destruct (cpu_limits_of s c) as [l|] eqn:El; [done|].
    destruct (cpu_limits_of s c0) as [l0|] eqn:El0; [|done].
    rewrite lookup_insert_ne; [done|]. intros ->. congruence. }
  destruct (decide (c = c0)) as [->|Hne].
  - rewrite decide_True by left.
    destruct (cpu_limits_of s c0) as [l0|] eqn:El0; [|done].
    by rewrite lookup_insert_eq.
  - rewrite decide_False by (intros [?|?]%elem_of_cons; done).
    destruct (cpu_limits_of s c0) as [l0|] eqn:El0; [|done].
    by rewrite lookup_insert_ne.
Qed.

Lemma get_cpu_frequency_limits_run m s :
  ∃ limits s',
    get_cpu_frequency_limits m s = (Ok limits, m, s') ∧
    frame no_write s s' ∧
    ∀ c, limits !! c = if decide (c ∈ _online_cpus m) then cpu_limits_of s c else None.
Proof.
  unfold get_cpu_frequency_limits. rewrite run_bind. unfold get_self at 1.
  cbv beta iota.
  destruct (get_limits_loop (_online_cpus m) ∅ m s) as (limits & s' & E & F & Hlook).
  exists limits, s'. split; [done|]. split; [done|]. intros c. rewrite Hlook.
  rewrite lookup_empty. by destruct (if decide (c ∈ _online_cpus m) then _ else _).
Qed.

(** X6.  [get_cpu_frequency_limits] never raises and never writes.  Its
    dictionary has an entry for exactly the online CPUs whose two limit
    files both exist, can be read and hold integers, with the two values
    read; a CPU for which any of this fails is left out, and the other CPUs
    are still reported. *)
Theorem get_cpu_frequency_limits_reports m s :
  ∃ limits s',
    get_cpu_frequency_limits m s = (Ok limits, m, s') ∧
    frame no_write s s' ∧
    ∀ c, limits !! c = if decide (c ∈ _online_cpus m) then cpu_limits_of s c else None.
Proof. apply get_cpu_frequency_limits_run. Qed.

(** X7.  Limits set are limits read back: after a call of
    [set_cpu_frequency_limits] with both limits that returned true,
    [get_cpu_frequency_limits] reports the requested minimum and maximum for
    every online CPU that has the two limit files, and reports no other
    CPU. *)
Theorem frequency_limits_round_trip mn mx m s :
  let r := set_cpu_frequency_limits (Some mn) (Some mx) m s in
  outcome r = Ok true →
  ∃ limits,
    outcome (get_cpu_frequency_limits (self_after r) (sys_after r)) = Ok limits ∧
    ∀ c, limits !! c =
         if decide (c ∈ _online_cpus m ∧ has_limit_files s c = true)
         then Some (CpuLimits mn mx) else None.
Proof.
  intros r Hok.
  destruct (set_cpu_frequency_limits_post (Some mn) (Some mx) m s Hok)
    as (Hm & _ & Hall). fold r in Hm, Hall.
  pose proof (set_cpu_frequency_limits_respects (Some mn) (Some mx) m s) as [_ Hf].
  fold r in Hf. rewrite Hm.
  destruct (get_cpu_frequency_limits_run m (sys_after r))
    as (limits & s' & E & _ & Hlook).
  exists limits. rewrite E. split; [done|]. intros c. rewrite Hlook.
  destruct (decide (c ∈ _online_cpus m)) as [Hc|Hc].
  2:{ rewrite decide_False; [done|]. by intros [? _]. }
  destruct (has_limit_files s c) eqn:Hfiles.
  - rewrite decide_True by done.
    destruct (Hall c Hc Hfiles) as [[Hmax Hmin] [Hr1 Hr2]].
    unfold cpu_limits_of. cbv zeta.
    rewrite (Hmin mn eq_refl), (Hmax mx eq_refl).
    rewrite !(frame_read_errno _ _ _ Hf), Hr1, Hr2.
    by rewrite !read_back_str.
  - rewrite decide_False by (intros [_ ?]; congruence).
    rewrite <- (scaling_frame_has_limit_files s (sys_after r) c Hf) in Hfiles.
    unfold cpu_limits_of, has_limit_files, present in *. cbv zeta.
    destruct (files (sys_after r) !! cpu_path c scaling_min_freq) eqn:E1; [|done].
    destruct (files (sys_after r) !! cpu_path c scaling_max_freq) eqn:E2; [|done].
    rewrite !bool_decide_eq_true_2 in Hfiles by done. done.
Qed.

Lemma frequency_limits_round_trip_witness :
  let r := set_cpu_frequency_limits (Some 400000) (Some 1000000)
             one_cpu_manager high_floor_tree in
  outcome r = Ok true ∧
  ∃ limits,
    outcome (get_cpu_frequency_limits (self_after r) (sys_after r)) = Ok limits ∧
    ∀ c, limits !! c =
         if decide (c ∈ _online_cpus one_cpu_manager ∧
                    has_limit_files high_floor_tree c = true)
         then Some (CpuLimits 400000 1000000) else None.
Proof.
  intros r.
  assert (outcome r = Ok true) as Hok by (vm_compute; reflexivity).
  split; [exact Hok|].
  exact (frequency_limits_round_trip 400000 1000000 one_cpu_manager high_floor_tree Hok).
Defined.

(** X8.  [reset_cpu_frequency_limits] reads the hardware range of CPU 0 and
    hands it to [set_cpu_frequency_limits].  When the range is not available
    (a [cpuinfo] file of CPU 0 missing, unreadable or not a number) it
    returns false and nothing is written.  When it returns true, every online
    CPU that has the two limit files holds the hardware minimum and maximum
    of CPU 0 as its limits, and [get_cpu_frequency_limits] then reports
    them. *)
Theorem reset_cpu_frequency_limits_restores m s :
  let r := reset_cpu_frequency_limits m s in
  self_after r = m ∧
  (outcome (get_cpu_frequency_range m s) = Ok None →
   outcome r = Ok false ∧ files (sys_after r) = files s ∧
   writes (events_since s (sys_after r)) = []) ∧
  (∀ range,
     outcome (get_cpu_frequency_range m s) = Ok (Some range) →
     outcome r = Ok true →
     (∀ c, c ∈ _online_cpus m → has_limit_files s c = true →
           limits_in_force (Some (min_freq_khz range)) (Some (max_freq_khz range))
                           (sys_after r) c) ∧
     ∃ limits,
       outcome (get_cpu_frequency_limits m (sys_after r)) = Ok limits ∧
       ∀ c, c ∈ _online_cpus m → has_limit_files s c = true →
            limits !! c = Some (CpuLimits (min_freq_khz range) (max_freq_khz range))).
Proof.
  intros r. assert (r = reset_cpu_frequency_limits m s) as Hr by done. clearbody r.
  destruct (run_total_eq _ no_write m s get_cpu_frequency_range_total
              get_cpu_frequency_range_reads_only) as (range & s1 & E1 & F1).
  unfold reset_cpu_frequency_limits in Hr. rewrite run_bind, E1 in Hr.
  rewrite E1. unfold outcome at 1 3. simpl fst.
  destruct range as [range|].
  2:{ subst r. unfold outcome, self_after, sys_after. simpl.
      split; [done|]. split; [|done]. intros _. split; [done|].
      split; [by apply no_write_frame_files|by apply no_write_frame_events]. }
  set (mn := min_freq_khz range) in *. set (mx := max_freq_khz range) in *.
  pose proof (set_cpu_frequency_limits_respects (Some mn) (Some mx) m s1) as [Hm Hf].
  rewrite <- Hr in Hm, Hf. split; [done|]. split; [done|].
  intros ? [= <-] Hok. fold mn mx.
  assert (∀ c, has_limit_files s1 c = has_limit_files s c) as Hsame.
  { intros c. unfold has_limit_files. by rewrite !(no_write_present _ _ _ F1). }
  rewrite Hr in Hok.
  destruct (set_cpu_frequency_limits_post (Some mn) (Some mx) m s1 Hok)
    as (_ & _ & Hall). rewrite <- Hr in Hall.
  split.
  { intros c Hc Hfiles. rewrite <- Hsame in Hfiles. by apply Hall. }
  destruct (get_cpu_frequency_limits_run m (sys_after r))
    as (limits & s' & E & _ & Hlook).
  exists limits. rewrite E. split; [done|]. intros c Hc Hfiles.
  rewrite Hlook, decide_True by done. rewrite <- Hsame in Hfiles.
  destruct (Hall c Hc Hfiles) as [[Hmax Hmin] [Hr1 Hr2]].
  unfold cpu_limits_of. cbv zeta.
  rewrite (Hmin mn eq_refl), (Hmax mx eq_refl).
  rewrite !(frame_read_errno _ _ _ Hf), Hr1, Hr2.
  by rewrite !read_back_str.
Qed.

Lemma reset_cpu_frequency_limits_restores_witness :
  let m := one_cpu_manager in
  let s := capped_tree in
  let range := FreqRange 400000 3500000 400 3500 in
  let r := reset_cpu_frequency_limits m s in
  outcome (get_cpu_frequency_range m s) = Ok (Some range) ∧
  outcome r = Ok true ∧
  (∀ c, c ∈ _online_cpus m → has_limit_files s c = true →
        limits_in_force (Some (min_freq_khz range)) (Some (max_freq_khz range))
                        (sys_after r) c) ∧
  ∃ limits,
    outcome (get_cpu_frequency_limits m (sys_after r)) = Ok limits ∧
    ∀ c, c ∈ _online_cpus m → has_limit_files s c = true →
         limits !! c = Some (CpuLimits (min_freq_khz range) (max_freq_khz range)).
Proof.
  intros m s range r.
  assert (outcome (get_cpu_frequency_range m s) = Ok (Some range)) as Hrange
    by (vm_compute; reflexivity).
  assert (outcome r = Ok true) as Hok by (vm_compute; reflexivity).
  split; [exact Hrange|]. split; [exact Hok|].
  exact (proj2 (proj2 (reset_cpu_frequency_limits_restores m s)) range Hrange Hok).
Defined.

(** ** Topology discovery: what it writes *)

Lemma run_forced_write {O A} p v (yes no : A) (o : O) s :
  try_except (write p v;; ret yes) (λ _, ret no) o s
  = (Ok (if accepted p v s then yes else no), o, forced_write p v s).
Proof.
  rewrite run_try_except, run_bind. unfold write, forced_write, accepted, present.
  destruct (files s !! p) as [x|] eqn:E.
  - rewrite bool_decide_eq_true_2 by done. simpl.
    destruct (write_errno s p v) eqn:Ew.
    + by rewrite bool_decide_eq_false_2 by done.
    + by rewrite bool_decide_eq_true_2 by done.
  - rewrite bool_decide_eq_false_2 by (by intros [? ?]). done.
Qed.

Lemma run_forced_write_unit {O} p v (o : O) s :
  try_except (write p v) (λ _, ret tt) o s = (Ok tt, o, forced_write p v s).
Proof.
  rewrite run_try_except. unfold write, forced_write, accepted, present.
  destruct (files s !! p) as [x|] eqn:E.
  - rewrite bool_decide_eq_true_2 by done. simpl.
    destruct (write_errno s p v) eqn:Ew.
    + by rewrite bool_decide_eq_false_2 by done.
    + by rewrite bool_decide_eq_true_2 by done.
  - rewrite bool_decide_eq_false_2 by (by intros [? ?]). done.
Qed.

Lemma forced_write_attempt p v s :
  files (forced_write p v s) = files (attempt p v s) ∧
  write_errno (forced_write p v s) = write_errno s ∧
  read_errno (forced_write p v s) = read_errno s ∧
  cpuidle_dirs (forced_write p v s) = cpuidle_dirs s ∧
  cpu_dirs (forced_write p v s) = cpu_dirs s ∧
  trace (forced_write p v s) = trace s ++ [EvWrite p v (accepted p v s)].
Proof.
  unfold forced_write, attempt.
  destruct (accepted p v s) eqn:Ha.
  - by rewrite (accepted_present _ _ _ Ha).
  - by destruct (present p s).
Qed.

Lemma forced_write_accepted p v q w s :
  accepted q w (forced_write p v s) = accepted q w s.
Proof.
  destruct (forced_write_attempt p v s) as (Hf & Hw & _).
  unfold accepted, present. rewrite Hf, Hw.
  pose proof (attempt_present v p q s) as Hp. unfold present in Hp. by rewrite Hp.
Qed.

Lemma forced_write_lookup p v q s :
  files (forced_write p v s) !! q =
  if decide (p = q) then (if accepted p v s then Some v else files s !! q)
  else files s !! q.
Proof.
  destruct (forced_write_attempt p v s) as (-> & _). apply attempt_lookup.
Qed.

Lemma forced_writes_cons p ps v s :
  forced_writes (p :: ps) v s = forced_writes ps v (forced_write p v s).
Proof. reflexivity. Qed.

Lemma forced_writes_accepted ps v q w s :
  accepted q w (forced_writes ps v s) = accepted q w s.
Proof.
  revert s. induction ps as [|p ps IH]; intros s; [done|].
  by rewrite forced_writes_cons, IH, forced_write_accepted.
Qed.

Lemma forced_writes_static ps v s :
  write_errno (forced_writes ps v s) = write_errno s ∧
  read_errno (forced_writes ps v s) = read_errno s ∧
  cpuidle_dirs (forced_writes ps v s) = cpuidle_dirs s ∧
  cpu_dirs (forced_writes ps v s) = cpu_dirs s.
Proof.
  revert s. induction ps as [|p ps IH]; intros s; [done|].
  rewrite forced_writes_cons.
  destruct (IH (forced_write p v s)) as (-> & -> & -> & ->).
  by destruct (forced_write_attempt p v s) as (_ & -> & -> & -> & -> & _).
Qed.

Lemma forced_writes_lookup ps v q s :
  files (forced_writes ps v s) !! q =
  if bool_decide (q ∈ ps) && accepted q v s then Some v else files s !! q.
Proof.
  revert s. induction ps as [|p ps IH]; intros s.
  { rewrite bool_decide_eq_false_2; [done|]. apply not_elem_of_nil. }
  rewrite forced_writes_cons, IH, forced_write_accepted, forced_write_lookup.
  destruct (decide (p = q)) as [->|Hne].
  - rewrite (bool_decide_eq_true_2 (q ∈ q :: ps)) by left.
    destruct (accepted q v s); [|by rewrite andb_false_r].
    by destruct (bool_decide (q ∈ ps)).
  - destruct (decide (q ∈ ps)) as [Hin|Hnin].
    + by rewrite !bool_decide_eq_true_2 by (done || by right).
    + rewrite !bool_decide_eq_false_2; [done| |done].
      intros [?|?]%elem_of_cons; done.
Qed.

Lemma forced_writes_trace ps v s :
  trace (forced_writes ps v s) =
  trace s ++ ((λ p, EvWrite p v (accepted p v s)) <$> ps).
Proof.
  revert s. induction ps as [|p ps IH]; intros s.
  { simpl. by rewrite app_nil_r. }
  rewrite forced_writes_cons, IH.
  destruct (forced_write_attempt p v s) as (_ & _ & _ & _ & _ & ->).
  rewrite <- app_assoc. f_equal. simpl. f_equal.
  apply list_fmap_ext. intros _ q _. by rewrite forced_write_accepted.
Qed.

(** The first step of discovery: the online list. *)
Lemma original_online_cpus_run (m : CPUManager) s :
  try_except
    (online_range ← Py.strip <$> read online_list_path;
     or_raise ValueError (parse_cpu_simple online_range))
    (λ _, ret [0]) m s
  = (Ok (original_online_cpus_of s), m, log (EvRead online_list_path) s).
Proof.
  rewrite run_try_except, run_bind, run_fmap. unfold read, original_online_cpus_of.
  destruct (files s !! online_list_path) as [v|]; [|done].
  destruct (read_errno s online_list_path); [done|].
  by destruct (parse_cpu_simple (Py.strip v)).
Qed.

(** The loop that brings the CPUs not listed online online. *)
Lemma bring_online_loop (orig : list Z) l brought (m : CPUManager) s :
  let X := λ c, c ≠ 0 ∧ c ∉ orig in
  for_fold
    (λ brought cpu_id,
       if decide (cpu_id = 0) then ret brought
       else if decide (cpu_id ∈ orig) then ret brought
       else try_except
              (write (cpu_path cpu_id online) "1";; ret (brought ++ [cpu_id]))
              (λ _, ret brought))
    l brought m s
  = (Ok (brought ++ filter (λ c, accepted (cpu_path c online) "1" s = true) (filter X l)),
     m, forced_writes ((λ c, cpu_path c online) <$> filter X l) "1" s).
Proof.
  intros X. revert brought s. induction l as [|c l IH]; intros brought s.
  { simpl. by rewrite app_nil_r. }
  rewrite for_fold_cons, run_bind.
  destruct (decide (c = 0)) as [->|Hc0].
  { rewrite filter_cons_False by (by intros [? _]). apply IH. }
  destruct (decide (c ∈ orig)) as [Hin|Hnin].
  { rewrite filter_cons_False by (by intros [_ ?]). apply IH. }
  rewrite (filter_cons_True X) by done.
  rewrite run_forced_write, IH, fmap_cons, forced_writes_cons.
  f_equal. f_equal. f_equal.
  rewrite (list_filter_iff
             (λ c0, accepted (cpu_path c0 online) "1"
                      (forced_write (cpu_path c online) "1" s) = true)
             (λ c0, accepted (cpu_path c0 online) "1" s = true))
    by (intros c0; by rewrite forced_write_accepted).
  rewrite filter_cons.
  destruct (accepted (cpu_path c online) "1" s) eqn:Ha.
  - rewrite decide_True by done. by rewrite <- app_assoc.
  - rewrite decide_False by done. done.
Qed.

(** The loop that puts the CPUs brought online back offline. *)
Lemma restore_offline_loop (orig : list Z) brought (m : CPUManager) s :
  Forall (λ c, c ∉ orig) brought →
  for_each brought
    (λ cpu_id,
       if decide (cpu_id ∈ orig) then ret tt
       else try_except (write (cpu_path cpu_id online) "0") (λ _, ret tt)) m s
  = (Ok tt, m, forced_writes ((λ c, cpu_path c online) <$> brought) "0" s).
Proof.
  unfold for_each. revert s. induction brought as [|c l IH]; intros s Hb; [done|].
  inversion_clear Hb.
  rewrite for_fold_cons, run_bind, decide_False by done.
  rewrite run_forced_write_unit. rewrite IH by done. done.
Qed.

(** ** Topology discovery: the map it builds *)

Lemma topology_step_run pc c (m : CPUManager) s :
  ∃ s',
    topology_step pc c m s
    = (Ok (match core_key_of s c with
           | Some k => match pc !! k with
                       | None => <[k := c]> pc
                       | Some _ => pc
                       end
           | None => pc
           end),
       match core_key_of s c, sibling_list_of s c with
       | Some _, Some siblings =>
           set_cpu_siblings_map (<[c := siblings]> (_cpu_siblings_map m)) m
       | _, _ => m
       end, s') ∧
    frame no_write s s'.
Proof.
  set (core_path := cpu_path c core_id).
  set (pkg_path := cpu_path c physical_package_id).
  set (sib_path := cpu_path c thread_siblings_list).
  unfold topology_step, core_key_of, sibling_list_of.
  fold core_path pkg_path sib_path.
  rewrite run_try_except, run_bind. unfold exists_ at 1. cbv beta iota.
  rewrite run_bind. unfold exists_ at 1. cbv beta iota.
  destruct (files s !! core_path) as [vc|] eqn:Hvc.
  2:{ rewrite (bool_decide_eq_false_2 (is_Some None)) by (by intros [? ?]).
      exists s. split; [done|reflexivity]. }
  rewrite (bool_decide_eq_true_2 (is_Some (Some vc))) by done.
  destruct (files s !! pkg_path) as [vp|] eqn:Hvp.
  2:{ rewrite (bool_decide_eq_false_2 (is_Some None)) by (by intros [? ?]).
      exists s. split; [done|reflexivity]. }
  rewrite (bool_decide_eq_true_2 (is_Some (Some vp))) by done.
  change (true && true) with true. cbv iota.
  rewrite run_bind. unfold read_int at 1. rewrite run_bind. unfold read at 1.
  rewrite Hvc.
  set (s1 := log (EvRead core_path) s).
  assert (frame no_write s s1) as F1 by by apply frame_log.
  destruct (read_errno s core_path) as [e|] eqn:Erc.
  { exists s1. done. }
  destruct (Py.int (Py.strip vc)) as [core|] eqn:Ecore.
  2:{ exists s1. split; [|done]. simpl. by destruct (read_errno s pkg_path). }
  simpl or_raise. unfold ret at 1. cbv beta iota.
  rewrite run_bind. unfold read_int at 1. rewrite run_bind. unfold read at 1.
  change (files s1) with (files s). change (read_errno s1) with (read_errno s).
  rewrite Hvp.
  set (s2 := log (EvRead pkg_path) s1).
  assert (frame no_write s s2) as F2.
  { etrans; [exact F1|]. by apply frame_log. }
  destruct (read_errno s pkg_path) as [e|] eqn:Erp.
  { exists s2. done. }
  destruct (Py.int (Py.strip vp)) as [pkg|] eqn:Epkg.
  2:{ exists s2. done. }
  simpl or_raise. unfold ret at 1. cbv beta iota. cbv zeta. simpl mbind.
  set (pc' := match pc !! (pkg, core) with
              | Some _ => pc
              | None => <[(pkg, core):=c]> pc
              end).
  rewrite run_try_except, run_bind. unfold exists_ at 1. cbv beta iota.
  change (files s2) with (files s).
  destruct (files s !! sib_path) as [vs|] eqn:Hvs.
  2:{ rewrite (bool_decide_eq_false_2 (is_Some None)) by (by intros [? ?]).
      exists s2. split; [|done]. unfold pc'.
      by destruct (pc !! (pkg, core)). }
  rewrite (bool_decide_eq_true_2 (is_Some (Some vs))) by done.
  rewrite run_bind, run_fmap. unfold read at 1.
  change (files s2) with (files s). change (read_errno s2) with (read_errno s).
  rewrite Hvs.
  set (s3 := log (EvRead sib_path) s2).
  assert (frame no_write s s3) as F3.
  { etrans; [exact F2|]. by apply frame_log. }
  destruct (read_errno s sib_path) as [e|] eqn:Ers.
  { exists s3. split; [|done]. unfold pc'. by destruct (pc !! (pkg, core)). }
  destruct (parse_cpu_simple (Py.strip vs)) as [siblings|] eqn:Esib.
  2:{ exists s3. split; [|done]. unfold pc'. by destruct (pc !! (pkg, core)). }
  exists s3. split; [|done]. unfold pc'. by destruct (pc !! (pkg, core)).
Qed.

Lemma core_key_of_same s s' c :
  files s' = files s → read_errno s' = read_errno s →
  core_key_of s' c = core_key_of s c.
Proof. intros Hf He. unfold core_key_of. by rewrite Hf, He. Qed.

Lemma sibling_list_of_same s s' c :
  files s' = files s → read_errno s' = read_errno s →
  sibling_list_of s' c = sibling_list_of s c.
Proof. intros Hf He. unfold sibling_list_of. by rewrite Hf, He. Qed.

Global Instance same_but_siblings_preorder : PreOrder same_but_siblings.
Proof.
  split.
  - by intros m.
  - intros m1 m2 m3 (?&?&?&?&?) (?&?&?&?&?). unfold same_but_siblings.
    split_and!; congruence.
Qed.

(** The loop over the possible CPUs: each (package, core) pair is mapped to
    the first CPU of the list that has it; each CPU with a core pair and a
    sibling file gets its sibling list. *)
Lemma topology_loop_run l pc (m : CPUManager) s :
  ∃ pc' m' s',
    for_fold topology_step l pc m s = (Ok pc', m', s') ∧
    frame no_write s s' ∧ same_but_siblings m m' ∧
    (∀ k, pc' !! k = match pc !! k with
                     | Some v => Some v
                     | None => head (filter (λ c, core_key_of s c = Some k) l)
                     end) ∧
    (∀ c, _cpu_siblings_map m' !! c =
          match (if decide (c ∈ l)
                 then core_key_of s c ≫= λ _, sibling_list_of s c else None) with
          | Some siblings => Some siblings
          | None => _cpu_siblings_map m !! c
          end).
Proof.
  revert pc m s. induction l as [|c l IH]; intros pc m s.
  { exists pc, m, s. split; [done|]. split; [reflexivity|]. split; [reflexivity|].
    split.
    - intros k. by destruct (pc !! k).
    - intros c. rewrite decide_False; [done|]. apply not_elem_of_nil. }
  rewrite for_fold_cons, run_bind.
  destruct (topology_step_run pc c m s) as (s1 & E1 & F1). rewrite E1.
  set (pc1 := match core_key_of s c with
              | Some k => match pc !! k with
                          | Some _ => pc
                          | None => <[k:=c]> pc
                          end
              | None => pc
              end) in *.
  set (m1 := match core_key_of s c, sibling_list_of s c with
             | Some _, Some siblings =>
                 set_cpu_siblings_map (<[c:=siblings]> (_cpu_siblings_map m)) m
             | _, _ => m
             end) in *.
  destruct (IH pc1 m1 s1) as (pc' & m' & s' & E & F & Hm & Hpc & Hsib).
  assert (files s1 = files s) as Hfiles by by apply no_write_frame_files.
  assert (read_errno s1 = read_errno s) as Herr by apply (frame_read_errno _ _ _ F1).
  exists pc', m', s'. split; [done|]. split; [by etrans|]. split.
  { etrans; [|exact Hm]. unfold m1.
    destruct (core_key_of s c); [|reflexivity].
    destruct (sibling_list_of s c); [|reflexivity]. by repeat split. }
  split.
  - intros k. rewrite Hpc.
    erewrite (list_filter_iff _ (λ c0, core_key_of s c0 = Some k)).
    2:{ intros c0. by rewrite (core_key_of_same s s1 c0 Hfiles Herr). }
    unfold pc1. destruct (core_key_of s c) as [k0|] eqn:Ek0.
    2:{ rewrite filter_cons_False by (by rewrite Ek0). done. }
    destruct (decide (k0 = k)) as [->|Hne].
    + rewrite filter_cons_True by done. simpl.
      destruct (pc !! k) eqn:Epk; [by rewrite Epk|].
      by rewrite lookup_insert_eq.
    + rewrite filter_cons_False by congruence.
      destruct (pc !! k0); [done|]. by rewrite lookup_insert_ne.
  - intros c'. rewrite Hsib.
    rewrite (core_key_of_same s s1 c' Hfiles Herr),
            (sibling_list_of_same s s1 c' Hfiles Herr).
    set (F' := λ c0, core_key_of s c0 ≫= λ _, sibling_list_of s c0).
    fold (F' c').
    assert (_cpu_siblings_map m1 !! c' =
            if decide (c' = c) then
              match F' c with
              | Some siblings => Some siblings
              | None => _cpu_siblings_map m !! c
              end
            else _cpu_siblings_map m !! c') as Hm1.
    { unfold m1, F'. destruct (decide (c' = c)) as [->|Hne].
      - destruct (core_key_of s c); [|done]. simpl.
        destruct (sibling_list_of s c); [|done]. simpl. by rewrite lookup_insert_eq.
      - destruct (core_key_of s c); [|done].
        destruct (sibling_list_of s c); [|done]. simpl. by rewrite lookup_insert_ne. }
    rewrite Hm1. clear Hm1.
    destruct (decide (c' ∈ l)) as [Hin|Hnin].
    + rewrite (decide_True (P := c' ∈ c :: l)) by by right.
      destruct (F' c') eqn:EF; [done|].
      destruct (decide (c' = c)) as [->|Hne]; [by rewrite EF|done].
    + destruct (decide (c' = c)) as [->|Hne].
      * rewrite (decide_True (P := c ∈ c :: l)) by left. done.
      * rewrite (decide_False (P := c' ∈ c :: l)); [done|].
        intros [?|?]%elem_of_cons; done.
Qed.

Lemma forced_writes_online_other ps v s q :
  (∀ c, q ≠ cpu_path c online) →
  files (forced_writes ((λ c, cpu_path c online) <$> ps) v s) !! q = files s !! q.
Proof.
  intros Hq. rewrite forced_writes_lookup.
  rewrite bool_decide_eq_false_2; [done|].
  intros (c & -> & _)%list_elem_of_fmap. by apply (Hq c).
Qed.

Lemma core_key_of_forced_writes ps v s c :
  core_key_of (forced_writes ((λ c, cpu_path c online) <$> ps) v s) c = core_key_of s c.
Proof.
  unfold core_key_of. rewrite !forced_writes_online_other by done.
  by destruct (forced_writes_static ((λ c, cpu_path c online) <$> ps) v s)
    as (_ & -> & _).
Qed.

Lemma sibling_list_of_forced_writes ps v s c :
  sibling_list_of (forced_writes ((λ c, cpu_path c online) <$> ps) v s) c
  = sibling_list_of s c.
Proof.
  unfold sibling_list_of. rewrite !forced_writes_online_other by done.
  by destruct (forced_writes_static ((λ c, cpu_path c online) <$> ps) v s)
    as (_ & -> & _).
Qed.

(** The whole of a first call of [initialize_cpu_topology]: the online
    list is read; "1" is written to the CPUs it does not list; the topology
    files are read; "0" is written to the CPUs that took the "1"; the primary
    list and the sibling map are stored. *)
Lemma initialize_cpu_topology_discovers m s :
  _topology_initialized m = false →
  let online_of := λ c, cpu_path c online in
  let s1 := forced_writes (online_of <$> discovery_targets m s) "1"
                          (log (EvRead online_list_path) s) in
  ∃ (pc : gmap (Z * Z) Z) sm s2,
    initialize_cpu_topology m s
    = (Ok tt,
       Mgr (_possible_cpus m) (Some (Py.sorted_int (snd <$> map_to_list pc))) sm true
           (_online_cpus m) (_scaling_driver m),
       forced_writes (online_of <$> discovery_brought m s) "0" s2) ∧
    frame no_write s1 s2 ∧
    (∀ k, pc !! k = head (filter (λ c, core_key_of s c = Some k) (_possible_cpus m))) ∧
    (∀ c, sm !! c = if decide (c ∈ _possible_cpus m)
                    then core_key_of s c ≫= λ _, sibling_list_of s c else None).
Proof.
  intros Hinit online_of s1.
  set (s0 := log (EvRead online_list_path) s) in *.
  set (orig := original_online_cpus_of s).
  unfold initialize_cpu_topology. rewrite run_bind. unfold get_self at 1.
  cbv beta iota. rewrite Hinit.
  rewrite run_try_except, run_bind, original_online_cpus_run. fold orig s0.
  rewrite run_bind, (bring_online_loop orig). cbv zeta. rewrite app_nil_l.
  change (filter (λ c, c ≠ 0 ∧ c ∉ orig) (_possible_cpus m))
    with (discovery_targets m s).
  fold online_of. fold s1.
  assert (filter (λ c, accepted (cpu_path c online) "1" s0 = true)
                 (discovery_targets m s) = discovery_brought m s) as ->.
  { unfold discovery_brought. apply list_filter_iff. intros c.
    unfold s0. by rewrite accepted_log. }
  rewrite run_bind. unfold set_self at 1. cbv beta iota.
  set (m0 := set_cpu_siblings_map ∅ m).
  destruct (topology_loop_run (_possible_cpus m) ∅ m0 s1)
    as (pc & m2 & s2 & E2 & F2 & Hm2 & Hpc & Hsib).
  rewrite run_bind, E2.
  rewrite run_bind, (restore_offline_loop orig).
  2:{ apply Forall_forall. intros c [_ [[_ Hc] _]%list_elem_of_filter]%list_elem_of_filter.
      done. }
  fold online_of.
  rewrite run_bind. unfold set_self at 1. cbv beta iota.
  unfold set_self.
  exists pc, (_cpu_siblings_map m2), s2. split.
  { destruct Hm2 as (H1 & H2 & H3 & H4 & H5). destruct m2. simpl in *.
    subst. done. }
  split; [done|]. split.
  - intros k. rewrite Hpc, lookup_empty.
    apply (f_equal head), list_filter_iff. intros c. unfold s1.
    by rewrite core_key_of_forced_writes, (core_key_of_same s s0).
  - intros c. rewrite Hsib. unfold m0 at 1. simpl. rewrite lookup_empty.
    unfold s1.
    rewrite core_key_of_forced_writes, sibling_list_of_forced_writes.
    rewrite (core_key_of_same s s0), (sibling_list_of_same s s0) by done.
    by destruct (if decide (c ∈ _possible_cpus m) then _ else _).
Qed.

Lemma StronglySorted_le_lt l :
  StronglySorted Z.le l → NoDup l → StronglySorted Z.lt l.
Proof.
  induction 1 as [|x l Hs IH Hx]; intros Hnd; [constructor|].
  inversion_clear Hnd as [|? ? Hnin Hnd']. constructor; [by apply IH|].
  rewrite Forall_forall in Hx |- *. intros y Hy.
  specialize (Hx y Hy). assert (x ≠ y) by (intros ->; done). lia.
Qed.

Lemma sorted_int_elem_of l x : x ∈ Py.sorted_int l ↔ x ∈ l.
Proof. unfold Py.sorted_int. by rewrite merge_sort_Permutation. Qed.

Lemma sorted_int_strict l : NoDup l → StronglySorted Z.lt (Py.sorted_int l).
Proof.
  intros Hnd. apply StronglySorted_le_lt.
  - apply StronglySorted_merge_sort; apply _.
  - unfold Py.sorted_int. by rewrite merge_sort_Permutation.
Qed.

(** X9.  What a first call of [initialize_cpu_topology] writes: "1" to the
    [online] file of every possible CPU other than 0 that the parsed online
    list does not contain, in the order of the possible list; then "0" to
    the [online] file of each of these CPUs whose write of "1" was accepted;
    and nothing else.  When every possible CPU is CPU 0 or in the online
    list, it writes nothing at all. *)
Theorem discovery_writes m s :
  _topology_initialized m = false →
  let online_of := λ c, cpu_path c online in
  let s' := sys_after (initialize_cpu_topology m s) in
  writes (events_since s s')
    = ((λ c, EvWrite (online_of c) "1" (accepted (online_of c) "1" s))
         <$> discovery_targets m s) ++
      ((λ c, EvWrite (online_of c) "0" (accepted (online_of c) "0" s))
         <$> discovery_brought m s) ∧
  ((∀ c, c ∈ _possible_cpus m → c = 0 ∨ c ∈ original_online_cpus_of s) →
   writes (events_since s s') = []).
Proof.
  intros Hinit online_of s'.
  destruct (initialize_cpu_topology_discovers m s Hinit)
    as (pc & sm & s2 & E & F2 & _). fold online_of in E, F2.
  set (s0 := log (EvRead online_list_path) s) in *.
  set (s1 := forced_writes (online_of <$> discovery_targets m s) "1" s0) in *.
  unfold s'. rewrite E. unfold sys_after. simpl snd.
  assert (writes (events_since s (forced_writes (online_of <$> discovery_brought m s)
                                                "0" s2))
          = ((λ c, EvWrite (online_of c) "1" (accepted (online_of c) "1" s))
               <$> discovery_targets m s) ++
            ((λ c, EvWrite (online_of c) "0" (accepted (online_of c) "0" s))
               <$> discovery_brought m s)) as Hw.
  { destruct F2 as [[new [E2 Hnew]] Hrest].
    assert (frame no_write s1 s2) as F2 by (split; [by exists new|done..]).
    rewrite (events_since_app s _
      ([EvRead online_list_path] ++
       ((λ p, EvWrite p "1" (accepted p "1" s0)) <$> (online_of <$> discovery_targets m s))
       ++ new ++
       ((λ p, EvWrite p "0" (accepted p "0" s2)) <$> (online_of <$> discovery_brought m s)))).
    2:{ rewrite forced_writes_trace, E2. unfold s1. rewrite forced_writes_trace.
        unfold s0. simpl. by rewrite <- !app_assoc. }
    rewrite !writes_app, (writes_no_write new) by done.
    rewrite !writes_all_writes by done.
    change (writes [EvRead online_list_path]) with (@nil event).
    rewrite !app_nil_l, <- !list_fmap_compose.
    f_equal. apply list_fmap_ext. intros _ c _. unfold compose.
    rewrite (no_write_accepted _ _ _ _ F2). unfold s1.
    by rewrite forced_writes_accepted. }
  split; [exact Hw|]. intros Hall. rewrite Hw.
  assert (discovery_targets m s = []) as Ht.
  { unfold discovery_targets. apply elem_of_nil_inv. intros c.
    intros [[Hc0 Hnin] Hc]%list_elem_of_filter.
    destruct (Hall c Hc); done. }
  unfold discovery_brought. by rewrite Ht.
Qed.

Lemma discovery_writes_witness :
  let m := Mgr [0; 1; 2; 3; 4; 5; 6; 7] None ∅ false [0; 1; 2; 3; 4; 5; 6; 7] None in
  let s := scenario_A_sysfs in
  let online_of := λ c, cpu_path c online in
  let s' := sys_after (initialize_cpu_topology m s) in
  _topology_initialized m = false ∧
  (∀ c, c ∈ _possible_cpus m → c = 0 ∨ c ∈ original_online_cpus_of s) ∧
  writes (events_since s s')
    = ((λ c, EvWrite (online_of c) "1" (accepted (online_of c) "1" s))
         <$> discovery_targets m s) ++
      ((λ c, EvWrite (online_of c) "0" (accepted (online_of c) "0" s))
         <$> discovery_brought m s) ∧
  writes (events_since s s') = [].
Proof.
  intros m s online_of s'.
  assert (∀ c, c ∈ _possible_cpus m → c = 0 ∨ c ∈ original_online_cpus_of s) as Hall.
  { assert (original_online_cpus_of s = [0; 1; 2; 3; 4; 5; 6; 7]) as ->
      by (vm_compute; reflexivity).
    intros c Hc. right. exact Hc. }
  split; [reflexivity|]. split; [exact Hall|].
  destruct (discovery_writes m s eq_refl) as [Hw Hnone].
  split; [exact Hw|exact (Hnone Hall)].
Defined.

(** On the machine of scenario B, where CPUs 4 to 7 are offline, a first
    discovery switches them on and off again. *)
Example discovery_on_scenario_B :
  let m := Mgr [0; 1; 2; 3; 4; 5; 6; 7] None ∅ false [0; 1; 2; 3] None in
  let s' := sys_after (initialize_cpu_topology m scenario_B_tree) in
  writes (events_since scenario_B_tree s')
    = ((λ c, EvWrite (cpu_path c online) "1" true) <$> discovery_targets m scenario_B_tree)
      ++ ((λ c, EvWrite (cpu_path c online) "0" true) <$> discovery_targets m scenario_B_tree).
Proof. vm_compute. reflexivity. Qed.

(** The [online] files after a first discovery. *)
Lemma discovery_online_files_post m s :
  _topology_initialized m = false →
  let s' := sys_after (initialize_cpu_topology m s) in
  (∀ c, files s' !! cpu_path c online =
        if decide (c ∈ discovery_brought m s)
        then (if accepted (cpu_path c online) "0" s then Some "0" else Some "1")
        else files s !! cpu_path c online) ∧
  (∀ q, (∀ c, q ≠ cpu_path c online) → files s' !! q = files s !! q) ∧
  (∀ c, c ∈ discovery_brought m s ↔
        c ∈ _possible_cpus m ∧ c ≠ 0 ∧ (c ∉ original_online_cpus_of s) ∧
        accepted (cpu_path c online) "1" s = true).
Proof.
  intros Hinit s'.
  destruct (initialize_cpu_topology_discovers m s Hinit)
    as (pc & sm & s2 & E & F2 & _).
  set (online_of := λ c, cpu_path c online) in *.
  set (s0 := log (EvRead online_list_path) s) in *.
  set (s1 := forced_writes (online_of <$> discovery_targets m s) "1" s0) in *.
  unfold s'. rewrite E. unfold sys_after. simpl snd.
  assert (∀ c, c ∈ discovery_brought m s ↔
               c ∈ _possible_cpus m ∧ c ≠ 0 ∧ (c ∉ original_online_cpus_of s) ∧
               accepted (cpu_path c online) "1" s = true) as Hb.
  { intros c. unfold discovery_brought, discovery_targets.
    rewrite !list_elem_of_filter. tauto. }
  assert (Inj (=) (=) online_of) as Hinj by (intros c1 c2 [= ->]; done).
  split; [|split; [|exact Hb]].
  - intros c. rewrite forced_writes_lookup.
    rewrite (no_write_accepted _ _ _ _ F2). unfold s1 at 1.
    rewrite forced_writes_accepted.
    change (accepted (cpu_path c online) "0" s0) with (accepted (cpu_path c online) "0" s).
    rewrite (no_write_frame_files _ _ F2). unfold s1.
    rewrite forced_writes_lookup.
    change (accepted (cpu_path c online) "1" s0) with (accepted (cpu_path c online) "1" s).
    change (files s0) with (files s).
    destruct (decide (c ∈ discovery_brought m s)) as [Hin|Hnin].
    + rewrite (bool_decide_eq_true_2 (cpu_path c online ∈ (online_of <$> discovery_brought m s)))
        by by apply (list_elem_of_fmap_2 online_of).
      destruct (accepted (cpu_path c online) "0" s); [done|]. simpl.
      apply Hb in Hin as (Hc & Hc0 & Hnin & Hacc).
      rewrite bool_decide_eq_true_2, Hacc; [done|].
      apply (list_elem_of_fmap_2 online_of). unfold discovery_targets.
      by apply list_elem_of_filter.
    + rewrite (bool_decide_eq_false_2 (cpu_path c online ∈ (online_of <$> discovery_brought m s))).
      2:{ intros (c' & [= ->] & Hc')%list_elem_of_fmap. done. }
      simpl.
      destruct (bool_decide (cpu_path c online ∈ (online_of <$> discovery_targets m s)))
        eqn:Ht; [|done].
      destruct (accepted (cpu_path c online) "1" s) eqn:Hacc; [|done].
      exfalso. apply Hnin. apply bool_decide_eq_true in Ht.
      apply list_elem_of_fmap in Ht as (c' & [= <-] & Hc').
      unfold discovery_brought. by apply list_elem_of_filter.
  - intros q Hq. rewrite (forced_writes_online_other _ _ _ _ Hq).
    rewrite (no_write_frame_files _ _ F2). unfold s1.
    by rewrite (forced_writes_online_other _ _ _ _ Hq).
Qed.

(** X10.  Where a first call of [initialize_cpu_topology] leaves the
    [online] files: a CPU that took the write of "1" (a possible CPU other
    than 0, not in the parsed online list) holds "0" afterwards if the
    kernel takes that write, and "1" if it does not, whatever its file held
    before; the [online] file of every other CPU, and every other file, is
    as it was.  CPUs that were online but are missing from the parsed list
    are therefore switched off by discovery. *)
Theorem discovery_leaves_online_files m s :
  _topology_initialized m = false →
  let s' := sys_after (initialize_cpu_topology m s) in
  (∀ c, files s' !! cpu_path c online =
        if decide (c ∈ discovery_brought m s)
        then (if accepted (cpu_path c online) "0" s then Some "0" else Some "1")
        else files s !! cpu_path c online) ∧
  (∀ q, (∀ c, q ≠ cpu_path c online) → files s' !! q = files s !! q) ∧
  (∀ c, c ∈ discovery_brought m s ↔
        c ∈ _possible_cpus m ∧ c ≠ 0 ∧ (c ∉ original_online_cpus_of s) ∧
        accepted (cpu_path c online) "1" s = true).
Proof. apply discovery_online_files_post. Qed.

Lemma discovery_leaves_online_files_witness :
  let m := Mgr [0; 1; 2; 3; 4; 5; 6; 7] None ∅ false [0; 1; 4; 5] None in
  let s := parked_sysfs in
  let s' := sys_after (initialize_cpu_topology m s) in
  _topology_initialized m = false ∧
  (∀ c, files s' !! cpu_path c online =
        if decide (c ∈ discovery_brought m s)
        then (if accepted (cpu_path c online) "0" s then Some "0" else Some "1")
        else files s !! cpu_path c online) ∧
  (∀ q, (∀ c, q ≠ cpu_path c online) → files s' !! q = files s !! q) ∧
  (∀ c, c ∈ discovery_brought m s ↔
        c ∈ _possible_cpus m ∧ c ≠ 0 ∧ (c ∉ original_online_cpus_of s) ∧
        accepted (cpu_path c online) "1" s = true).
Proof.
  intros m s s'. split; [reflexivity|].
  exact (discovery_leaves_online_files m s eq_refl).
Defined.

(** On the machine of scenario A after cores 2 and 3 were parked, where
    [cpu/online] reads "0-1,4-5", a fresh manager's discovery takes the
    online list to be [0]: it writes "1" and then "0" to CPUs 1 to 7, and
    CPUs 1, 4 and 5, which were online, end offline. *)
Example discovery_on_parked_machine :
  match new_CPUManager parked_sysfs with
  | (Ok m, s) =>
      let r := initialize_cpu_topology m s in
      _online_cpus m = [0; 1; 4; 5] ∧
      original_online_cpus_of s = [0] ∧
      outcome r = Ok tt ∧
      primary_cpus_of (self_after r) = [0; 1; 2; 3] ∧
      (λ c, files s !! cpu_path c online) <$> [1; 2; 3; 4; 5; 6; 7]
        = [Some "1"; Some "0"; Some "0"; Some "1"; Some "1"; Some "0"; Some "0"] ∧
      (λ c, files (sys_after r) !! cpu_path c online) <$> [1; 2; 3; 4; 5; 6; 7]
        = [Some "0"; Some "0"; Some "0"; Some "0"; Some "0"; Some "0"; Some "0"]
  | (Raise _, _) => False
  end.
Proof. vm_compute. split_and!; reflexivity. Qed.

(** X11.  The topology a first call of [initialize_cpu_topology] stores.
    The call returns and marks the topology initialised; the manager's other
    attributes are kept; the hard-coded fallback lists are never used.  The
    primary list is in strictly ascending order and holds exactly one CPU
    for each (package, core) pair found among the possible CPUs: the first
    CPU of the possible list whose topology files give that pair.  A CPU
    whose [core_id] or [physical_package_id] is missing, unreadable or not a
    number takes no part.  A second call does nothing. *)
Theorem discovery_primary_cpus m s :
  _topology_initialized m = false →
  let r := initialize_cpu_topology m s in
  let m' := self_after r in
  outcome r = Ok tt ∧
  _topology_initialized m' = true ∧
  _possible_cpus m' = _possible_cpus m ∧ _online_cpus m' = _online_cpus m ∧
  _scaling_driver m' = _scaling_driver m ∧
  initialize_cpu_topology m' (sys_after r) = (Ok tt, m', sys_after r) ∧
  ∃ prim,
    _primary_cpus_cache m' = Some prim ∧
    StronglySorted Z.lt prim ∧
    (∀ p, p ∈ prim ↔
          ∃ k, head (filter (λ c, core_key_of s c = Some k) (_possible_cpus m)) = Some p) ∧
    (∀ p, p ∈ prim → p ∈ _possible_cpus m ∧ is_Some (core_key_of s p)) ∧
    (∀ c k, c ∈ _possible_cpus m → core_key_of s c = Some k →
            ∃ p, p ∈ prim ∧ core_key_of s p = Some k) ∧
    (∀ p q, p ∈ prim → q ∈ prim → core_key_of s p = core_key_of s q → p = q).
Proof.
  intros Hinit r m'.
  destruct (initialize_cpu_topology_discovers m s Hinit)
    as (pc & sm & s2 & E & _ & Hpc & _).
  unfold m', r. rewrite E. unfold outcome, self_after, sys_after. simpl.
  split; [done|]. split; [done|]. split; [done|]. split; [done|]. split; [done|].
  split; [done|].
  set (first_of := λ k, head (filter (λ c, core_key_of s c = Some k) (_possible_cpus m))).
  assert (∀ k p, first_of k = Some p → p ∈ _possible_cpus m ∧ core_key_of s p = Some k)
    as Hfirst.
  { intros k p Hk. apply head_Some_elem_of in Hk.
    apply list_elem_of_filter in Hk as [? ?]. done. }
  assert (∀ p, p ∈ Py.sorted_int (map_to_list pc).*2 ↔ ∃ k, first_of k = Some p)
    as Hmem.
  { intros p. rewrite sorted_int_elem_of, list_elem_of_fmap. split.
    - intros ([k v] & -> & Hkv). apply elem_of_map_to_list in Hkv.
      exists k. unfold first_of. by rewrite <- Hpc.
    - intros (k & Hk). exists (k, p). split; [done|].
      apply elem_of_map_to_list. rewrite Hpc. exact Hk. }
  exists (Py.sorted_int (map_to_list pc).*2). split; [done|]. split.
  { apply sorted_int_strict. apply NoDup_fmap_2_strong; [|apply NoDup_map_to_list].
    intros [k1 v1] [k2 v2] H1%elem_of_map_to_list H2%elem_of_map_to_list. simpl.
    intros <-. rewrite Hpc in H1, H2.
    apply Hfirst in H1 as [_ H1]. apply Hfirst in H2 as [_ H2]. congruence. }
  split; [exact Hmem|]. split; [|split].
  - intros p (k & Hk)%Hmem. apply Hfirst in Hk as [? ?]. split; [done|by eexists].
  - intros c k Hc Hk.
    destruct (first_of k) as [p|] eqn:Hp.
    + exists p. split; [apply Hmem; by exists k|]. by apply Hfirst in Hp as [_ ?].
    + unfold first_of in Hp. apply head_None in Hp.
      assert (c ∈ filter (λ c, core_key_of s c = Some k) (_possible_cpus m)) as Hin
        by by apply list_elem_of_filter.
      rewrite Hp in Hin. by apply elem_of_nil in Hin.
  - intros p q (k1 & H1)%Hmem (k2 & H2)%Hmem Heq.
    pose proof (Hfirst _ _ H1) as [_ Hk1]. pose proof (Hfirst _ _ H2) as [_ Hk2].
    assert (k1 = k2) as -> by congruence. congruence.
Qed.

Lemma discovery_primary_cpus_witness :
  let m := Mgr [0; 1; 2; 3; 4; 5; 6; 7] None ∅ false [0; 1; 4; 5] None in
  let s := scenario_A_sysfs in
  let r := initialize_cpu_topology m s in
  let m' := self_after r in
  _topology_initialized m = false ∧
  outcome r = Ok tt ∧
  _topology_initialized m' = true ∧
  _possible_cpus m' = _possible_cpus m ∧ _online_cpus m' = _online_cpus m ∧
  _scaling_driver m' = _scaling_driver m ∧
  initialize_cpu_topology m' (sys_after r) = (Ok tt, m', sys_after r) ∧
  ∃ prim,
    _primary_cpus_cache m' = Some prim ∧
    StronglySorted Z.lt prim ∧
    (∀ p, p ∈ prim ↔
          ∃ k, head (filter (λ c, core_key_of s c = Some k) (_possible_cpus m)) = Some p) ∧
    (∀ p, p ∈ prim → p ∈ _possible_cpus m ∧ is_Some (core_key_of s p)) ∧
    (∀ c k, c ∈ _possible_cpus m → core_key_of s c = Some k →
            ∃ p, p ∈ prim ∧ core_key_of s p = Some k) ∧
    (∀ p q, p ∈ prim → q ∈ prim → core_key_of s p = core_key_of s q → p = q).
Proof.
  intros m s r m'. split; [reflexivity|].
  exact (discovery_primary_cpus m s eq_refl).
Defined.

(** X12.  After a first call of [initialize_cpu_topology],
    [get_cpu_siblings] answers from the stored map without touching sysfs:
    for a possible CPU whose [core_id] and [physical_package_id] read as
    integers and whose [thread_siblings_list] parses, the parsed list; for
    any other CPU, possible or not, the one-element list of that CPU
    itself. *)
Theorem discovery_siblings m s c :
  _topology_initialized m = false →
  let r := initialize_cpu_topology m s in
  get_cpu_siblings c (self_after r) (sys_after r)
  = (Ok (match (if decide (c ∈ _possible_cpus m)
                then core_key_of s c ≫= λ _, sibling_list_of s c else None) with
         | Some siblings => siblings
         | None => [c]
         end), self_after r, sys_after r).
Proof.
  intros Hinit r.
  destruct (initialize_cpu_topology_discovers m s Hinit)
    as (pc & sm & s2 & E & _ & _ & Hsm).
  unfold r. rewrite E. unfold self_after, sys_after. simpl fst. simpl snd.
  rewrite get_cpu_siblings_run by done. unfold siblings_of. simpl.
  rewrite Hsm. by destruct (if decide (c ∈ _possible_cpus m) then _ else _).
Qed.

Lemma discovery_siblings_witness :
  let m := Mgr [0; 1; 2; 3; 4; 5; 6; 7] None ∅ false [0; 1; 4; 5] None in
  let s := scenario_A_sysfs in
  let r := initialize_cpu_topology m s in
  _topology_initialized m = false ∧
  get_cpu_siblings 6 (self_after r) (sys_after r)
  = (Ok (match (if decide (6 ∈ _possible_cpus m)
                then core_key_of s 6 ≫= λ _, sibling_list_of s 6 else None) with
         | Some siblings => siblings
         | None => [6]
         end), self_after r, sys_after r).
Proof.
  intros m s r. split; [reflexivity|].
  exact (discovery_siblings m s 6 eq_refl).
Defined.

(** On scenario A's sysfs the discovered siblings of CPU 6 are 2 and 6; a CPU
    the machine does not have is its own only sibling. *)
Example discovered_siblings :
  let m := Mgr [0; 1; 2; 3; 4; 5; 6; 7] None ∅ false [0; 1; 4; 5] None in
  let r := initialize_cpu_topology m scenario_A_sysfs in
  outcome (get_cpu_siblings 6 (self_after r) (sys_after r)) = Ok [2; 6] ∧
  outcome (get_cpu_siblings 12 (self_after r) (sys_after r)) = Ok [12].
Proof. vm_compute. split; reflexivity. Qed.

(** ** Idle states *)

Lemma cstate_of_same s s' cpu d :
  files s' = files s → read_errno s' = read_errno s →
  cstate_of s' cpu d = cstate_of s cpu d.
Proof. intros Hf He. unfold cstate_of. by rewrite Hf, He. Qed.

Lemma cstate_step cstates cpu d (m : CPUManager) s :
  ∃ s',
    (if Py.startswith "state" d then
       try_except
         (name ← Py.strip <$> read (cpuidle_path cpu d idle_name);
          desc ← Py.strip <$> read (cpuidle_path cpu d idle_desc);
          ret (cstates ++ [CState d name desc (cpu, d)]))
         (λ _, ret cstates)
     else ret cstates) m s
    = (Ok (cstates ++ option_list (cstate_of s cpu d)), m, s') ∧
    frame no_write s s'.
Proof.
  unfold cstate_of. destruct (Py.startswith "state" d).
  2:{ exists s. rewrite app_nil_r. split; [done|reflexivity]. }
  set (name_path := cpuidle_path cpu d idle_name).
  set (desc_path := cpuidle_path cpu d idle_desc).
  rewrite run_try_except, run_bind, run_fmap. unfold read at 1.
  set (s1 := log (EvRead name_path) s).
  assert (frame no_write s s1) as F1 by by apply frame_log.
  destruct (files s !! name_path) as [name|] eqn:Hname.
  2:{ exists s1. rewrite app_nil_r. done. }
  destruct (read_errno s name_path) as [e|] eqn:Ername.
  { exists s1. split; [|done]. destruct (files s !! desc_path); by rewrite app_nil_r. }
  rewrite run_bind, run_fmap. unfold read at 1.
  change (files s1) with (files s). change (read_errno s1) with (read_errno s).
  set (s2 := log (EvRead desc_path) s1).
  assert (frame no_write s s2) as F2.
  { etrans; [exact F1|]. by apply frame_log. }
  destruct (files s !! desc_path) as [desc|] eqn:Hdesc.
  2:{ exists s2. rewrite app_nil_r. done. }
  destruct (read_errno s desc_path) as [e|] eqn:Erdesc.
  { exists s2. rewrite app_nil_r. done. }
  exists s2. done.
Qed.

Lemma cstate_loop cstates cpu dirs (m : CPUManager) s :
  ∃ s',
    for_fold
      (λ cstates state_dir,
         if Py.startswith "state" state_dir then
           try_except
             (name ← Py.strip <$> read (cpuidle_path cpu state_dir idle_name);
              desc ← Py.strip <$> read (cpuidle_path cpu state_dir idle_desc);
              ret (cstates ++ [CState state_dir name desc (cpu, state_dir)]))
             (λ _, ret cstates)
         else ret cstates)
      dirs cstates m s
    = (Ok (cstates ++ omap (cstate_of s cpu) dirs), m, s') ∧
    frame no_write s s'.
Proof.
  revert cstates s. induction dirs as [|d dirs IH]; intros cstates s.
  { exists s. rewrite app_nil_r. split; [done|reflexivity]. }
  rewrite for_fold_cons, run_bind.
  destruct (cstate_step cstates cpu d m s) as (s1 & E1 & F1). rewrite E1.
  destruct (IH (cstates ++ option_list (cstate_of s cpu d)) s1) as (s' & E & F).
  exists s'. rewrite E. split; [|by etrans].
  rewrite <- app_assoc. f_equal. f_equal. f_equal. simpl.
  assert (omap (cstate_of s1 cpu) dirs = omap (cstate_of s cpu) dirs) as ->.
  { apply list_omap_ext, Forall2_same_length_lookup. split; [done|].
    intros i d1 d2 H1 H2. assert (d1 = d2) as -> by congruence.
    apply cstate_of_same; [by apply no_write_frame_files|].
    apply (frame_read_errno _ _ _ F1). }
  by destruct (cstate_of s cpu d).
Qed.

Lemma get_available_cstates_run cpu m s :
  ∃ s',
    get_available_cstates cpu m s
    = (Ok (match cpuidle_dirs s !! cpu with
           | Some dirs => omap (cstate_of s cpu) (Py.sorted_str dirs)
           | None => []
           end), m, s') ∧
    frame no_write s s'.
Proof.
  unfold get_available_cstates.
  rewrite run_try_except, run_bind. unfold exists_cpuidle at 1. cbv beta iota.
  destruct (cpuidle_dirs s !! cpu) as [dirs|] eqn:Hdirs.
  2:{ rewrite bool_decide_eq_false_2 by (by intros [? ?]).
      exists s. split; [done|reflexivity]. }
  rewrite bool_decide_eq_true_2 by done.
  rewrite run_bind. unfold listdir_cpuidle at 1. rewrite Hdirs.
  destruct (cstate_loop [] cpu (Py.sorted_str dirs) m s) as (s' & E & F).
  exists s'. by rewrite E.
Qed.

(** X13.  [get_available_cstates] never raises and never writes.  It
    reports, in the (lexicographic) order of the sorted directory names, the
    directories of [cpu{cpu}/cpuidle] named [state...] whose [name] and
    [desc] files can both be read, with the stripped contents; a directory
    with an unreadable file is left out and the others are still reported;
    a CPU without a [cpuidle] directory gives the empty list. *)
Theorem get_available_cstates_reports cpu m s :
  let dirs := default [] (cpuidle_dirs s !! cpu) in
  let states := omap (cstate_of s cpu) (Py.sorted_str dirs) in
  (∃ s', get_available_cstates cpu m s = (Ok states, m, s') ∧ frame no_write s s') ∧
  Sorted String.le (cs_state <$> states) ∧
  (∀ st, st ∈ states ↔ cs_state st ∈ dirs ∧ cstate_of s cpu (cs_state st) = Some st).
Proof.
  intros dirs states. split.
  { destruct (get_available_cstates_run cpu m s) as (s' & E & F).
    exists s'. split; [|done]. rewrite E. unfold states, dirs.
    by destruct (cpuidle_dirs s !! cpu). }
  assert (∀ d st, cstate_of s cpu d = Some st → cs_state st = d) as Hstate.
  { intros d st. unfold cstate_of. repeat case_match; try done. by intros [= <-]. }
  split.
  - assert (StronglySorted String.le (Py.sorted_str dirs)) as Hs
      by (apply StronglySorted_merge_sort; apply _).
    apply StronglySorted_Sorted. unfold states.
    induction Hs as [|d l Hs IH Hd]; [constructor|].
    simpl. destruct (cstate_of s cpu d) as [st|] eqn:Est; [|done].
    simpl. constructor; [done|]. rewrite (Hstate _ _ Est).
    apply Forall_forall. intros x (st' & -> & Hin)%list_elem_of_fmap.
    apply list_elem_of_omap in Hin as (d' & Hd' & Est').
    rewrite (Hstate _ _ Est'). rewrite Forall_forall in Hd. by apply Hd.
  - intros st. unfold states. rewrite list_elem_of_omap. split.
    + intros (d & Hd & Est). rewrite (Hstate _ _ Est). split; [|done].
      unfold Py.sorted_str in Hd. by rewrite merge_sort_Permutation in Hd.
    + intros [Hd Est]. exists (cs_state st). split; [|done].
      unfold Py.sorted_str. by rewrite merge_sort_Permutation.
Qed.

(** The idle states of CPU 2 in scenario A, listed as [state2], [state0],
    [state1] by the directory, come out in the order of their names. *)
Example scenario_A_cstates :
  outcome (get_available_cstates 2 scenario_A_manager scenario_A_tree)
  = Ok [ CState "state0" "POLL" "CPUIDLE CORE POLL IDLE" (2, "state0");
         CState "state1" "C1" "ACPI FFH MWAIT 0x0" (2, "state1");
         CState "state2" "C6" "ACPI IOPORT 0x414" (2, "state2") ].
Proof. vm_compute. reflexivity. Qed.

Lemma find_first {A} (f : A → bool) l i x :
  l !! i = Some x → f x = true →
  ∃ j y, (j ≤ i)%nat ∧ l !! j = Some y ∧ find f l = Some y.
Proof.
  revert i. induction l as [|a l IH]; intros i Hi Hf; [done|].
  simpl. destruct (f a) eqn:Ea.
  { exists 0%nat, a. split; [lia|done]. }
  destruct i as [|i]; [simpl in Hi; congruence|].
  destruct (IH i Hi Hf) as (j & y & Hj & Hy & Hfind).
  exists (S j), y. split; [lia|done].
Qed.

Lemma find_elem_of {A} (f : A → bool) l y :
  find f l = Some y → y ∈ l ∧ f y = true.
Proof.
  induction l as [|a l IH]; [done|]. simpl. destruct (f a) eqn:Ea.
  - intros [= <-]. split; [left|done].
  - intros [? ?]%IH. split; [by right|done].
Qed.

(** X14.  [get_deepest_available_cstate] never raises and never writes.  It
    returns nothing exactly when the CPU has no available idle state.
    Otherwise it returns the name of one of the available states: if a name
    of the preference list C10, C9, C8, C7, C6, C3, C2, C1 is among them,
    the one that comes first in that list, whatever the order of the
    states; if none is, the name of the last state in directory-name
    order. *)
Theorem deepest_cstate_choice cpu m s :
  let states := omap (cstate_of s cpu)
                     (Py.sorted_str (default [] (cpuidle_dirs s !! cpu))) in
  let names := cs_name <$> states in
  ∃ r s',
    get_deepest_available_cstate cpu m s = (Ok r, m, s') ∧ frame no_write s s' ∧
    (r = None ↔ states = []) ∧
    (∀ n, r = Some n → n ∈ names) ∧
    (∀ i p, preferred_states !! i = Some p → p ∈ names →
            ∃ j q, (j ≤ i)%nat ∧ preferred_states !! j = Some q ∧ r = Some q) ∧
    ((∃ q, q ∈ preferred_states ∧ r = Some q) ∨ r = cs_name <$> last states).
Proof.
  intros states names.
  destruct (get_available_cstates_run cpu m s) as (s' & E & F).
  assert (get_available_cstates cpu m s = (Ok states, m, s')) as E'.
  { rewrite E. unfold states. by destruct (cpuidle_dirs s !! cpu). }
  unfold get_deepest_available_cstate.
  rewrite run_try_except, run_bind, E'. fold names.
  destruct states as [|st0 rest] eqn:Est.
  { exists None, s'. split; [done|]. split; [done|]. split; [done|].
    split; [done|]. split; [|by right].
    intros i p _ Hp. by apply elem_of_nil in Hp. }
  rewrite <- Est. set (f := λ preferred, bool_decide (preferred ∈ names)).
  destruct (find f preferred_states) as [q|] eqn:Hfind.
  - exists (Some q), s'. split; [done|]. split; [done|].
    apply find_elem_of in Hfind as Hq. destruct Hq as [Hq Hfq].
    apply bool_decide_eq_true in Hfq.
    split; [by rewrite Est|]. split; [by intros ? [= <-]|]. split.
    + intros i p Hi Hp.
      destruct (find_first f preferred_states i p Hi) as (j & y & Hj & Hy & Hfy).
      { by apply bool_decide_eq_true. }
      exists j, y. split; [done|]. split; [done|]. congruence.
    + left. by exists q.
  - exists (cs_name <$> last states), s'. split; [done|]. split; [done|].
    assert (is_Some (last states)) as [stl Hl].
    { rewrite Est. apply last_is_Some. done. }
    rewrite Hl. simpl. split; [by rewrite Est|]. split.
    + intros n [= <-]. apply list_elem_of_fmap_2.
      rewrite <- Est. by apply last_Some_elem_of.
    + split; [|by right]. intros i p Hi Hp.
      destruct (find_first f preferred_states i p Hi) as (j & y & _ & _ & Hfy).
      { by apply bool_decide_eq_true. }
      congruence.
Qed.

(** CPU 2 of scenario A offers POLL, C1 and C6: C6 is chosen. *)
Example scenario_A_deepest_cstate :
  outcome (get_deepest_available_cstate 2 scenario_A_manager scenario_A_tree)
  = Ok (Some "C6").
Proof. vm_compute. reflexivity. Qed.

(** ** Forcing a CPU into an idle state *)

Lemma cstate_of_path s cpu d st : cstate_of s cpu d = Some st → cs_path st = (cpu, d).
Proof. unfold cstate_of. repeat case_match; try done. by intros [= <-]. Qed.

Lemma disable_deeper_states_own cpu l :
  Forall (λ st, fst (cs_path st) = cpu) l →
  respects (O := CPUManager) eq (cstate_prep_only cpu) (disable_deeper_states l).
Proof.
  intros Hl. unfold disable_deeper_states.
  frame_step. rewrite Forall_forall in Hl. rewrite (Hl x) by done.
  assert (bool_decide (cpu = cpu) = true) by by apply bool_decide_eq_true.
  frame_auto.
Qed.

Lemma returns_for_fold_mem {O A S} (Q : S → Prop) (body : S → A → M O S) l acc :
  Q acc → (∀ acc x, x ∈ l → Q acc → returns Q (body acc x)) →
  returns Q (for_fold body l acc).
Proof.
  revert acc. induction l as [|x l IH]; intros acc Hacc Hbody.
  { by apply returns_ret. }
  rewrite for_fold_cons. intros o s a. rewrite run_bind.
  pose proof (Hbody acc x ltac:(left) Hacc o s) as Hstep.
  destruct (body acc x o s) as [[[acc1|e] o1] s1]; [|done].
  apply IH; [by apply Hstep|]. intros acc' x' Hx'. apply Hbody. by right.
Qed.

Lemma disable_deeper_states_entries cpu l :
  Forall (λ st, fst (cs_path st) = cpu) l →
  returns (O := CPUManager)
          (Forall (λ d, ∃ dir, fst d = cpuidle_path cpu dir idle_disable))
          (disable_deeper_states l).
Proof.
  intros Hl. unfold disable_deeper_states.
  apply returns_for_fold_mem; [by constructor|].
  intros acc st Hst Hacc. cbv zeta.
  destruct (bool_decide _); [|by apply returns_ret].
  apply returns_bind. intros [|]; [|by apply returns_ret].
  apply returns_try_except; [|intros; by apply returns_ret].
  apply returns_bind. intros v.
  assert (Forall (λ d : path * string, ∃ dir, d.1 = cpuidle_path cpu dir idle_disable)
            (acc ++ [(cpuidle_path (cs_path st).1 (cs_path st).2 idle_disable, v)])).
  { apply Forall_app. split; [done|]. constructor; [|constructor].
    rewrite Forall_forall in Hl. rewrite (Hl st Hst). by eexists. }
  apply returns_try_except; [|intros; by apply returns_ret].
  apply returns_bind. intros _. by apply returns_ret.
Qed.

Lemma restore_deeper_states_own cpu ds :
  Forall (λ d : path * string, ∃ dir, d.1 = cpuidle_path cpu dir idle_disable) ds →
  respects (O := CPUManager) eq (cstate_prep_only cpu) (restore_deeper_states ds).
Proof.
  intros Hds. unfold restore_deeper_states.
  frame_step. destruct x as [p v].
  eapply Forall_forall in Hds as (dir & Hp); [|done]. simpl in Hp. subst p.
  assert (bool_decide (cpu = cpu) = true) by by apply bool_decide_eq_true.
  frame_auto.
Qed.


(** What follows the search for the target state in [force_cpu_to_cstate]:
    it comes back with true, having written only files of CPU [cpu]. *)
Lemma force_tail_run cpu (states : list cstate) (m : CPUManager) s :
  Forall (λ st, fst (cs_path st) = cpu) states →
  ∃ s',
    (deeper_states ← disable_deeper_states states;
     try_except
       (let freq_min_path := cpu_path cpu scaling_min_freq in
        let freq_max_path := cpu_path cpu scaling_max_freq in
        a ← exists_ freq_min_path;
        b ← exists_ freq_max_path;
        if a && b then
          original_min_freq ← Py.strip <$> read freq_min_path;
          original_max_freq ← Py.strip <$> read freq_max_path;
          write freq_max_path original_min_freq;;
          write freq_max_path original_max_freq
        else ret tt)
       (λ _, ret tt);;
     restore_deeper_states deeper_states;;
     ret true) m s = (Ok true, m, s') ∧
    frame (cstate_prep_only cpu) s s'.
Proof.
  intros Hst.
  assert (bool_decide (cpu = cpu) = true) as Hcpu by by apply bool_decide_eq_true.
  match goal with |- ∃ s', ?c m s = _ ∧ _ =>
    assert (total c) as Ht;
    [|assert (respects eq (cstate_prep_only cpu) c) as Hr;
      [|assert (returns (λ b, b = true) c) as Hb]]
  end.
  - unfold disable_deeper_states, restore_deeper_states. total_auto.
  - eapply respects_bind_returns;
      [apply _ | by apply disable_deeper_states_own
       | by apply disable_deeper_states_entries |].
    intros ds Hds.
    frame_step; [frame_auto|].
    frame_step; [by apply restore_deeper_states_own | frame_auto].
  - returns_auto. done.
  - destruct (run_total_eq _ _ m s Ht Hr) as (b & s' & E & F).
    exists s'. split; [|done]. rewrite E. f_equal. f_equal. f_equal.
    apply (Hb m s). by rewrite E.
Qed.

(** X15.  [force_cpu_to_cstate] with a target state returns true exactly
    when the target is the name of one of the CPU's available idle states,
    whether or not the writes it then attempts are accepted.  When it
    returns false (no [cpuidle] directory, or no state of that name) it has
    written nothing.  In every case the only files it writes are [disable]
    files of idle states of this CPU and this CPU's [scaling_max_freq]; the
    manager is left as it was. *)
Theorem force_cpu_to_cstate_verdict cpu t m s :
  let states := omap (cstate_of s cpu)
                     (Py.sorted_str (default [] (cpuidle_dirs s !! cpu))) in
  let found := bool_decide (t ∈ cs_name <$> states) in
  ∃ s',
    force_cpu_to_cstate cpu (Some t) m s = (Ok found, m, s') ∧
    frame (cstate_prep_only cpu) s s' ∧
    (found = false → frame no_write s s').
Proof.
  intros states found.
  unfold force_cpu_to_cstate.
  rewrite run_try_except, run_bind. unfold ret at 1. cbv beta iota.
  rewrite run_bind. unfold exists_cpuidle at 1. cbv beta iota.
  destruct (cpuidle_dirs s !! cpu) as [dirs|] eqn:Hdirs.
  2:{ rewrite bool_decide_eq_false_2 by (by intros [? ?]).
      change (negb false) with true. cbv iota.
      exists s. unfold found, states. simpl.
      split; [done|]. split; [reflexivity|]. intros _. reflexivity. }
  rewrite bool_decide_eq_true_2 by done. change (negb true) with false. cbv iota.
  destruct (get_available_cstates_run cpu m s) as (s1 & E1 & F1).
  rewrite Hdirs in E1. rewrite run_bind, E1.
  change (omap (cstate_of s cpu) (Py.sorted_str dirs)) with states.
  assert (frame (cstate_prep_only cpu) s s1) as F1'.
  { eapply frame_weaken; [|exact F1]. by intros [|? ? ?]. }
  destruct (find (λ st, bool_decide (cs_name st = t)) states) as [st|] eqn:Hfind.
  - apply find_elem_of in Hfind as Hst. destruct Hst as [Hst Hname].
    apply bool_decide_eq_true in Hname.
    assert (found = true) as Hfound.
    { apply bool_decide_eq_true. rewrite <- Hname. by apply list_elem_of_fmap_2. }
    destruct (force_tail_run cpu states m s1) as (s' & E & F).
    { apply Forall_forall. intros st' Hst'. unfold states in Hst'.
      apply list_elem_of_omap in Hst' as (d & _ & Hd).
      by rewrite (cstate_of_path _ _ _ _ Hd). }
    cbv zeta in E. cbv beta iota.
    exists s'. rewrite E, Hfound. split; [done|]. split; [by etrans|done].
  - assert (found = false) as Hfound.
    { apply bool_decide_eq_false. intros (st & Hname & Hst)%list_elem_of_fmap.
      destruct (list_elem_of_lookup_1 _ _ Hst) as [i Hi].
      destruct (find_first (λ st, bool_decide (cs_name st = t)) states i st Hi)
        as (? & ? & _ & _ & ?); [by apply bool_decide_eq_true|congruence]. }
    exists s1. rewrite Hfound. split; [done|]. split; [done|]. done.
Qed.

Lemma force_cpu_to_cstate_verdict_witness :
  let cpu := 2 in
  let s := scenario_A_tree in
  let states := omap (cstate_of s cpu)
                     (Py.sorted_str (default [] (cpuidle_dirs s !! cpu))) in
  let found := bool_decide ("C9" ∈ cs_name <$> states) in
  found = false ∧
  ∃ s',
    force_cpu_to_cstate cpu (Some "C9") scenario_A_manager s
    = (Ok found, scenario_A_manager, s') ∧
    frame (cstate_prep_only cpu) s s' ∧
    frame no_write s s'.
Proof.
  intros cpu s states found.
  assert (found = false) as Hno by (vm_compute; reflexivity).
  split; [exact Hno|].
  destruct (force_cpu_to_cstate_verdict cpu "C9" scenario_A_manager s)
    as (s' & E & F & Hf).
  exists s'. split; [exact E|]. split; [exact F|]. exact (Hf Hno).
Defined.

(** CPU 2 of scenario A is forced to C6: the state is disabled, the
    frequency ceiling pulsed, and both are put back. *)
Example scenario_A_force_cstate :
  let r := force_cpu_to_cstate 2 (Some "C6") scenario_A_manager scenario_A_tree in
  outcome r = Ok true ∧
  writes (events_since scenario_A_tree (sys_after r))
    = [ EvWrite (cpuidle_path 2 "state2" idle_disable) "1" true;
        EvWrite (cpu_path 2 scaling_max_freq) "400000" true;
        EvWrite (cpu_path 2 scaling_max_freq) "3500000" true;
        EvWrite (cpuidle_path 2 "state2" idle_disable) "0" true ] ∧
  files (sys_after r) !! cpuidle_path 2 "state2" idle_disable = Some "0" ∧
  files (sys_after r) !! cpu_path 2 scaling_max_freq = Some "3500000".
Proof. vm_compute. split_and!; reflexivity. Qed.

(** ** Re-applying the settings after a topology change *)

Lemma set_cpu_boost_settings b : respects eq settings_only (set_cpu_boost b).
Proof.
  unfold set_cpu_boost, enforce_frequency_limits, set_cpu_frequency_limits,
    get_cpu_frequency_range, limits_step, boost_step.
  frame_auto.
Qed.

Lemma set_governor_settings g : respects eq settings_only (set_governor g).
Proof.
  unfold set_governor, get_available_governors, first_online_cpu. frame_auto.
Qed.

Lemma set_epp_settings e : respects eq settings_only (set_epp e).
Proof.
  unfold set_epp, get_available_epp_options, get_current_governor,
    self_scaling_driver, first_online_cpu.
  frame_auto.
Qed.

Lemma no_write_settings e : no_write e = true → settings_only e = true.
Proof. by destruct e. Qed.

(** X16.  [reapply_cpu_settings] never raises, whatever the three setters do
    (an exception of theirs, such as the [AttributeError] of [set_epp], is
    swallowed).  The one attribute of the manager it changes is the online
    list, which it replaces by what [_get_online_cpus] reads, and that change
    stays even when a setter fails.  It writes only to boost switches,
    governor, EPP and frequency-limit files, never to an [online] file; with
    no setting given it writes nothing. *)
Theorem reapply_cpu_settings_refreshes b g e m s :
  let r := reapply_cpu_settings b g e m s in
  outcome r = Ok tt ∧
  (∃ l, outcome (_get_online_cpus m s) = Ok l ∧
        self_after r = set_online_cpus l m) ∧
  frame settings_only s (sys_after r) ∧
  (b = None → g = None → e = None → frame no_write s (sys_after r)).
Proof.
  intros r. assert (r = reapply_cpu_settings b g e m s) as Hr by done. clearbody r.
  unfold reapply_cpu_settings, update_online_cpus in Hr.
  rewrite run_try_except, run_bind, run_bind in Hr.
  destruct (_get_online_cpus_run m s) as (l & s1 & E1 & F1).
  rewrite E1 in Hr |- *. unfold set_self at 1 in Hr. cbv beta iota in Hr.
  set (m1 := set_online_cpus l m) in *.
  match type of Hr with context [?c m1 s1] =>
    assert (respects eq settings_only c) as Hc;
    [|assert (b = None → g = None → e = None → respects eq no_write c) as Hn]
  end.
  { pose proof set_cpu_boost_settings. pose proof set_governor_settings.
    pose proof set_epp_settings. frame_auto. }
  { intros -> -> ->. frame_auto. }
  match type of Hr with context [?c m1 s1] =>
    specialize (Hc m1 s1) as [Hm Hf];
    assert (b = None → g = None → e = None → frame no_write s1 (sys_after (c m1 s1)))
      as Hn' by (intros; by apply Hn);
    destruct (c m1 s1) as [[res m2] s2]
  end.
  unfold self_after, sys_after in Hm, Hf, Hn'. simpl in Hm, Hf, Hn'. subst m2.
  assert (frame settings_only s s2) as F.
  { etrans; [|exact Hf]. eapply frame_weaken; [|exact F1]. apply no_write_settings. }
  destruct res as [[]|ex]; subst r; unfold outcome, self_after, sys_after; simpl;
    (split; [done|]; split; [by exists l|]; split; [done|]);
    intros; etrans; [exact F1|by apply Hn'|exact F1|by apply Hn'].
Qed.

(** On the machine of the [set_epp] failure (governor "performance", a
    manager whose [_scaling_driver] was never assigned), re-applying an EPP
    value returns normally: the [AttributeError] is swallowed and nothing is
    written. *)
Example reapply_swallows_the_epp_failure :
  match new_CPUManager performance_tree with
  | (Ok m, s) =>
      (∃ e, outcome (set_epp "power" m s) = Raise e) ∧
      let r := reapply_cpu_settings None None (Some "power") m s in
      outcome r = Ok tt ∧ writes (events_since s (sys_after r)) = []
  | (Raise _, _) => False
  end.
Proof. vm_compute. split; [by eexists|by split]. Qed.

(** ** Boost on a machine with the Intel switch *)

(** The run of [set_cpu_boost] when [intel_pstate/no_turbo] exists. *)
Lemma set_cpu_boost_intel_run (enabled : bool) m s :
  present intel_no_turbo_path s = true →
  let vI : string := if enabled then "0" else "1" in
  let sI := attempt intel_no_turbo_path vI s in
  if accepted intel_no_turbo_path vI s
  then ∃ s', set_cpu_boost enabled m s = (Ok true, m, s') ∧
             frame scaling_only (attempt cpufreq_boost_path (boost_value enabled) sI) s'
  else set_cpu_boost enabled m s = (Ok false, m, sI).
Proof.
  intros EI vI sI.
  remember (set_cpu_boost enabled m s) as r eqn:Hr.
  unfold set_cpu_boost in Hr. rewrite run_try_except, run_bind in Hr.
  unfold exists_ at 1 in Hr. cbv beta iota in Hr.
  fold (present intel_no_turbo_path s) in Hr. rewrite EI in Hr.
  rewrite run_bind, run_bind, (run_write _ _ m s EI) in Hr. fold vI sI in Hr.
  destruct (accepted intel_no_turbo_path vI s) eqn:EaI; [|done].
  unfold ret at 1 in Hr. cbv beta iota in Hr.
  rewrite run_amd_global in Hr.
  set (sA := attempt cpufreq_boost_path (boost_value enabled) sI) in *.
  assert ((if accepted cpufreq_boost_path (boost_value enabled) sI then true else true)
          = true) as E by (by destruct (accepted cpufreq_boost_path _ sI)).
  rewrite E in Hr. clear E.
  destruct (run_total_eq (enforce_frequency_limits enabled) scaling_only m sA
              (enforce_frequency_limits_total _)
              (enforce_frequency_limits_respects _)) as ([] & s' & Hs' & Hf).
  exists s'. split; [|done].
  rewrite run_bind in Hr. unfold get_self at 1 in Hr. cbv beta iota in Hr.
  rewrite run_bind in Hr. unfold ret at 1 in Hr. cbv beta iota in Hr.
  rewrite run_bind, Hs' in Hr. done.
Qed.

Lemma get_cpu_boost_enabled_intel m s v :
  files s !! intel_no_turbo_path = Some v →
  read_errno s intel_no_turbo_path = None →
  outcome (get_cpu_boost_enabled m s) = Ok (Some (bool_decide (Py.strip v = "0"))).
Proof.
  intros Hv He. unfold get_cpu_boost_enabled.
  rewrite run_try_except, run_bind. unfold exists_ at 1. cbv beta iota.
  rewrite Hv, bool_decide_eq_true_2 by done.
  by rewrite run_bind, (run_read _ _ _ v Hv He).
Qed.

(** X17.  On a machine with the Intel switch [intel_pstate/no_turbo],
    [set_cpu_boost] writes the inverted value ("0" to enable, "1" to
    disable) and its result is whether that one write was accepted.  A
    refused write ends the call: false is returned and nothing else is
    attempted, the AMD switches included.  After an accepted write the
    switch holds the inverted value at the end of the call, and
    [get_cpu_boost_enabled] then reports the state that was asked for. *)
Theorem set_cpu_boost_intel (enabled : bool) m s :
  present intel_no_turbo_path s = true →
  let vI : string := if enabled then "0" else "1" in
  let r := set_cpu_boost enabled m s in
  self_after r = m ∧
  outcome r = Ok (accepted intel_no_turbo_path vI s) ∧
  (accepted intel_no_turbo_path vI s = false →
   events_since s (sys_after r) = [EvWrite intel_no_turbo_path vI false] ∧
   files (sys_after r) = files s) ∧
  (accepted intel_no_turbo_path vI s = true →
   files (sys_after r) !! intel_no_turbo_path = Some vI ∧
   (read_errno s intel_no_turbo_path = None →
    outcome (get_cpu_boost_enabled m (sys_after r)) = Ok (Some enabled))).
Proof.
  intros EI vI r.
  pose proof (set_cpu_boost_intel_run enabled m s EI) as Hrun. cbv zeta in Hrun.
  fold vI in Hrun. fold r in Hrun.
  destruct (accepted intel_no_turbo_path vI s) eqn:Ea.
  - destruct Hrun as (s' & -> & Hf). unfold outcome, self_after, sys_after. simpl.
    split; [done|]. split; [done|]. split; [done|]. intros _.
    assert (files s' !! intel_no_turbo_path = Some vI) as Hfile.
    { rewrite (frame_files _ _ _ Hf) by done.
      rewrite attempt_lookup, decide_False by done.
      by rewrite attempt_lookup, decide_True, Ea by done. }
    split; [done|]. intros Hre.
    change (outcome (get_cpu_boost_enabled m s') = Ok (Some enabled)).
    rewrite (get_cpu_boost_enabled_intel m s' vI Hfile).
    + by destruct enabled.
    + by rewrite (frame_read_errno _ _ _ Hf), !attempt_read_errno.
  - rewrite Hrun. unfold outcome, self_after, sys_after. simpl.
    split; [done|]. split; [done|]. split; [|done]. intros _. split.
    + apply events_since_app. by rewrite attempt_trace, EI, Ea.
    + unfold attempt. by rewrite EI, Ea.
Qed.

Lemma set_cpu_boost_intel_witness :
  let s := mock [(intel_no_turbo_path, "0"); (cpufreq_boost_path, "1")] [] no_fault in
  let m := one_cpu_manager in
  let r := set_cpu_boost false m s in
  present intel_no_turbo_path s = true ∧
  self_after r = m ∧
  outcome r = Ok (accepted intel_no_turbo_path "1" s) ∧
  (accepted intel_no_turbo_path "1" s = false →
   events_since s (sys_after r) = [EvWrite intel_no_turbo_path "1" false] ∧
   files (sys_after r) = files s) ∧
  (accepted intel_no_turbo_path "1" s = true →
   files (sys_after r) !! intel_no_turbo_path = Some "1" ∧
   (read_errno s intel_no_turbo_path = None →
    outcome (get_cpu_boost_enabled m (sys_after r)) = Ok (Some false))).
Proof.
  intros s m r. split; [reflexivity|].
  exact (set_cpu_boost_intel false m s eq_refl).
Defined.

(** The Intel switch refuses the write: the AMD switch next to it is not
    tried. *)
Example intel_switch_refuses :
  let s := mock [(intel_no_turbo_path, "0"); (cpufreq_boost_path, "1")] []
                (λ p _, if decide (p = intel_no_turbo_path) then Some 13 else None) in
  let r := set_cpu_boost false one_cpu_manager s in
  outcome r = Ok false ∧
  events_since s (sys_after r) = [EvWrite intel_no_turbo_path "1" false].
Proof. vm_compute. by split. Qed.

(** ** Boost on a machine with the AMD switches *)

Lemma set_cpu_boost_global_run (enabled : bool) m s :
  files s !! intel_no_turbo_path = None →
  accepted cpufreq_boost_path (boost_value enabled) s = true →
  ∃ s', set_cpu_boost enabled m s = (Ok true, m, s') ∧
        frame scaling_only (attempt cpufreq_boost_path (boost_value enabled) s) s'.
Proof.
  intros Hintel EA.
  remember (set_cpu_boost enabled m s) as r eqn:Hr.
  unfold set_cpu_boost in Hr. rewrite run_try_except, run_bind in Hr.
  unfold exists_ at 1 in Hr. cbv beta iota in Hr.
  rewrite Hintel, bool_decide_eq_false_2 in Hr by (by intros [? ?]).
  rewrite run_bind in Hr. unfold ret at 1 in Hr. cbv beta iota in Hr.
  rewrite run_amd_global, EA in Hr.
  set (sA := attempt cpufreq_boost_path (boost_value enabled) s) in *.
  destruct (run_total_eq (enforce_frequency_limits enabled) scaling_only m sA
              (enforce_frequency_limits_total _)
              (enforce_frequency_limits_respects _)) as ([] & s' & Hs' & Hf).
  exists s'. split; [|done].
  rewrite run_bind in Hr. unfold get_self at 1 in Hr. cbv beta iota in Hr.
  rewrite run_bind in Hr. unfold ret at 1 in Hr. cbv beta iota in Hr.
  rewrite run_bind, Hs' in Hr. done.
Qed.

Lemma get_cpu_boost_enabled_amd m s c p v :
  files s !! intel_no_turbo_path = None →
  _online_cpus m !! 0%nat = Some c →
  p = (if present (policy_boost_path c) s then policy_boost_path c
       else cpufreq_boost_path) →
  files s !! p = Some v →
  read_errno s p = None →
  outcome (get_cpu_boost_enabled m s) = Ok (Some (bool_decide (Py.strip v = "1"))).
Proof.
  intros Hintel Hc Hp Hv He. unfold get_cpu_boost_enabled.
  rewrite run_try_except, run_bind. unfold exists_ at 1. cbv beta iota.
  rewrite Hintel, bool_decide_eq_false_2 by (by intros [? ?]).
  rewrite run_bind. unfold first_online_cpu.
  rewrite run_bind. unfold get_self at 1. cbv beta iota.
  rewrite index_lookup by done. change (Z.to_nat 0) with 0%nat. rewrite Hc.
  unfold or_raise, ret at 1. cbv beta iota.
  rewrite run_bind. unfold exists_ at 1. cbv beta iota.
  fold (present (policy_boost_path c) s).
  destruct (present (policy_boost_path c) s) eqn:Ep; subst p.
  - by rewrite run_bind, (run_read _ _ _ v Hv He).
  - rewrite run_bind. unfold exists_ at 1. cbv beta iota.
    rewrite Hv, bool_decide_eq_true_2 by done.
    by rewrite run_bind, (run_read _ _ _ v Hv He).
Qed.

Lemma frame_scaling_present p s s' :
  frame scaling_only s s' → present p s' = present p s.
Proof. intros Hf. unfold present. apply bool_decide_ext, (frame_dom _ _ _ Hf). Qed.

(** X18.  Boost set is boost read back on an AMD machine (no Intel switch),
    when the file [get_cpu_boost_enabled] consults is one [set_cpu_boost]
    wrote: the per-policy file of the first online CPU when the global
    switch did not take the write, the global switch when that CPU has no
    per-policy file.  Then, after [set_cpu_boost] has returned true,
    [get_cpu_boost_enabled] reports the state that was asked for. *)
Theorem boost_round_trip_amd (enabled : bool) m s c :
  files s !! intel_no_turbo_path = None →
  _online_cpus m !! 0%nat = Some c →
  present (policy_boost_path c) s
    = negb (accepted cpufreq_boost_path (boost_value enabled) s) →
  read_errno s (policy_boost_path c) = None →
  read_errno s cpufreq_boost_path = None →
  let r := set_cpu_boost enabled m s in
  outcome r = Ok true →
  outcome (get_cpu_boost_enabled (self_after r) (sys_after r)) = Ok (Some enabled).
Proof.
  intros Hintel Hc Hcons He1 He2 r Hok.
  set (v := boost_value enabled) in *.
  assert (bool_decide (Py.strip v = "1") = enabled) as Hv by by destruct enabled.
  destruct (accepted cpufreq_boost_path v s) eqn:EA; simpl in Hcons.
  - destruct (set_cpu_boost_global_run enabled m s Hintel EA) as (s' & E & Hf).
    fold v in Hf. unfold r. rewrite E. unfold self_after, sys_after. simpl.
    rewrite <- Hv.
    apply (get_cpu_boost_enabled_amd m s' c cpufreq_boost_path v).
    + rewrite (frame_files _ _ _ Hf) by done.
      by rewrite attempt_lookup, decide_False.
    + done.
    + by rewrite (frame_scaling_present _ _ _ Hf), attempt_present, Hcons.
    + rewrite (frame_files _ _ _ Hf) by done.
      by rewrite attempt_lookup, decide_True, EA.
    + by rewrite (frame_read_errno _ _ _ Hf), attempt_read_errno.
  - pose proof (set_cpu_boost_per_policy_run enabled m s Hintel EA) as Hrun.
    cbv zeta in Hrun. fold v in Hrun.
    destruct (bool_decide (_ ∧ _)) eqn:Eall.
    2:{ unfold r in Hok. rewrite Hrun in Hok. discriminate. }
    destruct Hrun as (s3 & E & Hf).
    apply bool_decide_eq_true in Eall as [_ Eall].
    assert (accepted (policy_boost_path c) v s = true) as Hacc.
    { revert Eall. rewrite count_eq_iff by (intros ?; apply accepted_present).
      intros Hall. apply Hall; [|done]. by eapply list_elem_of_lookup_2. }
    unfold r. rewrite E. unfold self_after, sys_after. simpl.
    rewrite <- Hv.
    apply (get_cpu_boost_enabled_amd m s3 c (policy_boost_path c) v).
    + rewrite (frame_files _ _ _ Hf) by done.
      rewrite attempts_lookup.
      rewrite bool_decide_eq_false_2 by (by intros (? & ? & _)%list_elem_of_fmap).
      by rewrite attempt_lookup, decide_False.
    + done.
    + by rewrite (frame_scaling_present _ _ _ Hf), attempts_present,
        attempt_present, Hcons.
    + rewrite (frame_files _ _ _ Hf) by done.
      rewrite attempts_lookup, attempt_accepted, Hacc.
      rewrite bool_decide_eq_true_2; [done|].
      apply (list_elem_of_fmap_2 policy_boost_path). by eapply list_elem_of_lookup_2.
    + rewrite (frame_read_errno _ _ _ Hf).
      assert (∀ ps s0, read_errno (attempts ps v s0) = read_errno s0) as Hre.
      { intros ps s0. by destruct (attempts_static v ps s0) as (_ & -> & _). }
      by rewrite Hre, attempt_read_errno.
Qed.

Lemma boost_round_trip_amd_witness :
  let m := scenario_C_manager in
  let s := mock [ (policy_boost_path 0, "1"); (policy_boost_path 1, "1");
                  (policy_boost_path 2, "1"); (policy_boost_path 3, "1") ]
                [] no_fault in
  let r := set_cpu_boost false m s in
  files s !! intel_no_turbo_path = None ∧
  _online_cpus m !! 0%nat = Some 0 ∧
  present (policy_boost_path 0) s
    = negb (accepted cpufreq_boost_path (boost_value false) s) ∧
  outcome r = Ok true ∧
  outcome (get_cpu_boost_enabled (self_after r) (sys_after r)) = Ok (Some false).
Proof.
  intros m s r.
  assert (outcome r = Ok true) as Hok by (vm_compute; reflexivity).
  split; [reflexivity|]. split; [reflexivity|]. split; [reflexivity|].
  split; [exact Hok|].
  exact (boost_round_trip_amd false m s 0 eq_refl eq_refl eq_refl eq_refl eq_refl Hok).
Defined.

(** ** Splitting and searching strings *)

Lemma contains_app c s1 s2 :
  Py.contains c (s1 +:+ s2) = Py.contains c s1 || Py.contains c s2.
Proof.
  induction s1 as [|a s1 IH]; [done|].
  change (Py.contains c (String a (s1 +:+ s2))
          = Py.contains c (String a s1) || Py.contains c s2).
  simpl. by destruct (decide (c = a)).
Qed.

Lemma contains_rev_app c s1 s2 :
  Py.contains c (String.rev_app s1 s2) = Py.contains c s1 || Py.contains c s2.
Proof.
  revert s2. induction s1 as [|a s1 IH]; intros s2; [done|].
  simpl. rewrite IH. simpl.
  destruct (decide (c = a)); [by rewrite orb_true_r|done].
Qed.

Lemma contains_rev c s : Py.contains c (String.rev s) = Py.contains c s.
Proof. unfold String.rev. rewrite contains_rev_app. simpl. by rewrite orb_false_r. Qed.

Lemma contains_lstrip c s :
  Py.isspace c = false → Py.contains c (Py.lstrip s) = Py.contains c s.
Proof.
  intros Hc. induction s as [|a s IH]; [done|].
  simpl. destruct (Py.isspace a) eqn:Ea; [|done].
  rewrite IH. destruct (decide (c = a)) as [->|]; [congruence|done].
Qed.

Lemma contains_strip c s :
  Py.isspace c = false → Py.contains c (Py.strip s) = Py.contains c s.
Proof.
  intros Hc. unfold Py.strip, Py.rstrip.
  by rewrite contains_rev, contains_lstrip, contains_rev, contains_lstrip.
Qed.

(** A character outside a field separator is in the string exactly when it
    is in one of the fields. *)
Lemma contains_split_go c sep cur s :
  c ≠ sep →
  existsb (Py.contains c) (Py.split_go sep cur s)
  = Py.contains c cur || Py.contains c s.
Proof.
  intros Hne. revert cur. induction s as [|d s IH]; intros cur.
  { simpl. by rewrite contains_rev. }
  simpl. destruct (decide (d = sep)) as [->|Hd].
  - simpl. rewrite IH, contains_rev. simpl. by rewrite decide_False.
  - rewrite IH. simpl. destruct (decide (c = d)); simpl;
      [by rewrite orb_true_r|done].
Qed.

Lemma contains_split c sep s :
  c ≠ sep → existsb (Py.contains c) (Py.split sep s) = Py.contains c s.
Proof. intros. unfold Py.split. by rewrite contains_split_go. Qed.

Lemma split_go_prefix sep cur x rest :
  Py.contains sep x = false →
  Py.split_go sep cur (x +:+ rest) = Py.split_go sep (String.rev_app x cur) rest.
Proof.
  revert cur. induction x as [|a x IH]; intros cur Hx; [done|].
  simpl in Hx. destruct (decide (sep = a)) as [|Hne]; [done|].
  change (Py.split_go sep cur (String a (x +:+ rest))
          = Py.split_go sep (String.rev_app x (String a cur)) rest).
  simpl. rewrite decide_False by done. by apply IH.
Qed.

Lemma split_one sep x : Py.contains sep x = false → Py.split sep x = [x].
Proof.
  intros Hx. unfold Py.split.
  rewrite <- (string_app_empty_r x) at 1.
  rewrite split_go_prefix by done.
  change ([String.rev (String.rev x)] = [x]).
  by rewrite (string_rev_involutive x).
Qed.

Lemma split_cons sep x rest :
  Py.contains sep x = false →
  Py.split sep (x +:+ String sep rest) = x :: Py.split sep rest.
Proof.
  intros Hx. unfold Py.split. rewrite split_go_prefix by done.
  simpl. rewrite decide_True by done.
  change (String.rev (String.rev x) :: Py.split_go sep "" rest
          = x :: Py.split_go sep "" rest).
  by rewrite (string_rev_involutive x).
Qed.

(** ** What [int] accepts *)

Lemma digits_go_comma acc b s :
  Py.contains "," s = true → Py.digits_go acc b s = None.
Proof.
  revert acc b. induction s as [|c s IH]; intros acc b Hs; [done|].
  simpl in Hs. simpl. destruct (decide ("," = c)%char) as [<-|Hne].
  - simpl. by destruct b.
  - destruct (Ascii.is_nat c); [by apply IH|].
    destruct (decide (c = "_"%char)); [|done].
    destruct b; [by apply IH|done].
Qed.

Lemma int_comma s : Py.contains "," s = true → Py.int s = None.
Proof.
  intros Hs. unfold Py.int.
  rewrite <- (contains_strip "," s) in Hs by done.
  destruct (Py.strip s) as [|c r]; [done|].
  assert (Py.digits_go 0 false (String c r) = None) as Hall
    by by apply digits_go_comma.
  simpl in Hs. destruct (decide ("," = c)%char) as [<-|Hne].
  { by rewrite Hall. }
  assert (Py.digits_go 0 false r = None) as Hr by by apply digits_go_comma.
  destruct (decide (c = "-"%char)) as [->|]; [by rewrite Hr|].
  destruct (decide (c = "+"%char)) as [->|]; [by rewrite Hr|].
  transitivity (Z.of_N <$> Py.digits_go 0 false (String c r)); [|by rewrite Hall].
  destruct c as [[] [] [] [] [] [] [] []]; done.
Qed.

(** The range parsers reject a string that holds a comma. *)
Lemma parse_dash_pair_comma s :
  Py.contains "," s = true → parse_dash_pair s = None.
Proof.
  intros Hs. unfold parse_dash_pair.
  rewrite <- (contains_split "," "-" s) in Hs by done.
  destruct (Py.split "-" s) as [|a [|b [|? ?]]]; try done.
  simpl in Hs. rewrite orb_false_r in Hs.
  apply orb_true_iff in Hs as [Ha|Hb].
  - by rewrite (int_comma a Ha).
  - rewrite (int_comma b Hb). by destruct (Py.int a).
Qed.

Lemma parse_cpu_simple_gapped s :
  Py.contains "-" s = true → Py.contains "," s = true →
  parse_cpu_simple s = None.
Proof.
  intros Hd Hc. unfold parse_cpu_simple. rewrite Hd.
  by rewrite (parse_dash_pair_comma s Hc).
Qed.

(** ** Parsing the kernel's CPU lists *)

Lemma chars_app s1 s2 :
  String.list_ascii_of_string (s1 +:+ s2)
  = String.list_ascii_of_string s1 ++ String.list_ascii_of_string s2.
Proof.
  induction s1 as [|a s1 IH]; [done|].
  change (a :: String.list_ascii_of_string (s1 +:+ s2)
          = a :: String.list_ascii_of_string s1 ++ String.list_ascii_of_string s2).
  by rewrite IH.
Qed.

Lemma pretty_N_go_digits x s :
  Forall (λ c, Ascii.is_nat c ≠ None) (String.list_ascii_of_string s) →
  Forall (λ c, Ascii.is_nat c ≠ None) (String.list_ascii_of_string (pretty_N_go x s)).
Proof.
  revert s. induction (N.lt_wf_0 x) as [x _ IH]; intros s Hs.
  assert (x = 0 ∨ 0 < x)%N as [->|Hx] by lia; [by rewrite pretty_N_go_0|].
  rewrite pretty_N_go_step by done. apply IH; [by apply N.div_lt|].
  simpl. constructor; [|done].
  destruct (pretty_N_char_digit (x `mod` 10)) as [-> _]; [by apply N.mod_lt|done].
Qed.

Lemma str_digits n :
  0 ≤ n → Forall (λ c, Ascii.is_nat c ≠ None) (String.list_ascii_of_string (Py.str n)).
Proof.
  intros Hn. unfold Py.str. destruct n as [|p|p]; [by repeat constructor| |lia].
  unfold pretty, pretty_Z, pretty, pretty_positive, pretty, pretty_N.
  rewrite decide_False by done. apply pretty_N_go_digits. constructor.
Qed.

Lemma digits_contains c s :
  Ascii.is_nat c = None →
  Forall (λ c, Ascii.is_nat c ≠ None) (String.list_ascii_of_string s) →
  Py.contains c s = false.
Proof.
  intros Hc. induction s as [|a s IH]; [done|].
  simpl. inversion_clear 1. rewrite decide_False by congruence. by apply IH.
Qed.

Lemma digit_no_space c : Ascii.is_nat c ≠ None → Py.isspace c = false.
Proof. destruct c as [[] [] [] [] [] [] [] []]; done. Qed.

Lemma str_no_space n :
  0 ≤ n → Forall (λ c, Py.isspace c = false) (String.list_ascii_of_string (Py.str n)).
Proof.
  intros Hn. eapply Forall_impl; [by apply str_digits|].
  intros c. apply digit_no_space.
Qed.

Lemma cpulist_part_no_space r :
  0 ≤ r.1 → 0 ≤ r.2 →
  Forall (λ c, Py.isspace c = false) (String.list_ascii_of_string (cpulist_part r)).
Proof.
  intros H1 H2. unfold cpulist_part. destruct (decide (r.1 = r.2)).
  - by apply str_no_space.
  - rewrite !chars_app. apply Forall_app. split; [by apply str_no_space|].
    apply Forall_app. split; [by repeat constructor|by apply str_no_space].
Qed.

Lemma cpulist_part_no_comma r :
  0 ≤ r.1 → 0 ≤ r.2 → Py.contains "," (cpulist_part r) = false.
Proof.
  intros H1 H2. unfold cpulist_part. destruct (decide (r.1 = r.2)).
  - apply digits_contains; [done|by apply str_digits].
  - rewrite !contains_app.
    rewrite (digits_contains "," (Py.str r.1)), (digits_contains "," (Py.str r.2));
      try done; by apply str_digits.
Qed.

Lemma cpulist_no_space rs :
  Forall (λ r, 0 ≤ r.1 ∧ 0 ≤ r.2) rs →
  Forall (λ c, Py.isspace c = false) (String.list_ascii_of_string (cpulist rs)).
Proof.
  induction 1 as [|r rs [H1 H2] Hrs IH]; [constructor|].
  simpl. destruct rs as [|r' rs]; [by apply cpulist_part_no_space|].
  rewrite !chars_app. apply Forall_app. split; [by apply cpulist_part_no_space|].
  apply Forall_app. split; [by repeat constructor|done].
Qed.

(** The newline that ends a sysfs file is stripped. *)
Lemma strip_newline x :
  Forall (λ c, Py.isspace c = false) (String.list_ascii_of_string x) →
  Py.strip (x +:+ newline) = x.
Proof.
  intros Hx. unfold Py.strip, Py.rstrip.
  assert (Py.lstrip (x +:+ newline) = Py.lstrip x +:+ Py.lstrip newline ∨
          Py.lstrip (x +:+ newline) = x +:+ newline) as Hl.
  { destruct x as [|a x]; [by left|]. right.
    change (Py.lstrip (String a (x +:+ newline)) = String a (x +:+ newline)).
    simpl. inversion_clear Hx as [|? ? Ha _]. by rewrite Ha. }
  assert (String.rev (x +:+ newline) = String "010" (String.rev x)) as Hrev.
  { unfold String.rev.
    assert (∀ y acc, String.rev_app (y +:+ newline) acc
                     = String.rev_app newline (String.rev_app y acc)) as Hgen.
    { induction y as [|b y IH]; intros acc; [done|].
      change (String.rev_app (y +:+ newline) (String b acc)
              = String.rev_app newline (String.rev_app y (String b acc))).
      apply IH. }
    by rewrite Hgen. }
  assert (Py.lstrip (String.rev (x +:+ newline)) = String.rev x) as Hstrip.
  { rewrite Hrev. change (Py.lstrip (String.rev x) = String.rev x).
    apply lstrip_no_space. unfold String.rev.
    apply rev_app_no_space; [done|constructor]. }
  destruct Hl as [Hl|Hl].
  - rewrite Hl, (lstrip_no_space x Hx).
    change (Py.lstrip newline) with EmptyString.
    rewrite string_app_empty_r, (lstrip_no_space (String.rev x)).
    + apply string_rev_involutive.
    + unfold String.rev. apply rev_app_no_space; [done|constructor].
  - rewrite Hl, Hstrip. apply string_rev_involutive.
Qed.

Lemma range_singleton a : Py.range a (a + 1) = [a].
Proof. unfold Py.range. by replace (a + 1 - a) with 1 by lia. Qed.

(** One part of a CPU list, as [_get_online_cpus] and
    [_detect_possible_cpus] read it. *)
Lemma parse_cpulist_part r :
  0 ≤ r.1 → 0 ≤ r.2 →
  (if Py.contains "-" (cpulist_part r)
   then '(a, b) ← parse_dash_pair (cpulist_part r); Some (Py.range a (b + 1))
   else n ← Py.int (cpulist_part r); Some [n])
  = Some (Py.range r.1 (r.2 + 1)).
Proof.
  intros H1 H2. unfold cpulist_part.
  assert (∀ n, 0 ≤ n → Py.contains "-" (Py.str n) = false) as Hdash.
  { intros n Hn. apply digits_contains; [done|by apply str_digits]. }
  destruct (decide (r.1 = r.2)) as [E|Hne].
  - rewrite Hdash by done. rewrite int_str. simpl.
    by rewrite <- E, range_singleton.
  - rewrite contains_app. simpl. rewrite orb_true_r.
    unfold parse_dash_pair.
    change (Py.str r.1 +:+ "-" +:+ Py.str r.2)
      with (Py.str r.1 +:+ String "-" (Py.str r.2)).
    rewrite split_cons by by apply Hdash.
    rewrite split_one by by apply Hdash.
    by rewrite !int_str.
Qed.

Lemma parse_cpu_parts_cpulist rs :
  rs ≠ [] → Forall (λ r, 0 ≤ r.1 ∧ 0 ≤ r.2) rs →
  parse_cpu_parts (Py.split "," (cpulist rs)) = Some (cpulist_cpus rs).
Proof.
  intros Hne Hrs. induction Hrs as [|r rs [H1 H2] Hrs IH]; [done|]. clear Hne.
  unfold cpulist_cpus. rewrite fmap_cons, concat_cons.
  destruct rs as [|r' rs].
  - simpl cpulist. rewrite split_one by by apply cpulist_part_no_comma.
    cbn [parse_cpu_parts]. rewrite parse_cpulist_part by done.
    simpl. by rewrite !app_nil_r.
  - change (cpulist (r :: r' :: rs))
      with (cpulist_part r +:+ String "," (cpulist (r' :: rs))).
    rewrite split_cons by by apply cpulist_part_no_comma.
    cbn [parse_cpu_parts]. rewrite parse_cpulist_part by done.
    rewrite IH by done. done.
Qed.

(** ** Building a manager *)

Lemma _get_online_cpus_cpulist_run rs (m : CPUManager) s :
  rs ≠ [] → Forall (λ r, 0 ≤ r.1 ∧ 0 ≤ r.2) rs →
  files s !! online_list_path = Some (cpulist rs +:+ newline) →
  read_errno s online_list_path = None →
  _get_online_cpus m s = (Ok (cpulist_cpus rs), m, log (EvRead online_list_path) s).
Proof.
  intros Hne Hrs Hv He. unfold _get_online_cpus.
  rewrite run_try_except, run_bind, run_fmap, (run_read _ _ _ _ Hv He).
  cbv beta iota.
  rewrite strip_newline by by apply cpulist_no_space.
  by rewrite parse_cpu_parts_cpulist.
Qed.

Lemma _detect_possible_cpus_cpulist_run a b (m : CPUManager) s :
  0 ≤ a → 0 ≤ b →
  files s !! possible_path = Some (cpulist [(a, b)] +:+ newline) →
  read_errno s possible_path = None →
  _detect_possible_cpus m s
  = (Ok tt, set_possible_cpus (Py.range a (b + 1)) m, log (EvRead possible_path) s).
Proof.
  intros Ha Hb Hv He. unfold _detect_possible_cpus.
  rewrite run_try_except, run_bind, run_fmap, (run_read _ _ _ _ Hv He).
  cbv beta iota.
  rewrite strip_newline by (apply cpulist_no_space; by repeat constructor).
  change (cpulist [(a, b)]) with (cpulist_part (a, b)).
  rewrite run_bind.
  by rewrite (parse_cpulist_part (a, b) Ha Hb).
Qed.

(** X19.  On a machine whose [cpu/possible] holds one range or number and
    whose [cpu/online] holds a CPU list in the kernel's format (parts
    [a-b] or [a], comma-separated, a newline at the end), [CPUManager()]
    returns a manager whose possible list and online list are the CPUs these
    files stand for, with the topology not initialised, no cache, no sibling
    map, and [_scaling_driver] not assigned.  It reads the two files, in
    that order, and does nothing else. *)
Theorem new_CPUManager_reads_cpulists a b rs s :
  0 ≤ a → 0 ≤ b →
  rs ≠ [] → Forall (λ r, 0 ≤ r.1 ∧ 0 ≤ r.2) rs →
  files s !! possible_path = Some (cpulist [(a, b)] +:+ newline) →
  read_errno s possible_path = None →
  files s !! online_list_path = Some (cpulist rs +:+ newline) →
  read_errno s online_list_path = None →
  ∃ s',
    new_CPUManager s
    = (Ok (Mgr (Py.range a (b + 1)) None ∅ false (cpulist_cpus rs) None), s') ∧
    events_since s s' = [EvRead possible_path; EvRead online_list_path] ∧
    files s' = files s.
Proof.
  intros Ha Hb Hne Hrs Hp Hpe Ho Hoe.
  exists (log (EvRead online_list_path) (log (EvRead possible_path) s)).
  split; [|split; [|done]].
  - unfold new_CPUManager, __init__.
    rewrite run_bind, (_detect_possible_cpus_cpulist_run a b) by done.
    rewrite run_bind, (_get_online_cpus_cpulist_run rs) by done.
    done.
  - apply events_since_app. simpl. by rewrite <- app_assoc.
Qed.

Lemma new_CPUManager_reads_cpulists_witness :
  let s := mock [ (possible_path, "0-7" +:+ newline);
                  (online_list_path, "0-1,4-5" +:+ newline) ] [] no_fault in
  let rs := [(0, 1); (4, 5)] in
  0 ≤ 0 ∧ 0 ≤ 7 ∧ rs ≠ [] ∧ Forall (λ r, 0 ≤ r.1 ∧ 0 ≤ r.2) rs ∧
  files s !! possible_path = Some (cpulist [(0, 7)] +:+ newline) ∧
  files s !! online_list_path = Some (cpulist rs +:+ newline) ∧
  ∃ s',
    new_CPUManager s
    = (Ok (Mgr (Py.range 0 (7 + 1)) None ∅ false (cpulist_cpus rs) None), s') ∧
    events_since s s' = [EvRead possible_path; EvRead online_list_path] ∧
    files s' = files s.
Proof.
  intros s rs.
  assert (Forall (λ r : Z * Z, 0 ≤ r.1 ∧ 0 ≤ r.2) rs) as Hrs
    by (repeat constructor; simpl; lia).
  assert (rs ≠ []) as Hne by done.
  split; [lia|]. split; [lia|]. split; [exact Hne|]. split; [exact Hrs|].
  split; [reflexivity|]. split; [reflexivity|].
  exact (new_CPUManager_reads_cpulists 0 7 rs s ltac:(lia) ltac:(lia) Hne Hrs
           eq_refl eq_refl eq_refl eq_refl).
Defined.

(** The same machine, by evaluation. *)
Example new_CPUManager_on_parked_machine :
  let s := mock [ (possible_path, "0-7" +:+ newline);
                  (online_list_path, "0-1,4-5" +:+ newline) ] [] no_fault in
  fst (new_CPUManager s)
  = Ok (Mgr [0; 1; 2; 3; 4; 5; 6; 7] None ∅ false [0; 1; 4; 5] None).
Proof. vm_compute. reflexivity. Qed.

(** ** Discovery on a machine with parked cores *)

(** X20.  When [cpu/online] holds a list with a comma and a range, as it
    does once a core in the middle is offline ("0-1,4-5"), the parser of
    [initialize_cpu_topology] rejects it and the online list is taken to be
    [0].  A first discovery then switches on every possible CPU other than 0
    that takes the write, and switches it off again: each of them ends with
    "0" in its [online] file when the kernel takes that write, whether it
    was online before or not. *)
Theorem discovery_offlines_on_gapped_list m s v :
  _topology_initialized m = false →
  files s !! online_list_path = Some v →
  Py.contains "-" (Py.strip v) = true →
  Py.contains "," (Py.strip v) = true →
  let s' := sys_after (initialize_cpu_topology m s) in
  original_online_cpus_of s = [0] ∧
  ∀ c, c ∈ _possible_cpus m → c ≠ 0 →
       accepted (cpu_path c online) "1" s = true →
       files s' !! cpu_path c online
       = if accepted (cpu_path c online) "0" s then Some "0" else Some "1".
Proof.
  intros Hinit Hv Hd Hc s'.
  assert (original_online_cpus_of s = [0]) as Ho.
  { unfold original_online_cpus_of. rewrite Hv.
    rewrite (parse_cpu_simple_gapped _ Hd Hc).
    by destruct (read_errno s online_list_path). }
  split; [done|]. intros c Hin Hc0 Hacc.
  destruct (discovery_online_files_post m s Hinit) as (Hfiles & _ & Hb).
  fold s' in Hfiles. rewrite Hfiles, decide_True; [done|].
  apply Hb. rewrite Ho. split_and!; try done.
  intros ->%list_elem_of_singleton. done.
Qed.

Lemma discovery_offlines_on_gapped_list_witness :
  let m := Mgr [0; 1; 2; 3; 4; 5; 6; 7] None ∅ false [0; 1; 4; 5] None in
  let s := parked_sysfs in
  let s' := sys_after (initialize_cpu_topology m s) in
  _topology_initialized m = false ∧
  files s !! online_list_path = Some "0-1,4-5" ∧
  Py.contains "-" (Py.strip "0-1,4-5") = true ∧
  Py.contains "," (Py.strip "0-1,4-5") = true ∧
  original_online_cpus_of s = [0] ∧
  ∀ c, c ∈ _possible_cpus m → c ≠ 0 →
       accepted (cpu_path c online) "1" s = true →
       files s' !! cpu_path c online
       = if accepted (cpu_path c online) "0" s then Some "0" else Some "1".
Proof.
  intros m s s'.
  split; [reflexivity|]. split; [reflexivity|]. split; [reflexivity|].
  split; [reflexivity|].
  exact (discovery_offlines_on_gapped_list m s "0-1,4-5" eq_refl eq_refl eq_refl eq_refl).
Defined.
